(** * Echo-cancellation engine of [noisyFauxEC.js]: shallow embedding and properties

    The development embeds the strategies of
    [StopCopyingMe/js/noisy-processors/noisyFauxEC.js] and proves properties of
    them.

    Numbers.  The source computes on JavaScript numbers (binary64) and stores
    samples in [Float32Array]s.  The properties below are stated in exact
    arithmetic: a JavaScript number is modelled as [num := option R], where
    [Some r] is the real [r] and [None] is a value that is not a real number
    ([NaN], which is what reading a typed array out of range gives once used in
    arithmetic).  Rounding is not modelled.  In [num] infinities are not
    tracked separately: a division by zero and the square root of a negative
    number give [None].  Where the source divides by a quantity that can be
    zero and goes on computing with the infinity (the envelope of
    [HalfDuplexStrategy], whose time constants can be 0), the numbers are
    [xreal]: a real, either infinity, or [NaN], with the IEEE 754 rules for
    them; a zero is the positive zero.
    Integer-valued quantities (indices, lengths, delays, frame
    counters, millisecond and sample-count settings) are [Z]; the JavaScript
    remainder [a % b] on them is [Z.rem] (truncated, sign of the dividend).
    [Z.rem a 0] is [a] where JavaScript has [NaN]; in both cases the value is
    only ever used as an index into an array whose length is the zero modulus,
    so every read with it is out of range and every write with it is dropped,
    or (the phase of [TestToneStrategy]) in a quotient by the same zero.

    Time.  [process] reads the clock twice; the difference of the two
    readings is an argument of its model. *)

From Stdlib Require Import Reals Lra Lia ZArith String List Bool.
Import ListNotations.

Open Scope Z_scope.

(** ** JavaScript numbers *)

Definition num : Type := option R.

Definition NaN : num := None.

Definition nadd (a b : num) : num :=
  match a, b with
  | Some x, Some y => Some (x + y)%R
  | _, _ => None
  end.

Definition nsub (a b : num) : num :=
  match a, b with
  | Some x, Some y => Some (x - y)%R
  | _, _ => None
  end.

Definition nmul (a b : num) : num :=
  match a, b with
  | Some x, Some y => Some (x * y)%R
  | _, _ => None
  end.

Definition ndiv (a b : num) : num :=
  match a, b with
  | Some x, Some y => if Req_dec_T y 0 then None else Some (x / y)%R
  | _, _ => None
  end.

Definition nsqrt (a : num) : num :=
  match a with
  | Some x => if Rlt_dec x 0 then None else Some (sqrt x)
  | None => None
  end.

Definition nabs (a : num) : num :=
  match a with
  | Some x => Some (Rabs x)
  | None => None
  end.

Definition nneg (a : num) : num := option_map Ropp a.

Definition nexp (a : num) : num := option_map exp a.

Definition nsin (a : num) : num := option_map sin a.

Definition nofZ (z : Z) : num := Some (IZR z).

(** Comparisons: any comparison with [NaN] is false. *)
Definition Rltb (x y : R) : bool := if Rlt_dec x y then true else false.

Definition ngt (a b : num) : bool :=
  match a, b with
  | Some x, Some y => Rltb y x
  | _, _ => false
  end.

Definition nlt (a b : num) : bool :=
  match a, b with
  | Some x, Some y => Rltb x y
  | _, _ => false
  end.

(** Numbers with infinities: the IEEE 754 rules on exact reals.  A zero is
    the positive zero. *)
Inductive xreal : Type :=
| Fin (r : R)
| PInf
| NInf
| XNaN.

Definition xofnum (a : num) : xreal :=
  match a with
  | Some r => Fin r
  | None => XNaN
  end.

Definition xneg (a : xreal) : xreal :=
  match a with
  | Fin r => Fin (- r)%R
  | PInf => NInf
  | NInf => PInf
  | XNaN => XNaN
  end.

Definition xadd (a b : xreal) : xreal :=
  match a, b with
  | XNaN, _ | _, XNaN => XNaN
  | Fin x, Fin y => Fin (x + y)%R
  | PInf, NInf | NInf, PInf => XNaN
  | PInf, _ | _, PInf => PInf
  | NInf, _ | _, NInf => NInf
  end.

(** [a - b] *)
Definition xsub (a b : xreal) : xreal := xadd a (xneg b).

(** The sign of a real: [Some true] when positive, [Some false] when
    negative, [None] for zero. *)
Definition Rsign (x : R) : option bool :=
  if Rlt_dec 0 x then Some true else if Rlt_dec x 0 then Some false else None.

(** The infinity of a sign. *)
Definition xinf (positive : bool) : xreal := if positive then PInf else NInf.

Definition xmul (a b : xreal) : xreal :=
  match a, b with
  | XNaN, _ | _, XNaN => XNaN
  | Fin x, Fin y => Fin (x * y)%R
  | Fin x, PInf | PInf, Fin x =>
      match Rsign x with Some sg => xinf sg | None => XNaN end
  | Fin x, NInf | NInf, Fin x =>
      match Rsign x with Some sg => xinf (negb sg) | None => XNaN end
  | PInf, PInf | NInf, NInf => PInf
  | PInf, NInf | NInf, PInf => NInf
  end.

(** [a / b]: a non-zero real over zero is an infinity, zero over zero and
    an infinity over an infinity are [NaN], a real over an infinity is 0. *)
Definition xdiv (a b : xreal) : xreal :=
  match a, b with
  | XNaN, _ | _, XNaN => XNaN
  | Fin x, Fin y =>
      if Req_dec_T y 0 then
        match Rsign x with Some sg => xinf sg | None => XNaN end
      else Fin (x / y)%R
  | Fin _, PInf | Fin _, NInf => Fin 0%R
  | PInf, Fin y => if Rlt_dec y 0 then NInf else PInf
  | NInf, Fin y => if Rlt_dec y 0 then PInf else NInf
  | PInf, PInf | PInf, NInf | NInf, PInf | NInf, NInf => XNaN
  end.

(** [Math.exp] *)
Definition xexp (a : xreal) : xreal :=
  match a with
  | Fin r => Fin (exp r)
  | PInf => PInf
  | NInf => Fin 0%R
  | XNaN => XNaN
  end.

(** [a > b] *)
Definition xgt (a b : xreal) : bool :=
  match a, b with
  | XNaN, _ | _, XNaN => false
  | Fin x, Fin y => Rltb y x
  | PInf, PInf => false
  | PInf, _ => true
  | _, PInf => false
  | NInf, _ => false
  | Fin _, NInf => true
  end.

(** [Math.floor(sampleRate * ms / 1000)] on integer arguments. *)
Definition msToSamples (sampleRate ms : Z) : Z := (sampleRate * ms) / 1000.

(** [_dbToLin(db)]: [Math.pow(10, db / 20)]. *)
Definition _dbToLin (db : R) : R := Rpower 10 (db / 20).

(** ** Typed arrays *)

Definition f32 : Type := list num.

(** [new Float32Array(n)]: [n] zeros. *)
Definition f32_new (n : Z) : f32 := repeat (Some 0%R) (Z.to_nat n).

Definition f32_length (a : f32) : Z := Z.of_nat (length a).

(** [a[i]] used as a number: out of range, the read is [undefined], which
    arithmetic turns into [NaN]. *)
Definition f32_get (a : f32) (i : Z) : num :=
  if i <? 0 then None else nth (Z.to_nat i) a None.

Fixpoint list_set {A : Type} (l : list A) (n : nat) (v : A) : list A :=
  match l, n with
  | [], _ => []
  | _ :: tl, O => v :: tl
  | x :: tl, S m => x :: list_set tl m v
  end.

(** [a[i] = v]: a write outside a typed array is dropped. *)
Definition f32_set (a : f32) (i : Z) (v : num) : f32 :=
  if i <? 0 then a else list_set a (Z.to_nat i) v.

(** ** Loops *)

(** The indices of [for (let i = 0; i < n; i++)]. *)
Definition range (n : Z) : list Z := map Z.of_nat (seq 0 (Z.to_nat n)).

(** A loop that writes [g i] at every index [i < n] of an array. *)
Definition fill (g : Z -> num) (n : Z) (a : f32) : f32 :=
  fold_left (fun out i => f32_set out i (g i)) (range n) a.

(** The indices of [for (let j = a; j < b; j++)]. *)
Definition rangeFrom (a b : Z) : list Z :=
  map (fun k => a + Z.of_nat k) (seq 0 (Z.to_nat (b - a))).

(** The indices of [for (let d = lo; d < hi; d += step)], when the loop
    terminates.  With [step <= 0] and [lo < hi] the source loop never ends:
    [fuel] runs out and the result is [None]. *)
Fixpoint strideFuel (fuel : nat) (lo hi step : Z) : option (list Z) :=
  if lo <? hi then
    match fuel with
    | O => None
    | S k => option_map (cons lo) (strideFuel k (lo + step) hi step)
    end
  else Some [].

Definition stride (lo hi step : Z) : option (list Z) :=
  strideFuel (Z.to_nat (hi - lo)) lo hi step.

(** ** XCorrHelper: cross-correlation delay estimator *)

(** The configuration object of the estimator (and of
    [TimeAlignedSubtractStrategy], which shares it).  A field that is
    [undefined] in the JavaScript object is [None]. *)
Module XCorrCfg.

Record t : Type := mk {
  minDelayMs : option Z;
  updateIntervalFrames : option Z;
  echoTimeWindowSizeMs : option Z;
  stepSize : option Z;
  txThresholdDb : option R;
  rxThresholdDb : option R;
  smoothingAlpha : option R;
  nxcThreshold : option R;
  xcorrWindowSize : option Z;
  echoAttenuation : option R
}.

(** [XCorrHelper.getDefaultCfg()] *)
Definition getDefaultCfg : t :=
  {| minDelayMs := Some 80;
     updateIntervalFrames := Some 1000;
     echoTimeWindowSizeMs := Some 500;
     stepSize := Some 48;
     txThresholdDb := Some (-40)%R;
     rxThresholdDb := Some (-24)%R;
     smoothingAlpha := Some (5 / 10)%R;
     nxcThreshold := Some (55 / 100)%R;
     xcorrWindowSize := Some 1024;
     echoAttenuation := Some (3 / 10)%R |}.

Definition orElse {A : Type} (new old : option A) : option A :=
  match new with
  | Some _ => new
  | None => old
  end.

(** [Object.assign(config, newConfig)] on the keys of this record. *)
Definition assign (config newConfig : t) : t :=
  {| minDelayMs := orElse (minDelayMs newConfig) (minDelayMs config);
     updateIntervalFrames :=
       orElse (updateIntervalFrames newConfig) (updateIntervalFrames config);
     echoTimeWindowSizeMs :=
       orElse (echoTimeWindowSizeMs newConfig) (echoTimeWindowSizeMs config);
     stepSize := orElse (stepSize newConfig) (stepSize config);
     txThresholdDb := orElse (txThresholdDb newConfig) (txThresholdDb config);
     rxThresholdDb := orElse (rxThresholdDb newConfig) (rxThresholdDb config);
     smoothingAlpha := orElse (smoothingAlpha newConfig) (smoothingAlpha config);
     nxcThreshold := orElse (nxcThreshold newConfig) (nxcThreshold config);
     xcorrWindowSize := orElse (xcorrWindowSize newConfig) (xcorrWindowSize config);
     echoAttenuation := orElse (echoAttenuation newConfig) (echoAttenuation config) |}.

End XCorrCfg.

(** A call either returns or throws; either way the object it mutated is in
    some state afterwards. *)
Inductive outcome (A : Type) : Type :=
| Returned (a : A)
| Threw (a : A).

Arguments Returned {A} a.
Arguments Threw {A} a.

Definition outcome_state {A : Type} (o : outcome A) : A :=
  match o with
  | Returned a => a
  | Threw a => a
  end.

(** The best score of a search starts at [-Infinity]. *)
Inductive xnum : Type :=
| NegInfinity
| Num (v : num).

(** [ncc > bestNXC] *)
Definition gt_xnum (ncc : num) (best : xnum) : bool :=
  match best with
  | NegInfinity => match ncc with Some _ => true | None => false end
  | Num b => ngt ncc b
  end.

(** [bestNXC < threshold] *)
Definition xnum_lt (best : xnum) (threshold : R) : bool :=
  match best with
  | NegInfinity => true
  | Num b => nlt b (Some threshold)
  end.

Module XCorrHelper.

Section WithSampleRate.

Variable sampleRate : Z.

Record t : Type := mk {
  echoTimeWindowSizeMs : Z;
  updateIntervalFrames : Z;
  minDelayMs : Z;
  stepSize : Z;
  txThresholdLin : R;
  rxThresholdLin : R;
  smoothingAlpha : R;
  nxcThreshold : R;
  xcorrWindowSize : Z;
  (* derived values *)
  bufferSize : Z;
  minDelay : Z;
  (* stats *)
  delayUpdateCountRejectedNoTx : Z;
  delayUpdateCountRejectedNoRx : Z;
  delayUpdateCountRejectedPoorXCorr : Z;
  delayUpdateCount : Z;
  lastXCorrScore : xnum;
  (* state *)
  nearEndBuffer : f32;
  farEndBuffer : f32;
  writePos : Z;
  delay : Z;
  frameCounter : Z;
  foundXC : bool
}.

(** The constructor.  It throws (here: [None]) when a required key is
    missing, and [new Float32Array] throws on a negative length. *)
Definition create (config : XCorrCfg.t) : option t :=
  match XCorrCfg.echoTimeWindowSizeMs config,
        XCorrCfg.updateIntervalFrames config,
        XCorrCfg.minDelayMs config,
        XCorrCfg.stepSize config,
        XCorrCfg.txThresholdDb config,
        XCorrCfg.rxThresholdDb config,
        XCorrCfg.smoothingAlpha config,
        XCorrCfg.nxcThreshold config,
        XCorrCfg.xcorrWindowSize config with
  | Some etw, Some uif, Some mdm, Some ss, Some tx, Some rx, Some sa, Some nt, Some xws =>
      let bs := msToSamples sampleRate etw in
      let md := msToSamples sampleRate mdm in
      if bs <? 0 then None
      else Some
        {| echoTimeWindowSizeMs := etw;
           updateIntervalFrames := uif;
           minDelayMs := mdm;
           stepSize := ss;
           txThresholdLin := _dbToLin tx;
           rxThresholdLin := _dbToLin rx;
           smoothingAlpha := sa;
           nxcThreshold := nt;
           xcorrWindowSize := xws;
           bufferSize := bs;
           minDelay := md;
           delayUpdateCountRejectedNoTx := 0;
           delayUpdateCountRejectedNoRx := 0;
           delayUpdateCountRejectedPoorXCorr := 0;
           delayUpdateCount := 0;
           lastXCorrScore := Num (Some 0%R);
           nearEndBuffer := f32_new bs;
           farEndBuffer := f32_new bs;
           writePos := 0;
           delay := md;
           frameCounter := 0;
           foundXC := false |}
  | _, _, _, _, _, _, _, _, _ => None
  end.

(** Field updates. *)
Definition set_window (s : t) (etw bs : Z) (nb fb : f32) (wp : Z) : t :=
  mk etw (updateIntervalFrames s) (minDelayMs s) (stepSize s) (txThresholdLin s)
     (rxThresholdLin s) (smoothingAlpha s) (nxcThreshold s) (xcorrWindowSize s)
     bs (minDelay s)
     (delayUpdateCountRejectedNoTx s) (delayUpdateCountRejectedNoRx s)
     (delayUpdateCountRejectedPoorXCorr s) (delayUpdateCount s) (lastXCorrScore s)
     nb fb wp (delay s) (frameCounter s) (foundXC s).

Definition set_updateIntervalFrames (s : t) (v : Z) : t :=
  mk (echoTimeWindowSizeMs s) v (minDelayMs s) (stepSize s) (txThresholdLin s)
     (rxThresholdLin s) (smoothingAlpha s) (nxcThreshold s) (xcorrWindowSize s)
     (bufferSize s) (minDelay s)
     (delayUpdateCountRejectedNoTx s) (delayUpdateCountRejectedNoRx s)
     (delayUpdateCountRejectedPoorXCorr s) (delayUpdateCount s) (lastXCorrScore s)
     (nearEndBuffer s) (farEndBuffer s) (writePos s) (delay s) (frameCounter s)
     (foundXC s).

Definition set_minDelay (s : t) (ms md d : Z) : t :=
  mk (echoTimeWindowSizeMs s) (updateIntervalFrames s) ms (stepSize s)
     (txThresholdLin s) (rxThresholdLin s) (smoothingAlpha s) (nxcThreshold s)
     (xcorrWindowSize s) (bufferSize s) md
     (delayUpdateCountRejectedNoTx s) (delayUpdateCountRejectedNoRx s)
     (delayUpdateCountRejectedPoorXCorr s) (delayUpdateCount s) (lastXCorrScore s)
     (nearEndBuffer s) (farEndBuffer s) (writePos s) d (frameCounter s) (foundXC s).

Definition set_stepSize (s : t) (v : Z) : t :=
  mk (echoTimeWindowSizeMs s) (updateIntervalFrames s) (minDelayMs s) v
     (txThresholdLin s) (rxThresholdLin s) (smoothingAlpha s) (nxcThreshold s)
     (xcorrWindowSize s) (bufferSize s) (minDelay s)
     (delayUpdateCountRejectedNoTx s) (delayUpdateCountRejectedNoRx s)
     (delayUpdateCountRejectedPoorXCorr s) (delayUpdateCount s) (lastXCorrScore s)
     (nearEndBuffer s) (farEndBuffer s) (writePos s) (delay s) (frameCounter s)
     (foundXC s).

Definition set_tuning (s : t) (tx rx sa nt : R) (xws : Z) : t :=
  mk (echoTimeWindowSizeMs s) (updateIntervalFrames s) (minDelayMs s) (stepSize s)
     tx rx sa nt xws (bufferSize s) (minDelay s)
     (delayUpdateCountRejectedNoTx s) (delayUpdateCountRejectedNoRx s)
     (delayUpdateCountRejectedPoorXCorr s) (delayUpdateCount s) (lastXCorrScore s)
     (nearEndBuffer s) (farEndBuffer s) (writePos s) (delay s) (frameCounter s)
     (foundXC s).

Definition set_stats (s : t) (noTx noRx poor upd : Z) (score : xnum) : t :=
  mk (echoTimeWindowSizeMs s) (updateIntervalFrames s) (minDelayMs s) (stepSize s)
     (txThresholdLin s) (rxThresholdLin s) (smoothingAlpha s) (nxcThreshold s)
     (xcorrWindowSize s) (bufferSize s) (minDelay s)
     noTx noRx poor upd score
     (nearEndBuffer s) (farEndBuffer s) (writePos s) (delay s) (frameCounter s)
     (foundXC s).

Definition set_buffers (s : t) (nb fb : f32) (wp : Z) : t :=
  mk (echoTimeWindowSizeMs s) (updateIntervalFrames s) (minDelayMs s) (stepSize s)
     (txThresholdLin s) (rxThresholdLin s) (smoothingAlpha s) (nxcThreshold s)
     (xcorrWindowSize s) (bufferSize s) (minDelay s)
     (delayUpdateCountRejectedNoTx s) (delayUpdateCountRejectedNoRx s)
     (delayUpdateCountRejectedPoorXCorr s) (delayUpdateCount s) (lastXCorrScore s)
     nb fb wp (delay s) (frameCounter s) (foundXC s).

Definition set_frameCounter (s : t) (v : Z) : t :=
  mk (echoTimeWindowSizeMs s) (updateIntervalFrames s) (minDelayMs s) (stepSize s)
     (txThresholdLin s) (rxThresholdLin s) (smoothingAlpha s) (nxcThreshold s)
     (xcorrWindowSize s) (bufferSize s) (minDelay s)
     (delayUpdateCountRejectedNoTx s) (delayUpdateCountRejectedNoRx s)
     (delayUpdateCountRejectedPoorXCorr s) (delayUpdateCount s) (lastXCorrScore s)
     (nearEndBuffer s) (farEndBuffer s) (writePos s) (delay s) v (foundXC s).

Definition set_lock (s : t) (d : Z) (locked : bool) : t :=
  mk (echoTimeWindowSizeMs s) (updateIntervalFrames s) (minDelayMs s) (stepSize s)
     (txThresholdLin s) (rxThresholdLin s) (smoothingAlpha s) (nxcThreshold s)
     (xcorrWindowSize s) (bufferSize s) (minDelay s)
     (delayUpdateCountRejectedNoTx s) (delayUpdateCountRejectedNoRx s)
     (delayUpdateCountRejectedPoorXCorr s) (delayUpdateCount s) (lastXCorrScore s)
     (nearEndBuffer s) (farEndBuffer s) (writePos s) d (frameCounter s) locked.

Definition applyOpt {A : Type} (o : option A) (f : t -> A -> t) (s : t) : t :=
  match o with
  | Some v => f s v
  | None => s
  end.

(** [updateConfig(config)], from its second [if] statement on. *)
Definition updateConfigRest (s1 : t) (config : XCorrCfg.t) : t :=
  let s2 := applyOpt (XCorrCfg.updateIntervalFrames config) set_updateIntervalFrames s1 in
  let s3 :=
    applyOpt (XCorrCfg.minDelayMs config)
      (fun s ms =>
         let md := msToSamples sampleRate ms in
         set_minDelay s ms md (Z.max (delay s) md)) s2 in
  let s4 := applyOpt (XCorrCfg.stepSize config) set_stepSize s3 in
  let s5 :=
    applyOpt (XCorrCfg.txThresholdDb config)
      (fun s db => set_tuning s (_dbToLin db) (rxThresholdLin s) (smoothingAlpha s)
                     (nxcThreshold s) (xcorrWindowSize s)) s4 in
  let s6 :=
    applyOpt (XCorrCfg.rxThresholdDb config)
      (fun s db => set_tuning s (txThresholdLin s) (_dbToLin db) (smoothingAlpha s)
                     (nxcThreshold s) (xcorrWindowSize s)) s5 in
  let s7 :=
    applyOpt (XCorrCfg.smoothingAlpha config)
      (fun s v => set_tuning s (txThresholdLin s) (rxThresholdLin s) v
                    (nxcThreshold s) (xcorrWindowSize s)) s6 in
  let s8 :=
    applyOpt (XCorrCfg.nxcThreshold config)
      (fun s v => set_tuning s (txThresholdLin s) (rxThresholdLin s) (smoothingAlpha s)
                    v (xcorrWindowSize s)) s7 in
  applyOpt (XCorrCfg.xcorrWindowSize config)
    (fun s v => set_tuning s (txThresholdLin s) (rxThresholdLin s) (smoothingAlpha s)
                  (nxcThreshold s) v) s8.

(** [updateConfig(config)].  When the echo window changes to a negative
    size, [new Float32Array] throws after [echoTimeWindowSizeMs] and
    [bufferSize] have been stored and before anything else is. *)
Definition updateConfig (s : t) (config : XCorrCfg.t) : outcome t :=
  match XCorrCfg.echoTimeWindowSizeMs config with
  | Some etw =>
      if etw =? echoTimeWindowSizeMs s then Returned (updateConfigRest s config)
      else
        let bs := msToSamples sampleRate etw in
        if bs <? 0 then
          Threw (set_window s etw bs (nearEndBuffer s) (farEndBuffer s) (writePos s))
        else
          Returned
            (updateConfigRest (set_window s etw bs (f32_new bs) (f32_new bs) 0) config)
  | None => Returned (updateConfigRest s config)
  end.

(** Sum of squares of the last [numSamples] samples of a history buffer
    (one accumulator of the loop of [haveEnoughSignalForXCorr]). *)
Definition recentEnergy (s : t) (buf : f32) (numSamples : Z) : num :=
  fold_left
    (fun e i =>
       let idx := Z.rem (writePos s - 1 - i + bufferSize s) (bufferSize s) in
       nadd e (nmul (f32_get buf idx) (f32_get buf idx)))
    (range numSamples) (Some 0%R).

(** [haveEnoughSignalForXCorr()]: the energy gate; it counts its rejections. *)
Definition haveEnoughSignalForXCorr (s : t) : bool * t :=
  let numSamples := Z.min (xcorrWindowSize s) (bufferSize s) in
  let txE := nsqrt (ndiv (recentEnergy s (nearEndBuffer s) numSamples)
                         (Some (IZR numSamples))) in
  let rxE := nsqrt (ndiv (recentEnergy s (farEndBuffer s) numSamples)
                         (Some (IZR numSamples))) in
  if nlt txE (Some (txThresholdLin s)) then
    (false, set_stats s (delayUpdateCountRejectedNoTx s + 1)
                      (delayUpdateCountRejectedNoRx s)
                      (delayUpdateCountRejectedPoorXCorr s)
                      (delayUpdateCount s) (lastXCorrScore s))
  else if nlt rxE (Some (rxThresholdLin s)) then
    (false, set_stats s (delayUpdateCountRejectedNoTx s)
                      (delayUpdateCountRejectedNoRx s + 1)
                      (delayUpdateCountRejectedPoorXCorr s)
                      (delayUpdateCount s) (lastXCorrScore s))
  else (true, s).

(** The three accumulators [corr], [nearE], [farE] of [_computeNCC]. *)
Definition nccSums (s : t) (delay windowSize : Z) : num * num * num :=
  let numSamples := Z.min windowSize (bufferSize s - delay) in
  fold_left
    (fun (acc : num * num * num) i =>
       let '(corr, nearE, farE) := acc in
       let nearIdx := Z.rem (writePos s - 1 - i + bufferSize s) (bufferSize s) in
       let farIdx :=
         Z.rem (writePos s - 1 - i - delay + bufferSize s) (bufferSize s) in
       let n := f32_get (nearEndBuffer s) nearIdx in
       let f := f32_get (farEndBuffer s) farIdx in
       (nadd corr (nmul n f), nadd nearE (nmul n n), nadd farE (nmul f f)))
    (range numSamples) (Some 0%R, Some 0%R, Some 0%R).

(** [_computeNCC(delay, windowSize)] *)
Definition _computeNCC (s : t) (delay windowSize : Z) : num :=
  let '(corr, nearE, farE) := nccSums s delay windowSize in
  let denom := nsqrt (nmul nearE farE) in
  if ngt denom (Some 0%R) then ndiv corr denom else Some 0%R.

(** One iteration of either search loop of [updateDelay]: the pair is
    [(bestNXC, best delay so far)]. *)
Definition searchStep (s : t) (windowSize : Z) (acc : xnum * Z) (d : Z) : xnum * Z :=
  let ncc := _computeNCC s d windowSize in
  if gt_xnum ncc (fst acc) then (Num ncc, d) else acc.

(** [updateDelay()].  [None] when a search loop does not terminate
    ([stepSize <= 0]).  The source first stores the smoothed delay clamped to
    [minDelay] in [this.delay] and overwrites it in the next statement with
    [bestDelay]; nothing reads the field in between, so only the second store
    appears here. *)
Definition updateDelay (s0 : t) : option t :=
  let '(enough, s) := haveEnoughSignalForXCorr s0 in
  if negb enough then Some s
  else
    let windowSize := Z.min (xcorrWindowSize s) (bufferSize s) in
    let maxDelay := bufferSize s - minDelay s in
    match stride (minDelay s) maxDelay (stepSize s) with
    | None => None
    | Some coarse =>
        let '(bestNXC1, coarseDelay) :=
          fold_left (searchStep s windowSize) coarse (NegInfinity, 0) in
        let fineStep := 12 in
        let fineStart := Z.max (minDelay s) (coarseDelay - stepSize s) in
        let fineEnd := Z.min maxDelay (coarseDelay + stepSize s) in
        match stride fineStart fineEnd fineStep with
        | None => None
        | Some fine =>
            let '(bestNXC, bestDelay) :=
              fold_left (searchStep s windowSize) fine (bestNXC1, coarseDelay) in
            if xnum_lt bestNXC (nxcThreshold s) then
              Some (set_stats s (delayUpdateCountRejectedNoTx s)
                              (delayUpdateCountRejectedNoRx s)
                              (delayUpdateCountRejectedPoorXCorr s + 1)
                              (delayUpdateCount s) bestNXC)
            else
              let s' := set_stats s (delayUpdateCountRejectedNoTx s)
                                  (delayUpdateCountRejectedNoRx s)
                                  (delayUpdateCountRejectedPoorXCorr s)
                                  (delayUpdateCount s + 1) bestNXC in
              Some (set_lock s' bestDelay true)
        end
    end.

(** The sample loop of [addFrame]. *)
Definition pushSamples (s : t) (nearEndFrame farEndFrame : f32) : t :=
  fold_left
    (fun s i =>
       set_buffers s
         (f32_set (nearEndBuffer s) (writePos s) (f32_get nearEndFrame i))
         (f32_set (farEndBuffer s) (writePos s) (f32_get farEndFrame i))
         (Z.rem (writePos s + 1) (bufferSize s)))
    (range (f32_length nearEndFrame)) s.

(** [addFrame(nearEndFrame, farEndFrame)] *)
Definition addFrame (s : t) (nearEndFrame farEndFrame : f32) : option t :=
  let s1 := pushSamples s nearEndFrame farEndFrame in
  let s2 := set_frameCounter s1 (frameCounter s1 + 1) in
  if frameCounter s2 >=? updateIntervalFrames s2 then
    updateDelay (set_frameCounter s2 0)
  else Some s2.

(** [getDelaySamples()] *)
Definition getDelaySamples (s : t) : Z := delay s.

End WithSampleRate.

End XCorrHelper.

(** ** The state shared by the processor and its strategies ([fauxecState]) *)

Module FauxecState.

Record t : Type := mk {
  debugRecording : bool;
  debugMaxSamples : Z
}.

End FauxecState.

(** What a strategy writes to the console or posts on the port. *)
Inductive Event : Type :=
| LogDelayJumped (from to : Z)
| LogXPower (xPower : num)
| PostGated (value : bool)
| ConsoleError (value : string)
| CallOnSelected (strategy : string).

(** [for (let i = 0; i < nSamples; i++) outFrame[i] = 0;] *)
Definition fillZero (nSamples : Z) (outFrame : f32) : f32 :=
  fold_left (fun out i => f32_set out i (Some 0%R)) (range nSamples) outFrame.

(** [for (let i = 0; i < nSamples; i++) outFrame[i] = frame[i];] *)
Definition copyFrame (nSamples : Z) (frame outFrame : f32) : f32 :=
  fold_left (fun out i => f32_set out i (f32_get frame i)) (range nSamples) outFrame.

(** ** TimeAlignedSubtractStrategy *)

Module TimeAlignedSubtractStrategy.

Section WithSampleRate.

Variable sampleRate : Z.

Record t : Type := mk {
  config : XCorrCfg.t;
  xCorr : XCorrHelper.t;
  bufferSize : Z;
  farEndBuffer : f32;
  writePos : Z;
  lastDelay : Z;
  debugAlignedFarEnd : option f32;
  debugWritePos : Z
}.

(** The constructor; it throws when [XCorrHelper]'s does or when the
    history buffer would have a negative length. *)
Definition create : option t :=
  let config := XCorrCfg.getDefaultCfg in
  match XCorrHelper.create sampleRate config, XCorrCfg.echoTimeWindowSizeMs config with
  | Some xc, Some etw =>
      let bs := msToSamples sampleRate etw in
      if bs <? 0 then None
      else Some (mk config xc bs (f32_new bs) 0 0 None 0)
  | _, _ => None
  end.

(** [updateConfig(newConfig)] *)
Definition updateConfig (s : t) (newConfig : XCorrCfg.t) : outcome t :=
  let oldEchoWindowMs := XCorrCfg.echoTimeWindowSizeMs (config s) in
  let config' := XCorrCfg.assign (config s) newConfig in
  let keep xc :=
    mk config' xc (bufferSize s) (farEndBuffer s) (writePos s) (lastDelay s)
       (debugAlignedFarEnd s) (debugWritePos s) in
  match XCorrHelper.updateConfig sampleRate (xCorr s) config' with
  | Threw xc' => Threw (keep xc')
  | Returned xc' =>
      match XCorrCfg.echoTimeWindowSizeMs newConfig with
      | Some etw =>
          if match oldEchoWindowMs with Some old => etw =? old | None => false end
          then Returned (keep xc')
          else
            let bs := msToSamples sampleRate etw in
            if bs <? 0 then
              Threw (mk config' xc' bs (farEndBuffer s) (writePos s) (lastDelay s)
                        (debugAlignedFarEnd s) (debugWritePos s))
            else
              Returned (mk config' xc' bs (f32_new bs) 0 (lastDelay s)
                           (debugAlignedFarEnd s) (debugWritePos s))
      | None => Returned (keep xc')
      end
  end.

(** The first loop of [onFrame]: the far-end frame goes into the strategy's
    own history buffer.  The pair is [(farEndBuffer, writePos)]. *)
Definition pushFarEnd (bufferSize : Z) (buf : f32) (writePos : Z)
    (nSamples : Z) (farEndFrame : f32) : f32 * Z :=
  fold_left
    (fun (acc : f32 * Z) i =>
       let '(buf, wp) := acc in
       (f32_set buf wp (f32_get farEndFrame i), Z.rem (wp + 1) bufferSize))
    (range nSamples) (buf, writePos).

(** The delay the subtraction uses: [this.lastDelay] after the jump test. *)
Definition nextLastDelay (lastDelay delay : Z) : Z :=
  if 48 <? Z.abs (delay - lastDelay) then delay else lastDelay.

Definition jumpLog (lastDelay delay : Z) : list Event :=
  if 48 <? Z.abs (delay - lastDelay) then [LogDelayJumped lastDelay delay] else [].

(** The subtraction loop of [onFrame].  The triple is
    [(outFrame, debugAlignedFarEnd, debugWritePos)]. *)
Definition subtractLoop (fx : FauxecState.t) (bufferSize : Z) (buf : f32)
    (readStart : Z) (attenuation : num) (recording : bool)
    (nSamples : Z) (nearEndFrame outFrame : f32)
    (dbg : option f32) (dbgPos : Z) : f32 * option f32 * Z :=
  fold_left
    (fun (acc : f32 * option f32 * Z) i =>
       let '(out, dbg, dbgPos) := acc in
       let readI := Z.rem (readStart + i) bufferSize in
       let alignedFarEnd := nmul attenuation (f32_get buf readI) in
       let out' := f32_set out i (nsub (f32_get nearEndFrame i) alignedFarEnd) in
       if recording && (dbgPos <? FauxecState.debugMaxSamples fx) then
         (out', option_map (fun d => f32_set d dbgPos alignedFarEnd) dbg, dbgPos + 1)
       else (out', dbg, dbgPos))
    (range nSamples) (outFrame, dbg, dbgPos).

(** [onFrame(nSamples, nearEndFrame, farEndFrame, outFrame)].  The result is
    the new state, the output frame and what was logged; [None] when the
    estimator's update does not terminate. *)
Definition onFrame (fx : FauxecState.t) (s : t) (nSamples : Z)
    (nearEndFrame farEndFrame outFrame : f32) : option (t * f32 * list Event) :=
  match XCorrHelper.addFrame (xCorr s) nearEndFrame farEndFrame with
  | None => None
  | Some xc =>
      let '(buf, wp) :=
        pushFarEnd (bufferSize s) (farEndBuffer s) (writePos s) nSamples farEndFrame in
      if negb (XCorrHelper.foundXC xc) then
        Some (mk (config s) xc (bufferSize s) buf wp (lastDelay s)
                 (debugAlignedFarEnd s) (debugWritePos s),
              fillZero nSamples outFrame, [])
      else
        let delay := XCorrHelper.getDelaySamples xc in
        let log := jumpLog (lastDelay s) delay in
        let lastDelay' := nextLastDelay (lastDelay s) delay in
        let clampedDelay := Z.min lastDelay' (bufferSize s - 1) in
        let readStart :=
          Z.rem (wp - nSamples - clampedDelay + bufferSize s * 5) (bufferSize s) in
        let attenuation : num := XCorrCfg.echoAttenuation (config s) in
        let recording :=
          FauxecState.debugRecording fx &&
          match debugAlignedFarEnd s with Some _ => true | None => false end in
        let '(out, dbg, dbgPos) :=
          subtractLoop fx (bufferSize s) buf readStart attenuation recording
            nSamples nearEndFrame outFrame (debugAlignedFarEnd s) (debugWritePos s) in
        Some (mk (config s) xc (bufferSize s) buf wp lastDelay' dbg dbgPos, out, log)
  end.

End WithSampleRate.

End TimeAlignedSubtractStrategy.

(** ** HalfDuplexStrategy *)

Module HalfDuplexCfg.

Record t : Type := mk {
  attackMs : R;
  decayMs : R;
  thresholdDb : R
}.

(** A configuration message: only the keys it carries are [Some]. *)
Record delta : Type := mkDelta {
  d_attackMs : option R;
  d_decayMs : option R;
  d_thresholdDb : option R
}.

Definition getDefaultCfg : t :=
  {| attackMs := 10; decayMs := 200; thresholdDb := -20 |}.

Definition assign (config : t) (value : delta) : t :=
  {| attackMs := match d_attackMs value with Some v => v | None => attackMs config end;
     decayMs := match d_decayMs value with Some v => v | None => decayMs config end;
     thresholdDb :=
       match d_thresholdDb value with Some v => v | None => thresholdDb config end |}.

End HalfDuplexCfg.

Module HalfDuplexStrategy.

Section WithSampleRate.

Variable sampleRate : Z.

Record t : Type := mk {
  config : HalfDuplexCfg.t;
  farEndLevel : xreal;
  gatedFrames : Z;
  gated : bool
}.

Definition create : t := mk HalfDuplexCfg.getDefaultCfg (Fin 0%R) 0 false.

(** [onMessage('halfDuplex_config', value)] *)
Definition onMessage (s : t) (value : HalfDuplexCfg.delta) : t :=
  mk (HalfDuplexCfg.assign (config s) value) (farEndLevel s) (gatedFrames s) (gated s).

(** [ss]: the sum of squares of the far-end frame. *)
Definition sumSquares (nSamples : Z) (frame : f32) : num :=
  fold_left (fun ss i => nadd ss (nmul (f32_get frame i) (f32_get frame i)))
    (range nSamples) (Some 0%R).

(** The envelope after this frame: [this.farEndLevel] once
    [this.farEndLevel += coeff * (rms - this.farEndLevel)] has run.  The
    frame time and the exponent are computed with infinities: with a time
    constant of 0 the exponent is [-Infinity], its exponential 0 and the
    coefficient 1.  ([ss / nSamples] is never an infinity: [ss] is 0 when
    [nSamples] is.) *)
Definition nextLevel (s : t) (nSamples : Z) (farEndFrame : f32) : xreal :=
  let frameTime := xdiv (Fin (IZR nSamples)) (Fin (IZR sampleRate)) in
  let rms := xofnum (nsqrt (ndiv (sumSquares nSamples farEndFrame) (nofZ nSamples))) in
  let tau :=
    if xgt rms (farEndLevel s)
    then (HalfDuplexCfg.attackMs (config s) / 1000)%R
    else (HalfDuplexCfg.decayMs (config s) / 1000)%R in
  let coeff := xsub (Fin 1%R) (xexp (xdiv (xneg frameTime) (Fin tau))) in
  xadd (farEndLevel s) (xmul coeff (xsub rms (farEndLevel s))).

(** [threshold]: [Math.pow(10, this.config.thresholdDb / 20)] *)
Definition threshold (s : t) : R :=
  Rpower 10 (HalfDuplexCfg.thresholdDb (config s) / 20).

(** [onFrame(nSamples, nearEndFrame, farEndFrame, outFrame)] *)
Definition onFrame (s : t) (nSamples : Z) (nearEndFrame farEndFrame outFrame : f32)
  : t * f32 * list Event :=
  let level := nextLevel s nSamples farEndFrame in
  let shouldGate := xgt level (Fin (threshold s)) in
  let posted := if Bool.eqb shouldGate (gated s) then [] else [PostGated shouldGate] in
  if shouldGate then
    (mk (config s) level (gatedFrames s + 1) shouldGate,
     fillZero nSamples outFrame, posted)
  else
    (mk (config s) level (gatedFrames s) shouldGate,
     copyFrame nSamples nearEndFrame outFrame, posted).

End WithSampleRate.

End HalfDuplexStrategy.

(** ** IRMeasurementHelper: impulse-response measurement *)

Module RIRCfg.

Record t : Type := mk {
  irLength : Z;
  measurementDurationMs : Z;
  testSignalType : string;
  diracPulseWidth : Z;
  mlsOrder : Z;
  echoAttenuation : R
}.

(** A configuration message: only the keys it carries are [Some]. *)
Record delta : Type := mkDelta {
  d_irLength : option Z;
  d_measurementDurationMs : option Z;
  d_testSignalType : option string;
  d_diracPulseWidth : option Z;
  d_mlsOrder : option Z;
  d_echoAttenuation : option R
}.

(** [RIRStrategy.getDefaultCfg()] *)
Definition getDefaultCfg : t :=
  {| irLength := 20480;
     measurementDurationMs := 1000;
     testSignalType := "no_rir";
     diracPulseWidth := 48;
     mlsOrder := 14;
     echoAttenuation := (25 / 10)%R |}.

Definition pick {A : Type} (new : option A) (old : A) : A :=
  match new with
  | Some v => v
  | None => old
  end.

(** [Object.assign(this.config, value)] *)
Definition assign (config : t) (value : delta) : t :=
  {| irLength := pick (d_irLength value) (irLength config);
     measurementDurationMs :=
       pick (d_measurementDurationMs value) (measurementDurationMs config);
     testSignalType := pick (d_testSignalType value) (testSignalType config);
     diracPulseWidth := pick (d_diracPulseWidth value) (diracPulseWidth config);
     mlsOrder := pick (d_mlsOrder value) (mlsOrder config);
     echoAttenuation := pick (d_echoAttenuation value) (echoAttenuation config) |}.

Definition differsZ (new : option Z) (old : Z) : bool :=
  match new with
  | Some v => negb (v =? old)
  | None => false
  end.

Definition differsString (new : option string) (old : string) : bool :=
  match new with
  | Some v => negb (String.eqb v old)
  | None => false
  end.

(** [changedKeys.some(key => !skipResetKeys.has(key))]: some key of the
    message other than [echoAttenuation] carries a value different from the
    configured one. *)
Definition needsReset (config : t) (value : delta) : bool :=
  differsZ (d_irLength value) (irLength config)
  || differsZ (d_measurementDurationMs value) (measurementDurationMs config)
  || differsString (d_testSignalType value) (testSignalType config)
  || differsZ (d_diracPulseWidth value) (diracPulseWidth config)
  || differsZ (d_mlsOrder value) (mlsOrder config).

End RIRCfg.

Inductive DiracKind : Type := DiracSine | DiracSquare.

Module IRMeasurementHelper.

Section WithSampleRate.

Variable sampleRate : Z.

Record t : Type := mk {
  signalType : string;
  irLength : Z;
  measureSamples : Z;
  testSignal : f32;
  testSignalEnergy : num;
  (* measurement state *)
  recordBuffer : f32;
  recordPos : Z;
  playPos : Z;
  (* result *)
  ir : f32;
  irTrimmed : option f32;
  irDelayOffset : Z;
  ready : bool;
  irAcquired : bool;
  peakValue : num;
  peakDelayMs : num;
  crestFactor : num;
  peakAtBoundary : bool;
  debugPeakSum : num;
  debugRecordRms : num;
  irSumBeforeNorm : num
}.

(** [1 << order] on 32-bit integers. *)
Definition shl1 (order : Z) : Z :=
  let k := order mod 32 in
  if k =? 31 then - 2 ^ 31 else 2 ^ k.

Definition taps (order : Z) : Z :=
  let t10 := Z.lor (Z.shiftl 1 9) (Z.shiftl 1 6) in
  let t12 := Z.lor (Z.lor (Z.lor (Z.shiftl 1 11) (Z.shiftl 1 5)) (Z.shiftl 1 3))
                   (Z.shiftl 1 0) in
  let t14 := Z.lor (Z.lor (Z.lor (Z.shiftl 1 13) (Z.shiftl 1 4)) (Z.shiftl 1 2))
                   (Z.shiftl 1 0) in
  let t16 := Z.lor (Z.lor (Z.lor (Z.shiftl 1 15) (Z.shiftl 1 14)) (Z.shiftl 1 12))
                   (Z.shiftl 1 3) in
  if order =? 10 then t10
  else if order =? 12 then t12
  else if order =? 14 then t14
  else if order =? 16 then t16
  else t14.

(** [_generateMLS(order)]: Galois LFSR.  The register stays below [2^16], so
    the 32-bit operators act on it as the operations of [Z].  [None] when
    [new Float32Array] throws on a negative length. *)
Definition _generateMLS (order : Z) : option f32 :=
  let len := shl1 order - 1 in
  if len <? 0 then None
  else
    let tap := taps order in
    Some (fst (fold_left
      (fun (acc : f32 * Z) i =>
         let '(mls, lfsr) := acc in
         let bit := Z.land lfsr 1 in
         let mls' :=
           f32_set mls i (if bit =? 0 then Some (- (5 / 10))%R else Some (5 / 10)%R) in
         let lfsr1 := Z.shiftr lfsr 1 in
         (mls', if bit =? 0 then lfsr1 else Z.lxor lfsr1 tap))
      (range len) (f32_new len, 1))).

(** [_generateDirac(widthSamples, signalType)].  The pad is
    [sampleRate / 4] and the length [widthSamples + sampleRate / 2], possibly
    fractional; the array has the truncated length, and the loop's one extra
    iteration for a fractional length writes out of range.  The comparisons on
    [i] are written on integers, multiplied through by 4. *)
Definition _generateDirac (widthSamples : Z) (kind : DiracKind) : option f32 :=
  let len2 := 2 * widthSamples + sampleRate in
  if len2 <=? -2 then None
  else
    let len := Z.quot len2 2 in
    Some (fold_left
      (fun pulse i =>
         if (4 * i <? sampleRate) || (sampleRate + 4 * widthSamples <? 4 * i) then
           f32_set pulse i (Some 0%R)
         else
           let j := (IZR i - IZR sampleRate / 4)%R in
           match kind with
           | DiracSine =>
               f32_set pulse i (nsin (ndiv (Some (PI * j)%R) (nofZ widthSamples)))
           | DiracSquare =>
               f32_set pulse i
                 (if 4 * i - sampleRate <? 2 * widthSamples
                  then Some (- (8 / 10))%R else Some (8 / 10)%R)
           end)
      (range len) (f32_new len)).

(** Sum of the squares of an array. *)
Definition energy (a : f32) : num :=
  fold_left (fun e i => nadd e (nmul (f32_get a i) (f32_get a i)))
    (range (f32_length a)) (Some 0%R).

(** The constructor; [None] when it throws (unknown signal type, or a
    negative array length). *)
Definition create (config : RIRCfg.t) : option t :=
  let ty := RIRCfg.testSignalType config in
  let signal :=
    if String.eqb ty "mls" then _generateMLS (RIRCfg.mlsOrder config)
    else if String.eqb ty "dirac_sine" then
      _generateDirac (RIRCfg.diracPulseWidth config) DiracSine
    else if String.eqb ty "dirac_square" then
      _generateDirac (RIRCfg.diracPulseWidth config) DiracSquare
    else None in
  let ms := msToSamples sampleRate (RIRCfg.measurementDurationMs config) in
  match signal with
  | None => None
  | Some sig =>
      if (ms <? 0) || (RIRCfg.irLength config <? 0) then None
      else Some
        {| signalType := ty;
           irLength := RIRCfg.irLength config;
           measureSamples := ms;
           testSignal := sig;
           testSignalEnergy := energy sig;
           recordBuffer := f32_new ms;
           recordPos := 0;
           playPos := 0;
           ir := f32_new (RIRCfg.irLength config);
           irTrimmed := None;
           irDelayOffset := 0;
           ready := false;
           irAcquired := false;
           peakValue := Some 0%R;
           peakDelayMs := Some 0%R;
           crestFactor := Some 0%R;
           peakAtBoundary := false;
           debugPeakSum := Some 0%R;
           debugRecordRms := Some 0%R;
           irSumBeforeNorm := Some 0%R |}
  end.

(** [recSumSq]: energy of the first [recordLen] recorded samples. *)
Definition recSumSq (s : t) : num :=
  fold_left
    (fun e i => nadd e (nmul (f32_get (recordBuffer s) i) (f32_get (recordBuffer s) i)))
    (range (recordPos s)) (Some 0%R).

(** [Math.sqrt(recSumSq / recordLen)] *)
Definition recordRms (s : t) : num :=
  nsqrt (ndiv (recSumSq s) (nofZ (recordPos s))).

(** The near-silence threshold [.005]. *)
Definition silenceThreshold : R := (5 / 1000)%R.

(** The inner loop of the deconvolution: [sum] for one lag [k]. *)
Definition corrSum (s : t) (k : Z) : num :=
  fold_left
    (fun sum n =>
       let testIdx := n - k in
       if testIdx <? f32_length (testSignal s) then
         nadd sum (nmul (f32_get (recordBuffer s) n) (f32_get (testSignal s) testIdx))
       else sum)
    (rangeFrom k (recordPos s)) (Some 0%R).

(** The outer loop: the pair is [(ir, maxSum)]. *)
Definition deconvolve (s : t) : f32 * num :=
  fold_left
    (fun (acc : f32 * num) k =>
       let '(ir, maxSum) := acc in
       let sum := corrSum s k in
       (f32_set ir k (ndiv sum (testSignalEnergy s)),
        if ngt (nabs sum) (nabs maxSum) then sum else maxSum))
    (range (irLength s)) (f32_new (irLength s), Some 0%R).

(** The peak search: the triple is [(peakVal, peakIdx, sumSq)]. *)
Definition findPeak (irLen : Z) (ir : f32) : num * Z * num :=
  fold_left
    (fun (acc : num * Z * num) i =>
       let '(peakVal, peakIdx, sumSq) := acc in
       let absVal := nabs (f32_get ir i) in
       let sumSq' := nadd sumSq (nmul (f32_get ir i) (f32_get ir i)) in
       if ngt absVal peakVal then (absVal, i, sumSq') else (peakVal, peakIdx, sumSq'))
    (range irLen) (Some 0%R, 0, Some 0%R).

(** [Math.floor(sampleRate * 0.005)] and [Math.floor(sampleRate * 0.010)],
    in exact arithmetic. *)
Definition preEchoSamples : Z := (sampleRate * 5) / 1000.
Definition tailMargin : Z := (sampleRate * 10) / 1000.

(** The tail cutoff: scanning [i] from [irLen - 1] down to [peakIdx + 1], the
    first sample above the threshold fixes [tailEnd]. *)
Definition findTailEnd (irLen : Z) (ir : f32) (peakIdx : Z) (tailThreshold : num) : Z :=
  match find (fun i => ngt (nabs (f32_get ir i)) tailThreshold)
             (rev (rangeFrom (peakIdx + 1) irLen)) with
  | Some i => Z.min irLen (i + tailMargin)
  | None => irLen
  end.

(** The copy loop: [irTrimmed[i] = ir[irDelayOffset + i]]. *)
Definition sliceIR (ir : f32) (offset trimmedLen : Z) : f32 :=
  fold_left (fun a i => f32_set a i (f32_get ir (offset + i)))
    (range trimmedLen) (f32_new trimmedLen).

(** [irL1]: the sum of absolute values of the trimmed response. *)
Definition l1Sum (trimmedLen : Z) (a : f32) : num :=
  fold_left (fun acc i => nadd acc (nabs (f32_get a i))) (range trimmedLen) (Some 0%R).

(** The normalization loop: [irTrimmed[i] *= normFactor]. *)
Definition scaleIR (trimmedLen : Z) (a : f32) (normFactor : num) : f32 :=
  fold_left (fun a i => f32_set a i (nmul (f32_get a i) normFactor))
    (range trimmedLen) a.

(** The normalization threshold [1e-6]. *)
Definition l1Epsilon : R := (1 / 1000000)%R.

(** [_computeIR()] *)
Definition _computeIR (s : t) : outcome t :=
  let irLen := irLength s in
  if irLen <? 0 then Threw s
  else
    let rms := recordRms s in
    if nlt rms (Some silenceThreshold) then
      Returned
        (mk (signalType s) (irLength s) (measureSamples s) (testSignal s)
            (testSignalEnergy s) (recordBuffer s) (recordPos s) (playPos s)
            (ir s) (Some (f32_new 0)) (irDelayOffset s) true (irAcquired s)
            (peakValue s) (peakDelayMs s) (crestFactor s) (peakAtBoundary s)
            (debugPeakSum s) rms (irSumBeforeNorm s))
    else
      let '(ir', maxSum) := deconvolve s in
      let '(peakVal, peakIdx, sumSq) := findPeak irLen ir' in
      let irRms := nsqrt (ndiv sumSq (nofZ irLen)) in
      let peakDelayMs' :=
        nmul (ndiv (nofZ peakIdx) (nofZ sampleRate)) (Some 1000%R) in
      let crest := if ngt irRms (Some 0%R) then ndiv peakVal irRms else Some 0%R in
      let atBoundary := 19 * irLen <? 20 * peakIdx in
      let offset := Z.max 0 (peakIdx - preEchoSamples) in
      let tailThreshold := nmul peakVal (Some (1 / 10)%R) in
      let tailEnd := findTailEnd irLen ir' peakIdx tailThreshold in
      let trimmedLen := tailEnd - offset in
      let analysed trimmed acquired isReady l1 :=
        mk (signalType s) (irLength s) (measureSamples s) (testSignal s)
           (testSignalEnergy s) (recordBuffer s) (recordPos s) (playPos s)
           ir' trimmed offset isReady acquired
           peakVal peakDelayMs' crest atBoundary maxSum rms l1 in
      if trimmedLen <? 0 then
        Threw (analysed (irTrimmed s) (irAcquired s) (ready s) (irSumBeforeNorm s))
      else
        let trimmed := sliceIR ir' offset trimmedLen in
        let irL1 := l1Sum trimmedLen trimmed in
        let normalized :=
          if ngt irL1 (Some l1Epsilon)
          then scaleIR trimmedLen trimmed (ndiv (Some 1%R) irL1)
          else trimmed in
        Returned (analysed (Some normalized) true true irL1).

(** The sample loop of [onFrame]: the triple is
    [(testSignalFrame, recordBuffer, (recordPos, playPos))]. *)
Definition recordLoop (s : t) (nSamples : Z) (nearEndFrame : f32)
    (testSignalFrame : option f32) : option f32 * f32 * (Z * Z) :=
  fold_left
    (fun (acc : option f32 * f32 * (Z * Z)) i =>
       let '(tsf, rec, (rp, pp)) := acc in
       if rp >=? measureSamples s then acc
       else
         let '(tsf', pp') :=
           match tsf with
           | Some frame =>
               (Some (f32_set frame i
                        (if pp <? f32_length (testSignal s)
                         then f32_get (testSignal s) pp else Some 0%R)),
                pp + 1)
           | None => (None, pp)
           end in
         (tsf', f32_set rec rp (f32_get nearEndFrame i), (rp + 1, pp')))
    (range nSamples)
    (testSignalFrame, recordBuffer s, (recordPos s, playPos s)).

(** [onFrame(nSamples, nearEndFrame, testSignalFrame)] *)
Definition onFrame (s : t) (nSamples : Z) (nearEndFrame : f32)
    (testSignalFrame : option f32) : outcome t * option f32 :=
  if ready s then (Returned s, testSignalFrame)
  else
    let '(tsf, rec, (rp, pp)) := recordLoop s nSamples nearEndFrame testSignalFrame in
    let s1 :=
      mk (signalType s) (irLength s) (measureSamples s) (testSignal s)
         (testSignalEnergy s) rec rp pp
         (ir s) (irTrimmed s) (irDelayOffset s) (ready s) (irAcquired s)
         (peakValue s) (peakDelayMs s) (crestFactor s) (peakAtBoundary s)
         (debugPeakSum s) (debugRecordRms s) (irSumBeforeNorm s) in
    if rp >=? measureSamples s then (_computeIR s1, tsf) else (Returned s1, tsf).

End WithSampleRate.

End IRMeasurementHelper.

(** ** RIRStrategy *)

(** [this.rir] is either the mock or a real measurer. *)
Inductive Measurer : Type :=
| IRMeasurementHelperMock
| IRMeasurementHelperReal (h : IRMeasurementHelper.t).

Module RIRStrategy.

Section WithSampleRate.

Variable sampleRate : Z.

Record t : Type := mk {
  config : RIRCfg.t;
  rir : Measurer;
  farEndDelayLine : f32;
  farEndDelayPos : Z;
  debugEchoEstimate : option f32;
  debugWritePos : Z
}.

(** The constructor ([new Float32Array(this.config.irLength)] with the
    default length). *)
Definition create : t :=
  mk RIRCfg.getDefaultCfg IRMeasurementHelperMock
     (f32_new (RIRCfg.irLength RIRCfg.getDefaultCfg)) 0 None 0.

(** [this.rir.ready]; the mock has no such field. *)
Definition rirReady (m : Measurer) : bool :=
  match m with
  | IRMeasurementHelperMock => false
  | IRMeasurementHelperReal h => IRMeasurementHelper.ready h
  end.

Definition set_rir (s : t) (m : Measurer) : t :=
  mk (config s) m (farEndDelayLine s) (farEndDelayPos s)
     (debugEchoEstimate s) (debugWritePos s).

(** [onSelected()]: restart the measurement.  Every invocation is recorded
    as [CallOnSelected "rir"]. *)
Definition onSelected (s : t) : outcome t * list Event :=
  if String.eqb (RIRCfg.testSignalType (config s)) "no_rir" then
    (Returned (set_rir s IRMeasurementHelperMock), [CallOnSelected "rir"])
  else
    match IRMeasurementHelper.create sampleRate (config s) with
    | Some h => (Returned (set_rir s (IRMeasurementHelperReal h)), [CallOnSelected "rir"])
    | None => (Threw s, [CallOnSelected "rir"])
    end.

(** [onMessage('rir_config', value)] *)
Definition onMessage (s : t) (value : RIRCfg.delta) : outcome t * list Event :=
  let reset := RIRCfg.needsReset (config s) value in
  let s1 :=
    mk (RIRCfg.assign (config s) value) (rir s) (farEndDelayLine s) (farEndDelayPos s)
       (debugEchoEstimate s) (debugWritePos s) in
  if reset then onSelected s1 else (Returned s1, []).

(** [echoEstimate] before attenuation: the sparse convolution for one sample. *)
Definition convolve (irTrimmed : f32) (irDelayOffset : Z) (line : f32)
    (pos delayLineLen : Z) : num :=
  fold_left
    (fun echo k =>
       let delayIdx :=
         Z.rem (pos - irDelayOffset - k + 5 * delayLineLen) delayLineLen in
       nadd echo (nmul (f32_get irTrimmed k) (f32_get line delayIdx)))
    (range (f32_length irTrimmed)) (Some 0%R).

(** The state of the sample loop of the cancelling branch of [onFrame]. *)
Record loopState : Type := mkLoop {
  l_line : f32;
  l_pos : Z;
  l_out : f32;
  l_debug : option f32;
  l_debugPos : Z
}.

Definition cancelStep (fx : FauxecState.t) (atten : R) (irTrimmed : f32)
    (irDelayOffset delayLineLen : Z) (nearEndFrame farEndFrame : f32)
    (st : loopState) (i : Z) : loopState :=
  let pos := Z.rem (l_pos st + 1) delayLineLen in
  let line := f32_set (l_line st) pos (f32_get farEndFrame i) in
  let echoEstimate :=
    nmul (convolve irTrimmed irDelayOffset line pos delayLineLen) (Some atten) in
  let out := f32_set (l_out st) i (nsub (f32_get nearEndFrame i) echoEstimate) in
  match l_debug st with
  | Some d =>
      if l_debugPos st <? FauxecState.debugMaxSamples fx then
        mkLoop line pos out (Some (f32_set d (l_debugPos st) echoEstimate))
               (l_debugPos st + 1)
      else mkLoop line pos out (Some d) (l_debugPos st)
  | None => mkLoop line pos out None (l_debugPos st)
  end.

(** [onFrame(nSamples, nearEndFrame, farEndFrame, outFrame, testSignalFrame)].
    The result is the state, the output frame and the test-signal frame.  In
    the cancelling branch a measurer that is ready but has no trimmed response
    cannot arise ([ready] is only set together with [irTrimmed]); reading
    [irTrimmed.length] would throw there. *)
Definition onFrame (fx : FauxecState.t) (s : t) (nSamples : Z)
    (nearEndFrame farEndFrame outFrame : f32) (testSignalFrame : option f32)
  : outcome t * f32 * option f32 :=
  match rir s with
  | IRMeasurementHelperMock =>
      (Returned s, fillZero nSamples outFrame, testSignalFrame)
  | IRMeasurementHelperReal h =>
      if negb (IRMeasurementHelper.ready h) then
        match IRMeasurementHelper.onFrame sampleRate h nSamples nearEndFrame
                testSignalFrame with
        | (Threw h', tsf) =>
            (Threw (set_rir s (IRMeasurementHelperReal h')), outFrame, tsf)
        | (Returned h', tsf) =>
            let out := fillZero nSamples outFrame in
            if IRMeasurementHelper.ready h' then
              (Returned
                 (mk (config s) (IRMeasurementHelperReal h')
                     (f32_new (f32_length (IRMeasurementHelper.ir h'))) 0
                     (debugEchoEstimate s) (debugWritePos s)),
               out, tsf)
            else (Returned (set_rir s (IRMeasurementHelperReal h')), out, tsf)
        end
      else
        match IRMeasurementHelper.irTrimmed h with
        | None => (Threw s, outFrame, testSignalFrame)
        | Some irTrimmed =>
            let atten := RIRCfg.echoAttenuation (config s) in
            let irDelayOffset := IRMeasurementHelper.irDelayOffset h in
            let delayLineLen := f32_length (farEndDelayLine s) in
            let st :=
              fold_left
                (cancelStep fx atten irTrimmed irDelayOffset delayLineLen
                   nearEndFrame farEndFrame)
                (range nSamples)
                (mkLoop (farEndDelayLine s) (farEndDelayPos s) outFrame
                        (debugEchoEstimate s) (debugWritePos s)) in
            (Returned
               (mk (config s) (rir s) (l_line st) (l_pos st)
                   (l_debug st) (l_debugPos st)),
             l_out st, testSignalFrame)
        end
  end.

End WithSampleRate.

End RIRStrategy.

(** ** NLMSStrategy *)

Module NLMSCfg.

Record t : Type := mk {
  filterLength : Z;
  stepSize : R;
  epsilon : R;
  leakage : R;
  minDelayMs : Z
}.

Record delta : Type := mkDelta {
  d_filterLength : option Z;
  d_stepSize : option R;
  d_epsilon : option R;
  d_leakage : option R;
  d_minDelayMs : option Z
}.

(** [NLMSStrategy.getDefaultCfg()] *)
Definition getDefaultCfg : t :=
  {| filterLength := 4096;
     stepSize := (5 / 10)%R;
     epsilon := (1 / 100000000)%R;
     leakage := (9999 / 10000)%R;
     minDelayMs := 50 |}.

Definition assign (config : t) (value : delta) : t :=
  {| filterLength := RIRCfg.pick (d_filterLength value) (filterLength config);
     stepSize := RIRCfg.pick (d_stepSize value) (stepSize config);
     epsilon := RIRCfg.pick (d_epsilon value) (epsilon config);
     leakage := RIRCfg.pick (d_leakage value) (leakage config);
     minDelayMs := RIRCfg.pick (d_minDelayMs value) (minDelayMs config) |}.

End NLMSCfg.

Module NLMSStrategy.

Section WithSampleRate.

Variable sampleRate : Z.

Record t : Type := mk {
  config : NLMSCfg.t;
  h : f32;
  xBuf : f32;
  xBufPos : Z;
  minDelaySamples : Z;
  filterUpdates : Z;
  maxCoeff : num;
  peakTap : Z
}.

(** [initFilter()]; it throws on a negative filter length, before any field
    is assigned. *)
Definition initFilter (s : t) : outcome t :=
  let len := NLMSCfg.filterLength (config s) in
  if len <? 0 then Threw s
  else
    Returned
      (mk (config s) (f32_new len) (f32_new len) 0
          (msToSamples sampleRate (NLMSCfg.minDelayMs (config s)))
          (filterUpdates s) (maxCoeff s) (peakTap s)).

(** The constructor, with the default configuration. *)
Definition create : t :=
  let len := NLMSCfg.filterLength NLMSCfg.getDefaultCfg in
  mk NLMSCfg.getDefaultCfg (f32_new len) (f32_new len) 0
     (msToSamples sampleRate (NLMSCfg.minDelayMs NLMSCfg.getDefaultCfg))
     0 (Some 0%R) 0.

Definition set_config (s : t) (c : NLMSCfg.t) : t :=
  mk c (h s) (xBuf s) (xBufPos s) (minDelaySamples s) (filterUpdates s)
     (maxCoeff s) (peakTap s).

(** [onMessage('nlms_config', value)] *)
Definition onConfig (s : t) (value : NLMSCfg.delta) : outcome t :=
  let oldLen := NLMSCfg.filterLength (config s) in
  let s1 := set_config s (NLMSCfg.assign (config s) value) in
  let afterInit :=
    match NLMSCfg.d_filterLength value with
    | Some len => if len =? oldLen then Returned s1 else initFilter s1
    | None => Returned s1
    end in
  match afterInit with
  | Threw s2 => Threw s2
  | Returned s2 =>
      match NLMSCfg.d_minDelayMs value with
      | Some _ =>
          Returned
            (mk (config s2) (h s2) (xBuf s2) (xBufPos s2)
                (msToSamples sampleRate (NLMSCfg.minDelayMs (config s2)))
                (filterUpdates s2) (maxCoeff s2) (peakTap s2))
      | None => Returned s2
      end
  end.

(** [onMessage('nlms_reset', value)] *)
Definition onReset (s : t) : outcome t := initFilter s.

(** The direct computation of the windowed energy: the loop that sets the
    initial [xPower] at the start of [onFrame]. *)
Definition windowEnergy (xBuf : f32) (xBufPos minDelay len : Z) : num :=
  fold_left
    (fun xPower j =>
       let xIdx := Z.rem (xBufPos - j + len) len in
       nadd xPower (nmul (f32_get xBuf xIdx) (f32_get xBuf xIdx)))
    (rangeFrom minDelay len) (Some 0%R).

(** [yHat]: the echo estimate. *)
Definition estimate (h xBuf : f32) (xBufPos minDelay len : Z) : num :=
  fold_left
    (fun yHat j =>
       let xIdx := Z.rem (xBufPos - j + len) len in
       nadd yHat (nmul (f32_get h j) (f32_get xBuf xIdx)))
    (rangeFrom minDelay len) (Some 0%R).

(** The coefficient update loop. *)
Definition adapt (h xBuf : f32) (xBufPos minDelay len : Z)
    (leakage : R) (normFactor error : num) : f32 :=
  fold_left
    (fun h j =>
       let xIdx := Z.rem (xBufPos - j + len) len in
       f32_set h j
         (nadd (nmul (Some leakage) (f32_get h j))
               (nmul (nmul normFactor error) (f32_get xBuf xIdx))))
    (rangeFrom minDelay len) h.

(** The state of the sample loop of [onFrame]. *)
Record loopState : Type := mkLoop {
  l_h : f32;
  l_xBuf : f32;
  l_xBufPos : Z;
  l_xPower : num;
  l_out : f32;
  l_filterUpdates : Z;
  l_log : list Event
}.

(** One iteration of the sample loop. *)
Definition sampleStep (cfg : NLMSCfg.t) (minDelay : Z)
    (nearEndFrame farEndFrame : f32) (st : loopState) (i : Z) : loopState :=
  let len := NLMSCfg.filterLength cfg in
  let leavingVal := f32_get (l_xBuf st) (Z.rem (l_xBufPos st + 1) len) in
  let pos := Z.rem (l_xBufPos st + 1) len in
  let xBuf := f32_set (l_xBuf st) pos (f32_get farEndFrame i) in
  let enteringVal := f32_get xBuf (Z.rem (pos - minDelay + len) len) in
  let xPower :=
    nadd (nsub (l_xPower st) (nmul leavingVal leavingVal))
         (nmul enteringVal enteringVal) in
  let yHat := estimate (l_h st) xBuf pos minDelay len in
  let error := nsub (f32_get nearEndFrame i) yHat in
  let out := f32_set (l_out st) i error in
  if nlt xPower (Some (NLMSCfg.epsilon cfg)) then
    mkLoop (l_h st) xBuf pos xPower out (l_filterUpdates st)
           (l_log st ++ [LogXPower xPower])
  else
    let normFactor := ndiv (Some (NLMSCfg.stepSize cfg)) xPower in
    mkLoop (adapt (l_h st) xBuf pos minDelay len (NLMSCfg.leakage cfg) normFactor error)
           xBuf pos xPower out (l_filterUpdates st + 1) (l_log st).

(** The loop state when the sample loop starts. *)
Definition loopInit (s : t) (outFrame : f32) : loopState :=
  mkLoop (h s) (xBuf s) (xBufPos s)
         (windowEnergy (xBuf s) (xBufPos s) (minDelaySamples s)
            (NLMSCfg.filterLength (config s)))
         outFrame (filterUpdates s) [].

(** The loop state after the first [k] samples of a frame. *)
Definition loopAfter (s : t) (k : Z) (nearEndFrame farEndFrame outFrame : f32)
  : loopState :=
  fold_left (sampleStep (config s) (minDelaySamples s) nearEndFrame farEndFrame)
    (range k) (loopInit s outFrame).

(** The periodic statistic: the pair is [(maxVal, maxIdx)]. *)
Definition peakCoeff (len : Z) (h : f32) : num * Z :=
  fold_left
    (fun (acc : num * Z) j =>
       let absVal := nabs (f32_get h j) in
       if ngt absVal (fst acc) then (absVal, j) else acc)
    (range len) (Some 0%R, 0).

(** [onFrame(nSamples, nearEndFrame, farEndFrame, outFrame)] *)
Definition onFrame (s : t) (nSamples : Z) (nearEndFrame farEndFrame outFrame : f32)
  : t * f32 * list Event :=
  let st := loopAfter s nSamples nearEndFrame farEndFrame outFrame in
  let len := NLMSCfg.filterLength (config s) in
  let '(maxCoeff', peakTap') :=
    if Z.rem (l_filterUpdates st) 10000 <? nSamples
    then peakCoeff len (l_h st)
    else (maxCoeff s, peakTap s) in
  (mk (config s) (l_h st) (l_xBuf st) (l_xBufPos st) (minDelaySamples s)
      (l_filterUpdates st) maxCoeff' peakTap',
   l_out st, l_log st).

End WithSampleRate.

End NLMSStrategy.

(** ** NoisyFauxECProcessor: the control-message handler *)

Inductive StrategyId : Type :=
| Passthrough | SilenceMic | TestTone | NaiveSubtract
| HalfDuplex | TimeAlignedSubtract | Rir | Lms.

(** What [this.strategies[name]] evaluates to.  [this.strategies] is an
    object literal, so besides its eight own keys a lookup also finds the
    members it inherits from [Object.prototype], all of them truthy. *)
Inductive Property : Type :=
| OwnStrategy (id : StrategyId)
| InheritedFromObject
| Undefined.

Module NoisyFauxECProcessor.

Section WithSampleRate.

Variable sampleRate : Z.

(** The keys of the [this.strategies] literal. *)
Definition strategies : list (string * StrategyId) :=
  [ ("passthrough", Passthrough);
    ("silenceMic", SilenceMic);
    ("testTone", TestTone);
    ("naiveSubtract", NaiveSubtract);
    ("halfDuplex", HalfDuplex);
    ("timeAlignedSubtract", TimeAlignedSubtract);
    ("rir", Rir);
    ("lms", Lms) ]%string.

(** The property names of [Object.prototype]. *)
Definition objectPrototypeKeys : list string :=
  [ "constructor"; "hasOwnProperty"; "isPrototypeOf"; "propertyIsEnumerable";
    "toLocaleString"; "toString"; "valueOf"; "__proto__";
    "__defineGetter__"; "__defineSetter__"; "__lookupGetter__";
    "__lookupSetter__" ]%string.

Fixpoint assoc (name : string) (l : list (string * StrategyId)) : option StrategyId :=
  match l with
  | [] => None
  | (k, v) :: tl => if String.eqb name k then Some v else assoc name tl
  end.

(** [this.strategies[name]] *)
Definition getStrategy (name : string) : Property :=
  match assoc name strategies with
  | Some id => OwnStrategy id
  | None =>
      if existsb (String.eqb name) objectPrototypeKeys
      then InheritedFromObject else Undefined
  end.

Definition truthy (p : Property) : bool :=
  match p with
  | Undefined => false
  | _ => true
  end.

Definition keyOf (id : StrategyId) : string :=
  match id with
  | Passthrough => "passthrough"
  | SilenceMic => "silenceMic"
  | TestTone => "testTone"
  | NaiveSubtract => "naiveSubtract"
  | HalfDuplex => "halfDuplex"
  | TimeAlignedSubtract => "timeAlignedSubtract"
  | Rir => "rir"
  | Lms => "lms"
  end.

(** The processor state the control messages act on: the mode, the four
    configurable strategies, and the trace of what has been logged, posted
    and invoked so far.  The other four strategies have neither a
    configuration nor an [onSelected] of their own. *)
Record t : Type := mk {
  mode : string;
  halfDuplex : HalfDuplexStrategy.t;
  timeAlignedSubtract : TimeAlignedSubtractStrategy.t;
  rir : RIRStrategy.t;
  lms : NLMSStrategy.t;
  trace : list Event
}.

(** The constructor: the mode starts as ["passthrough"]; it throws when
    the constructor of [TimeAlignedSubtractStrategy] does. *)
Definition create : option t :=
  match TimeAlignedSubtractStrategy.create sampleRate with
  | Some ta =>
      Some (mk "passthrough" HalfDuplexStrategy.create ta RIRStrategy.create
               (NLMSStrategy.create sampleRate) [])
  | None => None
  end.

Definition set_mode (s : t) (m : string) : t :=
  mk m (halfDuplex s) (timeAlignedSubtract s) (rir s) (lms s) (trace s).

Definition set_halfDuplex (s : t) (x : HalfDuplexStrategy.t) : t :=
  mk (mode s) x (timeAlignedSubtract s) (rir s) (lms s) (trace s).

Definition set_timeAlignedSubtract (s : t) (x : TimeAlignedSubtractStrategy.t) : t :=
  mk (mode s) (halfDuplex s) x (rir s) (lms s) (trace s).

Definition set_rir (s : t) (x : RIRStrategy.t) (events : list Event) : t :=
  mk (mode s) (halfDuplex s) (timeAlignedSubtract s) x (lms s) (trace s ++ events).

Definition set_lms (s : t) (x : NLMSStrategy.t) : t :=
  mk (mode s) (halfDuplex s) (timeAlignedSubtract s) (rir s) x (trace s).

Definition addEvents (s : t) (events : list Event) : t :=
  mk (mode s) (halfDuplex s) (timeAlignedSubtract s) (rir s) (lms s)
     (trace s ++ events).

(** Lift a strategy's outcome to the processor. *)
Definition lift {A : Type} (o : outcome A) (f : A -> t) : outcome t :=
  match o with
  | Returned a => Returned (f a)
  | Threw a => Threw (f a)
  end.

Definition andThen (o : outcome t) (f : t -> outcome t) : outcome t :=
  match o with
  | Returned s => f s
  | Threw s => Threw s
  end.

(** [this.strategies[name].onSelected()].  Only [RIRStrategy] overrides the
    empty [onSelected] of the base class.  On a value that is not a strategy
    the call is a [TypeError]. *)
Definition callOnSelected (s : t) (name : string) : outcome t :=
  match getStrategy name with
  | OwnStrategy Rir =>
      let '(o, events) := RIRStrategy.onSelected sampleRate (rir s) in
      lift o (fun r => set_rir s r events)
  | OwnStrategy id => Returned (addEvents s [CallOnSelected (keyOf id)])
  | InheritedFromObject => Threw s
  | Undefined => Threw s
  end.

(** [this.mode = name; this.strategies[name].onSelected();] *)
Definition switchMode (s : t) (name : string) : outcome t :=
  callOnSelected (set_mode s name) name.

(** The control messages modelled here. *)
Inductive Message : Type :=
| SetConfigs (mode : option string)
             (timeAligned : option XCorrCfg.t)
             (halfDuplex : option HalfDuplexCfg.delta)
             (rir : option RIRCfg.delta)
             (nlms : option NLMSCfg.delta)
| SetMode (value : string)
| NlmsReset
| RirMeasure.

Definition dispatchTimeAligned (cfg : option XCorrCfg.t) (s : t) : outcome t :=
  match cfg with
  | Some v =>
      lift (TimeAlignedSubtractStrategy.updateConfig sampleRate (timeAlignedSubtract s) v)
           (set_timeAlignedSubtract s)
  | None => Returned s
  end.

Definition dispatchHalfDuplex (cfg : option HalfDuplexCfg.delta) (s : t) : outcome t :=
  match cfg with
  | Some v => Returned (set_halfDuplex s (HalfDuplexStrategy.onMessage (halfDuplex s) v))
  | None => Returned s
  end.

Definition dispatchRir (cfg : option RIRCfg.delta) (s : t) : outcome t :=
  match cfg with
  | Some v =>
      let '(o, events) := RIRStrategy.onMessage sampleRate (rir s) v in
      lift o (fun r => set_rir s r events)
  | None => Returned s
  end.

Definition dispatchNlms (cfg : option NLMSCfg.delta) (s : t) : outcome t :=
  match cfg with
  | Some v => lift (NLMSStrategy.onConfig sampleRate (lms s) v) (set_lms s)
  | None => Returned s
  end.

(** The mode part of [setConfigs]:
    [if (mode && this.strategies[mode] && this.mode !== mode)]. *)
Definition setConfigsMode (s : t) (m : option string) : outcome t :=
  match m with
  | Some name =>
      if negb (String.eqb name "") && truthy (getStrategy name)
         && negb (String.eqb (mode s) name)
      then switchMode s name
      else Returned s
  | None => Returned s
  end.

(** [this.port.onmessage] *)
Definition onmessage (s : t) (msg : Message) : outcome t :=
  match msg with
  | SetConfigs m timeAligned hd r nlms =>
      andThen (setConfigsMode s m) (fun s =>
      andThen (dispatchTimeAligned timeAligned s) (fun s =>
      andThen (dispatchHalfDuplex hd s) (fun s =>
      andThen (dispatchRir r s) (dispatchNlms nlms))))
  | SetMode value =>
      if negb (truthy (getStrategy value)) then
        Returned (addEvents s [ConsoleError value])
      else if negb (String.eqb (mode s) value) then switchMode s value
      else Returned s
  | NlmsReset => lift (NLMSStrategy.onReset sampleRate (lms s)) (set_lms s)
  | RirMeasure =>
      let '(o, events) := RIRStrategy.onSelected sampleRate (rir s) in
      lift o (fun r => set_rir s r events)
  end.

(** How many times [onSelected] was invoked on the strategy registered
    under [name], according to a trace. *)
Definition selectedCount (name : string) (events : list Event) : nat :=
  List.length
    (filter (fun e => match e with
                      | CallOnSelected n => String.eqb n name
                      | _ => false
                      end) events).

(** How many times any [onSelected] was invoked. *)
Definition anySelectedCount (events : list Event) : nat :=
  List.length
    (filter (fun e => match e with CallOnSelected _ => true | _ => false end) events).

End WithSampleRate.

End NoisyFauxECProcessor.

(** ** The strategies without configuration *)

Module PassthroughStrategy.

(** [onFrame(nSamples, nearEndFrame, farEndFrame, outFrame)] *)
Definition onFrame (nSamples : Z) (nearEndFrame outFrame : f32) : f32 :=
  fold_left (fun out i => f32_set out i (f32_get nearEndFrame i)) (range nSamples) outFrame.

End PassthroughStrategy.

Module SilenceMicStrategy.

Definition onFrame (nSamples : Z) (outFrame : f32) : f32 :=
  fold_left (fun out i => f32_set out i (Some 0%R)) (range nSamples) outFrame.

End SilenceMicStrategy.

Module TestToneStrategy.

Section WithSampleRate.

Variable sampleRate : Z.

Record t : Type := mk { phase : Z }.

Definition create : t := mk 0.

(** [onFrame]: the near end plus a tone.  With a sample rate of 0 the new
    phase is [NaN] in the source; here [Z.rem] leaves the sum. *)
Definition onFrame (s : t) (nSamples : Z) (nearEndFrame outFrame : f32) : t * f32 :=
  (mk (Z.rem (phase s + nSamples) sampleRate),
   fold_left
     (fun out i =>
        f32_set out i
          (nadd (f32_get nearEndFrame i)
                (nmul (Some (1 / 10)%R)
                      (nsin (ndiv (nofZ (880 * (i + phase s))) (nofZ sampleRate))))))
     (range nSamples) outFrame).

End WithSampleRate.

End TestToneStrategy.

Module NaiveSubtractStrategy.

Definition onFrame (nSamples : Z) (nearEndFrame farEndFrame outFrame : f32) : f32 :=
  fold_left
    (fun out i => f32_set out i (nsub (f32_get nearEndFrame i) (f32_get farEndFrame i)))
    (range nSamples) outFrame.

End NaiveSubtractStrategy.

(** ** NoisyFauxECProcessor: buffering and [process] *)

Module AudioProcess.

Section WithSampleRate.

Variable sampleRate : Z.

(** [this.debugTracks] *)
Record DebugTracks : Type := mkTracks {
  t_nearEnd : f32;
  t_farEnd : f32;
  t_output : f32
}.

(** The processor: the control state of [NoisyFauxECProcessor] together with
    the fields that [process] uses.  [stats] and the buffering fields of
    [fauxecState] are fields of this record. *)
Record t : Type := mk {
  proc : NoisyFauxECProcessor.t;
  testTone : TestToneStrategy.t;
  fx : FauxecState.t;
  frames : Z;
  xruns : Z;
  bufferFrameCount : Z;
  renderQuantum : Z;
  bufferSize : Z;
  nearEndBuffer : f32;
  farEndBuffer : f32;
  outputBuffer : f32;
  testSignalBuffer : f32;
  bufferWritePos : Z;
  bufferReadPos : Z;
  bufferedFrames : Z;
  debugTracks : option DebugTracks;
  debugWritePos : Z;
  processingTimeHistory : list Z
}.

(** The constructor. *)
Definition create : option t :=
  match NoisyFauxECProcessor.create sampleRate with
  | Some p =>
      let bufferFrameCount := 1 in
      let renderQuantum := 128 in
      let bufferSize := bufferFrameCount * renderQuantum in
      Some (mk p TestToneStrategy.create (FauxecState.mk false (sampleRate * 30))
               0 0 bufferFrameCount renderQuantum bufferSize
               (f32_new bufferSize) (f32_new bufferSize) (f32_new bufferSize)
               (f32_new bufferSize) 0 0 0 None 0 [])
  | None => None
  end.

(** The [setBufferFrameCount] message, for an integer [value]. *)
Definition setBufferFrameCount (s : t) (value : Z) : t :=
  let newCount := Z.max 1 value in
  let size := newCount * renderQuantum s in
  mk (proc s) (testTone s) (fx s) (frames s) (xruns s) newCount (renderQuantum s) size
     (f32_new size) (f32_new size) (f32_new size) (f32_new size) 0 0 0
     (debugTracks s) (debugWritePos s) (processingTimeHistory s).

Definition set_proc (s : t) (p : NoisyFauxECProcessor.t) : t :=
  mk p (testTone s) (fx s) (frames s) (xruns s) (bufferFrameCount s) (renderQuantum s)
     (bufferSize s) (nearEndBuffer s) (farEndBuffer s) (outputBuffer s)
     (testSignalBuffer s) (bufferWritePos s) (bufferReadPos s) (bufferedFrames s)
     (debugTracks s) (debugWritePos s) (processingTimeHistory s).

Definition set_testTone (s : t) (x : TestToneStrategy.t) : t :=
  mk (proc s) x (fx s) (frames s) (xruns s) (bufferFrameCount s) (renderQuantum s)
     (bufferSize s) (nearEndBuffer s) (farEndBuffer s) (outputBuffer s)
     (testSignalBuffer s) (bufferWritePos s) (bufferReadPos s) (bufferedFrames s)
     (debugTracks s) (debugWritePos s) (processingTimeHistory s).

(** [strategy.onFrame(totalSamples, this.nearEndBuffer, this.farEndBuffer,
    this.outputBuffer, this.testSignalBuffer)] for
    [strategy = this.strategies[this.mode]].  The result is the processor, the
    output buffer and the test-signal buffer after the call; [None] when the
    call does not terminate.  On a value that is not a strategy the call is a
    [TypeError]. *)
Definition runStrategy (s : t) (totalSamples : Z) (testSignal : f32)
  : option (outcome t * f32 * f32) :=
  let p := proc s in
  let nearEnd := nearEndBuffer s in
  let farEnd := farEndBuffer s in
  let out := outputBuffer s in
  match NoisyFauxECProcessor.getStrategy (NoisyFauxECProcessor.mode p) with
  | OwnStrategy Passthrough =>
      Some (Returned s, PassthroughStrategy.onFrame totalSamples nearEnd out, testSignal)
  | OwnStrategy SilenceMic =>
      Some (Returned s, SilenceMicStrategy.onFrame totalSamples out, testSignal)
  | OwnStrategy TestTone =>
      let '(tone, o) :=
        TestToneStrategy.onFrame sampleRate (testTone s) totalSamples nearEnd out in
      Some (Returned (set_testTone s tone), o, testSignal)
  | OwnStrategy NaiveSubtract =>
      Some (Returned s, NaiveSubtractStrategy.onFrame totalSamples nearEnd farEnd out,
            testSignal)
  | OwnStrategy HalfDuplex =>
      let '(hd, o, events) :=
        HalfDuplexStrategy.onFrame sampleRate (NoisyFauxECProcessor.halfDuplex p)
          totalSamples nearEnd farEnd out in
      Some (Returned
              (set_proc s (NoisyFauxECProcessor.addEvents
                             (NoisyFauxECProcessor.set_halfDuplex p hd) events)),
            o, testSignal)
  | OwnStrategy TimeAlignedSubtract =>
      match TimeAlignedSubtractStrategy.onFrame (fx s)
              (NoisyFauxECProcessor.timeAlignedSubtract p) totalSamples nearEnd farEnd out
      with
      | Some (ta, o, events) =>
          Some (Returned
                  (set_proc s (NoisyFauxECProcessor.addEvents
                                 (NoisyFauxECProcessor.set_timeAlignedSubtract p ta)
                                 events)),
                o, testSignal)
      | None => None
      end
  | OwnStrategy Rir =>
      let '(o, outFrame, tsf) :=
        RIRStrategy.onFrame sampleRate (fx s) (NoisyFauxECProcessor.rir p) totalSamples
          nearEnd farEnd out (Some testSignal) in
      let testSignal' := match tsf with Some f => f | None => testSignal end in
      match o with
      | Returned r =>
          Some (Returned (set_proc s (NoisyFauxECProcessor.set_rir p r [])),
                outFrame, testSignal')
      | Threw r =>
          Some (Threw (set_proc s (NoisyFauxECProcessor.set_rir p r [])),
                outFrame, testSignal')
      end
  | OwnStrategy Lms =>
      let '(l, o, events) :=
        NLMSStrategy.onFrame (NoisyFauxECProcessor.lms p) totalSamples nearEnd farEnd out in
      Some (Returned
              (set_proc s (NoisyFauxECProcessor.addEvents
                             (NoisyFauxECProcessor.set_lms p l) events)),
            o, testSignal)
  | InheritedFromObject => Some (Threw s, out, testSignal)
  | Undefined => Some (Threw s, out, testSignal)
  end.

(** The accumulation loop: the pair is [(nearEndBuffer, farEndBuffer)]. *)
Definition accumulate (s : t) (nSamples : Z) (nearEndFrame farEndFrame : f32)
  : f32 * f32 :=
  fold_left
    (fun (acc : f32 * f32) i =>
       (f32_set (fst acc) (bufferWritePos s + i) (f32_get nearEndFrame i),
        f32_set (snd acc) (bufferWritePos s + i) (f32_get farEndFrame i)))
    (range nSamples) (nearEndBuffer s, farEndBuffer s).

(** The debug capture loop: the pair is [(debugTracks, debugWritePos)]. *)
Definition recordDebug (maxSamples totalSamples : Z) (nearEnd farEnd output : f32)
    (tracks : DebugTracks) (pos : Z) : DebugTracks * Z :=
  fold_left
    (fun (acc : DebugTracks * Z) i =>
       let '(tr, wp) := acc in
       if wp <? maxSamples then
         (mkTracks (f32_set (t_nearEnd tr) wp (f32_get nearEnd i))
                   (f32_set (t_farEnd tr) wp (f32_get farEnd i))
                   (f32_set (t_output tr) wp (f32_get output i)),
          wp + 1)
       else acc)
    (range totalSamples) (tracks, pos).

(** The part of [process] up to the reset of the positions: accumulate the
    inputs and, when the batch is complete, run the strategy.  [None] when
    the strategy does not terminate. *)
Definition batchStage (s : t) (nSamples : Z) (nearEndFrame farEndFrame : f32)
  : option (outcome t) :=
  let '(nearBuf, farBuf) := accumulate s nSamples nearEndFrame farEndFrame in
  let s1 :=
    mk (proc s) (testTone s) (fx s) (frames s + 1) (xruns s) (bufferFrameCount s)
       (renderQuantum s) (bufferSize s) nearBuf farBuf (outputBuffer s)
       (testSignalBuffer s) (bufferWritePos s + nSamples) (bufferReadPos s)
       (bufferedFrames s + 1) (debugTracks s) (debugWritePos s)
       (processingTimeHistory s) in
  if bufferedFrames s1 >=? bufferFrameCount s1 then
    let totalSamples := bufferSize s1 in
    let cleared := fillZero totalSamples (testSignalBuffer s1) in
    match runStrategy s1 totalSamples cleared with
    | None => None
    | Some (o, out, test) =>
        let withBuffers (s2 : t) (tracks : option DebugTracks) (dpos wp rp bf : Z) :=
          mk (proc s2) (testTone s2) (fx s2) (frames s2) (xruns s2) (bufferFrameCount s2)
             (renderQuantum s2) (bufferSize s2) (nearEndBuffer s2) (farEndBuffer s2)
             out test wp rp bf tracks dpos (processingTimeHistory s2) in
        match o with
        | Threw s2 =>
            Some (Threw (withBuffers s2 (debugTracks s2) (debugWritePos s2)
                           (bufferWritePos s2) (bufferReadPos s2) (bufferedFrames s2)))
        | Returned s2 =>
            let '(tracks, dpos) :=
              match debugTracks s2 with
              | Some tr =>
                  if FauxecState.debugRecording (fx s2) then
                    let '(tr', wp') :=
                      recordDebug (FauxecState.debugMaxSamples (fx s2)) totalSamples
                        (nearEndBuffer s2) (farEndBuffer s2) out tr (debugWritePos s2) in
                    (Some tr', wp')
                  else (Some tr, debugWritePos s2)
              | None => (None, debugWritePos s2)
              end in
            Some (Returned (withBuffers s2 tracks dpos 0 0 0))
        end
    end
  else Some (Returned s1).

(** [timesliceMs * 0.8 < processingMs] *)
Definition isXrun (nSamples processingMs : Z) : bool :=
  ngt (nofZ processingMs)
      (nmul (nmul (ndiv (nofZ nSamples) (nofZ sampleRate)) (Some 1000%R))
            (Some (8 / 10)%R)).

(** [push], then [shift] when more than 1000 entries are held. *)
Definition pushHistory (history : list Z) (processingMs : Z) : list Z :=
  let h := history ++ [processingMs] in
  if (1000 <? Z.of_nat (length h)) then tl h else h.

(** Copy channel 0 to another channel of the same output. *)
Definition copyChannel (from to : f32) : f32 :=
  fold_left (fun ch i => f32_set ch i (f32_get from i)) (range (f32_length to)) to.

(** [process(inputs, outputs)].  [nearEnd] and [farEnd] are the first
    channels of the two inputs, where present; [output] and
    [testSignalOutput] are the channels of the two outputs; [processingMs] is
    the difference of the two clock readings.  The result is the processor
    and the two outputs; [None] when the strategy does not terminate. *)
Definition process (s : t) (nearEnd farEnd : option f32) (output : list f32)
    (testSignalOutput : option (list f32)) (processingMs : Z)
  : option (outcome t * list f32 * option (list f32)) :=
  match output with
  | [] =>
      Some (Threw
              (mk (proc s) (testTone s) (fx s) (frames s + 1) (xruns s)
                  (bufferFrameCount s) (renderQuantum s) (bufferSize s)
                  (nearEndBuffer s) (farEndBuffer s) (outputBuffer s)
                  (testSignalBuffer s) (bufferWritePos s) (bufferReadPos s)
                  (bufferedFrames s) (debugTracks s) (debugWritePos s)
                  (processingTimeHistory s)),
            output, testSignalOutput)
  | out0 :: others =>
      let nSamples := f32_length out0 in
      let nearEndFrame :=
        match nearEnd with Some f => f | None => f32_new nSamples end in
      let farEndFrame :=
        match farEnd with Some f => f | None => f32_new nSamples end in
      match batchStage s nSamples nearEndFrame farEndFrame with
      | None => None
      | Some (Threw s2) => Some (Threw s2, output, testSignalOutput)
      | Some (Returned s2) =>
          let readStart := bufferReadPos s2 in
          let out0' :=
            fold_left
              (fun out i => f32_set out i (f32_get (outputBuffer s2) (readStart + i)))
              (range nSamples) out0 in
          let output' := out0' :: map (copyChannel out0') others in
          let s3 (history : list Z) (x : Z) :=
            mk (proc s2) (testTone s2) (fx s2) (frames s2) x (bufferFrameCount s2)
               (renderQuantum s2) (bufferSize s2) (nearEndBuffer s2) (farEndBuffer s2)
               (outputBuffer s2) (testSignalBuffer s2) (bufferWritePos s2)
               (readStart + nSamples) (bufferedFrames s2) (debugTracks s2)
               (debugWritePos s2) history in
          let finish (test' : option (list f32)) :=
            Some (Returned
                    (s3 (pushHistory (processingTimeHistory s2) processingMs)
                        (if isXrun nSamples processingMs then xruns s2 + 1
                         else xruns s2)),
                  output', test') in
          match testSignalOutput with
          | None => finish None
          | Some [] =>
              if 0 <? nSamples
              then Some (Threw (s3 (processingTimeHistory s2) (xruns s2)), output',
                         testSignalOutput)
              else finish (Some [])
          | Some (test0 :: testOthers) =>
              let test0' :=
                fold_left
                  (fun ch i =>
                     f32_set ch i (f32_get (testSignalBuffer s2) (readStart + i)))
                  (range nSamples) test0 in
              finish (Some (test0' :: map (copyChannel test0') testOthers))
          end
      end
  end.

End WithSampleRate.

End AudioProcess.

(** * Vocabulary of the properties and concrete inputs *)

(** A measurer whose two-sample recording is all zeros. *)
Definition silentRecording : IRMeasurementHelper.t :=
  {| IRMeasurementHelper.signalType := "dirac_square";
     IRMeasurementHelper.irLength := 2;
     IRMeasurementHelper.measureSamples := 2;
     IRMeasurementHelper.testSignal := [Some (- (8 / 10))%R; Some (8 / 10)%R];
     IRMeasurementHelper.testSignalEnergy := Some (128 / 100)%R;
     IRMeasurementHelper.recordBuffer := [Some 0%R; Some 0%R];
     IRMeasurementHelper.recordPos := 2;
     IRMeasurementHelper.playPos := 2;
     IRMeasurementHelper.ir := [Some 0%R; Some 0%R];
     IRMeasurementHelper.irTrimmed := None;
     IRMeasurementHelper.irDelayOffset := 0;
     IRMeasurementHelper.ready := false;
     IRMeasurementHelper.irAcquired := false;
     IRMeasurementHelper.peakValue := Some 0%R;
     IRMeasurementHelper.peakDelayMs := Some 0%R;
     IRMeasurementHelper.crestFactor := Some 0%R;
     IRMeasurementHelper.peakAtBoundary := false;
     IRMeasurementHelper.debugPeakSum := Some 0%R;
     IRMeasurementHelper.debugRecordRms := Some 0%R;
     IRMeasurementHelper.irSumBeforeNorm := Some 0%R |}.

(** The measurement is complete and its trimmed response is empty. *)
Definition silentComplete (s : RIRStrategy.t) : Prop :=
  exists h,
    RIRStrategy.rir s = IRMeasurementHelperReal h
    /\ IRMeasurementHelper.ready h = true
    /\ IRMeasurementHelper.irTrimmed h = Some [].

(** The states a strategy goes through while it only processes frames. *)
Inductive afterFrames (sampleRate : Z) (fx : FauxecState.t) (s : RIRStrategy.t)
  : RIRStrategy.t -> Prop :=
| afterFrames_refl : afterFrames sampleRate fx s s
| afterFrames_step s1 s2 nSamples nearEndFrame farEndFrame outFrame tsf out tsf' :
    afterFrames sampleRate fx s s1 ->
    RIRStrategy.onFrame sampleRate fx s1 nSamples nearEndFrame farEndFrame outFrame tsf
      = (Returned s2, out, tsf') ->
    afterFrames sampleRate fx s s2.

(** The strategy right after the silent measurement above completed. *)
Definition silentMeasured : IRMeasurementHelper.t :=
  outcome_state (IRMeasurementHelper._computeIR 48000 silentRecording).

Definition silentStrategy : RIRStrategy.t :=
  {| RIRStrategy.config := RIRCfg.getDefaultCfg;
     RIRStrategy.rir := IRMeasurementHelperReal silentMeasured;
     RIRStrategy.farEndDelayLine := f32_new 2;
     RIRStrategy.farEndDelayPos := 0;
     RIRStrategy.debugEchoEstimate := None;
     RIRStrategy.debugWritePos := 0 |}.

(** The two samples that iteration [i] of [_computeNCC] multiplies. *)
Definition nearSample (s : XCorrHelper.t) (i : Z) : num :=
  f32_get (XCorrHelper.nearEndBuffer s)
    (Z.rem (XCorrHelper.writePos s - 1 - i + XCorrHelper.bufferSize s)
           (XCorrHelper.bufferSize s)).

Definition farSample (s : XCorrHelper.t) (delay i : Z) : num :=
  f32_get (XCorrHelper.farEndBuffer s)
    (Z.rem (XCorrHelper.writePos s - 1 - i - delay + XCorrHelper.bufferSize s)
           (XCorrHelper.bufferSize s)).

(** One iteration of the loop of [_computeNCC]. *)
Definition nccStep (s : XCorrHelper.t) (delay : Z) (acc : num * num * num) (i : Z)
  : num * num * num :=
  let '(corr, nearE, farE) := acc in
  (nadd corr (nmul (nearSample s i) (farSample s delay i)),
   nadd nearE (nmul (nearSample s i) (nearSample s i)),
   nadd farE (nmul (farSample s delay i) (farSample s delay i))).

(** What the accumulators satisfy throughout the loop: either all three are
    reals obeying the Cauchy-Schwarz inequality, or one of the two energies is
    not a real. *)
Definition nccInv (acc : num * num * num) : Prop :=
  (exists c a b, acc = (Some c, Some a, Some b)
                 /\ (0 <= a)%R /\ (0 <= b)%R /\ (c * c <= a * b)%R)
  \/ snd (fst acc) = None \/ snd acc = None.

(** An estimator with a two-sample history. *)
Definition tinyXCorr (nearEnd farEnd : f32) (writePos : Z) : XCorrHelper.t :=
  {| XCorrHelper.echoTimeWindowSizeMs := 2;
     XCorrHelper.updateIntervalFrames := 1000;
     XCorrHelper.minDelayMs := 0;
     XCorrHelper.stepSize := 1;
     XCorrHelper.txThresholdLin := 1;
     XCorrHelper.rxThresholdLin := 1;
     XCorrHelper.smoothingAlpha := (1 / 2)%R;
     XCorrHelper.nxcThreshold := (55 / 100)%R;
     XCorrHelper.xcorrWindowSize := 1;
     XCorrHelper.bufferSize := 2;
     XCorrHelper.minDelay := 0;
     XCorrHelper.delayUpdateCountRejectedNoTx := 0;
     XCorrHelper.delayUpdateCountRejectedNoRx := 0;
     XCorrHelper.delayUpdateCountRejectedPoorXCorr := 0;
     XCorrHelper.delayUpdateCount := 0;
     XCorrHelper.lastXCorrScore := Num (Some 0%R);
     XCorrHelper.nearEndBuffer := nearEnd;
     XCorrHelper.farEndBuffer := farEnd;
     XCorrHelper.writePos := writePos;
     XCorrHelper.delay := 0;
     XCorrHelper.frameCounter := 0;
     XCorrHelper.foundXC := false |}.

(** The states an estimator can be in: built by the constructor, then driven
    by [addFrame], [updateDelay] and [updateConfig] (whether the latter
    returns or throws). *)
Inductive reachable (sampleRate : Z) : XCorrHelper.t -> Prop :=
| reach_create config s :
    XCorrHelper.create sampleRate config = Some s -> reachable sampleRate s
| reach_addFrame s nearEndFrame farEndFrame s' :
    reachable sampleRate s ->
    XCorrHelper.addFrame s nearEndFrame farEndFrame = Some s' ->
    reachable sampleRate s'
| reach_updateDelay s s' :
    reachable sampleRate s ->
    XCorrHelper.updateDelay s = Some s' ->
    reachable sampleRate s'
| reach_updateConfig s config :
    reachable sampleRate s ->
    reachable sampleRate (outcome_state (XCorrHelper.updateConfig sampleRate s config)).

(** The invariant: [minDelay] is the configured minimum in samples, and the
    stored delay is at least that. *)
Definition delayInv (sampleRate : Z) (s : XCorrHelper.t) : Prop :=
  XCorrHelper.minDelay s = msToSamples sampleRate (XCorrHelper.minDelayMs s)
  /\ XCorrHelper.minDelay s <= XCorrHelper.delay s.

(** The pair kept by a search: until a candidate has been taken the score is
    [-Infinity]; afterwards the delay is one of the candidates. *)
Definition searchInv (lo : Z) (acc : xnum * Z) : Prop :=
  fst acc = NegInfinity \/ lo <= snd acc.

(** A small configuration: at 1000 Hz, a four-sample history and a minimum
    delay of one sample. *)
Definition smallCfg : XCorrCfg.t :=
  {| XCorrCfg.minDelayMs := Some 1;
     XCorrCfg.updateIntervalFrames := Some 1;
     XCorrCfg.echoTimeWindowSizeMs := Some 4;
     XCorrCfg.stepSize := Some 1;
     XCorrCfg.txThresholdDb := Some 0%R;
     XCorrCfg.rxThresholdDb := Some 0%R;
     XCorrCfg.smoothingAlpha := Some (1 / 2)%R;
     XCorrCfg.nxcThreshold := Some (55 / 100)%R;
     XCorrCfg.xcorrWindowSize := Some 1;
     XCorrCfg.echoAttenuation := Some (3 / 10)%R |}.

(** A configuration message that only raises [minDelayMs]. *)
Definition raiseMinDelay (ms : Z) : XCorrCfg.t :=
  {| XCorrCfg.minDelayMs := Some ms;
     XCorrCfg.updateIntervalFrames := None;
     XCorrCfg.echoTimeWindowSizeMs := None;
     XCorrCfg.stepSize := None;
     XCorrCfg.txThresholdDb := None;
     XCorrCfg.rxThresholdDb := None;
     XCorrCfg.smoothingAlpha := None;
     XCorrCfg.nxcThreshold := None;
     XCorrCfg.xcorrWindowSize := None;
     XCorrCfg.echoAttenuation := None |}.

(** Every element of the array is a real number. *)
Definition allReal (a : f32) : Prop :=
  forall i, 0 <= i < f32_length a -> exists r, f32_get a i = Some r.

(** The real stored at an index ([0] where there is none). *)
Definition val (a : f32) (i : Z) : R :=
  match f32_get a i with
  | Some r => r
  | None => 0%R
  end.

(** A sum of reals over a list of indices. *)
Definition rsum (F : Z -> R) (l : list Z) : R :=
  fold_right (fun j acc => (F j + acc)%R) 0%R l.

(** The invariant of the sample loop. *)
Definition energyInv (m len : Z) (st : NLMSStrategy.loopState) : Prop :=
  f32_length (NLMSStrategy.l_xBuf st) = len
  /\ 0 <= NLMSStrategy.l_xBufPos st < len
  /\ allReal (NLMSStrategy.l_xBuf st)
  /\ NLMSStrategy.l_xPower st
     = NLMSStrategy.windowEnergy (NLMSStrategy.l_xBuf st) (NLMSStrategy.l_xBufPos st)
         m len.

(** A reconfiguration to a two-tap filter, at a sample rate of 1000 Hz. *)
Definition twoTaps (minDelayMs : Z) : NLMSCfg.delta :=
  {| NLMSCfg.d_filterLength := Some 2;
     NLMSCfg.d_stepSize := None;
     NLMSCfg.d_epsilon := None;
     NLMSCfg.d_leakage := None;
     NLMSCfg.d_minDelayMs := Some minDelayMs |}.

Definition twoTapFilter (minDelayMs : Z) : NLMSStrategy.t :=
  outcome_state
    (NLMSStrategy.onConfig 1000 (NLMSStrategy.create 1000) (twoTaps minDelayMs)).

(** A measurer whose one-sample recording is the one-sample test signal. *)
Definition unitRecording : IRMeasurementHelper.t :=
  {| IRMeasurementHelper.signalType := "dirac_square";
     IRMeasurementHelper.irLength := 1;
     IRMeasurementHelper.measureSamples := 1;
     IRMeasurementHelper.testSignal := [Some 1%R];
     IRMeasurementHelper.testSignalEnergy := Some 1%R;
     IRMeasurementHelper.recordBuffer := [Some 1%R];
     IRMeasurementHelper.recordPos := 1;
     IRMeasurementHelper.playPos := 1;
     IRMeasurementHelper.ir := [Some 0%R];
     IRMeasurementHelper.irTrimmed := None;
     IRMeasurementHelper.irDelayOffset := 0;
     IRMeasurementHelper.ready := false;
     IRMeasurementHelper.irAcquired := false;
     IRMeasurementHelper.peakValue := Some 0%R;
     IRMeasurementHelper.peakDelayMs := Some 0%R;
     IRMeasurementHelper.crestFactor := Some 0%R;
     IRMeasurementHelper.peakAtBoundary := false;
     IRMeasurementHelper.debugPeakSum := Some 0%R;
     IRMeasurementHelper.debugRecordRms := Some 0%R;
     IRMeasurementHelper.irSumBeforeNorm := Some 0%R |}.

(** The history buffer after the first [k] samples of a frame were pushed. *)
Definition pushedInv (B : Z) (buf0 : f32) (wp0 : Z) (farEndFrame : f32) (k : Z)
    (acc : f32 * Z) : Prop :=
  f32_length (fst acc) = f32_length buf0
  /\ snd acc = (wp0 + k) mod B
  /\ forall i, 0 <= i < k -> k - i <= B ->
       f32_get (fst acc) ((wp0 + i) mod B) = f32_get farEndFrame i.

(** A four-sample frame whose far-end part, two samples back, matches the
    last near-end sample. *)
Definition lockFrameNear : f32 := [Some 0%R; Some 0%R; Some 0%R; Some 2%R].
Definition lockFrameFar : f32 := [Some 0%R; Some 1%R; Some 0%R; Some 2%R].

(** The estimator of the small configuration once the frame above is in its
    history and an update is due. *)
Definition estimatorDue : XCorrHelper.t :=
  {| XCorrHelper.echoTimeWindowSizeMs := 4;
     XCorrHelper.updateIntervalFrames := 1;
     XCorrHelper.minDelayMs := 1;
     XCorrHelper.stepSize := 1;
     XCorrHelper.txThresholdLin := _dbToLin 0;
     XCorrHelper.rxThresholdLin := _dbToLin 0;
     XCorrHelper.smoothingAlpha := 1 / 2;
     XCorrHelper.nxcThreshold := 55 / 100;
     XCorrHelper.xcorrWindowSize := 1;
     XCorrHelper.bufferSize := 4;
     XCorrHelper.minDelay := 1;
     XCorrHelper.delayUpdateCountRejectedNoTx := 0;
     XCorrHelper.delayUpdateCountRejectedNoRx := 0;
     XCorrHelper.delayUpdateCountRejectedPoorXCorr := 0;
     XCorrHelper.delayUpdateCount := 0;
     XCorrHelper.lastXCorrScore := Num (Some 0%R);
     XCorrHelper.nearEndBuffer := lockFrameNear;
     XCorrHelper.farEndBuffer := lockFrameFar;
     XCorrHelper.writePos := 0;
     XCorrHelper.delay := 80;
     XCorrHelper.frameCounter := 0;
     XCorrHelper.foundXC := false |}.

(** No debug recording. *)
Definition noDebug : FauxecState.t := FauxecState.mk false 0.

(** The strategy as constructed at 1000 Hz, and after a configuration
    message with the small configuration. *)
Definition tas0 : TimeAlignedSubtractStrategy.t :=
  match TimeAlignedSubtractStrategy.create 1000 with
  | Some t => t
  | None => TimeAlignedSubtractStrategy.mk XCorrCfg.getDefaultCfg estimatorDue 0 [] 0 0 None 0
  end.

Definition tas1 : TimeAlignedSubtractStrategy.t :=
  outcome_state (TimeAlignedSubtractStrategy.updateConfig 1000 tas0 smallCfg).

(** The invocations a [rir] configuration message causes. *)
Definition rirResetEvents (config : RIRCfg.t) (r : option RIRCfg.delta) : list Event :=
  match r with
  | Some v => if RIRCfg.needsReset config v then [CallOnSelected "rir"] else []
  | None => []
  end.

(** Whether the mode part of a [setConfigs] message switches the mode. *)
Definition switches (s : NoisyFauxECProcessor.t) (m : option string) : bool :=
  match m with
  | Some name =>
      negb (String.eqb name "")
      && NoisyFauxECProcessor.truthy (NoisyFauxECProcessor.getStrategy name)
      && negb (String.eqb (NoisyFauxECProcessor.mode s) name)
  | None => false
  end.

Definition modeAfter (s : NoisyFauxECProcessor.t) (m : option string) : string :=
  match m with
  | Some name => if switches s m then name else NoisyFauxECProcessor.mode s
  | None => NoisyFauxECProcessor.mode s
  end.

Definition modeEvents (s : NoisyFauxECProcessor.t) (m : option string) : list Event :=
  match m with
  | Some name => if switches s m then [CallOnSelected name] else []
  | None => []
  end.

(** The processor as constructed at 1000 Hz, and after [setMode "rir"]. *)
Definition proc0 : NoisyFauxECProcessor.t :=
  NoisyFauxECProcessor.mk "passthrough" HalfDuplexStrategy.create tas0
    RIRStrategy.create (NLMSStrategy.create 1000) [].

Definition procRir : NoisyFauxECProcessor.t :=
  outcome_state
    (NoisyFauxECProcessor.onmessage 1000 proc0 (NoisyFauxECProcessor.SetMode "rir")).

(** An [rir] configuration message that only changes [irLength]. *)
Definition shorterIR : RIRCfg.delta :=
  {| RIRCfg.d_irLength := Some 1024;
     RIRCfg.d_measurementDurationMs := None;
     RIRCfg.d_testSignalType := None;
     RIRCfg.d_diracPulseWidth := None;
     RIRCfg.d_mlsOrder := None;
     RIRCfg.d_echoAttenuation := None |}.

(** The number of delay updates the estimator has accounted for. *)
Definition updatesCounted (s : XCorrHelper.t) : Z :=
  XCorrHelper.delayUpdateCountRejectedNoTx s
  + XCorrHelper.delayUpdateCountRejectedNoRx s
  + XCorrHelper.delayUpdateCountRejectedPoorXCorr s
  + XCorrHelper.delayUpdateCount s.

(** The history buffers are as long as [bufferSize] says and the write
    cursor is inside them. *)
Definition historyInv (sampleRate : Z) (s : XCorrHelper.t) : Prop :=
  XCorrHelper.bufferSize s = msToSamples sampleRate (XCorrHelper.echoTimeWindowSizeMs s)
  /\ f32_length (XCorrHelper.nearEndBuffer s) = f32_length (XCorrHelper.farEndBuffer s)
  /\ (0 < XCorrHelper.bufferSize s ->
      f32_length (XCorrHelper.nearEndBuffer s) = XCorrHelper.bufferSize s
      /\ 0 <= XCorrHelper.writePos s < XCorrHelper.bufferSize s).

(** The lock flag and the count of accepted updates agree. *)
Definition lockInv (s : XCorrHelper.t) : Prop :=
  0 <= XCorrHelper.delayUpdateCount s
  /\ (XCorrHelper.foundXC s = true <-> 0 < XCorrHelper.delayUpdateCount s).

(** The pair kept by a search, with both bounds of the candidates. *)
Definition searchBounds (lo hi : Z) (acc : xnum * Z) : Prop :=
  fst acc = NegInfinity \/ lo <= snd acc < hi.

(** The pair kept by a search is the best of the candidates seen so far:
    its score is the correlation at its delay and no candidate seen scores
    higher. *)
Definition searchBest (s : XCorrHelper.t) (windowSize : Z) (seen : list Z)
    (acc : xnum * Z) : Prop :=
  (seen = [] /\ fst acc = NegInfinity)
  \/ exists r, fst acc = Num (Some r)
               /\ XCorrHelper._computeNCC s (snd acc) windowSize = Some r
               /\ forall d, In d seen ->
                    exists rd, XCorrHelper._computeNCC s d windowSize = Some rd
                               /\ (rd <= r)%R.

(** The correlation that [_computeNCC] returns at a delay. *)
Definition nccAt (s : XCorrHelper.t) (windowSize d : Z) : R :=
  match XCorrHelper._computeNCC s d windowSize with
  | Some r => r
  | None => 0%R
  end.

(** [d] is the candidate a search loop keeps: the first of the candidates
    with the highest correlation. *)
Definition firstBest (s : XCorrHelper.t) (windowSize : Z) (candidates : list Z) (d : Z)
  : Prop :=
  exists before after,
    candidates = before ++ d :: after
    /\ (forall x, In x before -> (nccAt s windowSize x < nccAt s windowSize d)%R)
    /\ (forall x, In x after -> (nccAt s windowSize x <= nccAt s windowSize d)%R).

(** A frame handed to a strategy: the sample count, the near-end and far-end
    frames and the output frame to fill. *)
Definition FrameArgs : Type := (Z * f32 * f32 * f32)%type.

(** [HalfDuplexStrategy.onFrame] over a sequence of frames: the final state
    and everything posted on the port, in order. *)
Fixpoint halfDuplexRun (sampleRate : Z) (s : HalfDuplexStrategy.t)
    (frames : list FrameArgs) : HalfDuplexStrategy.t * list Event :=
  match frames with
  | [] => (s, [])
  | (n, near, far, out) :: rest =>
      let '(s1, _, posted) := HalfDuplexStrategy.onFrame sampleRate s n near far out in
      let '(s2, later) := halfDuplexRun sampleRate s1 rest in
      (s2, posted ++ later)
  end.

(** A list of events holds only gate notifications, each the opposite of the
    gate state before it. *)
Fixpoint alternates (gate : bool) (events : list Event) : Prop :=
  match events with
  | [] => True
  | PostGated v :: rest => v = negb gate /\ alternates v rest
  | _ :: _ => False
  end.

(** The gate state after a list of notifications. *)
Fixpoint lastGate (gate : bool) (events : list Event) : bool :=
  match events with
  | [] => gate
  | PostGated v :: rest => lastGate v rest
  | _ :: rest => lastGate gate rest
  end.

(** A strategy whose estimator is not due for an update. *)
Definition idleStrategy : TimeAlignedSubtractStrategy.t :=
  TimeAlignedSubtractStrategy.mk smallCfg
    (tinyXCorr [Some 0%R; Some 0%R] [Some 0%R; Some 0%R] 0)
    2 [Some 0%R; Some 0%R] 0 0 None 0.

(** What the test-signal output holds at index [i] when playback was at
    [playPos] when the frame began: the test signal, then silence. *)
Definition playedSample (s : IRMeasurementHelper.t) (i : Z) : num :=
  if IRMeasurementHelper.playPos s + i
     <? f32_length (IRMeasurementHelper.testSignal s)
  then f32_get (IRMeasurementHelper.testSignal s) (IRMeasurementHelper.playPos s + i)
  else Some 0%R.

(** The state of the recording loop after [k] samples of a frame. *)
Definition recordInv (s : IRMeasurementHelper.t) (nearEndFrame : f32)
    (testSignalFrame : option f32) (k : Z)
    (acc : option f32 * f32 * (Z * Z)) : Prop :=
  let '(tsf, rec, (rp, pp)) := acc in
  let rp0 := IRMeasurementHelper.recordPos s in
  rp = Z.min (rp0 + k) (IRMeasurementHelper.measureSamples s)
  /\ f32_length rec = f32_length (IRMeasurementHelper.recordBuffer s)
  /\ (forall i, 0 <= i < rp - rp0 ->
        rp0 + i < f32_length (IRMeasurementHelper.recordBuffer s) ->
        f32_get rec (rp0 + i) = f32_get nearEndFrame i)
  /\ (forall j, 0 <= j < rp0 ->
        f32_get rec j = f32_get (IRMeasurementHelper.recordBuffer s) j)
  /\ match testSignalFrame, tsf with
     | Some f0, Some f =>
         pp = IRMeasurementHelper.playPos s + (rp - rp0)
         /\ f32_length f = f32_length f0
         /\ forall i, 0 <= i < rp - rp0 -> i < f32_length f0 ->
              f32_get f i = playedSample s i
     | None, None => pp = IRMeasurementHelper.playPos s
     | _, _ => False
     end.

(** A measurement that has not recorded anything yet. *)
Definition emptyRecording : IRMeasurementHelper.t :=
  {| IRMeasurementHelper.signalType := "dirac_square";
     IRMeasurementHelper.irLength := 2;
     IRMeasurementHelper.measureSamples := 2;
     IRMeasurementHelper.testSignal := [Some (- (8 / 10))%R; Some (8 / 10)%R];
     IRMeasurementHelper.testSignalEnergy := Some (128 / 100)%R;
     IRMeasurementHelper.recordBuffer := [Some 0%R; Some 0%R];
     IRMeasurementHelper.recordPos := 0;
     IRMeasurementHelper.playPos := 0;
     IRMeasurementHelper.ir := [Some 0%R; Some 0%R];
     IRMeasurementHelper.irTrimmed := None;
     IRMeasurementHelper.irDelayOffset := 0;
     IRMeasurementHelper.ready := false;
     IRMeasurementHelper.irAcquired := false;
     IRMeasurementHelper.peakValue := Some 0%R;
     IRMeasurementHelper.peakDelayMs := Some 0%R;
     IRMeasurementHelper.crestFactor := Some 0%R;
     IRMeasurementHelper.peakAtBoundary := false;
     IRMeasurementHelper.debugPeakSum := Some 0%R;
     IRMeasurementHelper.debugRecordRms := Some 0%R;
     IRMeasurementHelper.irSumBeforeNorm := Some 0%R |}.

(** One iteration of the shift register of [_generateMLS]. *)
Definition lfsrStep (tap lfsr : Z) : Z :=
  if Z.land lfsr 1 =? 0 then Z.shiftr lfsr 1 else Z.lxor (Z.shiftr lfsr 1) tap.

(** The register after [n] iterations, starting from 1. *)
Fixpoint lfsrAfter (tap : Z) (n : nat) : Z :=
  match n with
  | O => 1
  | S k => lfsrStep tap (lfsrAfter tap k)
  end.

(** The sample that the register's low bit selects at iteration [i]. *)
Definition mlsSample (tap : Z) (i : Z) : num :=
  if Z.land (lfsrAfter tap (Z.to_nat i)) 1 =? 0
  then Some (- (5 / 10))%R else Some (5 / 10)%R.

(** The number of iterations after which the register, [steps] iterations
    in, is 1 again, searched for at most [fuel] iterations. *)
Fixpoint firstReturn (tap : Z) (fuel : nat) (lfsr : Z) (steps : Z) : option Z :=
  match fuel with
  | O => None
  | S f =>
      let lfsr' := lfsrStep tap lfsr in
      if lfsr' =? 1 then Some (steps + 1) else firstReturn tap f lfsr' (steps + 1)
  end.

(** The configuration keys that decide what is measured agree. *)
Definition sameMeasurement (c c' : RIRCfg.t) : Prop :=
  RIRCfg.irLength c' = RIRCfg.irLength c
  /\ RIRCfg.measurementDurationMs c' = RIRCfg.measurementDurationMs c
  /\ RIRCfg.testSignalType c' = RIRCfg.testSignalType c
  /\ RIRCfg.diracPulseWidth c' = RIRCfg.diracPulseWidth c
  /\ RIRCfg.mlsOrder c' = RIRCfg.mlsOrder c.

(** An [rir] configuration message that only sets the attenuation. *)
Definition attenuationOnly (a : R) : RIRCfg.delta :=
  {| RIRCfg.d_irLength := None;
     RIRCfg.d_measurementDurationMs := None;
     RIRCfg.d_testSignalType := None;
     RIRCfg.d_diracPulseWidth := None;
     RIRCfg.d_mlsOrder := None;
     RIRCfg.d_echoAttenuation := Some a |}.

(** The far-end sample [m] positions after the first sample of a frame, as
    the cancelling loop finds it: for [m >= 0] a sample of the frame itself,
    and for [m < 0] what the delay line held, when the frame began, in the
    slot that was written [-m] samples before the frame. *)
Definition farHistory (line : f32) (pos : Z) (farEndFrame : f32) (m : Z) : num :=
  if 0 <=? m then f32_get farEndFrame m
  else f32_get line ((pos + 1 + m) mod f32_length line).

(** The echo that the trimmed response predicts for sample [i] of a frame:
    tap [k] reads the far end [irDelayOffset + k] samples back, in this frame
    or in the frames before it. *)
Definition firEcho (irTrimmed : f32) (irDelayOffset : Z) (line : f32) (pos : Z)
    (farEndFrame : f32) (i : Z) : num :=
  fold_left
    (fun echo k =>
       nadd echo (nmul (f32_get irTrimmed k)
                       (farHistory line pos farEndFrame (i - irDelayOffset - k))))
    (range (f32_length irTrimmed)) (Some 0%R).

(** The taps of the trimmed response reach back less than the length of the
    delay line. *)
Definition windowFits (irTrimmed : f32) (irDelayOffset delayLineLen : Z) : Prop :=
  f32_length irTrimmed = 0
  \/ (0 <= irDelayOffset /\ irDelayOffset + f32_length irTrimmed <= delayLineLen).

(** The state of the cancelling loop after [k] samples of a frame. *)
Definition cancelInv (atten : R) (irTrimmed : f32) (offset : Z) (line0 : f32)
    (pos0 : Z) (nearEndFrame farEndFrame outFrame : f32) (k : Z)
    (st : RIRStrategy.loopState) : Prop :=
  let L := f32_length line0 in
  RIRStrategy.l_pos st = (pos0 + k) mod L
  /\ f32_length (RIRStrategy.l_line st) = L
  /\ (forall m, k - L <= m < k ->
        f32_get (RIRStrategy.l_line st) ((pos0 + 1 + m) mod L)
        = farHistory line0 pos0 farEndFrame m)
  /\ f32_length (RIRStrategy.l_out st) = f32_length outFrame
  /\ (forall i, 0 <= i < k -> i < f32_length outFrame ->
        f32_get (RIRStrategy.l_out st) i
        = nsub (f32_get nearEndFrame i)
               (nmul (firEcho irTrimmed offset line0 pos0 farEndFrame i) (Some atten))).

(** A completed measurement with two taps that start one sample back, and a
    strategy that cancels with it over a delay line of four slots holding
    earlier far-end samples. *)
Definition twoTapMeasured : IRMeasurementHelper.t :=
  {| IRMeasurementHelper.signalType := "dirac_square";
     IRMeasurementHelper.irLength := 4;
     IRMeasurementHelper.measureSamples := 4;
     IRMeasurementHelper.testSignal := [Some 1%R];
     IRMeasurementHelper.testSignalEnergy := Some 1%R;
     IRMeasurementHelper.recordBuffer := [Some 0%R; Some 2%R; Some 1%R; Some 0%R];
     IRMeasurementHelper.recordPos := 4;
     IRMeasurementHelper.playPos := 4;
     IRMeasurementHelper.ir := [Some 0%R; Some 2%R; Some 1%R; Some 0%R];
     IRMeasurementHelper.irTrimmed := Some [Some (1 / 2)%R; Some (1 / 4)%R];
     IRMeasurementHelper.irDelayOffset := 1;
     IRMeasurementHelper.ready := true;
     IRMeasurementHelper.irAcquired := true;
     IRMeasurementHelper.peakValue := Some 2%R;
     IRMeasurementHelper.peakDelayMs := Some 0%R;
     IRMeasurementHelper.crestFactor := Some 1%R;
     IRMeasurementHelper.peakAtBoundary := false;
     IRMeasurementHelper.debugPeakSum := Some 2%R;
     IRMeasurementHelper.debugRecordRms := Some 1%R;
     IRMeasurementHelper.irSumBeforeNorm := Some 3%R |}.

Definition twoTapStrategy : RIRStrategy.t :=
  {| RIRStrategy.config := RIRCfg.getDefaultCfg;
     RIRStrategy.rir := IRMeasurementHelperReal twoTapMeasured;
     RIRStrategy.farEndDelayLine := [Some 1%R; Some 2%R; Some 3%R; Some 4%R];
     RIRStrategy.farEndDelayPos := 1;
     RIRStrategy.debugEchoEstimate := None;
     RIRStrategy.debugWritePos := 0 |}.

(** A strategy whose measurement has recorded all its samples and completes
    with the next frame. *)
Definition completingStrategy : RIRStrategy.t :=
  {| RIRStrategy.config := RIRCfg.getDefaultCfg;
     RIRStrategy.rir := IRMeasurementHelperReal unitRecording;
     RIRStrategy.farEndDelayLine := [Some 0%R];
     RIRStrategy.farEndDelayPos := 0;
     RIRStrategy.debugEchoEstimate := None;
     RIRStrategy.debugWritePos := 0 |}.

(** A completed measurement whose trimmed response is the single tap 1. *)
Definition unitMeasured : IRMeasurementHelper.t :=
  {| IRMeasurementHelper.signalType := "dirac_square";
     IRMeasurementHelper.irLength := 1;
     IRMeasurementHelper.measureSamples := 1;
     IRMeasurementHelper.testSignal := [Some 1%R];
     IRMeasurementHelper.testSignalEnergy := Some 1%R;
     IRMeasurementHelper.recordBuffer := [Some 1%R];
     IRMeasurementHelper.recordPos := 1;
     IRMeasurementHelper.playPos := 1;
     IRMeasurementHelper.ir := [Some 1%R];
     IRMeasurementHelper.irTrimmed := Some [Some 1%R];
     IRMeasurementHelper.irDelayOffset := 0;
     IRMeasurementHelper.ready := true;
     IRMeasurementHelper.irAcquired := true;
     IRMeasurementHelper.peakValue := Some 1%R;
     IRMeasurementHelper.peakDelayMs := Some 0%R;
     IRMeasurementHelper.crestFactor := Some 1%R;
     IRMeasurementHelper.peakAtBoundary := false;
     IRMeasurementHelper.debugPeakSum := Some 1%R;
     IRMeasurementHelper.debugRecordRms := Some 1%R;
     IRMeasurementHelper.irSumBeforeNorm := Some 1%R |}.

(** A strategy that cancels with [unitMeasured]. *)
Definition cancellingStrategy : RIRStrategy.t :=
  {| RIRStrategy.config := RIRCfg.getDefaultCfg;
     RIRStrategy.rir := IRMeasurementHelperReal unitMeasured;
     RIRStrategy.farEndDelayLine := [Some 0%R];
     RIRStrategy.farEndDelayPos := 0;
     RIRStrategy.debugEchoEstimate := None;
     RIRStrategy.debugWritePos := 0 |}.

(** A strategy in the middle of a measurement. *)
Definition measuringStrategy : RIRStrategy.t :=
  {| RIRStrategy.config := RIRCfg.getDefaultCfg;
     RIRStrategy.rir := IRMeasurementHelperReal emptyRecording;
     RIRStrategy.farEndDelayLine := f32_new 2;
     RIRStrategy.farEndDelayPos := 0;
     RIRStrategy.debugEchoEstimate := None;
     RIRStrategy.debugWritePos := 0 |}.

(** The state of the NLMS sample loop after [k] samples: which taps may have
    changed, and how the samples were accounted for. *)
Definition adaptInv (s : NLMSStrategy.t) (outFrame : f32) (k : Z)
    (st : NLMSStrategy.loopState) : Prop :=
  f32_length (NLMSStrategy.l_h st) = f32_length (NLMSStrategy.h s)
  /\ (forall j,
        j < NLMSStrategy.minDelaySamples s
        \/ NLMSCfg.filterLength (NLMSStrategy.config s) <= j ->
        f32_get (NLMSStrategy.l_h st) j = f32_get (NLMSStrategy.h s) j)
  /\ NLMSStrategy.l_filterUpdates st + Z.of_nat (length (NLMSStrategy.l_log st))
     = NLMSStrategy.filterUpdates s + k
  /\ NLMSStrategy.filterUpdates s <= NLMSStrategy.l_filterUpdates st
  /\ f32_length (NLMSStrategy.l_out st) = f32_length outFrame.

(** The NLMS loop is idle: the delay line holds zeros, and neither the
    coefficients nor the update counter have moved. *)
Definition idleInv (s : NLMSStrategy.t) (st : NLMSStrategy.loopState) : Prop :=
  energyInv (NLMSStrategy.minDelaySamples s)
    (NLMSCfg.filterLength (NLMSStrategy.config s)) st
  /\ (forall j, 0 <= j < NLMSCfg.filterLength (NLMSStrategy.config s) ->
        f32_get (NLMSStrategy.l_xBuf st) j = Some 0%R)
  /\ NLMSStrategy.l_h st = NLMSStrategy.h s
  /\ NLMSStrategy.l_filterUpdates st = NLMSStrategy.filterUpdates s.

(** The buffers of the NLMS strategy agree with its configuration. *)
Definition nlmsInv (sampleRate : Z) (s : NLMSStrategy.t) : Prop :=
  let len := NLMSCfg.filterLength (NLMSStrategy.config s) in
  0 <= len
  /\ f32_length (NLMSStrategy.h s) = len
  /\ f32_length (NLMSStrategy.xBuf s) = len
  /\ (0 < len -> 0 <= NLMSStrategy.xBufPos s < len)
  /\ NLMSStrategy.minDelaySamples s
     = msToSamples sampleRate (NLMSCfg.minDelayMs (NLMSStrategy.config s)).

(** The states the NLMS strategy reaches from its constructor through
    frames and through configuration and reset messages that do not throw. *)
Inductive nlmsReachable (sampleRate : Z) : NLMSStrategy.t -> Prop :=
| nlms_created : nlmsReachable sampleRate (NLMSStrategy.create sampleRate)
| nlms_configured s value s' :
    nlmsReachable sampleRate s ->
    NLMSStrategy.onConfig sampleRate s value = Returned s' ->
    nlmsReachable sampleRate s'
| nlms_reset s s' :
    nlmsReachable sampleRate s ->
    NLMSStrategy.onReset sampleRate s = Returned s' ->
    nlmsReachable sampleRate s'
| nlms_frame s nSamples nearEndFrame farEndFrame outFrame :
    nlmsReachable sampleRate s ->
    nlmsReachable sampleRate
      (fst (fst (NLMSStrategy.onFrame s nSamples nearEndFrame farEndFrame outFrame))).

(** The processor works without batching and in passthrough mode. *)
Definition directInv (s : AudioProcess.t) : Prop :=
  NoisyFauxECProcessor.mode (AudioProcess.proc s) = "passthrough"%string
  /\ AudioProcess.bufferFrameCount s = 1
  /\ AudioProcess.bufferedFrames s = 0
  /\ AudioProcess.bufferWritePos s = 0
  /\ f32_length (AudioProcess.nearEndBuffer s) = AudioProcess.bufferSize s
  /\ f32_length (AudioProcess.outputBuffer s) = AudioProcess.bufferSize s.

(** The processor batches [N] frames of [q] samples and holds [b] of them. *)
Definition batchInv (N q b : Z) (s : AudioProcess.t) : Prop :=
  0 < q /\ 0 <= b < N
  /\ AudioProcess.bufferFrameCount s = N
  /\ AudioProcess.bufferSize s = N * q
  /\ f32_length (AudioProcess.nearEndBuffer s) = N * q
  /\ f32_length (AudioProcess.farEndBuffer s) = N * q
  /\ f32_length (AudioProcess.outputBuffer s) = N * q
  /\ AudioProcess.bufferedFrames s = b
  /\ AudioProcess.bufferWritePos s = b * q.

(** One call of [process] with both inputs connected, a mono output and no
    test-signal output. *)
Record Call : Type := mkCall {
  c_nearEnd : f32;
  c_farEnd : f32;
  c_output : f32;
  c_processingMs : Z
}.

(** A sequence of such calls, none of which throws; the result is the
    processor and the output of every call. *)
Fixpoint runCalls (sampleRate : Z) (s : AudioProcess.t) (calls : list Call)
  : option (AudioProcess.t * list f32) :=
  match calls with
  | [] => Some (s, [])
  | c :: rest =>
      match AudioProcess.process sampleRate s (Some (c_nearEnd c)) (Some (c_farEnd c))
              [c_output c] None (c_processingMs c) with
      | Some (Returned s', [out], _) =>
          match runCalls sampleRate s' rest with
          | Some (s'', outs) => Some (s'', out :: outs)
          | None => None
          end
      | _ => None
      end
  end.

(** The processor built by the constructor at 1000 Hz. *)
Definition audio0 : AudioProcess.t :=
  AudioProcess.mk proc0 TestToneStrategy.create (FauxecState.mk false 30000) 0 0 1 128 128
    (f32_new 128) (f32_new 128) (f32_new 128) (f32_new 128) 0 0 0 None 0 [].

(** The same processor after [setMode] with the name of an inherited
    property. *)
Definition audioStuck : AudioProcess.t :=
  AudioProcess.set_proc audio0
    (outcome_state
       (NoisyFauxECProcessor.onmessage 1000 (AudioProcess.proc audio0)
          (NoisyFauxECProcessor.SetMode "constructor"))).

(** The same processor after [setBufferFrameCount] with 2. *)
Definition audioBatched : AudioProcess.t := AudioProcess.setBufferFrameCount audio0 2.

(** * Properties *)

(** ** Numbers, arrays and loops *)

Lemma Rltb_true (x y : R) : (x < y)%R -> Rltb x y = true.
Proof. intros H. unfold Rltb. destruct (Rlt_dec x y); [reflexivity | contradiction]. Qed.

Lemma Rltb_false (x y : R) : (y <= x)%R -> Rltb x y = false.
Proof. intros H. unfold Rltb. destruct (Rlt_dec x y); [lra | reflexivity]. Qed.

Lemma Rltb_spec (x y : R) : Rltb x y = true <-> (x < y)%R.
Proof.
  unfold Rltb. destruct (Rlt_dec x y); split; intros; try assumption;
    try reflexivity; try discriminate; contradiction.
Qed.

Lemma ndiv_some (x y : R) : y <> 0%R -> ndiv (Some x) (Some y) = Some (x / y)%R.
Proof. intros H. unfold ndiv. destruct (Req_dec_T y 0); [contradiction | reflexivity]. Qed.

Lemma nsqrt_some (x : R) : (0 <= x)%R -> nsqrt (Some x) = Some (sqrt x).
Proof. intros H. unfold nsqrt. destruct (Rlt_dec x 0); [lra | reflexivity]. Qed.

Lemma ngt_spec (a b : num) :
  ngt a b = true <-> exists x y, a = Some x /\ b = Some y /\ (y < x)%R.
Proof.
  destruct a as [x|], b as [y|]; simpl; split; intros H;
    try discriminate; try (destruct H as (x' & y' & Ha & Hb & _); discriminate).
  - exists x, y. rewrite Rltb_spec in H. auto.
  - destruct H as (x' & y' & Ha & Hb & Hlt). inversion Ha; inversion Hb; subst.
    now apply Rltb_spec.
Qed.

Lemma nlt_spec (a b : num) :
  nlt a b = true <-> exists x y, a = Some x /\ b = Some y /\ (x < y)%R.
Proof.
  destruct a as [x|], b as [y|]; simpl; split; intros H;
    try discriminate; try (destruct H as (x' & y' & Ha & Hb & _); discriminate).
  - exists x, y. rewrite Rltb_spec in H. auto.
  - destruct H as (x' & y' & Ha & Hb & Hlt). inversion Ha; inversion Hb; subst.
    now apply Rltb_spec.
Qed.

Lemma list_set_length {A : Type} (l : list A) (n : nat) (v : A) :
  List.length (list_set l n v) = List.length l.
Proof.
  revert n. induction l as [|x l IH]; intros [|n]; simpl; auto.
Qed.

Lemma nth_list_set_same {A : Type} (l : list A) (n : nat) (v d : A) :
  (n < List.length l)%nat -> nth n (list_set l n v) d = v.
Proof.
  revert n. induction l as [|x l IH]; intros [|n] H; simpl in *; try lia; auto.
  apply IH. lia.
Qed.

Lemma nth_list_set_other {A : Type} (l : list A) (n m : nat) (v d : A) :
  n <> m -> nth m (list_set l n v) d = nth m l d.
Proof.
  revert n m. induction l as [|x l IH]; intros [|n] [|m] H; simpl; auto; try lia.
Qed.

Lemma f32_set_length (a : f32) (i : Z) (v : num) :
  f32_length (f32_set a i v) = f32_length a.
Proof.
  unfold f32_length, f32_set. destruct (i <? 0); [reflexivity|].
  now rewrite list_set_length.
Qed.

Lemma f32_get_set_same (a : f32) (i : Z) (v : num) :
  0 <= i < f32_length a -> f32_get (f32_set a i v) i = v.
Proof.
  unfold f32_length, f32_get, f32_set. intros H.
  destruct (i <? 0) eqn:E; [lia|]. apply nth_list_set_same. lia.
Qed.

Lemma f32_get_set_other (a : f32) (i j : Z) (v : num) :
  i <> j -> f32_get (f32_set a i v) j = f32_get a j.
Proof.
  unfold f32_get, f32_set. intros H.
  destruct (j <? 0) eqn:Ej; [reflexivity|].
  destruct (i <? 0) eqn:Ei; [reflexivity|].
  apply nth_list_set_other. lia.
Qed.

Lemma f32_get_out_of_range (a : f32) (i : Z) :
  i < 0 \/ f32_length a <= i -> f32_get a i = None.
Proof.
  unfold f32_get, f32_length. intros H.
  destruct (i <? 0) eqn:E; [reflexivity|].
  apply nth_overflow. lia.
Qed.

Lemma f32_new_length (n : Z) : 0 <= n -> f32_length (f32_new n) = n.
Proof. intros H. unfold f32_length, f32_new. rewrite repeat_length. lia. Qed.

Lemma f32_get_new (n i : Z) : 0 <= i < n -> f32_get (f32_new n) i = Some 0%R.
Proof.
  intros H. unfold f32_get, f32_new. destruct (i <? 0) eqn:E; [lia|].
  apply nth_repeat_lt. lia.
Qed.

Lemma range_nat (m : nat) : range (Z.of_nat m) = map Z.of_nat (seq 0 m).
Proof. unfold range. now rewrite Nat2Z.id. Qed.

Lemma range_succ (n : Z) : 0 <= n -> range (n + 1) = range n ++ [n].
Proof.
  intros H. unfold range.
  replace (Z.to_nat (n + 1)) with (S (Z.to_nat n)) by lia.
  rewrite seq_S, map_app. simpl. now rewrite Z2Nat.id.
Qed.

Lemma range_nonpos (n : Z) : n <= 0 -> range n = [].
Proof. intros H. unfold range. now replace (Z.to_nat n) with O by lia. Qed.

Lemma in_range (n i : Z) : In i (range n) <-> 0 <= i < n.
Proof.
  unfold range. rewrite in_map_iff. split.
  - intros (k & <- & Hk). apply in_seq in Hk. lia.
  - intros H. exists (Z.to_nat i). split; [lia|]. apply in_seq. lia.
Qed.

Lemma rangeFrom_succ (a b : Z) : a <= b -> rangeFrom a (b + 1) = rangeFrom a b ++ [b].
Proof.
  intros H. unfold rangeFrom.
  replace (Z.to_nat (b + 1 - a)) with (S (Z.to_nat (b - a))) by lia.
  rewrite seq_S, map_app. simpl. repeat f_equal. lia.
Qed.

Lemma rangeFrom_empty (a b : Z) : b <= a -> rangeFrom a b = [].
Proof. intros H. unfold rangeFrom. now replace (Z.to_nat (b - a)) with O by lia. Qed.

Lemma rangeFrom_cons (a b : Z) : a < b -> rangeFrom a b = a :: rangeFrom (a + 1) b.
Proof.
  intros H. unfold rangeFrom.
  replace (Z.to_nat (b - a)) with (S (Z.to_nat (b - (a + 1)))) by lia.
  simpl. f_equal; [lia|]. rewrite <- seq_shift, map_map.
  apply map_ext. intros k. lia.
Qed.

Lemma in_rangeFrom (a b i : Z) : In i (rangeFrom a b) <-> a <= i < b.
Proof.
  unfold rangeFrom. rewrite in_map_iff. split.
  - intros (k & <- & Hk). apply in_seq in Hk. lia.
  - intros H. exists (Z.to_nat (i - a)). split; [lia|]. apply in_seq. lia.
Qed.

Lemma fill_length (g : Z -> num) (n : Z) (a : f32) :
  f32_length (fill g n a) = f32_length a.
Proof.
  unfold fill. generalize (range n). intros l. revert a.
  induction l as [|i l IH]; intros a; simpl; [reflexivity|].
  rewrite IH. apply f32_set_length.
Qed.

Lemma fill_get (g : Z -> num) (n : Z) (a : f32) (i : Z) :
  0 <= i < f32_length a ->
  f32_get (fill g n a) i = if i <? n then g i else f32_get a i.
Proof.
  intros Hi. destruct (Z_le_gt_dec n 0) as [Hn|Hn].
  - unfold fill. rewrite range_nonpos by assumption. simpl.
    destruct (i <? n) eqn:E; [lia | reflexivity].
  - rewrite <- (Z2Nat.id n) by lia. induction (Z.to_nat n) as [|m IH].
    + unfold fill. simpl. destruct (i <? 0) eqn:E; [lia | reflexivity].
    + replace (Z.of_nat (S m)) with (Z.of_nat m + 1) by lia.
      unfold fill in *. rewrite range_succ by lia. rewrite fold_left_app. simpl.
      destruct (Z.eq_dec i (Z.of_nat m)) as [->|Hne].
      * rewrite f32_get_set_same.
        -- destruct (Z.of_nat m <? Z.of_nat m + 1) eqn:E; [reflexivity | lia].
        -- change (fold_left _ _ a) with (fill g (Z.of_nat m) a).
           rewrite fill_length. assumption.
      * rewrite f32_get_set_other by auto. rewrite IH.
        destruct (i <? Z.of_nat m) eqn:E1, (i <? Z.of_nat m + 1) eqn:E2;
          try reflexivity; lia.
Qed.

Lemma fillZero_get (n : Z) (out : f32) (i : Z) :
  0 <= i < n -> i < f32_length out -> f32_get (fillZero n out) i = Some 0%R.
Proof.
  intros Hi Hl. change (fillZero n out) with (fill (fun _ => Some 0%R) n out).
  rewrite fill_get by lia. destruct (i <? n) eqn:E; [reflexivity | lia].
Qed.

Lemma copyFrame_get (n : Z) (frame out : f32) (i : Z) :
  0 <= i < n -> i < f32_length out ->
  f32_get (copyFrame n frame out) i = f32_get frame i.
Proof.
  intros Hi Hl. change (copyFrame n frame out) with (fill (f32_get frame) n out).
  rewrite fill_get by lia. destruct (i <? n) eqn:E; [reflexivity | lia].
Qed.

(** ** HalfDuplexStrategy: the gate *)

Lemma xdiv_fin (x y : R) : y <> 0%R -> xdiv (Fin x) (Fin y) = Fin (x / y)%R.
Proof. intros H. unfold xdiv. destruct (Req_dec_T y 0); [contradiction | reflexivity]. Qed.

Lemma xdiv_neg_zero (x : R) : (x < 0)%R -> xdiv (Fin x) (Fin 0%R) = NInf.
Proof.
  intros H. unfold xdiv, Rsign. destruct (Req_dec_T 0 0) as [_|Hne]; [|contradiction].
  destruct (Rlt_dec 0 x); [lra|]. destruct (Rlt_dec x 0); [reflexivity | lra].
Qed.

(** The envelope of a frame on real data: with a time constant that is not
    0 the smoothing of the source's formula, with a time constant of 0 the
    RMS of the frame. *)
Lemma nextLevel_real (sampleRate : Z) (s : HalfDuplexStrategy.t) (nSamples : Z)
    (farEndFrame : f32) (level rms : R) :
  0 < sampleRate -> 0 < nSamples ->
  HalfDuplexStrategy.farEndLevel s = Fin level ->
  nsqrt (ndiv (HalfDuplexStrategy.sumSquares nSamples farEndFrame) (nofZ nSamples))
    = Some rms ->
  let tauMs :=
    if Rltb level rms
    then HalfDuplexCfg.attackMs (HalfDuplexStrategy.config s)
    else HalfDuplexCfg.decayMs (HalfDuplexStrategy.config s) in
  exists v,
    HalfDuplexStrategy.nextLevel sampleRate s nSamples farEndFrame = Fin v
    /\ (tauMs <> 0%R ->
        v = (level
             + (1 - exp (- (IZR nSamples / IZR sampleRate) / (tauMs / 1000)))
               * (rms - level))%R)
    /\ (tauMs = 0%R -> v = rms).
Proof.
  intros Hsr Hn Hlevel Hrms tauMs.
  unfold HalfDuplexStrategy.nextLevel. rewrite Hlevel, Hrms.
  assert (Hsr' : (0 < IZR sampleRate)%R) by (apply (IZR_lt 0); exact Hsr).
  assert (Hn' : (0 < IZR nSamples)%R) by (apply (IZR_lt 0); exact Hn).
  rewrite xdiv_fin by lra. cbn [xofnum xgt xneg].
  replace (if Rltb level rms
           then (HalfDuplexCfg.attackMs (HalfDuplexStrategy.config s) / 1000)%R
           else (HalfDuplexCfg.decayMs (HalfDuplexStrategy.config s) / 1000)%R)
    with (tauMs / 1000)%R by (unfold tauMs; destruct (Rltb level rms); reflexivity).
  assert (Hft : (0 < IZR nSamples / IZR sampleRate)%R)
    by (apply Rdiv_lt_0_compat; assumption).
  destruct (Req_dec_T tauMs 0) as [Hz|Hnz].
  - rewrite Hz. replace (0 / 1000)%R with 0%R by lra.
    rewrite xdiv_neg_zero by lra.
    cbn [xexp xsub xneg xadd xmul].
    eexists. split; [reflexivity|]. split; [intros H; contradiction | intros _; lra].
  - rewrite xdiv_fin by lra. cbn [xexp xsub xneg xadd xmul].
    eexists. split; [reflexivity|]. split; [intros _; lra | intros H; contradiction].
Qed.

(** C9.  After [HalfDuplexStrategy.onFrame] the stored envelope is the
    smoothed far-end level; when it exceeds [10^(thresholdDb/20)] the gate is
    closed and every output sample of the frame is 0, and otherwise the gate
    is open and every output sample is the near-end sample.  On real data
    (positive sample rate and frame length) the smoothed level is
    [level + (1 - exp(-frameTime / tau)) * (rms - level)], with the attack
    time constant when the RMS of the frame is above the previous level and
    the decay time constant otherwise, and it is the RMS itself when that
    time constant is 0. *)
Theorem C9_gate_output (sampleRate : Z) (s : HalfDuplexStrategy.t) (nSamples : Z)
    (nearEndFrame farEndFrame outFrame : f32) :
  let r := HalfDuplexStrategy.onFrame sampleRate s nSamples nearEndFrame farEndFrame
             outFrame in
  let s' := fst (fst r) in
  let out := snd (fst r) in
  let linear := Rpower 10 (HalfDuplexCfg.thresholdDb (HalfDuplexStrategy.config s) / 20) in
  HalfDuplexStrategy.farEndLevel s'
    = HalfDuplexStrategy.nextLevel sampleRate s nSamples farEndFrame
  /\ (xgt (HalfDuplexStrategy.farEndLevel s') (Fin linear) = true ->
      HalfDuplexStrategy.gated s' = true
      /\ forall i, 0 <= i < nSamples -> i < f32_length outFrame ->
           f32_get out i = Some 0%R)
  /\ (xgt (HalfDuplexStrategy.farEndLevel s') (Fin linear) = false ->
      HalfDuplexStrategy.gated s' = false
      /\ forall i, 0 <= i < nSamples -> i < f32_length outFrame ->
           f32_get out i = f32_get nearEndFrame i)
  /\ forall level rms : R,
       0 < sampleRate -> 0 < nSamples ->
       HalfDuplexStrategy.farEndLevel s = Fin level ->
       nsqrt (ndiv (HalfDuplexStrategy.sumSquares nSamples farEndFrame) (nofZ nSamples))
         = Some rms ->
       let tauMs :=
         if Rltb level rms
         then HalfDuplexCfg.attackMs (HalfDuplexStrategy.config s)
         else HalfDuplexCfg.decayMs (HalfDuplexStrategy.config s) in
       exists v,
         HalfDuplexStrategy.farEndLevel s' = Fin v
         /\ (tauMs <> 0%R ->
             v = (level
                  + (1 - exp (- (IZR nSamples / IZR sampleRate) / (tauMs / 1000)))
                    * (rms - level))%R)
         /\ (tauMs = 0%R -> v = rms)
         /\ (HalfDuplexStrategy.gated s' = true <-> (linear < v)%R).
Proof.
  cbv zeta.
  assert (Hlevel : HalfDuplexStrategy.farEndLevel
                     (fst (fst (HalfDuplexStrategy.onFrame sampleRate s nSamples
                                  nearEndFrame farEndFrame outFrame)))
                   = HalfDuplexStrategy.nextLevel sampleRate s nSamples farEndFrame).
  { unfold HalfDuplexStrategy.onFrame. destruct (xgt _ _); reflexivity. }
  assert (Hgated : HalfDuplexStrategy.gated
                     (fst (fst (HalfDuplexStrategy.onFrame sampleRate s nSamples
                                  nearEndFrame farEndFrame outFrame)))
                   = xgt (HalfDuplexStrategy.nextLevel sampleRate s nSamples farEndFrame)
                         (Fin (Rpower 10
                                 (HalfDuplexCfg.thresholdDb (HalfDuplexStrategy.config s)
                                  / 20)))).
  { unfold HalfDuplexStrategy.onFrame, HalfDuplexStrategy.threshold.
    destruct (xgt _ _) eqn:E; reflexivity. }
  split; [exact Hlevel|]. rewrite Hlevel.
  split; [|split].
  - intros Hgate. split; [now rewrite Hgated|]. intros i Hi Hl.
    unfold HalfDuplexStrategy.onFrame, HalfDuplexStrategy.threshold. rewrite Hgate.
    cbn [fst snd]. now apply fillZero_get.
  - intros Hgate. split; [now rewrite Hgated|]. intros i Hi Hl.
    unfold HalfDuplexStrategy.onFrame, HalfDuplexStrategy.threshold. rewrite Hgate.
    cbn [fst snd]. now apply copyFrame_get.
  - intros level rms Hsr Hn Hl Hrms.
    destruct (nextLevel_real sampleRate s nSamples farEndFrame level rms Hsr Hn Hl Hrms)
      as (v & Hv & Hnz & Hz).
    exists v. split; [exact Hv|]. split; [exact Hnz|]. split; [exact Hz|].
    rewrite Hgated, Hv. cbn [xgt]. apply Rltb_spec.
Qed.

(** Evaluation of the model on concrete inputs: reduce everything but the
    operations on reals, whose decisions are settled by the lemmas above. *)
Ltac real_cbn1 :=
  unfold nofZ, range, rangeFrom, f32_new;
  cbn -[Rplus Rmult Rminus Ropp Rdiv Rinv IZR sqrt exp Rpower Rabs PI sin
        Rlt_dec Req_dec_T Rltb ndiv nsqrt ngt nlt Z.to_nat].

Ltac to_nat_eval :=
  repeat match goal with
  | |- context [Z.to_nat ?z] =>
      let v := eval vm_compute in (Z.to_nat z) in
      progress change (Z.to_nat z) with v
  end.

Ltac real_cbn := repeat (real_cbn1; to_nat_eval); real_cbn1.

(** The strategy after a configuration message that sets the attack time
    to 0. *)
Lemma C9_gate_output_witness :
  let instant :=
    HalfDuplexStrategy.onMessage HalfDuplexStrategy.create
      (HalfDuplexCfg.mkDelta (Some 0%R) None None) in
  let closed :=
    HalfDuplexStrategy.onFrame 48000 instant 1 [Some 5%R] [Some 1%R] (f32_new 1) in
  let open :=
    HalfDuplexStrategy.onFrame 48000 HalfDuplexStrategy.create 2
      [Some (1 / 2)%R; Some (1 / 4)%R] [Some 0%R; Some 0%R] (f32_new 2) in
  (HalfDuplexStrategy.farEndLevel (fst (fst closed)) = Fin 1%R
   /\ HalfDuplexStrategy.gated (fst (fst closed)) = true
   /\ f32_get (snd (fst closed)) 0 = Some 0%R)
  /\ (HalfDuplexStrategy.gated (fst (fst open)) = false
      /\ f32_get (snd (fst open)) 1 = Some (1 / 4)%R).
Proof.
  cbv zeta. split.
  - destruct (C9_gate_output 48000
                (HalfDuplexStrategy.onMessage HalfDuplexStrategy.create
                   (HalfDuplexCfg.mkDelta (Some 0%R) None None))
                1 [Some 5%R] [Some 1%R] (f32_new 1))
      as (_ & Hclosed & _ & Hpin).
    cbv zeta in Hclosed, Hpin.
    destruct (Hpin 0%R 1%R) as (v & Hv & _ & Hz & _).
    + lia.
    + lia.
    + reflexivity.
    + unfold HalfDuplexStrategy.sumSquares. real_cbn. rewrite ndiv_some by lra.
      rewrite nsqrt_some by lra. f_equal.
      replace ((0 + 1 * 1) / 1)%R with 1%R by lra. apply sqrt_1.
    + rewrite Rltb_true in Hz by lra. cbn in Hz. specialize (Hz eq_refl). subst v.
      split; [exact Hv|]. destruct Hclosed as (Hg & Hout).
      * rewrite Hv. cbn [xgt]. apply Rltb_true.
        cbn [HalfDuplexStrategy.onMessage HalfDuplexStrategy.config HalfDuplexCfg.assign
             HalfDuplexCfg.thresholdDb HalfDuplexStrategy.create
             HalfDuplexCfg.getDefaultCfg HalfDuplexCfg.d_thresholdDb].
        unfold Rpower. rewrite <- exp_0. apply exp_increasing.
        assert (0 < ln 10)%R by (rewrite <- ln_1; apply ln_increasing; lra).
        nra.
      * split; [exact Hg|]. apply (Hout 0); [lia | reflexivity].
  - destruct (C9_gate_output 48000 HalfDuplexStrategy.create 2
                [Some (1 / 2)%R; Some (1 / 4)%R] [Some 0%R; Some 0%R] (f32_new 2))
      as (_ & _ & Hopen & Hpin).
    cbv zeta in Hopen, Hpin.
    destruct (Hpin 0%R 0%R) as (v & Hv & Hnz & _ & _).
    + lia.
    + lia.
    + reflexivity.
    + unfold HalfDuplexStrategy.sumSquares. real_cbn. rewrite ndiv_some by lra.
      rewrite nsqrt_some by lra. f_equal.
      replace ((0 + 0 * 0 + 0 * 0) / 2)%R with 0%R by lra. apply sqrt_0.
    + rewrite Rltb_false in Hnz by lra.
      assert (Hv0 : v = 0%R).
      { rewrite Hnz by (cbn; lra). lra. }
      subst v. destruct Hopen as (Hg & Hout).
      * rewrite Hv. cbn [xgt]. apply Rltb_false. unfold Rpower.
        pose proof (exp_pos
                      (HalfDuplexCfg.thresholdDb
                         (HalfDuplexStrategy.config HalfDuplexStrategy.create) / 20
                       * ln 10)). lra.
      * split; [exact Hg|]. rewrite (Hout 1); [reflexivity | lia | reflexivity].
Defined.

(** ** IRMeasurementHelper: a silent recording *)

(** C6.  When the RMS of the recording is below the near-silence threshold
    0.005, [_computeIR] returns normally, having stored that RMS, an empty
    trimmed response and [ready = true]; every other field, among them the
    full response, the peak statistics, [irAcquired] and the pre-normalization
    sum, is left as it was. *)
Theorem C6_silent_measurement (sampleRate : Z) (s : IRMeasurementHelper.t) :
  0 <= IRMeasurementHelper.irLength s ->
  nlt (IRMeasurementHelper.recordRms s) (Some (5 / 1000)%R) = true ->
  IRMeasurementHelper._computeIR sampleRate s
  = Returned
      {| IRMeasurementHelper.signalType := IRMeasurementHelper.signalType s;
         IRMeasurementHelper.irLength := IRMeasurementHelper.irLength s;
         IRMeasurementHelper.measureSamples := IRMeasurementHelper.measureSamples s;
         IRMeasurementHelper.testSignal := IRMeasurementHelper.testSignal s;
         IRMeasurementHelper.testSignalEnergy := IRMeasurementHelper.testSignalEnergy s;
         IRMeasurementHelper.recordBuffer := IRMeasurementHelper.recordBuffer s;
         IRMeasurementHelper.recordPos := IRMeasurementHelper.recordPos s;
         IRMeasurementHelper.playPos := IRMeasurementHelper.playPos s;
         IRMeasurementHelper.ir := IRMeasurementHelper.ir s;
         IRMeasurementHelper.irTrimmed := Some [];
         IRMeasurementHelper.irDelayOffset := IRMeasurementHelper.irDelayOffset s;
         IRMeasurementHelper.ready := true;
         IRMeasurementHelper.irAcquired := IRMeasurementHelper.irAcquired s;
         IRMeasurementHelper.peakValue := IRMeasurementHelper.peakValue s;
         IRMeasurementHelper.peakDelayMs := IRMeasurementHelper.peakDelayMs s;
         IRMeasurementHelper.crestFactor := IRMeasurementHelper.crestFactor s;
         IRMeasurementHelper.peakAtBoundary := IRMeasurementHelper.peakAtBoundary s;
         IRMeasurementHelper.debugPeakSum := IRMeasurementHelper.debugPeakSum s;
         IRMeasurementHelper.debugRecordRms := IRMeasurementHelper.recordRms s;
         IRMeasurementHelper.irSumBeforeNorm := IRMeasurementHelper.irSumBeforeNorm s |}.
Proof.
  intros Hlen Hsilent. unfold IRMeasurementHelper._computeIR.
  destruct (IRMeasurementHelper.irLength s <? 0) eqn:E; [lia|].
  unfold IRMeasurementHelper.silenceThreshold. rewrite Hsilent. reflexivity.
Qed.

Lemma silentRecording_rms : IRMeasurementHelper.recordRms silentRecording = Some 0%R.
Proof.
  unfold IRMeasurementHelper.recordRms, IRMeasurementHelper.recSumSq, silentRecording.
  real_cbn. rewrite ndiv_some by lra.
  replace ((0 + 0 * 0 + 0 * 0) / 2)%R with 0%R by lra.
  rewrite nsqrt_some by lra. now rewrite sqrt_0.
Qed.

Lemma C6_silent_measurement_witness :
  exists s', IRMeasurementHelper._computeIR 48000 silentRecording = Returned s'
             /\ IRMeasurementHelper.irTrimmed s' = Some []
             /\ IRMeasurementHelper.ready s' = true.
Proof.
  eexists. split.
  - apply (C6_silent_measurement 48000 silentRecording).
    + simpl. lia.
    + rewrite silentRecording_rms. simpl. apply Rltb_true. lra.
  - split; reflexivity.
Defined.

(** ** RIRStrategy after a silent measurement *)

Lemma cancel_out_fill (fx : FauxecState.t) (atten : R) (offset len : Z)
    (nearEndFrame farEndFrame : f32) (l : list Z) (st : RIRStrategy.loopState) :
  RIRStrategy.l_out
    (fold_left (RIRStrategy.cancelStep fx atten [] offset len nearEndFrame farEndFrame)
       l st)
  = fold_left
      (fun out i => f32_set out i (nsub (f32_get nearEndFrame i) (Some (0 * atten)%R)))
      l (RIRStrategy.l_out st).
Proof.
  revert st. induction l as [|i l IH]; intros st; simpl; [reflexivity|].
  rewrite IH. f_equal. unfold RIRStrategy.cancelStep.
  destruct (RIRStrategy.l_debug st);
    [destruct (RIRStrategy.l_debugPos st <? FauxecState.debugMaxSamples fx)|];
    reflexivity.
Qed.

Lemma fold_left_pointwise {A B : Type} (f g : A -> B -> A) (l : list B) (a : A) :
  (forall x y, f x y = g x y) -> fold_left f l a = fold_left g l a.
Proof.
  intros H. revert a. induction l as [|y l IH]; intros a; simpl; [reflexivity|].
  now rewrite H, IH.
Qed.

Lemma nsub_zero (a : num) (x : R) : nsub a (Some (0 * x)%R) = a.
Proof. destruct a as [r|]; simpl; [f_equal; ring | reflexivity]. Qed.

Lemma silent_onFrame (sampleRate : Z) (fx : FauxecState.t) (s : RIRStrategy.t)
    (nSamples : Z) (nearEndFrame farEndFrame outFrame : f32) (tsf : option f32) :
  silentComplete s ->
  exists s',
    RIRStrategy.onFrame sampleRate fx s nSamples nearEndFrame farEndFrame outFrame tsf
      = (Returned s',
         fill (f32_get nearEndFrame) nSamples outFrame,
         tsf)
    /\ silentComplete s'.
Proof.
  intros (h & Hrir & Hready & Htrim).
  unfold RIRStrategy.onFrame. rewrite Hrir, Hready, Htrim. cbn [negb].
  eexists. split.
  - f_equal. f_equal. rewrite cancel_out_fill. cbn [RIRStrategy.l_out].
    unfold fill. apply fold_left_pointwise. intros out i. now rewrite nsub_zero.
  - exists h. cbn [RIRStrategy.rir]. auto.
Qed.

Lemma silent_afterFrames (sampleRate : Z) (fx : FauxecState.t) (s s' : RIRStrategy.t) :
  silentComplete s -> afterFrames sampleRate fx s s' -> silentComplete s'.
Proof.
  intros Hs Hreach. induction Hreach as [|s1 s2 n near far out0 tsf out tsf' _ IH Hstep].
  - assumption.
  - destruct (silent_onFrame sampleRate fx s1 n near far out0 tsf IH) as (s3 & Heq & Hs3).
    rewrite Heq in Hstep. inversion Hstep; subst. assumption.
Qed.

(** C10.  Once the measurement has completed with the empty trimmed
    response, every later [RIRStrategy.onFrame] call (after any number of
    frames, whatever the attenuation setting) returns normally and its output
    frame holds the near-end samples unchanged. *)
Theorem C10_silent_passthrough (sampleRate : Z) (fx : FauxecState.t)
    (s s1 : RIRStrategy.t) (nSamples : Z)
    (nearEndFrame farEndFrame outFrame : f32) (tsf : option f32) :
  silentComplete s ->
  afterFrames sampleRate fx s s1 ->
  exists s2 out,
    RIRStrategy.onFrame sampleRate fx s1 nSamples nearEndFrame farEndFrame outFrame tsf
      = (Returned s2, out, tsf)
    /\ forall i, 0 <= i < nSamples -> i < f32_length outFrame ->
         f32_get out i = f32_get nearEndFrame i.
Proof.
  intros Hs Hreach.
  pose proof (silent_afterFrames sampleRate fx s s1 Hs Hreach) as Hs1.
  destruct (silent_onFrame sampleRate fx s1 nSamples nearEndFrame farEndFrame outFrame
              tsf Hs1) as (s2 & Heq & _).
  exists s2, (fill (f32_get nearEndFrame) nSamples outFrame). split; [exact Heq|].
  intros i Hi Hl. rewrite fill_get by lia.
  destruct (i <? nSamples) eqn:E; [reflexivity | lia].
Qed.

Lemma silentStrategy_complete : silentComplete silentStrategy.
Proof.
  exists silentMeasured. split; [reflexivity|].
  unfold silentMeasured, IRMeasurementHelper._computeIR.
  change (IRMeasurementHelper.irLength silentRecording <? 0) with false.
  cbv iota. rewrite silentRecording_rms.
  replace (nlt (Some 0%R) (Some IRMeasurementHelper.silenceThreshold)) with true.
  - split; reflexivity.
  - symmetry. apply Rltb_true. unfold IRMeasurementHelper.silenceThreshold. lra.
Qed.

Lemma C10_silent_passthrough_witness :
  exists s2 out,
    RIRStrategy.onFrame 48000 (FauxecState.mk false 0) silentStrategy 2
      [Some (1 / 2)%R; Some (1 / 4)%R] [Some 1%R; Some 1%R] (f32_new 2) None
      = (Returned s2, out, None)
    /\ f32_get out 1 = Some (1 / 4)%R.
Proof.
  destruct (C10_silent_passthrough 48000 (FauxecState.mk false 0)
              silentStrategy silentStrategy 2
              [Some (1 / 2)%R; Some (1 / 4)%R] [Some 1%R; Some 1%R] (f32_new 2) None
              silentStrategy_complete
              (afterFrames_refl 48000 (FauxecState.mk false 0) silentStrategy))
    as (s2 & out & Heq & Hout).
  exists s2, out. split; [exact Heq|].
  rewrite (Hout 1); [reflexivity | lia | reflexivity].
Defined.

(** ** XCorrHelper: the normalized cross-correlation *)

Lemma nccSums_fold (s : XCorrHelper.t) (delay windowSize : Z) :
  XCorrHelper.nccSums s delay windowSize
  = fold_left (nccStep s delay)
      (range (Z.min windowSize (XCorrHelper.bufferSize s - delay)))
      (Some 0%R, Some 0%R, Some 0%R).
Proof.
  unfold XCorrHelper.nccSums. apply fold_left_pointwise.
  intros [[corr nearE] farE] i. reflexivity.
Qed.

Lemma cauchy_schwarz_step (c a b n f : R) :
  (0 <= a)%R -> (0 <= b)%R -> (c * c <= a * b)%R ->
  ((c + n * f) * (c + n * f) <= (a + n * n) * (b + f * f))%R.
Proof.
  intros Ha Hb Hc.
  assert (Hx : (0 <= a * (f * f) + b * (n * n))%R).
  { apply Rplus_le_le_0_compat; apply Rmult_le_pos; auto; apply Rle_0_sqr. }
  assert (Hsq : ((2 * c * n * f) * (2 * c * n * f)
                 <= (a * (f * f) + b * (n * n)) * (a * (f * f) + b * (n * n)))%R).
  { pose proof (Rle_0_sqr (a * (f * f) - b * (n * n))) as H1. unfold Rsqr in H1.
    assert (H2 : (0 <= (n * f) * (n * f) * (a * b - c * c))%R).
    { apply Rmult_le_pos; [apply Rle_0_sqr | lra]. }
    lra. }
  assert (Hy : (2 * c * n * f <= a * (f * f) + b * (n * n))%R).
  { destruct (Rle_dec (2 * c * n * f) 0) as [Hneg|Hpos]; [lra|].
    apply Rnot_le_lt in Hpos.
    destruct (Rle_dec (2 * c * n * f) (a * (f * f) + b * (n * n))) as [|Hgt]; [assumption|].
    apply Rnot_le_lt in Hgt. exfalso.
    assert ((a * (f * f) + b * (n * n)) * (a * (f * f) + b * (n * n))
            < (2 * c * n * f) * (2 * c * n * f))%R.
    { apply Rmult_le_0_lt_compat; assumption. }
    lra. }
  lra.
Qed.

Lemma nccInv_step (s : XCorrHelper.t) (delay : Z) (acc : num * num * num) (i : Z) :
  nccInv acc -> nccInv (nccStep s delay acc i).
Proof.
  intros [(c & a & b & -> & Ha & Hb & Hc) | Hnone].
  - unfold nccStep. destruct (nearSample s i) as [n|], (farSample s delay i) as [f|];
      simpl.
    + left. exists (c + n * f)%R, (a + n * n)%R, (b + f * f)%R.
      repeat split.
      * pose proof (Rle_0_sqr n) as H. unfold Rsqr in H. lra.
      * pose proof (Rle_0_sqr f) as H. unfold Rsqr in H. lra.
      * now apply cauchy_schwarz_step.
    + right. now right.
    + right. now left.
    + right. now left.
  - right. destruct acc as [[corr nearE] farE]. simpl in *.
    destruct Hnone as [-> | ->]; [left | right]; reflexivity.
Qed.

Lemma nccInv_fold (s : XCorrHelper.t) (delay : Z) (l : list Z) (acc : num * num * num) :
  nccInv acc -> nccInv (fold_left (nccStep s delay) l acc).
Proof.
  revert acc. induction l as [|i l IH]; intros acc H; simpl; [assumption|].
  apply IH. now apply nccInv_step.
Qed.

Lemma nccInv_sums (s : XCorrHelper.t) (delay windowSize : Z) :
  nccInv (XCorrHelper.nccSums s delay windowSize).
Proof.
  rewrite nccSums_fold. apply nccInv_fold. left.
  exists 0%R, 0%R, 0%R. repeat split; lra.
Qed.

Lemma abs_le_sqrt (c p : R) : (c * c <= p)%R -> (Rabs c <= sqrt p)%R.
Proof.
  intros H. rewrite <- sqrt_Rsqr_abs. apply sqrt_le_1_alt. exact H.
Qed.

Lemma ncc_of_sums (c a b : R) :
  (0 <= a)%R -> (0 <= b)%R -> (c * c <= a * b)%R ->
  exists r,
    (if ngt (nsqrt (nmul (Some a) (Some b))) (Some 0%R)
     then ndiv (Some c) (nsqrt (nmul (Some a) (Some b))) else Some 0%R) = Some r
    /\ (-1 <= r <= 1)%R.
Proof.
  intros Ha Hb Hc. cbn [nmul].
  rewrite nsqrt_some by (apply Rmult_le_pos; assumption).
  cbn [ngt]. unfold Rltb. destruct (Rlt_dec 0 (sqrt (a * b))) as [Hpos|Hnpos].
  - rewrite ndiv_some by lra. eexists. split; [reflexivity|].
    pose proof (abs_le_sqrt c (a * b) Hc) as Habs.
    assert (Hc' : (- sqrt (a * b) <= c <= sqrt (a * b))%R).
    { unfold Rabs in Habs. destruct (Rcase_abs c); lra. }
    split.
    + apply Rmult_le_reg_r with (sqrt (a * b)); [assumption|].
      unfold Rdiv. rewrite Rmult_assoc, Rinv_l by lra. lra.
    + apply Rmult_le_reg_r with (sqrt (a * b)); [assumption|].
      unfold Rdiv. rewrite Rmult_assoc, Rinv_l by lra. lra.
  - exists 0%R. split; [reflexivity | lra].
Qed.




(** ** XCorrHelper: the stored delay never falls below the minimum *)

Lemma fold_left_invariant {A B : Type} (P : A -> Prop) (f : A -> B -> A)
    (l : list B) (a : A) :
  (forall a x, In x l -> P a -> P (f a x)) -> P a -> P (fold_left f l a).
Proof.
  revert a. induction l as [|x l IH]; intros a Hstep Ha; simpl; [assumption|].
  apply IH.
  - intros a' y Hy. apply Hstep. now right.
  - apply Hstep; [now left | assumption].
Qed.

Lemma strideFuel_stuck (fuel : nat) (lo hi step : Z) :
  step <= 0 -> lo < hi -> strideFuel fuel lo hi step = None.
Proof.
  revert lo. induction fuel as [|k IH]; intros lo Hstep Hlt; simpl;
    destruct (lo <? hi) eqn:E; try lia; [reflexivity|].
  rewrite IH by lia. reflexivity.
Qed.

Lemma strideFuel_ge (fuel : nat) (lo hi step : Z) (l : list Z) :
  strideFuel fuel lo hi step = Some l -> forall d, In d l -> lo <= d.
Proof.
  destruct (Z_le_gt_dec step 0) as [Hneg|Hpos].
  - intros H d Hd. destruct (Z_lt_ge_dec lo hi) as [Hlt|Hge].
    + rewrite strideFuel_stuck in H by assumption. discriminate.
    + destruct fuel; simpl in H; destruct (lo <? hi) eqn:E; try lia;
        inversion H; subst; contradiction.
  - revert lo l. induction fuel as [|k IH]; intros lo l H d Hd; simpl in H;
      destruct (lo <? hi) eqn:E; try discriminate;
      try (inversion H; subst; contradiction).
    destruct (strideFuel k (lo + step) hi step) as [l'|] eqn:El; [|discriminate].
    simpl in H. inversion H; subst. destruct Hd as [<- | Hd]; [lia|].
    specialize (IH _ _ El d Hd). lia.
Qed.

Lemma stride_ge (lo hi step : Z) (l : list Z) :
  stride lo hi step = Some l -> forall d, In d l -> lo <= d.
Proof. apply strideFuel_ge. Qed.

(** With a positive step the search loops terminate. *)
Lemma strideFuel_total (fuel : nat) (lo hi step : Z) :
  0 < step -> (Z.to_nat (hi - lo) <= fuel)%nat ->
  exists l, strideFuel fuel lo hi step = Some l.
Proof.
  intros Hstep. revert lo. induction fuel as [|k IH]; intros lo Hfuel; simpl;
    destruct (lo <? hi) eqn:E; try (now eexists); try lia.
  destruct (IH (lo + step)) as (l & ->); [lia|]. now eexists.
Qed.

Lemma stride_total (lo hi step : Z) :
  0 < step -> exists l, stride lo hi step = Some l.
Proof. intros H. apply strideFuel_total; [assumption | lia]. Qed.

Lemma searchInv_fold (s : XCorrHelper.t) (windowSize lo : Z) (l : list Z)
    (acc : xnum * Z) :
  (forall d, In d l -> lo <= d) ->
  searchInv lo acc ->
  searchInv lo (fold_left (XCorrHelper.searchStep s windowSize) l acc).
Proof.
  intros Hl. apply fold_left_invariant. intros a d Hd Ha.
  unfold XCorrHelper.searchStep.
  destruct (gt_xnum _ _); [|assumption]. right. simpl. now apply Hl.
Qed.

Lemma haveEnough_fields (s : XCorrHelper.t) :
  let s' := snd (XCorrHelper.haveEnoughSignalForXCorr s) in
  XCorrHelper.minDelay s' = XCorrHelper.minDelay s
  /\ XCorrHelper.minDelayMs s' = XCorrHelper.minDelayMs s
  /\ XCorrHelper.delay s' = XCorrHelper.delay s
  /\ XCorrHelper.foundXC s' = XCorrHelper.foundXC s.
Proof.
  unfold XCorrHelper.haveEnoughSignalForXCorr.
  destruct (nlt _ _); [|destruct (nlt _ _)]; simpl; auto.
Qed.

(** What [updateDelay] does to the delay: it keeps it, or it stores a
    candidate that is at least [minDelay] and sets the lock. *)
Lemma updateDelay_delay (s s' : XCorrHelper.t) :
  XCorrHelper.updateDelay s = Some s' ->
  XCorrHelper.minDelay s' = XCorrHelper.minDelay s
  /\ XCorrHelper.minDelayMs s' = XCorrHelper.minDelayMs s
  /\ ((XCorrHelper.delay s' = XCorrHelper.delay s
       /\ XCorrHelper.foundXC s' = XCorrHelper.foundXC s)
      \/ (XCorrHelper.minDelay s <= XCorrHelper.delay s'
          /\ XCorrHelper.foundXC s' = true)).
Proof.
  unfold XCorrHelper.updateDelay.
  pose proof (haveEnough_fields s) as Hf. cbv zeta in Hf.
  destruct (XCorrHelper.haveEnoughSignalForXCorr s) as [enough s1]. simpl in Hf.
  destruct Hf as (Hmd & Hms & Hd & Hx).
  destruct enough; simpl.
  2:{ intros H. inversion H; subst. auto. }
  destruct (stride (XCorrHelper.minDelay s1) _ _) as [coarse|] eqn:Ec; [|discriminate].
  pose proof (searchInv_fold s1
                (Z.min (XCorrHelper.xcorrWindowSize s1) (XCorrHelper.bufferSize s1))
                (XCorrHelper.minDelay s1) coarse (NegInfinity, 0)
                (stride_ge _ _ _ _ Ec) (or_introl eq_refl)) as Hc.
  destruct (fold_left _ coarse _) as [bestNXC1 coarseDelay].
  destruct (stride (Z.max _ _) _ 12) as [fine|] eqn:Ef; [|discriminate].
  assert (Hfine : forall d, In d fine -> XCorrHelper.minDelay s1 <= d).
  { intros d Hin. pose proof (stride_ge _ _ _ _ Ef d Hin). lia. }
  pose proof (searchInv_fold s1
                (Z.min (XCorrHelper.xcorrWindowSize s1) (XCorrHelper.bufferSize s1))
                (XCorrHelper.minDelay s1) fine (bestNXC1, coarseDelay) Hfine Hc) as Hb.
  destruct (fold_left _ fine _) as [bestNXC bestDelay].
  destruct (xnum_lt bestNXC _) eqn:Elt; intros H; inversion H; subst; simpl.
  - auto.
  - split; [assumption|]. split; [assumption|]. right. split; [|reflexivity].
    destruct Hb as [Hneg | Hge]; simpl in *; [|lia].
    subst bestNXC. discriminate.
Qed.

Lemma pushSamples_fields (s : XCorrHelper.t) (nearEndFrame farEndFrame : f32) :
  let s' := XCorrHelper.pushSamples s nearEndFrame farEndFrame in
  XCorrHelper.minDelay s' = XCorrHelper.minDelay s
  /\ XCorrHelper.minDelayMs s' = XCorrHelper.minDelayMs s
  /\ XCorrHelper.delay s' = XCorrHelper.delay s
  /\ XCorrHelper.foundXC s' = XCorrHelper.foundXC s
  /\ XCorrHelper.bufferSize s' = XCorrHelper.bufferSize s.
Proof.
  unfold XCorrHelper.pushSamples.
  apply (fold_left_invariant
           (fun s' => XCorrHelper.minDelay s' = XCorrHelper.minDelay s
                      /\ XCorrHelper.minDelayMs s' = XCorrHelper.minDelayMs s
                      /\ XCorrHelper.delay s' = XCorrHelper.delay s
                      /\ XCorrHelper.foundXC s' = XCorrHelper.foundXC s
                      /\ XCorrHelper.bufferSize s' = XCorrHelper.bufferSize s)).
  - intros a i _ H. exact H.
  - repeat split.
Qed.

Lemma addFrame_delay (s s' : XCorrHelper.t) (nearEndFrame farEndFrame : f32) :
  XCorrHelper.addFrame s nearEndFrame farEndFrame = Some s' ->
  XCorrHelper.minDelay s' = XCorrHelper.minDelay s
  /\ XCorrHelper.minDelayMs s' = XCorrHelper.minDelayMs s
  /\ ((XCorrHelper.delay s' = XCorrHelper.delay s
       /\ XCorrHelper.foundXC s' = XCorrHelper.foundXC s)
      \/ (XCorrHelper.minDelay s <= XCorrHelper.delay s'
          /\ XCorrHelper.foundXC s' = true)).
Proof.
  unfold XCorrHelper.addFrame.
  pose proof (pushSamples_fields s nearEndFrame farEndFrame) as Hp. cbv zeta in Hp.
  destruct Hp as (Hmd & Hms & Hd & Hx & _).
  destruct (_ >=? _).
  - intros H. apply updateDelay_delay in H. simpl in H.
    rewrite Hmd, Hms, Hd, Hx in H. exact H.
  - intros H. inversion H; subst. simpl. auto.
Qed.

Lemma applyOpt_invariant {A : Type} (P : XCorrHelper.t -> Prop) (o : option A)
    (f : XCorrHelper.t -> A -> XCorrHelper.t) (s : XCorrHelper.t) :
  (forall s v, P s -> P (f s v)) -> P s -> P (XCorrHelper.applyOpt o f s).
Proof. intros Hf Hs. destruct o; simpl; auto. Qed.

Lemma updateConfigRest_inv (sampleRate : Z) (s : XCorrHelper.t) (config : XCorrCfg.t) :
  delayInv sampleRate s ->
  delayInv sampleRate (XCorrHelper.updateConfigRest sampleRate s config).
Proof.
  intros H. unfold XCorrHelper.updateConfigRest.
  repeat (apply applyOpt_invariant;
          [ intros s0 v [H1 H2]; split; simpl; try assumption; try reflexivity; lia | ]).
  exact H.
Qed.

Lemma updateConfig_inv (sampleRate : Z) (s : XCorrHelper.t) (config : XCorrCfg.t) :
  delayInv sampleRate s ->
  delayInv sampleRate (outcome_state (XCorrHelper.updateConfig sampleRate s config)).
Proof.
  intros H. unfold XCorrHelper.updateConfig.
  destruct (XCorrCfg.echoTimeWindowSizeMs config) as [etw|].
  - destruct (etw =? _).
    + simpl. now apply updateConfigRest_inv.
    + destruct (_ <? 0); simpl.
      * exact H.
      * apply updateConfigRest_inv. exact H.
  - simpl. now apply updateConfigRest_inv.
Qed.

Lemma create_inv (sampleRate : Z) (config : XCorrCfg.t) (s : XCorrHelper.t) :
  XCorrHelper.create sampleRate config = Some s -> delayInv sampleRate s.
Proof.
  unfold XCorrHelper.create.
  destruct (XCorrCfg.echoTimeWindowSizeMs config); [|discriminate].
  destruct (XCorrCfg.updateIntervalFrames config); [|discriminate].
  destruct (XCorrCfg.minDelayMs config); [|discriminate].
  destruct (XCorrCfg.stepSize config); [|discriminate].
  destruct (XCorrCfg.txThresholdDb config); [|discriminate].
  destruct (XCorrCfg.rxThresholdDb config); [|discriminate].
  destruct (XCorrCfg.smoothingAlpha config); [|discriminate].
  destruct (XCorrCfg.nxcThreshold config); [|discriminate].
  destruct (XCorrCfg.xcorrWindowSize config); [|discriminate].
  destruct (_ <? 0); [discriminate|].
  intros H. inversion H; subst. split; simpl; [reflexivity | lia].
Qed.

(** C2.  In every reachable state of the estimator the stored delay is at
    least [minDelay = floor(sampleRate * minDelayMs / 1000)]. *)
Theorem C2_delay_at_least_min (sampleRate : Z) (s : XCorrHelper.t) :
  reachable sampleRate s ->
  XCorrHelper.minDelay s = (sampleRate * XCorrHelper.minDelayMs s) / 1000
  /\ XCorrHelper.minDelay s <= XCorrHelper.delay s.
Proof.
  intros H. change (delayInv sampleRate s).
  induction H as [config s Hc | s near far s' _ IH Hadd | s s' _ IH Hupd | s config _ IH].
  - now apply create_inv with config.
  - destruct IH as [IH1 IH2].
    destruct (addFrame_delay _ _ _ _ Hadd) as (Hmd & Hms & [[Hd _] | [Hd _]]);
      (split; [rewrite Hmd, Hms; exact IH1 | lia]).
  - destruct IH as [IH1 IH2].
    destruct (updateDelay_delay _ _ Hupd) as (Hmd & Hms & [[Hd _] | [Hd _]]);
      (split; [rewrite Hmd, Hms; exact IH1 | lia]).
  - now apply updateConfig_inv.
Qed.

Lemma C2_delay_at_least_min_witness :
  exists s,
    XCorrHelper.create 1000 smallCfg = Some s
    /\ XCorrHelper.delay s = 1
    /\ 3 <= XCorrHelper.delay
              (outcome_state (XCorrHelper.updateConfig 1000 s (raiseMinDelay 3))).
Proof.
  eexists. split; [reflexivity|]. split; [reflexivity|].
  match goal with
  | |- 3 <= XCorrHelper.delay (outcome_state (XCorrHelper.updateConfig _ ?s0 _)) =>
      pose proof (C2_delay_at_least_min 1000 _
                    (reach_updateConfig 1000 s0 (raiseMinDelay 3)
                       (reach_create 1000 smallCfg s0 eq_refl))) as [Hmin Hle]
  end.
  exact Hle.
Defined.

(** ** NLMSStrategy: the running windowed energy *)

Lemma allReal_val (a : f32) (i : Z) :
  allReal a -> 0 <= i < f32_length a -> f32_get a i = Some (val a i).
Proof. intros Ha Hi. unfold val. destruct (Ha i Hi) as (r & ->). reflexivity. Qed.

Lemma allReal_set (a : f32) (i : Z) (r : R) : allReal a -> allReal (f32_set a i (Some r)).
Proof.
  intros Ha j Hj. rewrite f32_set_length in Hj.
  destruct (Z.eq_dec i j) as [->|Hne].
  - exists r. now apply f32_get_set_same.
  - rewrite f32_get_set_other by assumption. now apply Ha.
Qed.

Lemma rsum_app (F : Z -> R) (l1 l2 : list Z) :
  rsum F (l1 ++ l2) = (rsum F l1 + rsum F l2)%R.
Proof. induction l1 as [|j l1 IH]; simpl; [lra | rewrite IH; lra]. Qed.

Lemma rsum_ext (F G : Z -> R) (l : list Z) :
  (forall j, In j l -> F j = G j) -> rsum F l = rsum G l.
Proof.
  induction l as [|j l IH]; intros H; simpl; [reflexivity|].
  rewrite (H j) by now left. rewrite IH; [reflexivity|].
  intros k Hk. apply H. now right.
Qed.

Lemma rsum_map (F : Z -> R) (g : Z -> Z) (l : list Z) :
  rsum F (map g l) = rsum (fun j => F (g j)) l.
Proof. induction l as [|j l IH]; simpl; [reflexivity | now rewrite IH]. Qed.

Lemma rangeFrom_shift (a b : Z) :
  rangeFrom (a + 1) (b + 1) = map (fun j => j + 1) (rangeFrom a b).
Proof.
  unfold rangeFrom. replace (b + 1 - (a + 1)) with (b - a) by lia.
  rewrite map_map. apply map_ext. intros k. lia.
Qed.

Lemma rangeFrom_snoc (a b : Z) : a < b -> rangeFrom a b = rangeFrom a (b - 1) ++ [b - 1].
Proof.
  intros H. rewrite <- (rangeFrom_succ a (b - 1)) by lia. f_equal. lia.
Qed.

Lemma rangeFrom_shift_last (a b : Z) :
  rangeFrom (a + 1) b = map (fun j => j + 1) (rangeFrom a (b - 1)).
Proof. rewrite <- rangeFrom_shift. f_equal. lia. Qed.

Lemma energy_fold_real (f : Z -> num) (F : Z -> R) (l : list Z) (a0 : R) :
  (forall j, In j l -> f j = Some (F j)) ->
  fold_left (fun acc j => nadd acc (nmul (f j) (f j))) l (Some a0)
  = Some (a0 + rsum (fun j => F j * F j) l)%R.
Proof.
  revert a0. induction l as [|j l IH]; intros a0 H; simpl.
  - f_equal. lra.
  - rewrite (H j) by now left. simpl. rewrite IH.
    + f_equal. lra.
    + intros k Hk. apply H. now right.
Qed.

Lemma mod_two_periods (a L : Z) :
  0 < L -> 0 <= a < 2 * L -> a mod L = if a <? L then a else a - L.
Proof.
  intros HL Ha. destruct (a <? L) eqn:E.
  - apply Z.mod_small. lia.
  - replace a with ((a - L) + 1 * L) at 1 by lia.
    rewrite Z.mod_add by lia. apply Z.mod_small. lia.
Qed.

Lemma rem_two_periods (a L : Z) :
  0 < L -> 0 <= a < 2 * L -> Z.rem a L = if a <? L then a else a - L.
Proof.
  intros HL Ha. rewrite Z.rem_mod_nonneg by lia. now apply mod_two_periods.
Qed.

(** The window energy of a buffer of reals, as a real sum. *)
Lemma windowEnergy_real (x : f32) (p m L : Z) :
  allReal x -> f32_length x = L -> 0 <= p < L -> 0 <= m ->
  NLMSStrategy.windowEnergy x p m L
  = Some (rsum (fun j => val x (Z.rem (p - j + L) L) * val x (Z.rem (p - j + L) L))
               (rangeFrom m L))%R.
Proof.
  intros Hx HL Hp Hm. unfold NLMSStrategy.windowEnergy.
  rewrite (energy_fold_real (fun j => f32_get x (Z.rem (p - j + L) L))
             (fun j => val x (Z.rem (p - j + L) L))).
  - f_equal. lra.
  - intros j Hj. apply in_rangeFrom in Hj. apply allReal_val; [assumption|].
    rewrite rem_two_periods by lia. destruct (_ <? L) eqn:E; lia.
Qed.

(** One sample: the window energy of the new buffer at the new cursor is the
    old one, minus the square of the sample that was overwritten, plus the
    square of the sample now at lag [m]. *)
Lemma window_slide (x : f32) (p m L : Z) (v : R) :
  allReal x -> f32_length x = L -> 0 <= p < L -> 0 <= m < L ->
  let p' := Z.rem (p + 1) L in
  let x' := f32_set x p' (Some v) in
  rsum (fun j => (val x' (Z.rem (p' - j + L) L) * val x' (Z.rem (p' - j + L) L))%R)
       (rangeFrom m L)
  = (rsum (fun j => val x (Z.rem (p - j + L) L) * val x (Z.rem (p - j + L) L))
          (rangeFrom m L)
     - val x p' * val x p'
     + val x' (Z.rem (p' - m + L) L) * val x' (Z.rem (p' - m + L) L))%R.
Proof.
  intros Hx HL Hp Hm p' x'.
  assert (Hp' : p' = if p + 1 <? L then p + 1 else 0).
  { unfold p'. rewrite rem_two_periods by lia.
    destruct (p + 1 <? L) eqn:E; lia. }
  set (F' := fun j => (val x' (Z.rem (p' - j + L) L) * val x' (Z.rem (p' - j + L) L))%R).
  set (F := fun j => (val x (Z.rem (p - j + L) L) * val x (Z.rem (p - j + L) L))%R).
  assert (Hcons : rsum F' (rangeFrom m L) = (F' m + rsum F' (rangeFrom (m + 1) L))%R).
  { rewrite (rangeFrom_cons m L) by lia. reflexivity. }
  assert (Hsnoc : rsum F (rangeFrom m L) = (rsum F (rangeFrom m (L - 1)) + F (L - 1)%Z)%R).
  { rewrite (rangeFrom_snoc m L) by lia. rewrite rsum_app. simpl. lra. }
  assert (Hleave : F (L - 1) = (val x p' * val x p')%R).
  { unfold F. replace (Z.rem (p - (L - 1) + L) L) with p'; [reflexivity|].
    unfold p'. f_equal. lia. }
  assert (Hshift : rsum F' (rangeFrom (m + 1) L) = rsum F (rangeFrom m (L - 1))).
  { rewrite (rangeFrom_shift_last m L), rsum_map. apply rsum_ext.
    intros j Hj. apply in_rangeFrom in Hj. unfold F', F.
    assert (Hcase : (p + 1 < L /\ p' = p + 1) \/ (p + 1 = L /\ p' = 0)).
    { rewrite Hp'. destruct (p + 1 <? L) eqn:E; lia. }
    assert (Hidx : Z.rem (p' - (j + 1) + L) L = Z.rem (p - j + L) L).
    { rewrite !rem_two_periods by lia.
      destruct (p' - (j + 1) + L <? L) eqn:E2; destruct (p - j + L <? L) eqn:E3; lia. }
    assert (Hne : p' <> Z.rem (p - j + L) L).
    { rewrite rem_two_periods by lia.
      destruct (p - j + L <? L) eqn:E3; lia. }
    rewrite Hidx. unfold val, x'. now rewrite f32_get_set_other. }
  rewrite Hcons, Hsnoc, Hleave, Hshift. unfold F'. lra.
Qed.

Lemma sampleStep_fields (cfg : NLMSCfg.t) (m : Z) (nearEndFrame farEndFrame : f32)
    (st : NLMSStrategy.loopState) (i : Z) :
  let len := NLMSCfg.filterLength cfg in
  let st' := NLMSStrategy.sampleStep cfg m nearEndFrame farEndFrame st i in
  let pos := Z.rem (NLMSStrategy.l_xBufPos st + 1) len in
  let xBuf := f32_set (NLMSStrategy.l_xBuf st) pos (f32_get farEndFrame i) in
  NLMSStrategy.l_xBufPos st' = pos
  /\ NLMSStrategy.l_xBuf st' = xBuf
  /\ NLMSStrategy.l_xPower st'
     = nadd (nsub (NLMSStrategy.l_xPower st)
                  (nmul (f32_get (NLMSStrategy.l_xBuf st) pos)
                        (f32_get (NLMSStrategy.l_xBuf st) pos)))
            (nmul (f32_get xBuf (Z.rem (pos - m + len) len))
                  (f32_get xBuf (Z.rem (pos - m + len) len))).
Proof.
  cbv zeta. unfold NLMSStrategy.sampleStep. destruct (nlt _ _); simpl; auto.
Qed.

Lemma energyInv_step (cfg : NLMSCfg.t) (m : Z) (nearEndFrame farEndFrame : f32)
    (st : NLMSStrategy.loopState) (i : Z) (v : R) :
  0 <= m < NLMSCfg.filterLength cfg ->
  f32_get farEndFrame i = Some v ->
  energyInv m (NLMSCfg.filterLength cfg) st ->
  energyInv m (NLMSCfg.filterLength cfg)
    (NLMSStrategy.sampleStep cfg m nearEndFrame farEndFrame st i).
Proof.
  intros Hm Hv (Hlen & Hpos & Hreal & Hpow).
  pose proof (sampleStep_fields cfg m nearEndFrame farEndFrame st i) as Hf.
  cbv zeta in Hf. destruct Hf as (Hp' & Hx' & Hw').
  set (L := NLMSCfg.filterLength cfg) in *.
  set (p := NLMSStrategy.l_xBufPos st) in *.
  set (x := NLMSStrategy.l_xBuf st) in *.
  assert (Hrange : 0 <= Z.rem (p + 1) L < L).
  { rewrite rem_two_periods by lia. destruct (p + 1 <? L) eqn:E; lia. }
  rewrite Hv in *.
  assert (Hreal' : allReal (f32_set x (Z.rem (p + 1) L) (Some v)))
    by now apply allReal_set.
  assert (Hlen' : f32_length (f32_set x (Z.rem (p + 1) L) (Some v)) = L)
    by now rewrite f32_set_length.
  unfold energyInv. rewrite Hp', Hx'. repeat split; try assumption; try lia.
  rewrite Hw', Hpow.
  rewrite (windowEnergy_real x p m L) by (assumption || lia).
  rewrite (windowEnergy_real _ _ m L) by (assumption || lia).
  rewrite (allReal_val x (Z.rem (p + 1) L)) by (assumption || lia).
  rewrite (allReal_val (f32_set x (Z.rem (p + 1) L) (Some v))
             (Z.rem (Z.rem (p + 1) L - m + L) L)).
  - simpl. f_equal. symmetry. apply window_slide; assumption || lia.
  - assumption.
  - rewrite Hlen'. rewrite rem_two_periods by lia. destruct (_ <? L) eqn:E; lia.
Qed.

(** C3 (as amended).  Provided the minimum delay lies inside the filter
    ([0 <= minDelaySamples < filterLength]) and the delay line and the far-end
    frame hold real numbers, after every sample of [onFrame] the incrementally
    maintained [xPower] is a real number and equals the direct recomputation
    over the active window of the current delay line at the current cursor. *)
Theorem C3_xPower_incremental (s : NLMSStrategy.t) (k : Z)
    (nearEndFrame farEndFrame outFrame : f32) :
  let len := NLMSCfg.filterLength (NLMSStrategy.config s) in
  let m := NLMSStrategy.minDelaySamples s in
  0 <= m < len ->
  f32_length (NLMSStrategy.xBuf s) = len ->
  0 <= NLMSStrategy.xBufPos s < len ->
  allReal (NLMSStrategy.xBuf s) ->
  (forall i, 0 <= i < k -> exists v, f32_get farEndFrame i = Some v) ->
  let st := NLMSStrategy.loopAfter s k nearEndFrame farEndFrame outFrame in
  NLMSStrategy.l_xPower st
  = NLMSStrategy.windowEnergy (NLMSStrategy.l_xBuf st) (NLMSStrategy.l_xBufPos st) m len
  /\ exists r, NLMSStrategy.l_xPower st = Some r.
Proof.
  intros len m Hm Hlen Hpos Hreal Hfar st.
  assert (Hinv : energyInv m len st).
  { unfold st, NLMSStrategy.loopAfter. apply fold_left_invariant.
    - intros a i Hi Ha. apply in_range in Hi. destruct (Hfar i Hi) as (v & Hv).
      now apply energyInv_step with v.
    - unfold NLMSStrategy.loopInit, energyInv. simpl. repeat split; assumption || lia. }
  destruct Hinv as (Hlen' & Hpos' & Hreal' & Hpow). split; [exact Hpow|].
  rewrite Hpow, (windowEnergy_real _ _ m len) by (assumption || lia). now eexists.
Qed.

Lemma allReal_new (n : Z) : allReal (f32_new n).
Proof.
  intros i Hi. exists 0%R. destruct (Z_le_gt_dec 0 n) as [Hn|Hn].
  - rewrite f32_new_length in Hi by assumption. now apply f32_get_new.
  - unfold f32_length, f32_new in Hi. replace (Z.to_nat n) with O in Hi by lia.
    simpl in Hi. lia.
Qed.

Lemma C3_xPower_incremental_witness :
  exists r,
    NLMSStrategy.l_xPower
      (NLMSStrategy.loopAfter (twoTapFilter 1) 2 [Some 0%R; Some 0%R]
         [Some 1%R; Some 2%R] (f32_new 2)) = Some r.
Proof.
  apply (C3_xPower_incremental (twoTapFilter 1) 2 [Some 0%R; Some 0%R]
           [Some 1%R; Some 2%R] (f32_new 2)).
  - cbn. lia.
  - reflexivity.
  - cbn. lia.
  - apply (allReal_new 2).
  - intros i Hi.
    assert (i = 0 \/ i = 1) as [-> | ->] by lia; eexists; reflexivity.
Defined.

(** C3 as stated fails when the minimum delay is not inside the filter: with
    two taps and a minimum delay of two samples the active window is empty,
    so its energy is 0, while after one far-end sample of value 1 the running
    value is [0 - 0 + 1]. *)
Lemma C3_counterexample :
  let s := twoTapFilter 2 in
  let st := NLMSStrategy.loopAfter s 1 [Some 0%R] [Some 1%R] (f32_new 1) in
  NLMSCfg.filterLength (NLMSStrategy.config s) = 2
  /\ NLMSStrategy.minDelaySamples s = 2
  /\ NLMSStrategy.windowEnergy (NLMSStrategy.l_xBuf st) (NLMSStrategy.l_xBufPos st)
       (NLMSStrategy.minDelaySamples s)
       (NLMSCfg.filterLength (NLMSStrategy.config s)) = Some 0%R
  /\ NLMSStrategy.l_xPower st = Some (0 - 0 * 0 + 1 * 1)%R
  /\ NLMSStrategy.l_xPower st
     <> NLMSStrategy.windowEnergy (NLMSStrategy.l_xBuf st) (NLMSStrategy.l_xBufPos st)
          (NLMSStrategy.minDelaySamples s)
          (NLMSCfg.filterLength (NLMSStrategy.config s)).
Proof.
  cbv zeta.
  assert (Hpow :
    NLMSStrategy.l_xPower
      (NLMSStrategy.loopAfter (twoTapFilter 2) 1 [Some 0%R] [Some 1%R] (f32_new 1))
    = Some (0 - 0 * 0 + 1 * 1)%R).
  { unfold NLMSStrategy.loopAfter. change (range 1) with [0]. cbn [fold_left].
    destruct (sampleStep_fields (NLMSStrategy.config (twoTapFilter 2))
                (NLMSStrategy.minDelaySamples (twoTapFilter 2)) [Some 0%R] [Some 1%R]
                (NLMSStrategy.loopInit (twoTapFilter 2) (f32_new 1)) 0)
      as (_ & _ & ->).
    reflexivity. }
  assert (Hwin :
    let st := NLMSStrategy.loopAfter (twoTapFilter 2) 1 [Some 0%R] [Some 1%R]
                (f32_new 1) in
    NLMSStrategy.windowEnergy (NLMSStrategy.l_xBuf st) (NLMSStrategy.l_xBufPos st)
      (NLMSStrategy.minDelaySamples (twoTapFilter 2))
      (NLMSCfg.filterLength (NLMSStrategy.config (twoTapFilter 2))) = Some 0%R).
  { reflexivity. }
  cbv zeta in Hwin.
  split; [reflexivity|]. split; [reflexivity|].
  split; [exact Hwin|]. split; [exact Hpow|].
  rewrite Hpow, Hwin. intros H. inversion H. lra.
Qed.

(** ** IRMeasurementHelper: L1 normalization of the trimmed response *)

Lemma scaleIR_length (n : Z) (a : f32) (c : num) :
  f32_length (IRMeasurementHelper.scaleIR n a c) = f32_length a.
Proof.
  unfold IRMeasurementHelper.scaleIR.
  apply (fold_left_invariant (fun b => f32_length b = f32_length a)).
  - intros b i _ Hb. now rewrite f32_set_length.
  - reflexivity.
Qed.

Lemma scaleIR_get (n : Z) (a : f32) (c : num) (i : Z) :
  0 <= i < f32_length a ->
  f32_get (IRMeasurementHelper.scaleIR n a c) i
  = if i <? n then nmul (f32_get a i) c else f32_get a i.
Proof.
  intros Hi. destruct (Z_le_gt_dec n 0) as [Hn|Hn].
  - unfold IRMeasurementHelper.scaleIR. rewrite range_nonpos by assumption. simpl.
    destruct (i <? n) eqn:E; [lia | reflexivity].
  - rewrite <- (Z2Nat.id n) by lia. induction (Z.to_nat n) as [|m IH].
    + unfold IRMeasurementHelper.scaleIR. simpl.
      destruct (i <? 0) eqn:E; [lia | reflexivity].
    + replace (Z.of_nat (S m)) with (Z.of_nat m + 1) by lia.
      unfold IRMeasurementHelper.scaleIR in *.
      rewrite range_succ by lia. rewrite fold_left_app. simpl.
      destruct (Z.eq_dec i (Z.of_nat m)) as [->|Hne].
      * rewrite f32_get_set_same.
        -- rewrite IH.
           destruct (Z.of_nat m <? Z.of_nat m) eqn:E1; [lia|].
           destruct (Z.of_nat m <? Z.of_nat m + 1) eqn:E2; [reflexivity | lia].
        -- change (fold_left _ _ a) with (IRMeasurementHelper.scaleIR (Z.of_nat m) a c).
           rewrite scaleIR_length. assumption.
      * rewrite f32_get_set_other by auto. rewrite IH.
        destruct (i <? Z.of_nat m) eqn:E1, (i <? Z.of_nat m + 1) eqn:E2;
          try reflexivity; lia.
Qed.

Lemma sliceIR_length (ir : f32) (offset n : Z) :
  0 <= n -> f32_length (IRMeasurementHelper.sliceIR ir offset n) = n.
Proof.
  intros Hn.
  change (IRMeasurementHelper.sliceIR ir offset n)
    with (fill (fun i => f32_get ir (offset + i)) n (f32_new n)).
  rewrite fill_length. now apply f32_new_length.
Qed.





Lemma rsum_abs_nonneg (F : Z -> R) (l : list Z) : (0 <= rsum (fun i => Rabs (F i)) l)%R.
Proof.
  induction l as [|i l IH]; simpl; [lra|].
  pose proof (Rabs_pos (F i)). lra.
Qed.



Lemma unitRecording_rms : IRMeasurementHelper.recordRms unitRecording = Some 1%R.
Proof.
  unfold IRMeasurementHelper.recordRms, IRMeasurementHelper.recSumSq. real_cbn.
  rewrite ndiv_some by lra. rewrite nsqrt_some by lra. f_equal.
  replace ((0 + 1 * 1) / 1)%R with 1%R by lra. apply sqrt_1.
Qed.

Lemma unitRecording_computeIR :
  exists s',
    IRMeasurementHelper._computeIR 48000 unitRecording = Returned s'
    /\ IRMeasurementHelper.irSumBeforeNorm s' = Some (0 + Rabs 1)%R.
Proof.
  unfold IRMeasurementHelper._computeIR.
  change (IRMeasurementHelper.irLength unitRecording <? 0) with false. cbv iota.
  rewrite unitRecording_rms. unfold IRMeasurementHelper.silenceThreshold. cbn [nlt].
  rewrite Rltb_false by lra.
  assert (Hdec : IRMeasurementHelper.deconvolve unitRecording = ([Some 1%R], Some 1%R)).
  { unfold IRMeasurementHelper.deconvolve, IRMeasurementHelper.corrSum. real_cbn.
    rewrite ndiv_some by lra. cbn [ngt]. rewrite Rltb_true.
    - repeat f_equal; lra.
    - rewrite Rabs_R0. rewrite Rabs_right; lra. }
  rewrite Hdec. cbv beta iota zeta.
  change (IRMeasurementHelper.irLength unitRecording) with 1.
  assert (Hpeak : IRMeasurementHelper.findPeak 1 [Some 1%R] = (Some 1%R, 0, Some 1%R)).
  { unfold IRMeasurementHelper.findPeak. real_cbn. cbn [ngt]. rewrite Rltb_true.
    - rewrite Rabs_R1. repeat f_equal. lra.
    - rewrite Rabs_R1. lra. }
  rewrite Hpeak. cbv beta iota zeta.
  change (IRMeasurementHelper.findTailEnd 48000 1 [Some 1%R] 0
            (nmul (Some 1%R) (Some (1 / 10)%R))
          - Z.max 0 (0 - IRMeasurementHelper.preEchoSamples 48000)) with 1.
  change (1 <? 0) with false. cbv iota.
  eexists. split; reflexivity.
Qed.



(** ** TimeAlignedSubtractStrategy: the delay used by the subtraction *)

Lemma subtractLoop_out (fx : FauxecState.t) (B : Z) (buf : f32) (readStart : Z)
    (attenuation : num) (recording : bool) (nSamples : Z) (nearEndFrame outFrame : f32)
    (dbg : option f32) (dbgPos : Z) :
  fst (fst (TimeAlignedSubtractStrategy.subtractLoop fx B buf readStart attenuation
              recording nSamples nearEndFrame outFrame dbg dbgPos))
  = fill (fun i => nsub (f32_get nearEndFrame i)
                     (nmul attenuation (f32_get buf (Z.rem (readStart + i) B))))
      nSamples outFrame.
Proof.
  unfold TimeAlignedSubtractStrategy.subtractLoop, fill.
  generalize (range nSamples). intros l. revert outFrame dbg dbgPos.
  induction l as [|i l IH]; intros outFrame dbg dbgPos; simpl; [reflexivity|].
  destruct (recording && (dbgPos <? FauxecState.debugMaxSamples fx)); apply IH.
Qed.

Lemma pushFarEnd_spec (B : Z) (buf : f32) (wp n : Z) (farEndFrame : f32) :
  0 < B -> 0 <= wp < B -> f32_length buf = B -> 0 <= n ->
  pushedInv B buf wp farEndFrame n
    (TimeAlignedSubtractStrategy.pushFarEnd B buf wp n farEndFrame).
Proof.
  intros HB Hwp Hlen Hn. unfold TimeAlignedSubtractStrategy.pushFarEnd.
  rewrite <- (Z2Nat.id n) by lia. induction (Z.to_nat n) as [|k IH].
  - simpl. unfold pushedInv. simpl. repeat split.
    + rewrite Z.add_0_r. symmetry. apply Z.mod_small. lia.
    + intros i Hi. lia.
  - replace (Z.of_nat (S k)) with (Z.of_nat k + 1) by lia.
    rewrite range_succ by lia. rewrite fold_left_app. simpl.
    destruct (fold_left _ (range (Z.of_nat k)) (buf, wp)) as [b w].
    destruct IH as (Hl & Hw & Hget). simpl in Hl, Hw, Hget.
    assert (Hwr : 0 <= w < B) by (rewrite Hw; apply Z.mod_pos_bound; lia).
    unfold pushedInv. simpl. repeat split.
    + now rewrite f32_set_length.
    + rewrite Z.rem_mod_nonneg by lia. rewrite Hw.
      rewrite Zplus_mod_idemp_l. f_equal. lia.
    + intros i Hi Hspan. destruct (Z.eq_dec i (Z.of_nat k)) as [->|Hne].
      * rewrite <- Hw. apply f32_get_set_same. lia.
      * rewrite f32_get_set_other.
        -- apply Hget; lia.
        -- rewrite Hw. intros Heq.
           assert (Hd : (Z.of_nat k - i) mod B = 0).
           { replace (Z.of_nat k - i) with ((wp + Z.of_nat k) - (wp + i)) by lia.
             rewrite Zminus_mod, Heq, Z.sub_diag. apply Z.mod_0_l. lia. }
           rewrite Z.mod_small in Hd by lia. lia.
Qed.

Lemma aligned_index (B wp' n off i : Z) :
  0 < B -> 0 <= wp' < B -> 0 <= n <= 4 * B -> off <= B - 1 -> 0 <= i ->
  Z.rem (Z.rem (wp' - n - off + B * 5) B + i) B = (wp' - n + i - off) mod B.
Proof.
  intros HB Hwp Hn Hoff Hi.
  rewrite (Z.rem_mod_nonneg (wp' - n - off + B * 5)) by lia.
  rewrite Z.rem_mod_nonneg.
  - rewrite Zplus_mod_idemp_l.
    replace (wp' - n - off + B * 5 + i) with (wp' - n + i - off + 5 * B) by lia.
    apply Z.mod_add. lia.
  - pose proof (Z.mod_pos_bound (wp' - n - off + B * 5) B HB). lia.
  - lia.
Qed.

(** C1 (as amended).  Once the estimator is locked, every output sample is
    the near-end sample minus [echoAttenuation] times a far-end history
    sample.  That sample lies [min(lastDelay, bufferSize - 1)] positions
    behind the far-end sample of the same index of the current frame, where
    [lastDelay] is the strategy's own delay: it is replaced by the estimator's
    current delay only when the two differ by more than 48 samples (and that
    replacement is what gets logged); otherwise the previous value stays in
    use. *)
Theorem C1_aligned_subtract (fx : FauxecState.t) (s s' : TimeAlignedSubtractStrategy.t)
    (nSamples : Z) (nearEndFrame farEndFrame outFrame out : f32) (log : list Event) :
  let B := TimeAlignedSubtractStrategy.bufferSize s in
  let wp := TimeAlignedSubtractStrategy.writePos s in
  TimeAlignedSubtractStrategy.onFrame fx s nSamples nearEndFrame farEndFrame outFrame
    = Some (s', out, log) ->
  XCorrHelper.foundXC (TimeAlignedSubtractStrategy.xCorr s') = true ->
  0 < B -> 0 <= wp < B ->
  f32_length (TimeAlignedSubtractStrategy.farEndBuffer s) = B ->
  0 <= nSamples <= B ->
  let delay := XCorrHelper.getDelaySamples (TimeAlignedSubtractStrategy.xCorr s') in
  let lastDelay := TimeAlignedSubtractStrategy.lastDelay s in
  let jumped := 48 <? Z.abs (delay - lastDelay) in
  let offset := Z.min (TimeAlignedSubtractStrategy.lastDelay s') (B - 1) in
  TimeAlignedSubtractStrategy.lastDelay s' = (if jumped then delay else lastDelay)
  /\ log = (if jumped then [LogDelayJumped lastDelay delay] else [])
  /\ forall i, 0 <= i < nSamples -> i < f32_length outFrame ->
       f32_get (TimeAlignedSubtractStrategy.farEndBuffer s') ((wp + i) mod B)
         = f32_get farEndFrame i
       /\ f32_get out i
          = nsub (f32_get nearEndFrame i)
              (nmul (XCorrCfg.echoAttenuation (TimeAlignedSubtractStrategy.config s))
                    (f32_get (TimeAlignedSubtractStrategy.farEndBuffer s')
                       ((wp + i - offset) mod B))).
Proof.
  intros B wp Hrun Hlock HB Hwp Hlen Hn.
  unfold TimeAlignedSubtractStrategy.onFrame in Hrun.
  destruct (XCorrHelper.addFrame _ nearEndFrame farEndFrame) as [xc|]; [|discriminate].
  pose proof (pushFarEnd_spec B (TimeAlignedSubtractStrategy.farEndBuffer s) wp nSamples
                farEndFrame HB Hwp Hlen (proj1 Hn)) as Hpush.
  fold B wp in Hrun.
  destruct (TimeAlignedSubtractStrategy.pushFarEnd B _ wp nSamples farEndFrame)
    as [buf wp'].
  destruct Hpush as (Hl & Hw & Hget). simpl in Hl, Hw, Hget.
  destruct (XCorrHelper.foundXC xc) eqn:Hfound; simpl in Hrun.
  2:{ inversion Hrun; subst. simpl in Hlock. congruence. }
  pose proof (subtractLoop_out fx B buf
                (Z.rem (wp' - nSamples
                        - Z.min (TimeAlignedSubtractStrategy.nextLastDelay
                                   (TimeAlignedSubtractStrategy.lastDelay s)
                                   (XCorrHelper.getDelaySamples xc)) (B - 1)
                        + B * 5) B)
                (XCorrCfg.echoAttenuation (TimeAlignedSubtractStrategy.config s))
                (FauxecState.debugRecording fx &&
                 match TimeAlignedSubtractStrategy.debugAlignedFarEnd s with
                 | Some _ => true | None => false end)
                nSamples nearEndFrame outFrame
                (TimeAlignedSubtractStrategy.debugAlignedFarEnd s)
                (TimeAlignedSubtractStrategy.debugWritePos s)) as Hout.
  destruct (TimeAlignedSubtractStrategy.subtractLoop _ _ _ _ _ _ _ _ _ _ _)
    as [[o dbg] dbgPos].
  simpl in Hout. inversion Hrun; subst s' out log. clear Hrun.
  cbn [TimeAlignedSubtractStrategy.lastDelay TimeAlignedSubtractStrategy.xCorr
       TimeAlignedSubtractStrategy.farEndBuffer].
  unfold TimeAlignedSubtractStrategy.nextLastDelay, TimeAlignedSubtractStrategy.jumpLog.
  split; [reflexivity|]. split; [reflexivity|].
  intros i Hi Hlo. split.
  - apply Hget; lia.
  - rewrite Hout, fill_get by lia.
    destruct (i <? nSamples) eqn:E; [|lia].
    assert (Hwr : 0 <= wp' < B) by (rewrite Hw; apply Z.mod_pos_bound; lia).
    unfold TimeAlignedSubtractStrategy.nextLastDelay.
    rewrite aligned_index by lia.
    do 3 f_equal.
    match goal with
    | |- (wp' - nSamples + i - ?off) mod B = _ =>
        replace (wp' - nSamples + i - off) with (wp' - (nSamples - i + off)) by lia
    end.
    rewrite Hw, Zminus_mod_idemp_l. f_equal. lia.
Qed.

Lemma dbToLin_0 : _dbToLin 0 = 1%R.
Proof. unfold _dbToLin. replace (0 / 20)%R with 0%R by lra. apply Rpower_O. lra. Qed.

Lemma sqrt_4 : sqrt 4 = 2%R.
Proof. replace 4%R with (2 * 2)%R by lra. apply sqrt_square. lra. Qed.

Lemma estimatorDue_gate :
  XCorrHelper.haveEnoughSignalForXCorr estimatorDue = (true, estimatorDue).
Proof.
  unfold XCorrHelper.haveEnoughSignalForXCorr, XCorrHelper.recentEnergy.
  real_cbn. rewrite !ndiv_some by lra.
  replace ((0 + 2 * 2) / 1)%R with 4%R by lra.
  rewrite nsqrt_some by lra. rewrite sqrt_4, dbToLin_0. cbn [nlt].
  rewrite Rltb_false by lra. reflexivity.
Qed.

Lemma estimatorDue_ncc1 : XCorrHelper._computeNCC estimatorDue 1 1 = Some 0%R.
Proof.
  unfold XCorrHelper._computeNCC, XCorrHelper.nccSums. real_cbn.
  replace ((0 + 2 * 2) * (0 + 0 * 0))%R with 0%R by lra.
  rewrite nsqrt_some by lra. rewrite sqrt_0. cbn [ngt].
  now rewrite Rltb_false by lra.
Qed.

Lemma estimatorDue_ncc2 : XCorrHelper._computeNCC estimatorDue 2 1 = Some 1%R.
Proof.
  unfold XCorrHelper._computeNCC, XCorrHelper.nccSums. real_cbn.
  replace ((0 + 2 * 2) * (0 + 1 * 1))%R with 4%R by lra.
  rewrite nsqrt_some by lra. rewrite sqrt_4. cbn [ngt].
  rewrite Rltb_true by lra. rewrite ndiv_some by lra. f_equal. lra.
Qed.

Lemma estimatorDue_update :
  exists xc, XCorrHelper.updateDelay estimatorDue = Some xc
             /\ XCorrHelper.foundXC xc = true
             /\ XCorrHelper.delay xc = 2.
Proof.
  unfold XCorrHelper.updateDelay. rewrite estimatorDue_gate. cbn [negb].
  change (stride (XCorrHelper.minDelay estimatorDue)
            (XCorrHelper.bufferSize estimatorDue - XCorrHelper.minDelay estimatorDue)
            (XCorrHelper.stepSize estimatorDue)) with (Some [1; 2]).
  cbn [fold_left]. unfold XCorrHelper.searchStep at 2.
  change (Z.min (XCorrHelper.xcorrWindowSize estimatorDue)
            (XCorrHelper.bufferSize estimatorDue)) with 1.
  rewrite estimatorDue_ncc1. cbn [gt_xnum fst].
  unfold XCorrHelper.searchStep at 1. rewrite estimatorDue_ncc2.
  cbn [gt_xnum fst ngt]. rewrite Rltb_true by lra.
  cbv beta iota zeta.
  change (stride _ _ 12) with (Some [1]).
  cbn [fold_left]. unfold XCorrHelper.searchStep. rewrite estimatorDue_ncc1.
  cbn [gt_xnum fst ngt]. rewrite Rltb_false by lra.
  cbn [xnum_lt nlt]. change (XCorrHelper.nxcThreshold estimatorDue) with (55 / 100)%R.
  rewrite Rltb_false by lra.
  eexists. split; [reflexivity|]. split; reflexivity.
Qed.

Lemma tas0_created : TimeAlignedSubtractStrategy.create 1000 = Some tas0.
Proof. reflexivity. Qed.

Lemma tas1_pushSamples : XCorrHelper.pushSamples (TimeAlignedSubtractStrategy.xCorr tas1) lockFrameNear lockFrameFar = estimatorDue.
Proof. cbv -[Rplus Rmult Rminus Ropp Rdiv Rinv IZR _dbToLin]. reflexivity. Qed.

Lemma tas1_addFrame :
  XCorrHelper.addFrame (TimeAlignedSubtractStrategy.xCorr tas1) lockFrameNear lockFrameFar
  = XCorrHelper.updateDelay estimatorDue.
Proof. unfold XCorrHelper.addFrame. rewrite tas1_pushSamples. reflexivity. Qed.

Lemma tas1_pushFarEnd :
  TimeAlignedSubtractStrategy.pushFarEnd (TimeAlignedSubtractStrategy.bufferSize tas1)
    (TimeAlignedSubtractStrategy.farEndBuffer tas1)
    (TimeAlignedSubtractStrategy.writePos tas1) 4 lockFrameFar
  = (lockFrameFar, 0).
Proof. cbv -[Rplus Rmult Rminus Ropp Rdiv Rinv IZR _dbToLin]. reflexivity. Qed.

Lemma tas1_subtract :
  TimeAlignedSubtractStrategy.subtractLoop noDebug
    (TimeAlignedSubtractStrategy.bufferSize tas1) lockFrameFar
    (Z.rem (0 - 4 - Z.min (TimeAlignedSubtractStrategy.nextLastDelay
                             (TimeAlignedSubtractStrategy.lastDelay tas1) 2)
                          (TimeAlignedSubtractStrategy.bufferSize tas1 - 1)
            + TimeAlignedSubtractStrategy.bufferSize tas1 * 5)
           (TimeAlignedSubtractStrategy.bufferSize tas1))
    (XCorrCfg.echoAttenuation (TimeAlignedSubtractStrategy.config tas1))
    (FauxecState.debugRecording noDebug &&
     match TimeAlignedSubtractStrategy.debugAlignedFarEnd tas1 with
     | Some _ => true | None => false end)
    4 lockFrameNear (f32_new 4)
    (TimeAlignedSubtractStrategy.debugAlignedFarEnd tas1)
    (TimeAlignedSubtractStrategy.debugWritePos tas1)
  = ([Some (0 - 3 / 10 * 0)%R; Some (0 - 3 / 10 * 1)%R; Some (0 - 3 / 10 * 0)%R;
      Some (2 - 3 / 10 * 2)%R], None, 0).
Proof. cbv -[Rplus Rmult Rminus Ropp Rdiv Rinv IZR _dbToLin]. reflexivity. Qed.

Lemma lockedTrace :
  exists t2 out log,
    TimeAlignedSubtractStrategy.onFrame noDebug tas1 4 lockFrameNear lockFrameFar
      (f32_new 4) = Some (t2, out, log)
    /\ XCorrHelper.foundXC (TimeAlignedSubtractStrategy.xCorr t2) = true
    /\ XCorrHelper.getDelaySamples (TimeAlignedSubtractStrategy.xCorr t2) = 2
    /\ TimeAlignedSubtractStrategy.farEndBuffer t2 = lockFrameFar
    /\ TimeAlignedSubtractStrategy.lastDelay t2 = 0
    /\ log = []
    /\ f32_get out 3 = Some (2 - 3 / 10 * 2)%R.
Proof.
  unfold TimeAlignedSubtractStrategy.onFrame.
  rewrite tas1_addFrame.
  destruct estimatorDue_update as (xc & -> & Hfound & Hdelay).
  rewrite tas1_pushFarEnd. rewrite Hfound. cbn [negb].
  unfold XCorrHelper.getDelaySamples. rewrite Hdelay.
  rewrite tas1_subtract.
  eexists _, _, _. split; [reflexivity|].
  split; [exact Hfound|]. split; [exact Hdelay|].
  repeat split.
Qed.

Lemma C1_aligned_subtract_witness :
  exists t2 out log,
    TimeAlignedSubtractStrategy.onFrame noDebug tas1 4 lockFrameNear lockFrameFar
      (f32_new 4) = Some (t2, out, log)
    /\ f32_get out 3
       = nsub (f32_get lockFrameNear 3)
           (nmul (Some (3 / 10)%R)
              (f32_get (TimeAlignedSubtractStrategy.farEndBuffer t2)
                 ((0 + 3 - Z.min (TimeAlignedSubtractStrategy.lastDelay t2) (4 - 1))
                  mod 4))).
Proof.
  destruct lockedTrace as (t2 & out & log & Hrun & Hfound & _).
  exists t2, out, log. split; [exact Hrun|].
  refine (proj2 (proj2 (proj2
            (C1_aligned_subtract noDebug tas1 t2 4 lockFrameNear lockFrameFar
               (f32_new 4) out log Hrun Hfound _ _ _ _)) 3 _ _)).
  - reflexivity.
  - split; [discriminate | reflexivity].
  - reflexivity.
  - split; discriminate.
  - lia.
  - reflexivity.
Defined.

(** C1 as stated fails on a strategy built by the constructor at 1000 Hz,
    given the small configuration and then one frame: the estimator locks with
    a delay of 2 samples, which is within 48 of the strategy's [lastDelay] of
    0, so the subtraction stays at offset 0.  The last output sample is
    [2 - 0.3 * 2] (the far-end sample at offset 0), not [2 - 0.3 * 1] (the one
    2 samples behind). *)
Lemma C1_counterexample :
  exists t2 out log,
    TimeAlignedSubtractStrategy.create 1000 = Some tas0
    /\ TimeAlignedSubtractStrategy.onFrame noDebug
         (outcome_state (TimeAlignedSubtractStrategy.updateConfig 1000 tas0 smallCfg))
         4 lockFrameNear lockFrameFar (f32_new 4) = Some (t2, out, log)
    /\ XCorrHelper.foundXC (TimeAlignedSubtractStrategy.xCorr t2) = true
    /\ XCorrHelper.getDelaySamples (TimeAlignedSubtractStrategy.xCorr t2) = 2
    /\ TimeAlignedSubtractStrategy.lastDelay t2 = 0
    /\ f32_get out 3 = Some (2 - 3 / 10 * 2)%R
    /\ nsub (f32_get lockFrameNear 3)
         (nmul (Some (3 / 10)%R)
            (f32_get (TimeAlignedSubtractStrategy.farEndBuffer t2)
               ((0 + 3 - XCorrHelper.getDelaySamples
                           (TimeAlignedSubtractStrategy.xCorr t2)) mod 4)))
       = Some (2 - 3 / 10 * 1)%R
    /\ f32_get out 3
       <> nsub (f32_get lockFrameNear 3)
            (nmul (Some (3 / 10)%R)
               (f32_get (TimeAlignedSubtractStrategy.farEndBuffer t2)
                  ((0 + 3 - XCorrHelper.getDelaySamples
                              (TimeAlignedSubtractStrategy.xCorr t2)) mod 4))).
Proof.
  destruct lockedTrace as (t2 & out & log & Hrun & Hfound & Hdelay & Hbuf & Hlast & _ & Hout).
  exists t2, out, log.
  split; [exact tas0_created|]. split; [exact Hrun|].
  split; [exact Hfound|]. split; [exact Hdelay|]. split; [exact Hlast|].
  split; [exact Hout|].
  rewrite Hdelay, Hbuf, Hout.
  split; [reflexivity|].
  change (nsub (f32_get lockFrameNear 3)
            (nmul (Some (3 / 10)%R) (f32_get lockFrameFar ((0 + 3 - 2) mod 4))))
    with (Some (2 - 3 / 10 * 1)%R).
  intros H. inversion H. lra.
Qed.

(** ** NoisyFauxECProcessor: mode selection *)

Lemma getStrategy_own (name : string) (id : StrategyId) :
  NoisyFauxECProcessor.getStrategy name = OwnStrategy id ->
  name = NoisyFauxECProcessor.keyOf id.
Proof.
  unfold NoisyFauxECProcessor.getStrategy, NoisyFauxECProcessor.strategies.
  cbn [NoisyFauxECProcessor.assoc].
  repeat match goal with
  | |- context [String.eqb name ?k] =>
      destruct (String.eqb_spec name k) as [->|_];
        [intros H; inversion H; reflexivity|]
  end.
  destruct (existsb _ _); discriminate.
Qed.

Lemma rir_onSelected_events (sampleRate : Z) (r : RIRStrategy.t) :
  snd (RIRStrategy.onSelected sampleRate r) = [CallOnSelected "rir"]
  /\ RIRStrategy.config (outcome_state (fst (RIRStrategy.onSelected sampleRate r)))
     = RIRStrategy.config r.
Proof.
  unfold RIRStrategy.onSelected. destruct (String.eqb _ _); [split; reflexivity|].
  destruct (IRMeasurementHelper.create _ _); split; reflexivity.
Qed.

(** Invoking [onSelected] on a registered strategy: the mode is untouched
    and the trace grows by exactly that invocation. *)
Lemma callOnSelected_own (sampleRate : Z) (s : NoisyFauxECProcessor.t)
    (name : string) (id : StrategyId) :
  NoisyFauxECProcessor.getStrategy name = OwnStrategy id ->
  let s' := outcome_state (NoisyFauxECProcessor.callOnSelected sampleRate s name) in
  NoisyFauxECProcessor.mode s' = NoisyFauxECProcessor.mode s
  /\ NoisyFauxECProcessor.trace s'
     = NoisyFauxECProcessor.trace s ++ [CallOnSelected name]
  /\ RIRStrategy.config (NoisyFauxECProcessor.rir s')
     = RIRStrategy.config (NoisyFauxECProcessor.rir s).
Proof.
  intros Hown. pose proof (getStrategy_own name id Hown) as Hname.
  unfold NoisyFauxECProcessor.callOnSelected. rewrite Hown.
  destruct id; subst name; cbn [NoisyFauxECProcessor.keyOf];
    try (cbn; repeat split; reflexivity).
  pose proof (rir_onSelected_events sampleRate (NoisyFauxECProcessor.rir s)) as [He Hc].
  destruct (RIRStrategy.onSelected sampleRate (NoisyFauxECProcessor.rir s)) as [o ev].
  simpl in He, Hc. subst ev. destruct o; cbn; repeat split; assumption.
Qed.

Lemma dispatchTimeAligned_fields (sampleRate : Z) (cfg : option XCorrCfg.t)
    (s : NoisyFauxECProcessor.t) :
  let s' := outcome_state (NoisyFauxECProcessor.dispatchTimeAligned sampleRate cfg s) in
  NoisyFauxECProcessor.mode s' = NoisyFauxECProcessor.mode s
  /\ NoisyFauxECProcessor.trace s' = NoisyFauxECProcessor.trace s
  /\ NoisyFauxECProcessor.rir s' = NoisyFauxECProcessor.rir s.
Proof.
  unfold NoisyFauxECProcessor.dispatchTimeAligned. destruct cfg; [|now cbn].
  destruct (TimeAlignedSubtractStrategy.updateConfig _ _ _); now cbn.
Qed.

Lemma dispatchHalfDuplex_fields (cfg : option HalfDuplexCfg.delta)
    (s : NoisyFauxECProcessor.t) :
  let s' := outcome_state (NoisyFauxECProcessor.dispatchHalfDuplex cfg s) in
  NoisyFauxECProcessor.mode s' = NoisyFauxECProcessor.mode s
  /\ NoisyFauxECProcessor.trace s' = NoisyFauxECProcessor.trace s
  /\ NoisyFauxECProcessor.rir s' = NoisyFauxECProcessor.rir s.
Proof. unfold NoisyFauxECProcessor.dispatchHalfDuplex. destruct cfg; now cbn. Qed.

Lemma dispatchNlms_fields (sampleRate : Z) (cfg : option NLMSCfg.delta)
    (s : NoisyFauxECProcessor.t) :
  let s' := outcome_state (NoisyFauxECProcessor.dispatchNlms sampleRate cfg s) in
  NoisyFauxECProcessor.mode s' = NoisyFauxECProcessor.mode s
  /\ NoisyFauxECProcessor.trace s' = NoisyFauxECProcessor.trace s.
Proof.
  unfold NoisyFauxECProcessor.dispatchNlms. destruct cfg; [|now cbn].
  destruct (NLMSStrategy.onConfig _ _ _); now cbn.
Qed.

Lemma dispatchRir_fields (sampleRate : Z) (cfg : option RIRCfg.delta)
    (s : NoisyFauxECProcessor.t) :
  let s' := outcome_state (NoisyFauxECProcessor.dispatchRir sampleRate cfg s) in
  NoisyFauxECProcessor.mode s' = NoisyFauxECProcessor.mode s
  /\ NoisyFauxECProcessor.trace s'
     = NoisyFauxECProcessor.trace s
       ++ rirResetEvents (RIRStrategy.config (NoisyFauxECProcessor.rir s)) cfg.
Proof.
  unfold NoisyFauxECProcessor.dispatchRir, rirResetEvents.
  destruct cfg as [v|]; [|cbn; now rewrite app_nil_r].
  unfold RIRStrategy.onMessage.
  destruct (RIRCfg.needsReset _ v).
  - match goal with
    | |- context [RIRStrategy.onSelected sampleRate ?r] =>
        pose proof (rir_onSelected_events sampleRate r) as [He _];
        destruct (RIRStrategy.onSelected sampleRate r) as [o ev]
    end.
    simpl in He. subst ev. destruct o; now cbn.
  - cbn. now rewrite app_nil_r.
Qed.

Lemma setConfigsMode_returned (sampleRate : Z) (s s1 : NoisyFauxECProcessor.t)
    (m : option string) :
  NoisyFauxECProcessor.setConfigsMode sampleRate s m = Returned s1 ->
  NoisyFauxECProcessor.mode s1 = modeAfter s m
  /\ NoisyFauxECProcessor.trace s1 = NoisyFauxECProcessor.trace s ++ modeEvents s m
  /\ RIRStrategy.config (NoisyFauxECProcessor.rir s1)
     = RIRStrategy.config (NoisyFauxECProcessor.rir s).
Proof.
  unfold NoisyFauxECProcessor.setConfigsMode, modeAfter, modeEvents, switches.
  destruct m as [name|].
  2:{ intros H. inversion H; subst. now rewrite app_nil_r. }
  destruct (negb (String.eqb name "")
            && NoisyFauxECProcessor.truthy (NoisyFauxECProcessor.getStrategy name)
            && negb (String.eqb (NoisyFauxECProcessor.mode s) name)) eqn:Hsw.
  2:{ intros H. inversion H; subst. now rewrite app_nil_r. }
  unfold NoisyFauxECProcessor.switchMode. intros Hret.
  destruct (NoisyFauxECProcessor.getStrategy name) as [id| |] eqn:Hget.
  - pose proof (callOnSelected_own sampleRate (NoisyFauxECProcessor.set_mode s name)
                  name id Hget) as Hc.
    cbv zeta in Hc. rewrite Hret in Hc. exact Hc.
  - unfold NoisyFauxECProcessor.callOnSelected in Hret. rewrite Hget in Hret.
    discriminate.
  - unfold NoisyFauxECProcessor.callOnSelected in Hret. rewrite Hget in Hret.
    discriminate.
Qed.

(** C7 (as amended).  A [setMode] message naming the active strategy changes
    nothing and invokes no [onSelected]; naming another registered strategy
    sets the mode to it and invokes its [onSelected] exactly once.  For a
    [setConfigs] message that is handled without an exception the mode part
    does the same, and the only other [onSelected] invocation is the one of
    [RIRStrategy] when the message carries an [rir] configuration that changes
    a key other than [echoAttenuation]. *)
Theorem C7_mode_selection (sampleRate : Z) (s : NoisyFauxECProcessor.t) :
  (forall id,
     NoisyFauxECProcessor.getStrategy (NoisyFauxECProcessor.mode s) = OwnStrategy id ->
     NoisyFauxECProcessor.onmessage sampleRate s (NoisyFauxECProcessor.SetMode (NoisyFauxECProcessor.mode s))
     = Returned s)
  /\ (forall value id,
        NoisyFauxECProcessor.getStrategy value = OwnStrategy id ->
        value <> NoisyFauxECProcessor.mode s ->
        let s' := outcome_state
                    (NoisyFauxECProcessor.onmessage sampleRate s (NoisyFauxECProcessor.SetMode value)) in
        NoisyFauxECProcessor.mode s' = value
        /\ NoisyFauxECProcessor.trace s'
           = NoisyFauxECProcessor.trace s ++ [CallOnSelected value])
  /\ (forall m timeAligned halfDuplex rir nlms s',
        NoisyFauxECProcessor.onmessage sampleRate s
          (NoisyFauxECProcessor.SetConfigs m timeAligned halfDuplex rir nlms) = Returned s' ->
        NoisyFauxECProcessor.mode s' = modeAfter s m
        /\ NoisyFauxECProcessor.trace s'
           = NoisyFauxECProcessor.trace s ++ modeEvents s m
             ++ rirResetEvents (RIRStrategy.config (NoisyFauxECProcessor.rir s)) rir).
Proof.
  split; [|split].
  - intros id Hown. unfold NoisyFauxECProcessor.onmessage. rewrite Hown. cbn.
    now rewrite String.eqb_refl.
  - intros value id Hown Hne. unfold NoisyFauxECProcessor.onmessage. rewrite Hown.
    cbn [NoisyFauxECProcessor.truthy negb].
    destruct (String.eqb_spec (NoisyFauxECProcessor.mode s) value) as [Heq|_];
      [congruence|]. cbn [negb].
    unfold NoisyFauxECProcessor.switchMode.
    pose proof (callOnSelected_own sampleRate (NoisyFauxECProcessor.set_mode s value)
                  value id Hown) as Hc.
    cbv zeta in Hc. destruct Hc as (Hm & Ht & _). split; assumption.
  - intros m ta hd r nl s' Hret. unfold NoisyFauxECProcessor.onmessage in Hret.
    destruct (NoisyFauxECProcessor.setConfigsMode sampleRate s m) as [s1|s1] eqn:H1;
      [|discriminate].
    cbn [NoisyFauxECProcessor.andThen] in Hret.
    destruct (setConfigsMode_returned sampleRate s s1 m H1) as (Hm1 & Ht1 & Hc1).
    pose proof (dispatchTimeAligned_fields sampleRate ta s1) as Hta. cbv zeta in Hta.
    destruct (NoisyFauxECProcessor.dispatchTimeAligned sampleRate ta s1) as [s2|s2];
      [|discriminate].
    cbn [NoisyFauxECProcessor.andThen outcome_state] in Hret, Hta.
    destruct Hta as (Hm2 & Ht2 & Hr2).
    pose proof (dispatchHalfDuplex_fields hd s2) as Hhd. cbv zeta in Hhd.
    destruct (NoisyFauxECProcessor.dispatchHalfDuplex hd s2) as [s3|s3];
      [|discriminate].
    cbn [NoisyFauxECProcessor.andThen outcome_state] in Hret, Hhd.
    destruct Hhd as (Hm3 & Ht3 & Hr3).
    pose proof (dispatchRir_fields sampleRate r s3) as Hrir. cbv zeta in Hrir.
    destruct (NoisyFauxECProcessor.dispatchRir sampleRate r s3) as [s4|s4];
      [|discriminate].
    cbn [NoisyFauxECProcessor.andThen outcome_state] in Hret, Hrir.
    destruct Hrir as (Hm4 & Ht4).
    pose proof (dispatchNlms_fields sampleRate nl s4) as Hnl. cbv zeta in Hnl.
    rewrite Hret in Hnl. cbn [outcome_state] in Hnl. destruct Hnl as (Hm5 & Ht5).
    split.
    + congruence.
    + rewrite Ht5, Ht4, Ht3, Ht2, Ht1, Hr3, Hr2, Hc1. now rewrite app_assoc.
Qed.

Lemma proc0_created : NoisyFauxECProcessor.create 1000 = Some proc0.
Proof. unfold NoisyFauxECProcessor.create. now rewrite tas0_created. Qed.

Lemma C7_mode_selection_witness :
  NoisyFauxECProcessor.mode procRir = "rir"%string
  /\ NoisyFauxECProcessor.trace procRir = [CallOnSelected "rir"].
Proof.
  apply (proj1 (proj2 (C7_mode_selection 1000 proc0)) "rir"%string Rir).
  - reflexivity.
  - discriminate.
Defined.

Lemma procRir_fields :
  NoisyFauxECProcessor.mode procRir = "rir"%string
  /\ NoisyFauxECProcessor.trace procRir = [CallOnSelected "rir"]
  /\ RIRStrategy.config (NoisyFauxECProcessor.rir procRir) = RIRCfg.getDefaultCfg.
Proof. repeat split. Qed.

(** C7 as stated fails for [setConfigs]: with [rir] active, a [setConfigs]
    message that names [rir] again and carries a new [irLength] leaves the
    mode unchanged and still invokes [RIRStrategy.onSelected]; and from
    [passthrough] the same message changes the mode once and invokes it
    twice. *)
Lemma C7_counterexample :
  exists s1 s2,
    NoisyFauxECProcessor.create 1000 = Some proc0
    /\ NoisyFauxECProcessor.mode procRir = "rir"%string
    /\ NoisyFauxECProcessor.onmessage 1000 procRir
         (NoisyFauxECProcessor.SetConfigs (Some "rir"%string) None None
            (Some shorterIR) None) = Returned s1
    /\ NoisyFauxECProcessor.mode s1 = "rir"%string
    /\ NoisyFauxECProcessor.anySelectedCount (NoisyFauxECProcessor.trace s1)
       = S (NoisyFauxECProcessor.anySelectedCount (NoisyFauxECProcessor.trace procRir))
    /\ NoisyFauxECProcessor.mode proc0 = "passthrough"%string
    /\ NoisyFauxECProcessor.onmessage 1000 proc0
         (NoisyFauxECProcessor.SetConfigs (Some "rir"%string) None None
            (Some shorterIR) None) = Returned s2
    /\ NoisyFauxECProcessor.mode s2 = "rir"%string
    /\ NoisyFauxECProcessor.selectedCount "rir" (NoisyFauxECProcessor.trace s2) = 2%nat.
Proof.
  eexists _, _.
  split; [exact proc0_created|].
  split; [reflexivity|].
  split; [reflexivity|].
  split; [reflexivity|].
  split; [reflexivity|].
  split; [reflexivity|].
  split; [reflexivity|].
  split; reflexivity.
Qed.

(** C8.  A [setMode] message whose name is neither a key of the registry nor
    a member of [Object.prototype] is logged and otherwise ignored.  But a
    name that the registry object inherits, such as ["constructor"], passes
    the [!this.strategies[value]] test: the mode is set to it and the call of
    its [onSelected] throws. *)
Theorem C8_unregistered_mode (sampleRate : Z) (s : NoisyFauxECProcessor.t) :
  (forall value,
     NoisyFauxECProcessor.getStrategy value = Undefined ->
     NoisyFauxECProcessor.onmessage sampleRate s (NoisyFauxECProcessor.SetMode value)
     = Returned (NoisyFauxECProcessor.addEvents s [ConsoleError value]))
  /\ (NoisyFauxECProcessor.mode s <> "constructor"%string ->
      NoisyFauxECProcessor.onmessage sampleRate s
        (NoisyFauxECProcessor.SetMode "constructor")
      = Threw (NoisyFauxECProcessor.set_mode s "constructor")).
Proof.
  split.
  - intros value Hget. unfold NoisyFauxECProcessor.onmessage. now rewrite Hget.
  - intros Hne. unfold NoisyFauxECProcessor.onmessage.
    change (NoisyFauxECProcessor.getStrategy "constructor") with InheritedFromObject.
    cbn [NoisyFauxECProcessor.truthy negb].
    destruct (String.eqb_spec (NoisyFauxECProcessor.mode s) "constructor") as [Heq|_];
      [contradiction|].
    reflexivity.
Qed.

Lemma C8_unregistered_mode_witness :
  NoisyFauxECProcessor.onmessage 1000 proc0 (NoisyFauxECProcessor.SetMode "bogus")
  = Returned (NoisyFauxECProcessor.addEvents proc0 [ConsoleError "bogus"])
  /\ NoisyFauxECProcessor.onmessage 1000 proc0
       (NoisyFauxECProcessor.SetMode "constructor")
     = Threw (NoisyFauxECProcessor.set_mode proc0 "constructor").
Proof.
  destruct (C8_unregistered_mode 1000 proc0) as [Hbogus Hinherited].
  split.
  - apply Hbogus. reflexivity.
  - apply Hinherited. discriminate.
Defined.

(** ** Supporting facts *)

Lemma map_seq_from (a b : nat) :
  map Z.of_nat (seq a b) = map (fun j => Z.of_nat a + Z.of_nat j) (seq 0 b).
Proof.
  revert a. induction b as [|b IH]; intros a; simpl; [reflexivity|].
  f_equal; [lia|]. rewrite IH, <- seq_shift, map_map.
  apply map_ext. intros j. lia.
Qed.

Lemma range_split (k n : Z) : 0 <= k <= n -> range n = range k ++ rangeFrom k n.
Proof.
  intros H. unfold range, rangeFrom.
  replace (Z.to_nat n) with (Z.to_nat k + Z.to_nat (n - k))%nat by lia.
  rewrite seq_app, map_app. f_equal. simpl. rewrite map_seq_from.
  apply map_ext. intros j. lia.
Qed.

(** The loop state after [k] samples is a stage of the loop over the whole
    frame: the remaining iterations continue from it. *)
Lemma loopAfter_stage (s : NLMSStrategy.t) (k n : Z)
    (nearEndFrame farEndFrame outFrame : f32) :
  0 <= k <= n ->
  NLMSStrategy.loopAfter s n nearEndFrame farEndFrame outFrame
  = fold_left
      (NLMSStrategy.sampleStep (NLMSStrategy.config s) (NLMSStrategy.minDelaySamples s)
         nearEndFrame farEndFrame)
      (rangeFrom k n)
      (NLMSStrategy.loopAfter s k nearEndFrame farEndFrame outFrame).
Proof.
  intros H. unfold NLMSStrategy.loopAfter.
  rewrite (range_split k n H). apply fold_left_app.
Qed.

(** [findPeak] returns an index of the response (or 0). *)
Lemma findPeak_index (irLen : Z) (ir : f32) :
  let peakIdx := snd (fst (IRMeasurementHelper.findPeak irLen ir)) in
  0 <= peakIdx /\ (peakIdx < irLen \/ peakIdx = 0).
Proof.
  cbv zeta. unfold IRMeasurementHelper.findPeak.
  apply (fold_left_invariant
           (fun acc : num * Z * num =>
              0 <= snd (fst acc) /\ (snd (fst acc) < irLen \/ snd (fst acc) = 0))).
  - intros [[pv pi] sq] i Hi H. apply in_range in Hi. simpl in *.
    destruct (ngt _ pv); simpl; [lia | assumption].
  - simpl. lia.
Qed.

Lemma findTailEnd_bounds (sampleRate irLen : Z) (ir : f32) (peakIdx : Z) (thr : num) :
  0 <= sampleRate -> peakIdx <= irLen ->
  peakIdx <= IRMeasurementHelper.findTailEnd sampleRate irLen ir peakIdx thr.
Proof.
  intros Hsr Hp. unfold IRMeasurementHelper.findTailEnd.
  destruct (find _ _) as [i|] eqn:Hf; [|assumption].
  apply find_some in Hf. destruct Hf as [Hin _].
  apply in_rev, in_rangeFrom in Hin.
  assert (0 <= IRMeasurementHelper.tailMargin sampleRate).
  { unfold IRMeasurementHelper.tailMargin. apply Z.div_pos; lia. }
  lia.
Qed.

(** On a measurer built by the constructor ([irLength >= 0]) and a
    non-negative sample rate, [_computeIR] does not throw. *)
Lemma computeIR_returns (sampleRate : Z) (s : IRMeasurementHelper.t) :
  0 <= sampleRate -> 0 <= IRMeasurementHelper.irLength s ->
  exists s', IRMeasurementHelper._computeIR sampleRate s = Returned s'.
Proof.
  intros Hsr Hlen. unfold IRMeasurementHelper._computeIR.
  destruct (IRMeasurementHelper.irLength s <? 0) eqn:E; [lia|].
  destruct (nlt _ _); [now eexists|].
  destruct (IRMeasurementHelper.deconvolve s) as [ir' maxSum].
  pose proof (findPeak_index (IRMeasurementHelper.irLength s) ir') as Hpk.
  destruct (IRMeasurementHelper.findPeak _ ir') as [[peakVal peakIdx] sumSq].
  cbv zeta in Hpk. simpl in Hpk.
  assert (Hpre : 0 <= IRMeasurementHelper.preEchoSamples sampleRate).
  { unfold IRMeasurementHelper.preEchoSamples. apply Z.div_pos; lia. }
  pose proof (findTailEnd_bounds sampleRate (IRMeasurementHelper.irLength s) ir' peakIdx
                (nmul peakVal (Some (1 / 10)%R)) Hsr) as Htail.
  destruct (_ - _ <? 0) eqn:Hneg; [|now eexists].
  exfalso. apply Z.ltb_lt in Hneg. lia.
Qed.

(** The constructor leaves a non-negative [irLength]. *)
Lemma create_irLength (sampleRate : Z) (config : RIRCfg.t) (h : IRMeasurementHelper.t) :
  IRMeasurementHelper.create sampleRate config = Some h ->
  0 <= IRMeasurementHelper.irLength h /\ IRMeasurementHelper.ready h = false.
Proof.
  unfold IRMeasurementHelper.create.
  destruct (if String.eqb _ "mls" then _ else _); [|discriminate].
  destruct (_ || _) eqn:E; [discriminate|].
  intros H. inversion H; subst. simpl. apply orb_false_iff in E. lia.
Qed.

(** With a positive coarse step [updateDelay], and so [addFrame], always
    returns. *)
Lemma updateDelay_total (s : XCorrHelper.t) :
  0 < XCorrHelper.stepSize s -> exists s', XCorrHelper.updateDelay s = Some s'.
Proof.
  intros Hstep. unfold XCorrHelper.updateDelay.
  assert (Hs : XCorrHelper.stepSize (snd (XCorrHelper.haveEnoughSignalForXCorr s))
               = XCorrHelper.stepSize s).
  { unfold XCorrHelper.haveEnoughSignalForXCorr.
    destruct (nlt _ _); [|destruct (nlt _ _)]; reflexivity. }
  destruct (XCorrHelper.haveEnoughSignalForXCorr s) as [enough s1]. simpl in Hs.
  destruct enough; simpl; [|now eexists].
  destruct (stride_total (XCorrHelper.minDelay s1)
              (XCorrHelper.bufferSize s1 - XCorrHelper.minDelay s1)
              (XCorrHelper.stepSize s1)) as (coarse & ->); [lia|].
  destruct (fold_left _ coarse _) as [bestNXC1 coarseDelay].
  match goal with
  | |- context [stride ?lo ?hi 12] =>
      destruct (stride_total lo hi 12) as (fine & ->); [lia|]
  end.
  destruct (fold_left _ fine _) as [bestNXC bestDelay].
  destruct (xnum_lt _ _); now eexists.
Qed.

Lemma addFrame_total (s : XCorrHelper.t) (nearEndFrame farEndFrame : f32) :
  0 < XCorrHelper.stepSize s ->
  exists s', XCorrHelper.addFrame s nearEndFrame farEndFrame = Some s'.
Proof.
  intros Hstep. unfold XCorrHelper.addFrame.
  destruct (_ >=? _); [|now eexists].
  apply updateDelay_total. simpl.
  unfold XCorrHelper.pushSamples.
  apply (fold_left_invariant (fun s' => 0 < XCorrHelper.stepSize s')).
  - intros a i _ H. exact H.
  - exact Hstep.
Qed.

(** * Further properties of the engine *)

(** ** XCorrHelper: history buffers, counters and the search *)

(** [updateDelay] only touches the statistics, the delay and the lock. *)
Lemma updateDelay_shape (s s' : XCorrHelper.t) :
  XCorrHelper.updateDelay s = Some s' ->
  s' = XCorrHelper.set_lock
         (XCorrHelper.set_stats s
            (XCorrHelper.delayUpdateCountRejectedNoTx s')
            (XCorrHelper.delayUpdateCountRejectedNoRx s')
            (XCorrHelper.delayUpdateCountRejectedPoorXCorr s')
            (XCorrHelper.delayUpdateCount s')
            (XCorrHelper.lastXCorrScore s'))
         (XCorrHelper.delay s') (XCorrHelper.foundXC s').
Proof.
  unfold XCorrHelper.updateDelay, XCorrHelper.haveEnoughSignalForXCorr.
  destruct s. cbn -[XCorrHelper.recentEnergy stride fold_left].
  destruct (nlt _ _); [intros H; inversion H; reflexivity|].
  destruct (nlt _ _); [intros H; inversion H; reflexivity|].
  cbn -[XCorrHelper.recentEnergy stride fold_left].
  destruct (stride _ _ _) as [coarse|]; [|discriminate].
  destruct (fold_left _ coarse _) as [b1 cd].
  destruct (stride _ _ 12) as [fine|]; [|discriminate].
  destruct (fold_left _ fine _) as [b d].
  destruct (xnum_lt _ _); intros H; inversion H; reflexivity.
Qed.

Lemma gate_passed (s s1 : XCorrHelper.t) :
  XCorrHelper.haveEnoughSignalForXCorr s = (true, s1) -> s1 = s.
Proof.
  unfold XCorrHelper.haveEnoughSignalForXCorr.
  destruct (nlt _ _); [discriminate|]. destruct (nlt _ _); [discriminate|].
  intros H. inversion H. reflexivity.
Qed.

(** What an accepted update went through: the gate passed, both searches
    ran to their end, and the best score is not below the threshold. *)
Lemma updateDelay_accepted (s s' : XCorrHelper.t) :
  XCorrHelper.updateDelay s = Some s' ->
  XCorrHelper.delayUpdateCount s' = XCorrHelper.delayUpdateCount s + 1 ->
  let w := Z.min (XCorrHelper.xcorrWindowSize s) (XCorrHelper.bufferSize s) in
  let maxDelay := XCorrHelper.bufferSize s - XCorrHelper.minDelay s in
  exists coarse fine b1 cd b d,
    stride (XCorrHelper.minDelay s) maxDelay (XCorrHelper.stepSize s) = Some coarse
    /\ fold_left (XCorrHelper.searchStep s w) coarse (NegInfinity, 0) = (b1, cd)
    /\ stride (Z.max (XCorrHelper.minDelay s) (cd - XCorrHelper.stepSize s))
              (Z.min maxDelay (cd + XCorrHelper.stepSize s)) 12 = Some fine
    /\ fold_left (XCorrHelper.searchStep s w) fine (b1, cd) = (b, d)
    /\ xnum_lt b (XCorrHelper.nxcThreshold s) = false
    /\ XCorrHelper.delay s' = d
    /\ XCorrHelper.lastXCorrScore s' = b
    /\ XCorrHelper.foundXC s' = true.
Proof.
  unfold XCorrHelper.updateDelay. intros Hrun Hcount.
  destruct (XCorrHelper.haveEnoughSignalForXCorr s) as [enough s1] eqn:Hgate.
  destruct enough; cbn [negb] in Hrun.
  2:{ exfalso. inversion Hrun; subst s'. clear Hrun.
      unfold XCorrHelper.haveEnoughSignalForXCorr in Hgate.
      destruct (nlt _ _); [|destruct (nlt _ _)]; inversion Hgate; subst s1;
        simpl in Hcount; lia. }
  apply gate_passed in Hgate. subst s1. cbv zeta.
  destruct (stride (XCorrHelper.minDelay s) _ _) as [coarse|] eqn:Es1; [|discriminate].
  destruct (fold_left _ coarse _) as [b1 cd] eqn:Hc.
  destruct (stride (Z.max _ _) _ 12) as [fine|] eqn:Es2; [|discriminate].
  destruct (fold_left _ fine _) as [b d] eqn:Hf.
  destruct (xnum_lt b _) eqn:Hlt; inversion Hrun; subst s'; simpl in Hcount; [lia|].
  exists coarse, fine, b1, cd, b, d. cbn [XCorrHelper.delay XCorrHelper.lastXCorrScore
    XCorrHelper.foundXC XCorrHelper.set_lock XCorrHelper.set_stats].
  repeat split; try reflexivity; assumption.
Qed.

(** A rejected update leaves the delay and the lock alone. *)
Lemma updateDelay_rejected (s s' : XCorrHelper.t) :
  XCorrHelper.updateDelay s = Some s' ->
  XCorrHelper.delayUpdateCount s' <> XCorrHelper.delayUpdateCount s + 1 ->
  XCorrHelper.delayUpdateCount s' = XCorrHelper.delayUpdateCount s
  /\ XCorrHelper.delay s' = XCorrHelper.delay s
  /\ XCorrHelper.foundXC s' = XCorrHelper.foundXC s.
Proof.
  unfold XCorrHelper.updateDelay, XCorrHelper.haveEnoughSignalForXCorr.
  destruct (nlt _ _); [intros H; inversion H; subst; simpl; auto|].
  destruct (nlt _ _); [intros H; inversion H; subst; simpl; auto|].
  cbn [negb]. cbv zeta.
  destruct (stride _ _ _) as [coarse|]; [|discriminate].
  destruct (fold_left _ coarse _) as [b1 cd].
  destruct (stride _ _ 12) as [fine|]; [|discriminate].
  destruct (fold_left _ fine _) as [b d].
  destruct (xnum_lt _ _); intros H; inversion H; subst; simpl; intros Hn; auto.
  contradiction.
Qed.

(** X1.  Every [updateDelay] call is accounted for in exactly one of the
    four counters: their sum grows by one. *)
Theorem updateDelay_counted (s s' : XCorrHelper.t) :
  XCorrHelper.updateDelay s = Some s' ->
  updatesCounted s' = updatesCounted s + 1
  /\ XCorrHelper.delayUpdateCountRejectedNoTx s
       <= XCorrHelper.delayUpdateCountRejectedNoTx s'
  /\ XCorrHelper.delayUpdateCountRejectedNoRx s
       <= XCorrHelper.delayUpdateCountRejectedNoRx s'
  /\ XCorrHelper.delayUpdateCountRejectedPoorXCorr s
       <= XCorrHelper.delayUpdateCountRejectedPoorXCorr s'
  /\ XCorrHelper.delayUpdateCount s <= XCorrHelper.delayUpdateCount s'.
Proof.
  unfold updatesCounted, XCorrHelper.updateDelay, XCorrHelper.haveEnoughSignalForXCorr.
  destruct (nlt _ _); [intros H; inversion H; subst; simpl; lia|].
  destruct (nlt _ _); [intros H; inversion H; subst; simpl; lia|].
  cbn [negb]. cbv zeta.
  destruct (stride _ _ _) as [coarse|]; [|discriminate].
  destruct (fold_left _ coarse _) as [b1 cd].
  destruct (stride _ _ 12) as [fine|]; [|discriminate].
  destruct (fold_left _ fine _) as [b d].
  destruct (xnum_lt _ _); intros H; inversion H; subst; simpl; lia.
Qed.

Lemma updateDelay_counted_witness :
  exists s', XCorrHelper.updateDelay estimatorDue = Some s'
             /\ updatesCounted s' = 1.
Proof.
  destruct estimatorDue_update as (s' & Hrun & _).
  exists s'. split; [exact Hrun|].
  apply (updateDelay_counted estimatorDue s' Hrun).
Defined.

Lemma strideFuel_lt (fuel : nat) (lo hi step : Z) (l : list Z) :
  strideFuel fuel lo hi step = Some l -> forall d, In d l -> d < hi.
Proof.
  revert lo l. induction fuel as [|k IH]; intros lo l H d Hd; simpl in H;
    destruct (lo <? hi) eqn:E; try discriminate;
    try (inversion H; subst; contradiction).
  destruct (strideFuel k (lo + step) hi step) as [l'|] eqn:El; [|discriminate].
  simpl in H. inversion H; subst. destruct Hd as [<- | Hd]; [lia|].
  exact (IH _ _ El d Hd).
Qed.

Lemma stride_bounds (lo hi step : Z) (l : list Z) :
  stride lo hi step = Some l -> forall d, In d l -> lo <= d < hi.
Proof.
  intros H d Hd. split.
  - exact (stride_ge lo hi step l H d Hd).
  - exact (strideFuel_lt _ lo hi step l H d Hd).
Qed.

Lemma searchBounds_fold (s : XCorrHelper.t) (windowSize lo hi : Z) (l : list Z)
    (acc : xnum * Z) :
  (forall d, In d l -> lo <= d < hi) ->
  searchBounds lo hi acc ->
  searchBounds lo hi (fold_left (XCorrHelper.searchStep s windowSize) l acc).
Proof.
  intros Hl. apply fold_left_invariant. intros a d Hd Ha.
  unfold XCorrHelper.searchStep.
  destruct (gt_xnum _ _); [|assumption]. right. simpl. now apply Hl.
Qed.

(** X2.  The accepted delay is a candidate of the search: at least [minDelay] and
    below [maxDelay = bufferSize - minDelay]. *)
Theorem accepted_delay_in_range (s s' : XCorrHelper.t) :
  XCorrHelper.updateDelay s = Some s' ->
  XCorrHelper.delayUpdateCount s' = XCorrHelper.delayUpdateCount s + 1 ->
  XCorrHelper.minDelay s <= XCorrHelper.delay s'
    < XCorrHelper.bufferSize s - XCorrHelper.minDelay s
  /\ XCorrHelper.foundXC s' = true.
Proof.
  intros Hrun Hcount.
  destruct (updateDelay_accepted s s' Hrun Hcount)
    as (coarse & fine & b1 & cd & b & d & Hs1 & Hc & Hs2 & Hf & Hlt & Hd & _ & Hlock).
  split; [|exact Hlock]. rewrite Hd.
  set (lo := XCorrHelper.minDelay s) in *.
  set (hi := XCorrHelper.bufferSize s - lo) in *.
  assert (H1 : searchBounds lo hi (b1, cd)).
  { rewrite <- Hc. apply searchBounds_fold; [exact (stride_bounds _ _ _ _ Hs1)|].
    now left. }
  assert (H2 : searchBounds lo hi (b, d)).
  { rewrite <- Hf. apply searchBounds_fold; [|exact H1].
    intros c Hin. pose proof (stride_bounds _ _ _ _ Hs2 c Hin). lia. }
  destruct H2 as [Hneg | Hin]; simpl in *; [|exact Hin].
  subst b. discriminate.
Qed.

Lemma accepted_delay_in_range_witness :
  exists s', XCorrHelper.updateDelay estimatorDue = Some s'
             /\ 1 <= XCorrHelper.delay s' < 3.
Proof.
  destruct estimatorDue_update as (s' & Hrun & Hlock & Hdelay).
  exists s'. split; [exact Hrun|].
  refine (proj1 (accepted_delay_in_range estimatorDue s' Hrun _)).
  pose proof (updateDelay_counted estimatorDue s' Hrun) as (Hsum & H1 & H2 & H3 & H4).
  destruct (Z.eq_dec (XCorrHelper.delayUpdateCount s')
                     (XCorrHelper.delayUpdateCount estimatorDue + 1)) as [Heq|Hne];
    [exact Heq|].
  destruct (updateDelay_rejected estimatorDue s' Hrun Hne) as (_ & Hd & _).
  rewrite Hdelay in Hd. discriminate.
Defined.

Lemma computeNCC_real (s : XCorrHelper.t) (delay windowSize : Z) :
  exists r, XCorrHelper._computeNCC s delay windowSize = Some r.
Proof.
  unfold XCorrHelper._computeNCC.
  destruct (nccInv_sums s delay windowSize) as [(c & a & b & -> & Ha & Hb & Hc) | Hnone].
  - destruct (ncc_of_sums c a b Ha Hb Hc) as (r & Hr & _). now exists r.
  - destruct (XCorrHelper.nccSums s delay windowSize) as [[corr nearE] farE].
    simpl in Hnone. exists 0%R.
    destruct Hnone as [-> | ->]; [|destruct nearE]; reflexivity.
Qed.

Lemma searchBest_step (s : XCorrHelper.t) (w : Z) (seen : list Z) (acc : xnum * Z)
    (d : Z) :
  searchBest s w seen acc ->
  searchBest s w (seen ++ [d]) (XCorrHelper.searchStep s w acc d).
Proof.
  intros Hbest. unfold XCorrHelper.searchStep.
  destruct (computeNCC_real s d w) as (rd & Hrd). rewrite Hrd.
  destruct Hbest as [[-> Hneg] | (r & Hr & Hat & Hall)].
  - destruct acc as [b c]. simpl in Hneg. subst b. simpl. right.
    exists rd. repeat split; [assumption|].
    intros d' [<- | []]. exists rd. split; [assumption | lra].
  - destruct acc as [b c]. simpl in Hr, Hat. subst b. simpl.
    unfold Rltb. destruct (Rlt_dec r rd) as [Hlt|Hge]; right.
    + exists rd. simpl. repeat split; [assumption|].
      intros d' Hin. apply in_app_or in Hin. destruct Hin as [Hin | [<- | []]].
      * destruct (Hall d' Hin) as (r' & Hr' & Hle). exists r'. split; [assumption | lra].
      * exists rd. split; [assumption | lra].
    + exists r. simpl. repeat split; [assumption|].
      intros d' Hin. apply in_app_or in Hin. destruct Hin as [Hin | [<- | []]].
      * exact (Hall d' Hin).
      * exists rd. split; [assumption | lra].
Qed.

Lemma searchBest_fold (s : XCorrHelper.t) (w : Z) (l seen : list Z) (acc : xnum * Z) :
  searchBest s w seen acc ->
  searchBest s w (seen ++ l) (fold_left (XCorrHelper.searchStep s w) l acc).
Proof.
  revert seen acc. induction l as [|d l IH]; intros seen acc H; simpl.
  - now rewrite app_nil_r.
  - replace (seen ++ d :: l) with ((seen ++ [d]) ++ l)
      by (rewrite <- app_assoc; reflexivity).
    apply IH. now apply searchBest_step.
Qed.

Lemma searchStep_from (s : XCorrHelper.t) (w : Z) (r0 : R) (d0 x : Z) :
  XCorrHelper.searchStep s w (Num (Some r0), d0) x
  = if Rltb r0 (nccAt s w x) then (Num (Some (nccAt s w x)), x) else (Num (Some r0), d0).
Proof.
  unfold XCorrHelper.searchStep, nccAt.
  destruct (computeNCC_real s x w) as (rx & ->). reflexivity.
Qed.

(** A search loop that starts from a best score [r0] either keeps it,
    because no candidate scores higher, or ends on the first of the
    candidates with the highest score, which is higher than [r0]. *)
Lemma search_from (s : XCorrHelper.t) (w : Z) (l : list Z) :
  forall (r0 : R) (d0 : Z),
    let acc := fold_left (XCorrHelper.searchStep s w) l (Num (Some r0), d0) in
    (acc = (Num (Some r0), d0) /\ forall x, In x l -> (nccAt s w x <= r0)%R)
    \/ (fst acc = Num (Some (nccAt s w (snd acc)))
        /\ (r0 < nccAt s w (snd acc))%R
        /\ firstBest s w l (snd acc)).
Proof.
  induction l as [|x l IH]; intros r0 d0; cbn [fold_left].
  - left. split; [reflexivity | intros x []].
  - rewrite searchStep_from. unfold Rltb. destruct (Rlt_dec r0 (nccAt s w x)) as [Hlt|Hge].
    + right. destruct (IH (nccAt s w x) x) as [(-> & Hall) | (Hb & Hgt & Hfirst)].
      * cbn [fst snd]. split; [reflexivity|]. split; [assumption|].
        exists [], l. split; [reflexivity|]. split; [intros y [] | exact Hall].
      * split; [exact Hb|]. split; [lra|].
        destruct Hfirst as (before & after & Heq & Hbefore & Hafter).
        exists (x :: before), after.
        split; [cbn [app]; f_equal; exact Heq|]. split; [|exact Hafter].
        intros y [<- | Hy]; [exact Hgt | now apply Hbefore].
    + destruct (IH r0 d0) as [(-> & Hall) | (Hb & Hgt & Hfirst)].
      * left. split; [reflexivity|]. intros y [<- | Hy]; [lra | now apply Hall].
      * right. split; [exact Hb|]. split; [exact Hgt|].
        destruct Hfirst as (before & after & Heq & Hbefore & Hafter).
        exists (x :: before), after.
        split; [cbn [app]; f_equal; exact Heq|]. split; [|exact Hafter].
        intros y [<- | Hy]; [lra | now apply Hbefore].
Qed.

(** The coarse search, which starts from [-Infinity]: with a candidate, it
    ends on the first of the candidates with the highest score. *)
Lemma search_from_start (s : XCorrHelper.t) (w : Z) (l : list Z) :
  let acc := fold_left (XCorrHelper.searchStep s w) l (NegInfinity, 0) in
  (l = [] /\ acc = (NegInfinity, 0))
  \/ (fst acc = Num (Some (nccAt s w (snd acc))) /\ firstBest s w l (snd acc)).
Proof.
  destruct l as [|x l]; cbn [fold_left]; [left; auto|]. right.
  assert (Hfirst : XCorrHelper.searchStep s w (NegInfinity, 0) x
                   = (Num (Some (nccAt s w x)), x)).
  { unfold XCorrHelper.searchStep, nccAt.
    destruct (computeNCC_real s x w) as (rx & ->). reflexivity. }
  rewrite Hfirst.
  destruct (search_from s w l (nccAt s w x) x) as [(-> & Hall) | (Hb & Hgt & Hbest)].
  - cbn [fst snd]. split; [reflexivity|].
    exists [], l. split; [reflexivity|]. split; [intros y [] | exact Hall].
  - split; [exact Hb|].
    destruct Hbest as (before & after & Heq & Hbefore & Hafter).
    exists (x :: before), after.
    split; [cbn [app]; f_equal; exact Heq|]. split; [|exact Hafter].
    intros y [<- | Hy]; [exact Hgt | now apply Hbefore].
Qed.

Lemma stride_nonempty (lo hi step : Z) (l : list Z) :
  lo < hi -> stride lo hi step = Some l -> l <> [].
Proof.
  unfold stride. intros Hlt H.
  destruct (Z.to_nat (hi - lo)) as [|k] eqn:Hk; [lia|].
  cbn [strideFuel] in H. destruct (lo <? hi) eqn:E; [|lia].
  destruct (strideFuel k (lo + step) hi step); [|discriminate].
  cbn in H. injection H as <-. discriminate.
Qed.

(** X3.  The score recorded by an accepted update is the correlation at the
    accepted delay, it is not below the threshold, and no candidate of the
    coarse search, nor of the fine search around the coarse best, scores
    higher.  The coarse best is the first of the coarse candidates with the
    highest correlation; the fine candidates lie within one coarse step of
    it; and the accepted delay is the coarse best, unless a fine candidate
    scores strictly higher, and then it is the first of the fine candidates
    with the highest correlation. *)
Theorem accepted_delay_is_best (s s' : XCorrHelper.t) :
  XCorrHelper.updateDelay s = Some s' ->
  XCorrHelper.delayUpdateCount s' = XCorrHelper.delayUpdateCount s + 1 ->
  let w := Z.min (XCorrHelper.xcorrWindowSize s) (XCorrHelper.bufferSize s) in
  let maxDelay := XCorrHelper.bufferSize s - XCorrHelper.minDelay s in
  exists r coarse coarseDelay fine,
    XCorrHelper.lastXCorrScore s' = Num (Some r)
    /\ (XCorrHelper.nxcThreshold s <= r)%R
    /\ XCorrHelper._computeNCC s (XCorrHelper.delay s') w = Some r
    /\ stride (XCorrHelper.minDelay s) maxDelay (XCorrHelper.stepSize s) = Some coarse
    /\ firstBest s w coarse coarseDelay
    /\ stride (Z.max (XCorrHelper.minDelay s) (coarseDelay - XCorrHelper.stepSize s))
              (Z.min maxDelay (coarseDelay + XCorrHelper.stepSize s)) 12 = Some fine
    /\ ((XCorrHelper.delay s' = coarseDelay
         /\ forall x, In x fine -> (nccAt s w x <= nccAt s w coarseDelay)%R)
        \/ ((nccAt s w coarseDelay < nccAt s w (XCorrHelper.delay s'))%R
            /\ firstBest s w fine (XCorrHelper.delay s')))
    /\ forall d, In d (coarse ++ fine) ->
         exists rd, XCorrHelper._computeNCC s d w = Some rd /\ (rd <= r)%R.
Proof.
  intros Hrun Hcount.
  destruct (updateDelay_accepted s s' Hrun Hcount)
    as (coarse & fine & b1 & cd & b & d & Hs1 & Hc & Hs2 & Hf & Hlt & Hd & Hscore & _).
  cbv zeta.
  set (w := Z.min (XCorrHelper.xcorrWindowSize s) (XCorrHelper.bufferSize s)) in *.
  assert (H1 : searchBest s w coarse (b1, cd)).
  { rewrite <- Hc. apply (searchBest_fold s w coarse [] (NegInfinity, 0)).
    left. split; reflexivity. }
  assert (H2 : searchBest s w (coarse ++ fine) (b, d)).
  { rewrite <- Hf. now apply searchBest_fold. }
  assert (Hcoarse : b1 = Num (Some (nccAt s w cd)) /\ firstBest s w coarse cd).
  { pose proof (search_from_start s w coarse) as Hstart. cbv zeta in Hstart.
    rewrite Hc in Hstart. cbn [fst snd] in Hstart.
    destruct Hstart as [(Hnil & Hacc) | Hbest]; [|exact Hbest].
    exfalso. injection Hacc as Hb1 Hcd. subst coarse b1 cd.
    destruct fine as [|x fine'].
    - cbn [fold_left] in Hf. injection Hf as <- <-. cbn in Hlt. discriminate.
    - pose proof (stride_bounds _ _ _ _ Hs2 x (or_introl eq_refl)) as Hx.
      refine (stride_nonempty _ _ _ _ _ Hs1 eq_refl). lia. }
  destruct Hcoarse as (Hb1 & Hfirst).
  assert (Hfine : (d = cd /\ forall x, In x fine -> (nccAt s w x <= nccAt s w cd)%R)
                  \/ ((nccAt s w cd < nccAt s w d)%R /\ firstBest s w fine d)).
  { pose proof (search_from s w fine (nccAt s w cd) cd) as Hsearch.
    cbv zeta in Hsearch. rewrite <- Hb1, Hf in Hsearch. cbn [fst snd] in Hsearch.
    destruct Hsearch as [(Hacc & Hall) | (_ & Hgt & Hbest)].
    - left. injection Hacc as _ Hdc. split; [exact Hdc | exact Hall].
    - right. split; assumption. }
  destruct H2 as [[_ Hneg] | (r & Hr & Hat & Hall)].
  - simpl in Hneg. rewrite Hneg in Hlt. discriminate Hlt.
  - simpl in Hr, Hat. rewrite Hr in Hlt.
    exists r, coarse, cd, fine. rewrite Hd, Hscore.
    split; [assumption|]. split.
    { simpl in Hlt. unfold Rltb in Hlt.
      destruct (Rlt_dec r (XCorrHelper.nxcThreshold s)); [discriminate | lra]. }
    split; [assumption|]. split; [assumption|]. split; [assumption|].
    split; [assumption|]. split; [assumption | exact Hall].
Qed.

Lemma accepted_delay_is_best_witness :
  exists s' r, XCorrHelper.updateDelay estimatorDue = Some s'
               /\ XCorrHelper.lastXCorrScore s' = Num (Some r)
               /\ (55 / 100 <= r)%R.
Proof.
  destruct estimatorDue_update as (s' & Hrun & Hlock & Hdelay).
  assert (Hcount : XCorrHelper.delayUpdateCount s'
                   = XCorrHelper.delayUpdateCount estimatorDue + 1).
  { destruct (Z.eq_dec (XCorrHelper.delayUpdateCount s')
                       (XCorrHelper.delayUpdateCount estimatorDue + 1)) as [Heq|Hne];
      [exact Heq|].
    destruct (updateDelay_rejected estimatorDue s' Hrun Hne) as (_ & Hd & _).
    rewrite Hdelay in Hd. discriminate. }
  destruct (accepted_delay_is_best estimatorDue s' Hrun Hcount)
    as (r & _ & _ & _ & Hscore & Hthr & _).
  exists s', r. repeat split; assumption.
Defined.

Lemma pushSamples_history (s : XCorrHelper.t) (nearEndFrame farEndFrame : f32) :
  let s' := XCorrHelper.pushSamples s nearEndFrame farEndFrame in
  XCorrHelper.echoTimeWindowSizeMs s' = XCorrHelper.echoTimeWindowSizeMs s
  /\ XCorrHelper.bufferSize s' = XCorrHelper.bufferSize s
  /\ XCorrHelper.delayUpdateCount s' = XCorrHelper.delayUpdateCount s
  /\ f32_length (XCorrHelper.nearEndBuffer s') = f32_length (XCorrHelper.nearEndBuffer s)
  /\ f32_length (XCorrHelper.farEndBuffer s') = f32_length (XCorrHelper.farEndBuffer s)
  /\ (0 < XCorrHelper.bufferSize s ->
      0 <= XCorrHelper.writePos s < XCorrHelper.bufferSize s ->
      0 <= XCorrHelper.writePos s' < XCorrHelper.bufferSize s).
Proof.
  unfold XCorrHelper.pushSamples.
  apply (fold_left_invariant
           (fun s' =>
              XCorrHelper.echoTimeWindowSizeMs s' = XCorrHelper.echoTimeWindowSizeMs s
              /\ XCorrHelper.bufferSize s' = XCorrHelper.bufferSize s
              /\ XCorrHelper.delayUpdateCount s' = XCorrHelper.delayUpdateCount s
              /\ f32_length (XCorrHelper.nearEndBuffer s')
                 = f32_length (XCorrHelper.nearEndBuffer s)
              /\ f32_length (XCorrHelper.farEndBuffer s')
                 = f32_length (XCorrHelper.farEndBuffer s)
              /\ (0 < XCorrHelper.bufferSize s ->
                  0 <= XCorrHelper.writePos s < XCorrHelper.bufferSize s ->
                  0 <= XCorrHelper.writePos s' < XCorrHelper.bufferSize s))).
  - intros a i _ (H1 & H2 & H3 & H4 & H5 & H6). simpl.
    rewrite !f32_set_length. do 5 (split; [assumption|]).
    intros HB Hwp. specialize (H6 HB Hwp). rewrite H2.
    rewrite Z.rem_mod_nonneg by lia. apply Z.mod_pos_bound. lia.
  - do 5 (split; [reflexivity|]). intros _ H. exact H.
Qed.

Lemma historyInv_shape (sampleRate : Z) (s : XCorrHelper.t)
    (a b c d : Z) (sc : xnum) (dl : Z) (lk : bool) :
  historyInv sampleRate s ->
  historyInv sampleRate
    (XCorrHelper.set_lock (XCorrHelper.set_stats s a b c d sc) dl lk).
Proof. intros H. exact H. Qed.

Lemma updateConfigRest_history (sampleRate : Z) (s : XCorrHelper.t)
    (config : XCorrCfg.t) :
  historyInv sampleRate s ->
  historyInv sampleRate (XCorrHelper.updateConfigRest sampleRate s config).
Proof.
  intros H. unfold XCorrHelper.updateConfigRest.
  repeat (apply applyOpt_invariant; [intros s0 v H0; exact H0 |]).
  exact H.
Qed.

(** X4.  In every reachable state of the estimator [bufferSize] is the echo
    window in samples, the two history buffers have the same length, and, when
    the window is not empty, that length is [bufferSize] and the write cursor
    is a valid index. *)
Theorem history_buffers_well_formed (sampleRate : Z) (s : XCorrHelper.t) :
  reachable sampleRate s ->
  XCorrHelper.bufferSize s
    = (sampleRate * XCorrHelper.echoTimeWindowSizeMs s) / 1000
  /\ f32_length (XCorrHelper.nearEndBuffer s) = f32_length (XCorrHelper.farEndBuffer s)
  /\ (0 < XCorrHelper.bufferSize s ->
      f32_length (XCorrHelper.nearEndBuffer s) = XCorrHelper.bufferSize s
      /\ 0 <= XCorrHelper.writePos s < XCorrHelper.bufferSize s).
Proof.
  intros H. change (historyInv sampleRate s).
  induction H as [config s Hc | s near far s' _ IH Hadd | s s' _ IH Hupd | s config _ IH].
  - unfold XCorrHelper.create in Hc.
    destruct (XCorrCfg.echoTimeWindowSizeMs config) as [etw|]; [|discriminate].
    destruct (XCorrCfg.updateIntervalFrames config); [|discriminate].
    destruct (XCorrCfg.minDelayMs config); [|discriminate].
    destruct (XCorrCfg.stepSize config); [|discriminate].
    destruct (XCorrCfg.txThresholdDb config); [|discriminate].
    destruct (XCorrCfg.rxThresholdDb config); [|discriminate].
    destruct (XCorrCfg.smoothingAlpha config); [|discriminate].
    destruct (XCorrCfg.nxcThreshold config); [|discriminate].
    destruct (XCorrCfg.xcorrWindowSize config); [|discriminate].
    destruct (msToSamples sampleRate etw <? 0) eqn:E; [discriminate|].
    inversion Hc; subst. unfold historyInv. simpl.
    rewrite f32_new_length by lia. repeat split; lia.
  - assert (Hpush : historyInv sampleRate (XCorrHelper.pushSamples s near far)).
    { pose proof (pushSamples_history s near far) as Hp. cbv zeta in Hp.
      destruct Hp as (H1 & H2 & _ & H4 & H5 & H6).
      destruct IH as (I1 & I2 & I3). unfold historyInv.
      rewrite H1, H2, H4, H5. repeat split; try assumption.
      - now apply I3.
      - apply H6; [assumption|]. now apply I3.
      - apply H6; [assumption|]. now apply I3. }
    unfold XCorrHelper.addFrame in Hadd.
    destruct (_ >=? _).
    + apply updateDelay_shape in Hadd. rewrite Hadd. apply historyInv_shape.
      exact Hpush.
    + inversion Hadd; subst. exact Hpush.
  - apply updateDelay_shape in Hupd. rewrite Hupd. now apply historyInv_shape.
  - unfold XCorrHelper.updateConfig.
    destruct (XCorrCfg.echoTimeWindowSizeMs config) as [etw|].
    + destruct (etw =? _).
      * simpl. now apply updateConfigRest_history.
      * destruct (msToSamples sampleRate etw <? 0) eqn:E; simpl.
        -- destruct IH as (I1 & I2 & I3). unfold historyInv. simpl.
           repeat split; try assumption; lia.
        -- apply updateConfigRest_history. unfold historyInv. simpl.
           rewrite f32_new_length by lia. repeat split; lia.
    + simpl. now apply updateConfigRest_history.
Qed.

Lemma history_buffers_well_formed_witness :
  exists s,
    XCorrHelper.create 1000 smallCfg = Some s
    /\ XCorrHelper.bufferSize s = 4
    /\ f32_length (XCorrHelper.nearEndBuffer s) = 4.
Proof.
  eexists. split; [reflexivity|]. split; [reflexivity|].
  match goal with
  | |- f32_length (XCorrHelper.nearEndBuffer ?s0) = 4 =>
      pose proof (history_buffers_well_formed 1000 s0
                    (reach_create 1000 smallCfg s0 eq_refl)) as (_ & _ & H)
  end.
  apply H. reflexivity.
Defined.

Lemma lockInv_shape_keep (s : XCorrHelper.t) (a b c : Z) (sc : xnum) :
  lockInv s ->
  lockInv (XCorrHelper.set_stats s a b c (XCorrHelper.delayUpdateCount s) sc).
Proof. intros H. exact H. Qed.

Lemma updateDelay_lockInv (s s' : XCorrHelper.t) :
  XCorrHelper.updateDelay s = Some s' -> lockInv s -> lockInv s'.
Proof.
  intros Hrun (Hc & Hiff).
  destruct (Z.eq_dec (XCorrHelper.delayUpdateCount s')
                     (XCorrHelper.delayUpdateCount s + 1)) as [Heq|Hne].
  - destruct (accepted_delay_in_range s s' Hrun Heq) as [_ Hlock].
    unfold lockInv. rewrite Heq, Hlock. split; [lia|]. split; intros; [lia | reflexivity].
  - destruct (updateDelay_rejected s s' Hrun Hne) as (H1 & _ & H3).
    unfold lockInv. rewrite H1, H3. split; assumption.
Qed.

Lemma updateConfig_lock (sampleRate : Z) (s : XCorrHelper.t) (config : XCorrCfg.t) :
  let s' := outcome_state (XCorrHelper.updateConfig sampleRate s config) in
  XCorrHelper.delayUpdateCount s' = XCorrHelper.delayUpdateCount s
  /\ XCorrHelper.foundXC s' = XCorrHelper.foundXC s.
Proof.
  cbv zeta.
  assert (Hrest : forall s0,
            XCorrHelper.delayUpdateCount (XCorrHelper.updateConfigRest sampleRate s0 config)
            = XCorrHelper.delayUpdateCount s0
            /\ XCorrHelper.foundXC (XCorrHelper.updateConfigRest sampleRate s0 config)
               = XCorrHelper.foundXC s0).
  { intros s0. unfold XCorrHelper.updateConfigRest.
    repeat (apply (applyOpt_invariant
                     (fun x => XCorrHelper.delayUpdateCount x
                               = XCorrHelper.delayUpdateCount s0
                               /\ XCorrHelper.foundXC x = XCorrHelper.foundXC s0));
            [intros s1 v H1; exact H1 |]).
    split; reflexivity. }
  unfold XCorrHelper.updateConfig.
  destruct (XCorrCfg.echoTimeWindowSizeMs config) as [etw|]; [|apply Hrest].
  destruct (etw =? _); [apply Hrest|].
  destruct (_ <? 0); simpl; [split; reflexivity|].
  destruct (Hrest (XCorrHelper.set_window s etw (msToSamples sampleRate etw)
                     (f32_new (msToSamples sampleRate etw))
                     (f32_new (msToSamples sampleRate etw)) 0)) as [H1 H2].
  rewrite H1, H2. split; reflexivity.
Qed.

(** X5.  In every reachable state the lock flag is set exactly when at least one
    update has been accepted; no operation of the estimator clears it. *)
Theorem lock_iff_accepted (sampleRate : Z) (s : XCorrHelper.t) :
  reachable sampleRate s ->
  0 <= XCorrHelper.delayUpdateCount s
  /\ (XCorrHelper.foundXC s = true <-> 0 < XCorrHelper.delayUpdateCount s).
Proof.
  intros H. change (lockInv s).
  induction H as [config s Hc | s near far s' _ IH Hadd | s s' _ IH Hupd | s config _ IH].
  - unfold XCorrHelper.create in Hc.
    destruct (XCorrCfg.echoTimeWindowSizeMs config); [|discriminate].
    destruct (XCorrCfg.updateIntervalFrames config); [|discriminate].
    destruct (XCorrCfg.minDelayMs config); [|discriminate].
    destruct (XCorrCfg.stepSize config); [|discriminate].
    destruct (XCorrCfg.txThresholdDb config); [|discriminate].
    destruct (XCorrCfg.rxThresholdDb config); [|discriminate].
    destruct (XCorrCfg.smoothingAlpha config); [|discriminate].
    destruct (XCorrCfg.nxcThreshold config); [|discriminate].
    destruct (XCorrCfg.xcorrWindowSize config); [|discriminate].
    destruct (_ <? 0); [discriminate|].
    inversion Hc; subst. unfold lockInv. simpl. split; [lia|].
    split; [discriminate | lia].
  - assert (Hpush : lockInv (XCorrHelper.pushSamples s near far)).
    { pose proof (pushSamples_history s near far) as Hp. cbv zeta in Hp.
      destruct Hp as (_ & _ & H3 & _).
      pose proof (pushSamples_fields s near far) as Hq. cbv zeta in Hq.
      destruct Hq as (_ & _ & _ & Hx & _).
      unfold lockInv. rewrite H3, Hx. exact IH. }
    unfold XCorrHelper.addFrame in Hadd.
    destruct (_ >=? _).
    + apply (updateDelay_lockInv _ _ Hadd). exact Hpush.
    + inversion Hadd; subst. exact Hpush.
  - exact (updateDelay_lockInv _ _ Hupd IH).
  - destruct (updateConfig_lock sampleRate s config) as [H1 H2].
    unfold lockInv. rewrite H1, H2. exact IH.
Qed.

Lemma lock_iff_accepted_witness :
  exists s,
    XCorrHelper.create 1000 smallCfg = Some s
    /\ XCorrHelper.foundXC s = false
    /\ ~ 0 < XCorrHelper.delayUpdateCount s.
Proof.
  eexists. split; [reflexivity|]. split; [reflexivity|].
  match goal with
  | |- ~ 0 < XCorrHelper.delayUpdateCount ?s0 =>
      pose proof (lock_iff_accepted 1000 s0
                    (reach_create 1000 smallCfg s0 eq_refl)) as (_ & H)
  end.
  intros Hpos. apply H in Hpos. discriminate.
Defined.

(** ** TimeAlignedSubtractStrategy before the first lock *)

(** X6.  Until the estimator has locked, [onFrame] outputs silence, logs nothing
    and leaves the strategy's own delay alone. *)
Theorem silence_until_locked (fx : FauxecState.t) (s s' : TimeAlignedSubtractStrategy.t)
    (nSamples : Z) (nearEndFrame farEndFrame outFrame out : f32) (log : list Event) :
  TimeAlignedSubtractStrategy.onFrame fx s nSamples nearEndFrame farEndFrame outFrame
    = Some (s', out, log) ->
  XCorrHelper.foundXC (TimeAlignedSubtractStrategy.xCorr s') = false ->
  log = []
  /\ TimeAlignedSubtractStrategy.lastDelay s' = TimeAlignedSubtractStrategy.lastDelay s
  /\ forall i, 0 <= i < nSamples -> i < f32_length outFrame -> f32_get out i = Some 0%R.
Proof.
  unfold TimeAlignedSubtractStrategy.onFrame. intros Hrun Hlock.
  destruct (XCorrHelper.addFrame _ _ _) as [xc|]; [|discriminate].
  destruct (TimeAlignedSubtractStrategy.pushFarEnd _ _ _ _ _) as [buf wp].
  destruct (XCorrHelper.foundXC xc) eqn:Hfound; simpl in Hrun.
  - destruct (TimeAlignedSubtractStrategy.subtractLoop _ _ _ _ _ _ _ _ _ _ _)
      as [[o dbg] dbgPos].
    inversion Hrun; subst. simpl in Hlock. congruence.
  - inversion Hrun; subst. simpl. repeat split.
    intros i Hi Hl. now apply fillZero_get.
Qed.

Lemma silence_until_locked_witness :
  exists s' out,
    TimeAlignedSubtractStrategy.onFrame noDebug idleStrategy
      1 [Some 5%R] [Some 7%R] [Some 9%R] = Some (s', out, [])
    /\ f32_get out 0 = Some 0%R.
Proof.
  eexists _, _. split; [reflexivity|].
  eapply (fun H1 H2 =>
            proj2 (proj2 (silence_until_locked noDebug idleStrategy _ 1
                            [Some 5%R] [Some 7%R] [Some 9%R] _ [] H1 H2))).
  - reflexivity.
  - reflexivity.
  - lia.
  - reflexivity.
Defined.

(** ** HalfDuplexStrategy: envelope and notifications *)

Lemma halfDuplex_step_events (sampleRate : Z) (s : HalfDuplexStrategy.t) (n : Z)
    (near far out : f32) :
  let r := HalfDuplexStrategy.onFrame sampleRate s n near far out in
  let s1 := fst (fst r) in
  let posted := snd r in
  (posted = [] /\ HalfDuplexStrategy.gated s1 = HalfDuplexStrategy.gated s)
  \/ (posted = [PostGated (HalfDuplexStrategy.gated s1)]
      /\ HalfDuplexStrategy.gated s1 = negb (HalfDuplexStrategy.gated s)).
Proof.
  cbv zeta. unfold HalfDuplexStrategy.onFrame.
  destruct (xgt _ _); destruct (HalfDuplexStrategy.gated s); simpl; auto.
Qed.

(** X7.  Over any sequence of frames the gate notifications alternate: each one
    reports the opposite of the gate state before it, so a notification is
    posted once per transition and never for a frame that keeps the state; the
    final gate state is the last one reported. *)
Theorem gate_notifications_alternate (sampleRate : Z) (s : HalfDuplexStrategy.t)
    (frames : list FrameArgs) :
  let r := halfDuplexRun sampleRate s frames in
  alternates (HalfDuplexStrategy.gated s) (snd r)
  /\ HalfDuplexStrategy.gated (fst r) = lastGate (HalfDuplexStrategy.gated s) (snd r).
Proof.
  cbv zeta. revert s. induction frames as [|[[[n near] far] out] rest IH]; intros s.
  - simpl. auto.
  - simpl.
    pose proof (halfDuplex_step_events sampleRate s n near far out) as Hstep.
    cbv zeta in Hstep.
    destruct (HalfDuplexStrategy.onFrame sampleRate s n near far out) as [[s1 o] posted].
    simpl in Hstep. specialize (IH s1).
    destruct (halfDuplexRun sampleRate s1 rest) as [s2 later]. simpl in IH |- *.
    destruct IH as [Halt Hlast].
    destruct Hstep as [[-> Hg] | [-> Hg]]; simpl.
    + rewrite <- Hg. auto.
    + rewrite Hg in *. auto.
Qed.

(** X8.  With positive time constants, sample rate and frame length, the
    envelope moves from its previous value strictly toward the RMS of the
    far-end frame and never past it. *)
Theorem envelope_moves_toward_rms (sampleRate : Z) (s : HalfDuplexStrategy.t)
    (nSamples : Z) (farEndFrame : f32) (level rms : R) :
  0 < sampleRate -> 0 < nSamples ->
  (0 < HalfDuplexCfg.attackMs (HalfDuplexStrategy.config s))%R ->
  (0 < HalfDuplexCfg.decayMs (HalfDuplexStrategy.config s))%R ->
  HalfDuplexStrategy.farEndLevel s = Fin level ->
  nsqrt (ndiv (HalfDuplexStrategy.sumSquares nSamples farEndFrame) (nofZ nSamples))
    = Some rms ->
  exists v,
    HalfDuplexStrategy.nextLevel sampleRate s nSamples farEndFrame = Fin v
    /\ (level < rms -> level < v < rms)%R
    /\ (rms < level -> rms < v < level)%R
    /\ (rms = level -> v = level).
Proof.
  intros Hsr Hn Ha Hd Hlevel Hrms.
  destruct (nextLevel_real sampleRate s nSamples farEndFrame level rms Hsr Hn Hlevel Hrms)
    as (v & Hv & Hnz & _).
  cbv zeta in Hnz.
  assert (Hsr' : (0 < IZR sampleRate)%R) by (apply (IZR_lt 0); exact Hsr).
  assert (Hn' : (0 < IZR nSamples)%R) by (apply (IZR_lt 0); exact Hn).
  set (tauMs := if Rltb level rms
                then HalfDuplexCfg.attackMs (HalfDuplexStrategy.config s)
                else HalfDuplexCfg.decayMs (HalfDuplexStrategy.config s)) in *.
  assert (Htau : (0 < tauMs / 1000)%R) by (unfold tauMs; destruct (Rltb _ _); lra).
  specialize (Hnz ltac:(lra)).
  set (y := (- (IZR nSamples / IZR sampleRate) / (tauMs / 1000))%R) in *.
  assert (Hy : (y < 0)%R).
  { unfold y. assert (0 < IZR nSamples / IZR sampleRate)%R
      by (apply Rdiv_lt_0_compat; assumption).
    assert (0 < / (tauMs / 1000))%R by (apply Rinv_0_lt_compat; assumption).
    unfold Rdiv at 1. nra. }
  pose proof (exp_pos y) as Hpos.
  pose proof (exp_increasing y 0 Hy) as Hlt. rewrite exp_0 in Hlt.
  exists v. split; [exact Hv|]. subst v.
  repeat split; intros; nra.
Qed.

(** A silent strategy that hears a far-end frame of constant amplitude 1. *)
Lemma envelope_moves_toward_rms_witness :
  exists v,
    HalfDuplexStrategy.nextLevel 48000 HalfDuplexStrategy.create 1 [Some 1%R] = Fin v
    /\ (0 < v < 1)%R.
Proof.
  destruct (envelope_moves_toward_rms 48000 HalfDuplexStrategy.create 1 [Some 1%R] 0 1)
    as (v & Hv & Hup & _).
  - lia.
  - lia.
  - simpl. lra.
  - simpl. lra.
  - reflexivity.
  - unfold HalfDuplexStrategy.sumSquares. real_cbn. rewrite ndiv_some by lra.
    rewrite nsqrt_some by lra. f_equal.
    replace ((0 + 1 * 1) / 1)%R with 1%R by lra. apply sqrt_1.
  - exists v. split; [exact Hv|]. apply Hup. lra.
Defined.

(** ** IRMeasurementHelper: recording and playback *)

Lemma recordLoop_inv (s : IRMeasurementHelper.t) (nSamples : Z) (nearEndFrame : f32)
    (testSignalFrame : option f32) :
  0 <= IRMeasurementHelper.recordPos s <= IRMeasurementHelper.measureSamples s ->
  0 <= nSamples ->
  recordInv s nearEndFrame testSignalFrame nSamples
    (IRMeasurementHelper.recordLoop s nSamples nearEndFrame testSignalFrame).
Proof.
  intros Hrp Hn. unfold IRMeasurementHelper.recordLoop.
  rewrite <- (Z2Nat.id nSamples) by lia. induction (Z.to_nat nSamples) as [|k IH].
  - simpl. unfold recordInv. rewrite Z.add_0_r.
    split; [lia|]. split; [reflexivity|]. split; [intros; lia|].
    split; [reflexivity|].
    destruct testSignalFrame; [|reflexivity].
    split; [lia|]. split; [reflexivity|]. intros; lia.
  - replace (Z.of_nat (S k)) with (Z.of_nat k + 1) by lia.
    rewrite range_succ by lia. rewrite fold_left_app. simpl.
    destruct (fold_left _ (range (Z.of_nat k)) _) as [[tsf rec] [rp pp]].
    unfold recordInv in IH |- *.
    destruct IH as (Hrpk & Hlen & Hrec & Hold & Hts).
    set (rp0 := IRMeasurementHelper.recordPos s) in *.
    set (ms := IRMeasurementHelper.measureSamples s) in *.
    destruct (rp >=? ms) eqn:Hfull.
    + split; [lia|]. split; [assumption|]. split; [assumption|].
      split; [assumption|]. exact Hts.
    + assert (Hk : rp = rp0 + Z.of_nat k) by lia.
      destruct testSignalFrame as [f0|]; destruct tsf as [f|]; try contradiction.
      * destruct Hts as (Hpp & Hfl & Hplay).
        split; [lia|]. split; [now rewrite f32_set_length|].
        split; [|split].
        -- intros i Hi Hin. destruct (Z.eq_dec i (Z.of_nat k)) as [->|Hne].
           ++ rewrite <- Hk. apply f32_get_set_same. lia.
           ++ rewrite f32_get_set_other by lia. apply Hrec; lia.
        -- intros j Hj. rewrite f32_get_set_other by lia. now apply Hold.
        -- split; [lia|]. split; [now rewrite f32_set_length|].
           intros i Hi Hin. destruct (Z.eq_dec i (Z.of_nat k)) as [->|Hne].
           ++ rewrite f32_get_set_same by lia. unfold playedSample.
              replace (IRMeasurementHelper.playPos s + Z.of_nat k) with pp by lia.
              reflexivity.
           ++ rewrite f32_get_set_other by lia. apply Hplay; lia.
      * split; [lia|]. split; [now rewrite f32_set_length|].
        split; [|split].
        -- intros i Hi Hin. destruct (Z.eq_dec i (Z.of_nat k)) as [->|Hne].
           ++ rewrite <- Hk. apply f32_get_set_same. lia.
           ++ rewrite f32_get_set_other by lia. apply Hrec; lia.
        -- intros j Hj. rewrite f32_get_set_other by lia. now apply Hold.
        -- exact Hts.
Qed.

Lemma computeIR_fields (sampleRate : Z) (s : IRMeasurementHelper.t) :
  let o := IRMeasurementHelper._computeIR sampleRate s in
  IRMeasurementHelper.recordPos (outcome_state o) = IRMeasurementHelper.recordPos s
  /\ IRMeasurementHelper.recordBuffer (outcome_state o)
     = IRMeasurementHelper.recordBuffer s
  /\ IRMeasurementHelper.measureSamples (outcome_state o)
     = IRMeasurementHelper.measureSamples s
  /\ (forall s', o = Returned s' -> IRMeasurementHelper.ready s' = true).
Proof.
  cbv zeta. unfold IRMeasurementHelper._computeIR.
  destruct (_ <? 0); [simpl; repeat split; discriminate|].
  destruct (nlt _ _).
  { simpl. repeat split. intros s' H. inversion H. reflexivity. }
  destruct (IRMeasurementHelper.deconvolve s) as [ir' maxSum].
  destruct (IRMeasurementHelper.findPeak _ ir') as [[peakVal peakIdx] sumSq].
  destruct (_ <? 0); simpl; repeat split; try discriminate.
  intros s' H. inversion H. reflexivity.
Qed.

Lemma computeIR_playPos (sampleRate : Z) (s : IRMeasurementHelper.t) :
  IRMeasurementHelper.playPos
    (outcome_state (IRMeasurementHelper._computeIR sampleRate s))
  = IRMeasurementHelper.playPos s.
Proof.
  unfold IRMeasurementHelper._computeIR.
  destruct (_ <? 0); [reflexivity|]. destruct (nlt _ _); [reflexivity|].
  destruct (IRMeasurementHelper.deconvolve _) as [ir' maxSum].
  destruct (IRMeasurementHelper.findPeak _ ir') as [[peakVal peakIdx] sumSq].
  destruct (_ <? 0); reflexivity.
Qed.

(** X9.  While the measurement runs, a frame appends its near-end samples to the
    recording until the recording is full, never past it; the measurement
    becomes ready exactly when the recording is full, and a ready measurer
    ignores frames. *)
Theorem recording_fills_then_completes (sampleRate : Z) (s : IRMeasurementHelper.t)
    (nSamples : Z) (nearEndFrame : f32) (testSignalFrame : option f32) :
  0 <= sampleRate -> 0 <= IRMeasurementHelper.irLength s ->
  0 <= IRMeasurementHelper.recordPos s <= IRMeasurementHelper.measureSamples s ->
  0 <= nSamples ->
  let r := IRMeasurementHelper.onFrame sampleRate s nSamples nearEndFrame
             testSignalFrame in
  (IRMeasurementHelper.ready s = true -> r = (Returned s, testSignalFrame))
  /\ (IRMeasurementHelper.ready s = false ->
      exists s',
        fst r = Returned s'
        /\ IRMeasurementHelper.recordPos s'
           = Z.min (IRMeasurementHelper.recordPos s + nSamples)
                   (IRMeasurementHelper.measureSamples s)
        /\ (IRMeasurementHelper.ready s' = true
            <-> IRMeasurementHelper.measureSamples s
                <= IRMeasurementHelper.recordPos s + nSamples)
        /\ (forall i,
              0 <= i < IRMeasurementHelper.recordPos s' - IRMeasurementHelper.recordPos s ->
              IRMeasurementHelper.recordPos s + i
                < f32_length (IRMeasurementHelper.recordBuffer s) ->
              f32_get (IRMeasurementHelper.recordBuffer s')
                      (IRMeasurementHelper.recordPos s + i)
              = f32_get nearEndFrame i)
        /\ (forall j, 0 <= j < IRMeasurementHelper.recordPos s ->
              f32_get (IRMeasurementHelper.recordBuffer s') j
              = f32_get (IRMeasurementHelper.recordBuffer s) j)).
Proof.
  intros Hsr Hir Hrp Hn. cbv zeta. unfold IRMeasurementHelper.onFrame.
  split; intros Hready; rewrite Hready; [reflexivity|].
  pose proof (recordLoop_inv s nSamples nearEndFrame testSignalFrame Hrp Hn) as Hinv.
  destruct (IRMeasurementHelper.recordLoop s nSamples nearEndFrame testSignalFrame)
    as [[tsf rec] [rp pp]].
  unfold recordInv in Hinv. destruct Hinv as (Hrpk & Hlen & Hrec & Hold & _).
  destruct (rp >=? IRMeasurementHelper.measureSamples s) eqn:Hfull.
  - match goal with
    | |- context [IRMeasurementHelper._computeIR sampleRate ?s1] =>
        destruct (computeIR_returns sampleRate s1 Hsr Hir) as (s' & Hret);
        pose proof (computeIR_fields sampleRate s1) as Hf
    end.
    cbv zeta in Hf. rewrite Hret in Hf. cbn [outcome_state] in Hf.
    destruct Hf as (Hp & Hb & _ & Hr). simpl in Hp, Hb.
    exists s'. simpl. rewrite Hret. split; [reflexivity|].
    rewrite Hp, Hb. split; [exact Hrpk|]. split.
    + split; intros; [lia | now apply Hr].
    + split; [exact Hrec | exact Hold].
  - eexists. simpl. split; [reflexivity|]. simpl.
    split; [exact Hrpk|]. split.
    + split; intros; [congruence | lia].
    + split; [exact Hrec | exact Hold].
Qed.

(** X10.  Each recorded sample is accompanied by one sample of playback: the test
    signal from where playback stood, then silence once it is exhausted. *)
Theorem playback_follows_recording (sampleRate : Z) (s : IRMeasurementHelper.t)
    (nSamples : Z) (nearEndFrame frame : f32) :
  IRMeasurementHelper.ready s = false ->
  0 <= IRMeasurementHelper.recordPos s <= IRMeasurementHelper.measureSamples s ->
  0 <= nSamples ->
  let r := IRMeasurementHelper.onFrame sampleRate s nSamples nearEndFrame (Some frame) in
  let recorded :=
    Z.min (IRMeasurementHelper.recordPos s + nSamples)
          (IRMeasurementHelper.measureSamples s)
    - IRMeasurementHelper.recordPos s in
  exists out,
    snd r = Some out
    /\ f32_length out = f32_length frame
    /\ IRMeasurementHelper.playPos (outcome_state (fst r))
       = IRMeasurementHelper.playPos s + recorded
    /\ forall i, 0 <= i < recorded -> i < f32_length frame ->
         f32_get out i = playedSample s i.
Proof.
  intros Hready Hrp Hn. cbv zeta. unfold IRMeasurementHelper.onFrame. rewrite Hready.
  pose proof (recordLoop_inv s nSamples nearEndFrame (Some frame) Hrp Hn) as Hinv.
  destruct (IRMeasurementHelper.recordLoop s nSamples nearEndFrame (Some frame))
    as [[tsf rec] [rp pp]].
  unfold recordInv in Hinv. destruct Hinv as (Hrpk & _ & _ & _ & Hts).
  destruct tsf as [f|]; [|contradiction]. destruct Hts as (Hpp & Hfl & Hplay).
  exists f. rewrite <- Hrpk.
  destruct (rp >=? IRMeasurementHelper.measureSamples s); cbn [fst snd outcome_state].
  - split; [reflexivity|]. split; [exact Hfl|]. split; [|exact Hplay].
    rewrite computeIR_playPos. exact Hpp.
  - split; [reflexivity|]. split; [exact Hfl|]. split; [|exact Hplay]. exact Hpp.
Qed.

Lemma recording_fills_then_completes_witness :
  let r := IRMeasurementHelper.onFrame 48000 emptyRecording 1 [Some 1%R]
             (Some [Some 0%R]) in
  (IRMeasurementHelper.ready emptyRecording = true ->
   r = (Returned emptyRecording, Some [Some 0%R]))
  /\ (IRMeasurementHelper.ready emptyRecording = false ->
      exists s',
        fst r = Returned s'
        /\ IRMeasurementHelper.recordPos s'
           = Z.min (IRMeasurementHelper.recordPos emptyRecording + 1)
                   (IRMeasurementHelper.measureSamples emptyRecording)
        /\ (IRMeasurementHelper.ready s' = true
            <-> IRMeasurementHelper.measureSamples emptyRecording
                <= IRMeasurementHelper.recordPos emptyRecording + 1)
        /\ (forall i,
              0 <= i < IRMeasurementHelper.recordPos s'
                       - IRMeasurementHelper.recordPos emptyRecording ->
              IRMeasurementHelper.recordPos emptyRecording + i
                < f32_length (IRMeasurementHelper.recordBuffer emptyRecording) ->
              f32_get (IRMeasurementHelper.recordBuffer s')
                      (IRMeasurementHelper.recordPos emptyRecording + i)
              = f32_get [Some 1%R] i)
        /\ (forall j, 0 <= j < IRMeasurementHelper.recordPos emptyRecording ->
              f32_get (IRMeasurementHelper.recordBuffer s') j
              = f32_get (IRMeasurementHelper.recordBuffer emptyRecording) j)).
Proof.
  apply (recording_fills_then_completes 48000 emptyRecording 1 [Some 1%R]
           (Some [Some 0%R])).
  - lia.
  - unfold emptyRecording; cbn [IRMeasurementHelper.irLength]; lia.
  - unfold emptyRecording;
      cbn [IRMeasurementHelper.recordPos IRMeasurementHelper.measureSamples]; lia.
  - lia.
Defined.

Lemma playback_follows_recording_witness :
  exists out,
    snd (IRMeasurementHelper.onFrame 48000 emptyRecording 1 [Some 1%R]
           (Some [Some 0%R])) = Some out
    /\ f32_get out 0 = Some (- (8 / 10))%R.
Proof.
  destruct (playback_follows_recording 48000 emptyRecording 1 [Some 1%R] [Some 0%R])
    as (out & Hout & _ & _ & Hplay).
  - reflexivity.
  - unfold emptyRecording;
      cbn [IRMeasurementHelper.recordPos IRMeasurementHelper.measureSamples]; lia.
  - lia.
  - exists out. split; [exact Hout|].
    rewrite (Hplay 0); [reflexivity | |].
    + unfold emptyRecording;
        cbn [IRMeasurementHelper.recordPos IRMeasurementHelper.measureSamples]; lia.
    + cbn; lia.
Defined.

(** ** IRMeasurementHelper: the maximum length sequence *)

Lemma generateMLS_loop (tap len : Z) (k : nat) :
  Z.of_nat k <= len ->
  let acc :=
    fold_left
      (fun (acc : f32 * Z) i =>
         let '(mls, lfsr) := acc in
         let bit := Z.land lfsr 1 in
         let mls' :=
           f32_set mls i (if bit =? 0 then Some (- (5 / 10))%R else Some (5 / 10)%R) in
         let lfsr1 := Z.shiftr lfsr 1 in
         (mls', if bit =? 0 then lfsr1 else Z.lxor lfsr1 tap))
      (range (Z.of_nat k)) (f32_new len, 1) in
  snd acc = lfsrAfter tap k
  /\ f32_length (fst acc) = len
  /\ forall i, 0 <= i < Z.of_nat k -> f32_get (fst acc) i = mlsSample tap i.
Proof.
  induction k as [|k IH]; intros Hk; cbv zeta.
  - simpl. split; [reflexivity|]. split; [apply f32_new_length; lia | intros; lia].
  - replace (Z.of_nat (S k)) with (Z.of_nat k + 1) by lia.
    rewrite range_succ by lia. rewrite fold_left_app.
    specialize (IH ltac:(lia)). cbv zeta in IH.
    destruct (fold_left _ (range (Z.of_nat k)) _) as [mls lfsr].
    cbn [fst snd] in IH. destruct IH as (-> & Hlen & Hget).
    cbn [fold_left fst snd]. split; [|split].
    + cbn [lfsrAfter]. unfold lfsrStep. reflexivity.
    + now rewrite f32_set_length.
    + intros i Hi. destruct (Z.eq_dec i (Z.of_nat k)) as [->|Hne].
      * rewrite f32_get_set_same by lia. unfold mlsSample. now rewrite Nat2Z.id.
      * rewrite f32_get_set_other by lia. apply Hget. lia.
Qed.

Lemma generateMLS_samples (order : Z) :
  0 <= IRMeasurementHelper.shl1 order - 1 ->
  exists mls,
    IRMeasurementHelper._generateMLS order = Some mls
    /\ f32_length mls = IRMeasurementHelper.shl1 order - 1
    /\ forall i, 0 <= i < f32_length mls ->
         f32_get mls i = mlsSample (IRMeasurementHelper.taps order) i.
Proof.
  intros Hlen. unfold IRMeasurementHelper._generateMLS.
  destruct (_ <? 0) eqn:E; [lia|]. eexists. split; [reflexivity|].
  set (len := IRMeasurementHelper.shl1 order - 1) in *.
  pose proof (generateMLS_loop (IRMeasurementHelper.taps order) len (Z.to_nat len)) as H.
  rewrite Z2Nat.id in H by lia. specialize (H ltac:(lia)). cbv zeta in H.
  destruct H as (_ & Hl & Hget). split; [exact Hl|].
  intros i Hi. apply Hget. rewrite Hl in Hi. exact Hi.
Qed.

Lemma shl1_cases (order : Z) :
  (order mod 32 = 31 /\ IRMeasurementHelper.shl1 order - 1 < 0)
  \/ (order mod 32 <> 31
      /\ IRMeasurementHelper.shl1 order = 2 ^ (order mod 32)
      /\ 0 <= IRMeasurementHelper.shl1 order - 1).
Proof.
  unfold IRMeasurementHelper.shl1. cbv zeta.
  destruct (order mod 32 =? 31) eqn:E.
  - left. split; lia.
  - right. split; [lia|]. split; [reflexivity|].
    assert (0 < 2 ^ (order mod 32)).
    { apply Z.pow_pos_nonneg; [lia|]. apply Z.mod_pos_bound. lia. }
    lia.
Qed.

Lemma rsum_const (c : R) (F : Z -> R) (l : list Z) :
  (forall j, In j l -> F j = c) ->
  rsum F l = (IZR (Z.of_nat (length l)) * c)%R.
Proof.
  induction l as [|j l IH]; intros H.
  - simpl. lra.
  - cbn [rsum fold_right length]. fold (rsum F l).
    rewrite (H j) by now left. rewrite IH by (intros k Hk; apply H; now right).
    rewrite Nat2Z.inj_succ, succ_IZR. lra.
Qed.

Lemma range_length (n : Z) : 0 <= n -> Z.of_nat (length (range n)) = n.
Proof. intros H. unfold range. rewrite length_map, length_seq. lia. Qed.

(** X11.  [_generateMLS] throws exactly when the shift count [order mod 32] is 31;
    otherwise it returns [2^(order mod 32) - 1] samples, each [0.5] or
    [-0.5], whose energy is a quarter of their number. *)
Theorem mls_shape (order : Z) :
  (IRMeasurementHelper._generateMLS order = None <-> order mod 32 = 31)
  /\ forall mls,
       IRMeasurementHelper._generateMLS order = Some mls ->
       f32_length mls = 2 ^ (order mod 32) - 1
       /\ (forall i, 0 <= i < f32_length mls ->
             f32_get mls i = Some (5 / 10)%R \/ f32_get mls i = Some (- (5 / 10))%R)
       /\ IRMeasurementHelper.energy mls = Some (IZR (f32_length mls) / 4)%R.
Proof.
  destruct (shl1_cases order) as [(Hm & Hneg)|(Hm & Hshl & Hpos)].
  - assert (Hnone : IRMeasurementHelper._generateMLS order = None).
    { unfold IRMeasurementHelper._generateMLS. destruct (_ <? 0) eqn:E; [reflexivity | lia]. }
    split; [split; intros; assumption|]. intros mls H. congruence.
  - destruct (generateMLS_samples order Hpos) as (m & Hgen & Hlen & Hget).
    split; [split; intros; congruence|].
    intros mls H. rewrite Hgen in H. injection H as <-.
    assert (Hpm : forall i, 0 <= i < f32_length m ->
              f32_get m i = Some (5 / 10)%R \/ f32_get m i = Some (- (5 / 10))%R).
    { intros i Hi. rewrite (Hget i Hi). unfold mlsSample.
      destruct (_ =? 0); [right | left]; reflexivity. }
    split; [lia|]. split; [exact Hpm|].
    unfold IRMeasurementHelper.energy.
    rewrite (energy_fold_real (f32_get m) (val m)).
    + f_equal. rewrite (rsum_const (1 / 4)%R).
      * rewrite range_length by (unfold f32_length; lia). lra.
      * intros j Hj. apply in_range in Hj. unfold val.
        destruct (Hpm j Hj) as [-> | ->]; lra.
    + intros j Hj. apply in_range in Hj. unfold val.
      destruct (Hpm j Hj) as [-> | ->]; reflexivity.
Qed.

Lemma lfsrAfter_add (tap : Z) (i j m : nat) :
  lfsrAfter tap i = lfsrAfter tap j ->
  lfsrAfter tap (m + i) = lfsrAfter tap (m + j).
Proof. intros H. induction m as [|m IH]; simpl; [assumption | now rewrite IH]. Qed.

Lemma firstReturn_sound (tap : Z) (fuel n : nat) (p : Z) :
  firstReturn tap fuel (lfsrAfter tap n) (Z.of_nat n) = Some p ->
  Z.of_nat n < p
  /\ lfsrAfter tap (Z.to_nat p) = 1
  /\ forall k, (n < k < Z.to_nat p)%nat -> lfsrAfter tap k <> 1.
Proof.
  revert n. induction fuel as [|fuel IH]; intros n H; simpl in H; [discriminate|].
  change (lfsrStep tap (lfsrAfter tap n)) with (lfsrAfter tap (S n)) in H.
  replace (Z.of_nat n + 1) with (Z.of_nat (S n)) in H by lia.
  destruct (lfsrAfter tap (S n) =? 1) eqn:E.
  - injection H as Hp. assert (Hs : Z.to_nat p = S n) by lia. rewrite Hs.
    split; [lia|]. split; [lia|]. intros k Hk. lia.
  - destruct (IH (S n) H) as (Hlt & Hp & Hno).
    split; [lia|]. split; [assumption|].
    intros k Hk. destruct (Nat.eq_dec k (S n)) as [->|Hne]; [lia|].
    apply Hno. lia.
Qed.

Lemma full_cycle_distinct (tap : Z) (p : nat) :
  lfsrAfter tap p = 1 ->
  (forall k, (0 < k < p)%nat -> lfsrAfter tap k <> 1) ->
  forall i j, (i < j < p)%nat -> lfsrAfter tap i <> lfsrAfter tap j.
Proof.
  intros Hp Hno i j Hij Heq.
  apply (lfsrAfter_add tap i j (p - j)) in Heq.
  replace (p - j + j)%nat with p in Heq by lia.
  rewrite Hp in Heq. apply (Hno (p - j + i)%nat); [lia | assumption].
Qed.

(** X12.  For each order that has an entry in the table of taps, the generated
    sequence is one full period of the shift register: the samples follow
    the register's low bit, the register is back at its start value after
    [2^order - 1] iterations, and no two iterations before that see the
    same register value. *)
Theorem mls_full_period (order : Z) :
  order = 10 \/ order = 12 \/ order = 14 \/ order = 16 ->
  let tap := IRMeasurementHelper.taps order in
  let len := 2 ^ order - 1 in
  exists mls,
    IRMeasurementHelper._generateMLS order = Some mls
    /\ f32_length mls = len
    /\ (forall i, 0 <= i < len -> f32_get mls i = mlsSample tap i)
    /\ lfsrAfter tap (Z.to_nat len) = 1
    /\ forall i j, (i < j < Z.to_nat len)%nat -> lfsrAfter tap i <> lfsrAfter tap j.
Proof.
  intros Horder. cbv zeta.
  assert (Hshl : IRMeasurementHelper.shl1 order = 2 ^ order).
  { destruct Horder as [->|[->|[->| ->]]]; reflexivity. }
  assert (Hpos : 0 <= IRMeasurementHelper.shl1 order - 1).
  { rewrite Hshl. destruct Horder as [->|[->|[->| ->]]]; simpl; lia. }
  destruct (generateMLS_samples order Hpos) as (mls & Hgen & Hlen & Hget).
  exists mls. split; [exact Hgen|]. rewrite Hshl in Hlen. split; [exact Hlen|].
  split; [intros i Hi; apply Hget; lia|].
  assert (Hret : firstReturn (IRMeasurementHelper.taps order) (Z.to_nat (2 ^ order))
                   (lfsrAfter (IRMeasurementHelper.taps order) 0) (Z.of_nat 0)
                 = Some (2 ^ order - 1)).
  { destruct Horder as [->|[->|[->| ->]]]; vm_compute; reflexivity. }
  apply firstReturn_sound in Hret. destruct Hret as (_ & Hp & Hno).
  split; [exact Hp|]. now apply full_cycle_distinct.
Qed.

Lemma mls_full_period_witness :
  exists mls,
    IRMeasurementHelper._generateMLS 10 = Some mls
    /\ f32_length mls = 1023
    /\ lfsrAfter (IRMeasurementHelper.taps 10) 1023 = 1.
Proof.
  destruct (mls_full_period 10) as (mls & Hgen & Hlen & _ & Hp & _).
  - left. reflexivity.
  - exists mls. split; [exact Hgen|]. split; [exact Hlen | exact Hp].
Defined.

(** ** IRMeasurementHelper: the deconvolution and the trimmed window *)

Lemma deconvolve_fold (s : IRMeasurementHelper.t) (l : list Z) (acc : f32 * num) :
  fst (fold_left
         (fun (acc : f32 * num) k =>
            let '(ir, maxSum) := acc in
            let sum := IRMeasurementHelper.corrSum s k in
            (f32_set ir k (ndiv sum (IRMeasurementHelper.testSignalEnergy s)),
             if ngt (nabs sum) (nabs maxSum) then sum else maxSum))
         l acc)
  = fold_left
      (fun out k =>
         f32_set out k (ndiv (IRMeasurementHelper.corrSum s k)
                             (IRMeasurementHelper.testSignalEnergy s)))
      l (fst acc).
Proof.
  revert acc. induction l as [|k l IH]; intros [ir0 m0]; simpl; [reflexivity|].
  rewrite IH. reflexivity.
Qed.

Lemma deconvolve_ir (s : IRMeasurementHelper.t) :
  fst (IRMeasurementHelper.deconvolve s)
  = fill (fun k => ndiv (IRMeasurementHelper.corrSum s k)
                        (IRMeasurementHelper.testSignalEnergy s))
         (IRMeasurementHelper.irLength s) (f32_new (IRMeasurementHelper.irLength s)).
Proof. unfold IRMeasurementHelper.deconvolve. now rewrite deconvolve_fold. Qed.

Lemma sliceIR_get (ir : f32) (offset n i : Z) :
  0 <= i < n ->
  f32_get (IRMeasurementHelper.sliceIR ir offset n) i = f32_get ir (offset + i).
Proof.
  intros Hi.
  change (IRMeasurementHelper.sliceIR ir offset n)
    with (fill (fun i => f32_get ir (offset + i)) n (f32_new n)).
  rewrite fill_get by (rewrite f32_new_length; lia).
  destruct (i <? n) eqn:E; [reflexivity | lia].
Qed.

Lemma findTailEnd_le (sampleRate irLen : Z) (ir : f32) (peakIdx : Z) (thr : num) :
  IRMeasurementHelper.findTailEnd sampleRate irLen ir peakIdx thr <= irLen.
Proof. unfold IRMeasurementHelper.findTailEnd. destruct (find _ _); lia. Qed.

(** X13.  After a measurement of a recording that is not silent, the stored
    response has [irLength] samples, and the trimmed response is a window of
    it: it starts at [irDelayOffset], ends inside the response, and each of
    its samples is the response's sample at the same place, scaled by the
    normalization factor when the window was normalized. *)
Theorem trimmed_is_window_of_response (sampleRate : Z) (s s' : IRMeasurementHelper.t) :
  nlt (IRMeasurementHelper.recordRms s) (Some IRMeasurementHelper.silenceThreshold)
    = false ->
  IRMeasurementHelper._computeIR sampleRate s = Returned s' ->
  exists trimmed,
    IRMeasurementHelper.irTrimmed s' = Some trimmed
    /\ f32_length (IRMeasurementHelper.ir s') = IRMeasurementHelper.irLength s
    /\ 0 <= IRMeasurementHelper.irDelayOffset s'
    /\ IRMeasurementHelper.irDelayOffset s' + f32_length trimmed
       <= IRMeasurementHelper.irLength s
    /\ forall i, 0 <= i < f32_length trimmed ->
         f32_get trimmed i
         = let sample :=
             f32_get (IRMeasurementHelper.ir s')
                     (IRMeasurementHelper.irDelayOffset s' + i) in
           if ngt (IRMeasurementHelper.irSumBeforeNorm s')
                  (Some IRMeasurementHelper.l1Epsilon)
           then nmul sample (ndiv (Some 1%R) (IRMeasurementHelper.irSumBeforeNorm s'))
           else sample.
Proof.
  intros Hloud Hret. unfold IRMeasurementHelper._computeIR in Hret.
  destruct (IRMeasurementHelper.irLength s <? 0) eqn:Hneg; [discriminate|].
  rewrite Hloud in Hret.
  pose proof (deconvolve_ir s) as Hir.
  destruct (IRMeasurementHelper.deconvolve s) as [ir' maxSum]. cbn [fst] in Hir.
  destruct (IRMeasurementHelper.findPeak _ ir') as [[peakVal peakIdx] sumSq].
  cbv zeta in Hret.
  set (offset := Z.max 0 (peakIdx - IRMeasurementHelper.preEchoSamples sampleRate)) in *.
  set (tailEnd := IRMeasurementHelper.findTailEnd sampleRate
                    (IRMeasurementHelper.irLength s) ir' peakIdx
                    (nmul peakVal (Some (1 / 10)%R))) in *.
  assert (Htail : tailEnd <= IRMeasurementHelper.irLength s)
    by apply findTailEnd_le.
  destruct (tailEnd - offset <? 0) eqn:Hlen; [discriminate|].
  injection Hret as <-. cbn [IRMeasurementHelper.irTrimmed IRMeasurementHelper.ir
    IRMeasurementHelper.irDelayOffset IRMeasurementHelper.irSumBeforeNorm].
  set (trimmed := IRMeasurementHelper.sliceIR ir' offset (tailEnd - offset)).
  assert (Htl : f32_length trimmed = tailEnd - offset)
    by (apply sliceIR_length; lia).
  eexists. split; [reflexivity|]. split.
  { rewrite Hir, fill_length. apply f32_new_length. lia. }
  split; [lia|].
  destruct (ngt (IRMeasurementHelper.l1Sum (tailEnd - offset) trimmed)
                (Some IRMeasurementHelper.l1Epsilon)) eqn:Hn.
  - rewrite scaleIR_length, Htl. split; [lia|].
    intros i Hi. cbv zeta. rewrite scaleIR_get by lia.
    destruct (i <? tailEnd - offset) eqn:E; [|lia].
    unfold trimmed. rewrite sliceIR_get by lia. reflexivity.
  - rewrite Htl. split; [lia|].
    intros i Hi. cbv zeta. unfold trimmed. now rewrite sliceIR_get by lia.
Qed.

Lemma trimmed_is_window_of_response_witness :
  exists s' trimmed,
    IRMeasurementHelper._computeIR 48000 unitRecording = Returned s'
    /\ IRMeasurementHelper.irTrimmed s' = Some trimmed
    /\ IRMeasurementHelper.irDelayOffset s' + f32_length trimmed
       <= IRMeasurementHelper.irLength unitRecording.
Proof.
  destruct unitRecording_computeIR as (s' & Hret & _).
  destruct (trimmed_is_window_of_response 48000 unitRecording s')
    as (trimmed & Ht & _ & _ & Hle & _).
  - rewrite unitRecording_rms. unfold IRMeasurementHelper.silenceThreshold.
    cbn [nlt]. apply Rltb_false. lra.
  - exact Hret.
  - exists s', trimmed. split; [exact Hret|]. split; [exact Ht | exact Hle].
Defined.

Lemma map_seq_start {A : Type} (f : nat -> A) (s n : nat) :
  map f (seq s n) = map (fun k => f (s + k)%nat) (seq 0 n).
Proof.
  revert s. induction n as [|n IH]; intros s; simpl; [reflexivity|].
  f_equal; [f_equal; lia|].
  rewrite IH. rewrite <- (seq_shift n 0), map_map.
  apply map_ext. intros k. f_equal. lia.
Qed.

Lemma rangeFrom_split (a b c : Z) :
  a <= b <= c -> rangeFrom a c = rangeFrom a b ++ rangeFrom b c.
Proof.
  intros H. unfold rangeFrom.
  replace (Z.to_nat (c - a)) with (Z.to_nat (b - a) + Z.to_nat (c - b))%nat by lia.
  rewrite seq_app, map_app. f_equal. simpl. rewrite map_seq_start.
  apply map_ext. intros k. lia.
Qed.

Lemma rangeFrom_range (d n : Z) :
  rangeFrom d (d + n) = map (fun m => d + m) (range n).
Proof.
  unfold rangeFrom, range. replace (d + n - d) with n by lia.
  now rewrite map_map.
Qed.

Lemma rsum_mult_l (c : R) (F : Z -> R) (l : list Z) :
  rsum (fun j => c * F j)%R l = (c * rsum F l)%R.
Proof. induction l as [|j l IH]; simpl; [lra | rewrite IH; lra]. Qed.

Lemma corr_fold_inside (a b : Z -> num) (A B : Z -> R) (k T : Z) (l : list Z) (a0 : R) :
  (forall n, In n l -> n - k < T /\ a n = Some (A n) /\ b (n - k) = Some (B (n - k))) ->
  fold_left
    (fun sum n => if n - k <? T then nadd sum (nmul (a n) (b (n - k))) else sum)
    l (Some a0)
  = Some (a0 + rsum (fun n => A n * B (n - k)%Z) l)%R.
Proof.
  revert a0. induction l as [|n l IH]; intros a0 H; simpl.
  - f_equal. lra.
  - destruct (H n (or_introl eq_refl)) as (Hlt & Ha & Hb).
    destruct (n - k <? T) eqn:E; [|lia]. rewrite Ha, Hb. simpl.
    rewrite IH by (intros m Hm; apply H; now right). f_equal. lra.
Qed.

Lemma corr_fold_outside (a b : Z -> num) (k T : Z) (l : list Z) (acc : num) :
  (forall n, In n l -> T <= n - k) ->
  fold_left
    (fun sum n => if n - k <? T then nadd sum (nmul (a n) (b (n - k))) else sum)
    l acc
  = acc.
Proof.
  revert acc. induction l as [|n l IH]; intros acc H; simpl; [reflexivity|].
  pose proof (H n (or_introl eq_refl)).
  destruct (n - k <? T) eqn:E; [lia|]. apply IH. intros m Hm. apply H. now right.
Qed.

(** X14.  If the recording holds the test signal delayed by [d] samples and scaled
    by [g], complete before the recording ends, the measured response at lag
    [d] is [g]. *)
Theorem deconvolution_recovers_gain (sampleRate : Z) (s : IRMeasurementHelper.t)
    (d : Z) (g E : R) :
  allReal (IRMeasurementHelper.testSignal s) ->
  IRMeasurementHelper.energy (IRMeasurementHelper.testSignal s) = Some E ->
  IRMeasurementHelper.testSignalEnergy s = Some E ->
  E <> 0%R ->
  nlt (IRMeasurementHelper.recordRms s) (Some IRMeasurementHelper.silenceThreshold)
    = false ->
  0 <= d < IRMeasurementHelper.irLength s ->
  d + f32_length (IRMeasurementHelper.testSignal s) <= IRMeasurementHelper.recordPos s ->
  (forall m, 0 <= m < f32_length (IRMeasurementHelper.testSignal s) ->
     f32_get (IRMeasurementHelper.recordBuffer s) (d + m)
     = nmul (Some g) (f32_get (IRMeasurementHelper.testSignal s) m)) ->
  f32_get
    (IRMeasurementHelper.ir
       (outcome_state (IRMeasurementHelper._computeIR sampleRate s))) d
  = Some g.
Proof.
  intros Hreal Henergy HE Hnz Hloud Hd Hfit Hrec.
  set (t := IRMeasurementHelper.testSignal s) in *.
  set (T := f32_length t) in *.
  assert (HT : 0 <= T) by (unfold T, f32_length; lia).
  assert (Hcorr : IRMeasurementHelper.corrSum s d = Some (g * E)%R).
  { unfold IRMeasurementHelper.corrSum. fold t. fold T.
    rewrite (rangeFrom_split d (d + T)) by lia. rewrite fold_left_app.
    rewrite (corr_fold_inside (f32_get (IRMeasurementHelper.recordBuffer s)) (f32_get t)
               (fun n => (g * val t (n - d))%R) (val t)).
    - rewrite corr_fold_outside by (intros n Hn; apply in_rangeFrom in Hn; lia).
      f_equal. rewrite rangeFrom_range, rsum_map.
      rewrite (rsum_ext _ (fun m => (g * (val t m * val t m))%R)).
      + rewrite rsum_mult_l. unfold IRMeasurementHelper.energy in Henergy.
        rewrite (energy_fold_real (f32_get t) (val t)) in Henergy
          by (intros j Hj; apply in_range in Hj; now apply allReal_val).
        injection Henergy as <-. fold T. lra.
      + intros m Hm. replace (d + m - d) with m by lia. lra.
    - intros n Hn. apply in_rangeFrom in Hn. split; [lia|]. split.
      + replace n with (d + (n - d)) at 1 by lia. rewrite Hrec by lia.
        rewrite (allReal_val t) by (fold T; lia || assumption). reflexivity.
      + apply allReal_val; [assumption | fold T; lia]. }
  assert (Hget : f32_get (fst (IRMeasurementHelper.deconvolve s)) d = Some g).
  { rewrite deconvolve_ir, fill_get by (rewrite f32_new_length; lia).
    destruct (d <? IRMeasurementHelper.irLength s) eqn:E1; [|lia].
    rewrite Hcorr, HE, ndiv_some by assumption. f_equal. field. assumption. }
  unfold IRMeasurementHelper._computeIR.
  destruct (IRMeasurementHelper.irLength s <? 0) eqn:Hneg; [lia|].
  rewrite Hloud.
  destruct (IRMeasurementHelper.deconvolve s) as [ir' maxSum]. cbn [fst] in Hget.
  destruct (IRMeasurementHelper.findPeak _ ir') as [[peakVal peakIdx] sumSq].
  cbv zeta. destruct (_ - _ <? 0); cbn [outcome_state IRMeasurementHelper.ir]; exact Hget.
Qed.

Lemma deconvolution_recovers_gain_witness :
  f32_get
    (IRMeasurementHelper.ir
       (outcome_state (IRMeasurementHelper._computeIR 48000 unitRecording))) 0
  = Some 1%R.
Proof.
  apply (deconvolution_recovers_gain 48000 unitRecording 0 1 1).
  - intros i Hi.
    change (f32_length (IRMeasurementHelper.testSignal unitRecording)) with 1 in Hi.
    assert (i = 0) as -> by lia. now exists 1%R.
  - unfold IRMeasurementHelper.energy. real_cbn. f_equal. lra.
  - reflexivity.
  - lra.
  - rewrite unitRecording_rms. unfold IRMeasurementHelper.silenceThreshold.
    cbn [nlt]. apply Rltb_false. lra.
  - change (IRMeasurementHelper.irLength unitRecording) with 1. lia.
  - change (f32_length (IRMeasurementHelper.testSignal unitRecording)) with 1.
    change (IRMeasurementHelper.recordPos unitRecording) with 1. lia.
  - intros m Hm.
    change (f32_length (IRMeasurementHelper.testSignal unitRecording)) with 1 in Hm.
    assert (m = 0) as -> by lia. real_cbn. f_equal. lra.
Defined.

(** ** RIRStrategy: muting, restarts and cancellation *)

Lemma fillZero_length (n : Z) (out : f32) : f32_length (fillZero n out) = f32_length out.
Proof. change (fillZero n out) with (fill (fun _ => Some 0%R) n out). apply fill_length. Qed.

(** X15.  While the measurement is not ready (or the strategy has no measurer),
    a frame that is processed without an exception is output as silence.
    The delay line is left alone until the measurement completes; at that
    moment it is replaced by zeros of the response's length and the write
    position returns to 0. *)
Theorem rir_muted_while_measuring (sampleRate : Z) (fx : FauxecState.t)
    (s s' : RIRStrategy.t) (nSamples : Z) (nearEndFrame farEndFrame outFrame out : f32)
    (tsf tsf' : option f32) :
  RIRStrategy.rirReady (RIRStrategy.rir s) = false ->
  RIRStrategy.onFrame sampleRate fx s nSamples nearEndFrame farEndFrame outFrame tsf
    = (Returned s', out, tsf') ->
  f32_length out = f32_length outFrame
  /\ (forall i, 0 <= i < nSamples -> i < f32_length outFrame -> f32_get out i = Some 0%R)
  /\ RIRStrategy.config s' = RIRStrategy.config s
  /\ (RIRStrategy.rirReady (RIRStrategy.rir s') = false ->
      RIRStrategy.farEndDelayLine s' = RIRStrategy.farEndDelayLine s
      /\ RIRStrategy.farEndDelayPos s' = RIRStrategy.farEndDelayPos s)
  /\ (RIRStrategy.rirReady (RIRStrategy.rir s') = true ->
      exists h',
        RIRStrategy.rir s' = IRMeasurementHelperReal h'
        /\ RIRStrategy.farEndDelayLine s' = f32_new (f32_length (IRMeasurementHelper.ir h'))
        /\ RIRStrategy.farEndDelayPos s' = 0).
Proof.
  intros Hready Hrun. unfold RIRStrategy.onFrame in Hrun.
  destruct (RIRStrategy.rir s) as [|h] eqn:Hrir.
  - injection Hrun as <- <- <-. rewrite Hrir. cbn [RIRStrategy.rirReady].
    split; [apply fillZero_length|]. split; [intros; now apply fillZero_get|].
    split; [reflexivity|]. split; [auto | discriminate].
  - cbn [RIRStrategy.rirReady] in Hready. rewrite Hready in Hrun. cbn [negb] in Hrun.
    destruct (IRMeasurementHelper.onFrame sampleRate h nSamples nearEndFrame tsf)
      as [[h'|h'] tsf1]; [|discriminate].
    destruct (IRMeasurementHelper.ready h') eqn:Hr'; injection Hrun as <- <- <-;
      cbn [RIRStrategy.rir RIRStrategy.set_rir RIRStrategy.config RIRStrategy.rirReady
           RIRStrategy.farEndDelayLine RIRStrategy.farEndDelayPos];
      (split; [apply fillZero_length|]); (split; [intros; now apply fillZero_get|]);
      (split; [reflexivity|]); rewrite Hr'.
    + split; [discriminate|]. intros _. exists h'. auto.
    + split; [auto | discriminate].
Qed.

Lemma rir_muted_while_measuring_witness :
  exists s' out tsf',
    RIRStrategy.onFrame 48000 noDebug measuringStrategy 1 [Some 5%R] [Some 7%R]
      [Some 9%R] None = (Returned s', out, tsf')
    /\ f32_get out 0 = Some 0%R.
Proof.
  eexists _, _, _. split; [reflexivity|].
  refine (proj1 (proj2 (rir_muted_while_measuring 48000 noDebug measuringStrategy _ 1
                          [Some 5%R] [Some 7%R] [Some 9%R] _ None _ eq_refl eq_refl))
            0 _ _).
  - lia.
  - cbn. lia.
Defined.

Lemma differsZ_false (new : option Z) (old : Z) :
  RIRCfg.differsZ new old = false <-> RIRCfg.pick new old = old.
Proof.
  destruct new as [v|]; simpl; [|tauto].
  rewrite negb_false_iff. apply Z.eqb_eq.
Qed.

Lemma differsString_false (new : option string) (old : string) :
  RIRCfg.differsString new old = false <-> RIRCfg.pick new old = old.
Proof.
  destruct new as [v|]; simpl; [|tauto].
  rewrite negb_false_iff. apply String.eqb_eq.
Qed.

Lemma needsReset_false (c : RIRCfg.t) (value : RIRCfg.delta) :
  RIRCfg.needsReset c value = false <-> sameMeasurement c (RIRCfg.assign c value).
Proof.
  unfold RIRCfg.needsReset, sameMeasurement. cbn [RIRCfg.assign RIRCfg.irLength
    RIRCfg.measurementDurationMs RIRCfg.testSignalType RIRCfg.diracPulseWidth
    RIRCfg.mlsOrder].
  rewrite !orb_false_iff, !differsZ_false, differsString_false. tauto.
Qed.

(** X16.  A configuration message restarts the measurement exactly when it changes
    the effective value of a key other than [echoAttenuation]: otherwise the
    measurer, the delay line and the debug recording are kept and only the
    configuration is updated. *)
Theorem rir_restart_iff_measurement_changes (sampleRate : Z) (s : RIRStrategy.t)
    (value : RIRCfg.delta) :
  let config' := RIRCfg.assign (RIRStrategy.config s) value in
  let r := RIRStrategy.onMessage sampleRate s value in
  (sameMeasurement (RIRStrategy.config s) config' ->
   r = (Returned
          (RIRStrategy.mk config' (RIRStrategy.rir s) (RIRStrategy.farEndDelayLine s)
             (RIRStrategy.farEndDelayPos s) (RIRStrategy.debugEchoEstimate s)
             (RIRStrategy.debugWritePos s)), []))
  /\ (~ sameMeasurement (RIRStrategy.config s) config' ->
      snd r = [CallOnSelected "rir"]
      /\ RIRStrategy.config (outcome_state (fst r)) = config'
      /\ forall s', fst r = Returned s' ->
           RIRStrategy.rirReady (RIRStrategy.rir s') = false).
Proof.
  cbv zeta. unfold RIRStrategy.onMessage.
  pose proof (needsReset_false (RIRStrategy.config s) value) as Hiff.
  destruct (RIRCfg.needsReset (RIRStrategy.config s) value).
  - split; [intros Hsame; apply Hiff in Hsame; discriminate|].
    intros _. unfold RIRStrategy.onSelected. cbn [RIRStrategy.config].
    destruct (String.eqb _ "no_rir").
    + cbn. split; [reflexivity|]. split; [reflexivity|].
      intros s' H. injection H as <-. reflexivity.
    + destruct (IRMeasurementHelper.create sampleRate _) as [h|] eqn:Hc.
      * cbn. split; [reflexivity|]. split; [reflexivity|].
        intros s' H. injection H as <-. cbn.
        apply create_irLength in Hc. tauto.
      * cbn. split; [reflexivity|]. split; [reflexivity|]. discriminate.
  - split; [reflexivity|]. intros Hdiff. exfalso. apply Hdiff. now apply Hiff.
Qed.

Lemma rir_restart_iff_measurement_changes_witness :
  RIRStrategy.onMessage 48000 cancellingStrategy (attenuationOnly 1)
  = (Returned
       (RIRStrategy.mk
          (RIRCfg.assign (RIRStrategy.config cancellingStrategy) (attenuationOnly 1))
          (RIRStrategy.rir cancellingStrategy)
          (RIRStrategy.farEndDelayLine cancellingStrategy)
          (RIRStrategy.farEndDelayPos cancellingStrategy)
          (RIRStrategy.debugEchoEstimate cancellingStrategy)
          (RIRStrategy.debugWritePos cancellingStrategy)), []).
Proof.
  apply (proj1 (rir_restart_iff_measurement_changes 48000 cancellingStrategy
                  (attenuationOnly 1))).
  repeat split.
Defined.

Lemma cancelStep_fields (fx : FauxecState.t) (atten : R) (irTrimmed : f32)
    (irDelayOffset delayLineLen : Z) (nearEndFrame farEndFrame : f32)
    (st : RIRStrategy.loopState) (i : Z) :
  let st' := RIRStrategy.cancelStep fx atten irTrimmed irDelayOffset delayLineLen
               nearEndFrame farEndFrame st i in
  let pos := Z.rem (RIRStrategy.l_pos st + 1) delayLineLen in
  let line := f32_set (RIRStrategy.l_line st) pos (f32_get farEndFrame i) in
  RIRStrategy.l_pos st' = pos
  /\ RIRStrategy.l_line st' = line
  /\ RIRStrategy.l_out st'
     = f32_set (RIRStrategy.l_out st) i
         (nsub (f32_get nearEndFrame i)
            (nmul (RIRStrategy.convolve irTrimmed irDelayOffset line pos delayLineLen)
                  (Some atten))).
Proof.
  cbv zeta. unfold RIRStrategy.cancelStep.
  destruct (RIRStrategy.l_debug st); [destruct (_ <? _)|]; cbn; auto.
Qed.

Lemma fold_left_ext_in {A B : Type} (f g : A -> B -> A) (l : list B) (a : A) :
  (forall x y, In y l -> f x y = g x y) -> fold_left f l a = fold_left g l a.
Proof.
  revert a. induction l as [|y l IH]; intros a H; simpl; [reflexivity|].
  rewrite (H a y) by now left. apply IH. intros x z Hz. apply H. now right.
Qed.

Lemma delay_index (L pos0 k offset k' : Z) :
  0 < L -> 0 <= offset + k' < L ->
  Z.rem ((pos0 + k + 1) mod L - offset - k' + 5 * L) L
  = (pos0 + 1 + (k - offset - k')) mod L.
Proof.
  intros HL Hc. pose proof (Z.mod_pos_bound (pos0 + k + 1) L HL).
  rewrite Z.rem_mod_nonneg by lia.
  replace ((pos0 + k + 1) mod L - offset - k' + 5 * L)
    with ((pos0 + k + 1) mod L + (- offset - k' + 5 * L)) by lia.
  rewrite Zplus_mod_idemp_l.
  replace (pos0 + k + 1 + (- offset - k' + 5 * L))
    with (pos0 + 1 + (k - offset - k') + 5 * L) by lia.
  apply Z.mod_add. lia.
Qed.

Lemma delay_slots_differ (L pos0 j k : Z) :
  0 < L -> j < k -> k - j < L ->
  (pos0 + 1 + j) mod L <> (pos0 + 1 + k) mod L.
Proof.
  intros HL Hj Hd Heq.
  assert (H : (k - j) mod L = 0).
  { replace (k - j) with ((pos0 + 1 + k) - (pos0 + 1 + j)) by lia.
    rewrite Zminus_mod, Heq, Z.sub_diag. apply Z.mod_0_l. lia. }
  rewrite Z.mod_small in H by lia. lia.
Qed.

Lemma cancel_loop_inv (fx : FauxecState.t) (atten : R) (irTrimmed : f32)
    (offset : Z) (nearEndFrame farEndFrame line0 : f32) (pos0 : Z) (outFrame : f32)
    (debug : option f32) (debugPos : Z) (nSamples : Z) :
  let L := f32_length line0 in
  0 <= pos0 < L -> windowFits irTrimmed offset L -> 0 <= nSamples ->
  cancelInv atten irTrimmed offset line0 pos0 nearEndFrame farEndFrame outFrame nSamples
    (fold_left
       (RIRStrategy.cancelStep fx atten irTrimmed offset L nearEndFrame farEndFrame)
       (range nSamples)
       (RIRStrategy.mkLoop line0 pos0 outFrame debug debugPos)).
Proof.
  intros L Hpos Hfit Hn.
  assert (HL : 0 < L) by lia.
  assert (Htap : forall k', 0 <= k' < f32_length irTrimmed -> 0 <= offset + k' < L).
  { intros k' Hk'. destruct Hfit as [Hz | (H0 & Hle)]; lia. }
  rewrite <- (Z2Nat.id nSamples) by lia. induction (Z.to_nat nSamples) as [|k IH].
  - simpl. unfold cancelInv. cbv zeta.
    cbn [RIRStrategy.l_pos RIRStrategy.l_line RIRStrategy.l_out]. fold L.
    split; [rewrite Z.add_0_r; symmetry; apply Z.mod_small; lia|].
    split; [reflexivity|]. split.
    + intros m Hm. unfold farHistory. destruct (0 <=? m) eqn:E; [lia | reflexivity].
    + split; [reflexivity | intros; lia].
  - replace (Z.of_nat (S k)) with (Z.of_nat k + 1) by lia.
    rewrite range_succ by lia. rewrite fold_left_app. cbn [fold_left].
    set (st := fold_left _ (range (Z.of_nat k)) _) in *.
    unfold cancelInv in IH. cbv zeta in IH. fold L in IH.
    destruct IH as (Hp & Hll & Hline & Hol & Hout).
    destruct (cancelStep_fields fx atten irTrimmed offset L nearEndFrame farEndFrame
                st (Z.of_nat k)) as (Fp & Fl & Fo).
    assert (Hpos' : Z.rem (RIRStrategy.l_pos st + 1) L = (pos0 + Z.of_nat k + 1) mod L).
    { rewrite Hp. pose proof (Z.mod_pos_bound (pos0 + Z.of_nat k) L HL).
      rewrite Z.rem_mod_nonneg by lia. now rewrite Zplus_mod_idemp_l. }
    rewrite Hpos' in Fp, Fl, Fo.
    set (pos := (pos0 + Z.of_nat k + 1) mod L) in *.
    assert (Hposr : 0 <= pos < L) by (apply Z.mod_pos_bound; lia).
    set (line := f32_set (RIRStrategy.l_line st) pos (f32_get farEndFrame (Z.of_nat k)))
      in *.
    assert (Hline' : forall m, Z.of_nat k + 1 - L <= m < Z.of_nat k + 1 ->
              f32_get line ((pos0 + 1 + m) mod L) = farHistory line0 pos0 farEndFrame m).
    { intros m Hm. unfold line.
      destruct (Z.eq_dec m (Z.of_nat k)) as [->|Hne].
      - replace (pos0 + 1 + Z.of_nat k) with (pos0 + Z.of_nat k + 1) by lia.
        fold pos. rewrite f32_get_set_same by lia.
        unfold farHistory. destruct (0 <=? Z.of_nat k) eqn:E; [reflexivity | lia].
      - rewrite f32_get_set_other.
        + apply Hline; lia.
        + unfold pos. replace (pos0 + Z.of_nat k + 1) with (pos0 + 1 + Z.of_nat k) by lia.
          intros Heq. symmetry in Heq. revert Heq. apply delay_slots_differ; lia. }
    unfold cancelInv. cbv zeta. fold L. rewrite Fp, Fl, Fo.
    split; [unfold pos; f_equal; lia|].
    split; [unfold line; now rewrite f32_set_length|].
    split; [exact Hline'|].
    split; [now rewrite f32_set_length|].
    intros i Hi Hlen. destruct (Z.eq_dec i (Z.of_nat k)) as [->|Hne].
    + rewrite f32_get_set_same by lia. f_equal. f_equal.
      unfold RIRStrategy.convolve, firEcho. apply fold_left_ext_in.
      intros echo k' Hk'. apply in_range in Hk'. f_equal. f_equal.
      specialize (Htap k' Hk').
      unfold pos. rewrite delay_index by lia.
      apply Hline'; lia.
    + rewrite f32_get_set_other by lia. apply Hout; lia.
Qed.

(** What [_computeIR] leaves when it returns: a trimmed response whose taps,
    displaced by [irDelayOffset], lie inside the full response. *)
Lemma computeIR_window (sampleRate : Z) (s s' : IRMeasurementHelper.t) :
  IRMeasurementHelper._computeIR sampleRate s = Returned s' ->
  exists irTrimmed,
    IRMeasurementHelper.irTrimmed s' = Some irTrimmed
    /\ IRMeasurementHelper.ready s' = true
    /\ windowFits irTrimmed (IRMeasurementHelper.irDelayOffset s')
         (f32_length (IRMeasurementHelper.ir s')).
Proof.
  intros Hret. unfold IRMeasurementHelper._computeIR in Hret.
  destruct (IRMeasurementHelper.irLength s <? 0) eqn:Hneg; [discriminate|].
  destruct (nlt _ _).
  { injection Hret as <-. eexists. split; [reflexivity|]. split; [reflexivity|].
    left. reflexivity. }
  pose proof (deconvolve_ir s) as Hir.
  destruct (IRMeasurementHelper.deconvolve s) as [ir' maxSum]. cbn [fst] in Hir.
  destruct (IRMeasurementHelper.findPeak _ ir') as [[peakVal peakIdx] sumSq].
  cbv zeta in Hret.
  set (offset := Z.max 0 (peakIdx - IRMeasurementHelper.preEchoSamples sampleRate)) in *.
  set (tailEnd := IRMeasurementHelper.findTailEnd sampleRate
                    (IRMeasurementHelper.irLength s) ir' peakIdx
                    (nmul peakVal (Some (1 / 10)%R))) in *.
  assert (Htail : tailEnd <= IRMeasurementHelper.irLength s)
    by apply findTailEnd_le.
  destruct (tailEnd - offset <? 0) eqn:Hlen; [discriminate|].
  injection Hret as <-. cbn [IRMeasurementHelper.irTrimmed IRMeasurementHelper.ir
    IRMeasurementHelper.irDelayOffset IRMeasurementHelper.ready].
  eexists. split; [reflexivity|]. split; [reflexivity|]. right.
  assert (Hirl : f32_length ir' = IRMeasurementHelper.irLength s).
  { rewrite Hir, fill_length. apply f32_new_length. lia. }
  rewrite Hirl.
  assert (Htl : f32_length (IRMeasurementHelper.sliceIR ir' offset (tailEnd - offset))
                = tailEnd - offset) by (apply sliceIR_length; lia).
  destruct (ngt _ _); [rewrite scaleIR_length|]; rewrite Htl; lia.
Qed.

Lemma measurer_onFrame_ready (sampleRate : Z) (h h' : IRMeasurementHelper.t)
    (nSamples : Z) (nearEndFrame : f32) (tsf tsf' : option f32) :
  IRMeasurementHelper.ready h = false ->
  IRMeasurementHelper.onFrame sampleRate h nSamples nearEndFrame tsf = (Returned h', tsf') ->
  IRMeasurementHelper.ready h' = true ->
  exists irTrimmed,
    IRMeasurementHelper.irTrimmed h' = Some irTrimmed
    /\ windowFits irTrimmed (IRMeasurementHelper.irDelayOffset h')
         (f32_length (IRMeasurementHelper.ir h')).
Proof.
  intros Hnot Hrun Hready. unfold IRMeasurementHelper.onFrame in Hrun.
  rewrite Hnot in Hrun.
  destruct (IRMeasurementHelper.recordLoop h nSamples nearEndFrame tsf)
    as [[tsf1 rec] [rp pp]].
  destruct (rp >=? IRMeasurementHelper.measureSamples h).
  - injection Hrun as Hc _. apply computeIR_window in Hc.
    destruct Hc as (t & Ht & _ & Hfit). now exists t.
  - injection Hrun as <- _. cbn in Hready. congruence.
Qed.

(** X17.  With a completed measurement whose taps reach back less than the
    length of the delay line, every output sample of a frame is the near end
    minus the attenuated echo that the trimmed response predicts from the
    far end: tap [k] multiplies the far-end sample [irDelayOffset + k]
    samples back, taken from the same frame or, through the delay line, from
    the frames before it.  The frame extends that history for the next frame.
    These conditions hold from the frame in which the measurement
    completes. *)
Theorem rir_output_is_fir_cancellation (sampleRate : Z) (fx : FauxecState.t) :
  (forall (s0 s : RIRStrategy.t) (nSamples : Z)
          (nearEndFrame farEndFrame outFrame out : f32) (tsf tsf' : option f32),
     RIRStrategy.rirReady (RIRStrategy.rir s0) = false ->
     RIRStrategy.onFrame sampleRate fx s0 nSamples nearEndFrame farEndFrame outFrame tsf
       = (Returned s, out, tsf') ->
     RIRStrategy.rirReady (RIRStrategy.rir s) = true ->
     exists h irTrimmed,
       RIRStrategy.rir s = IRMeasurementHelperReal h
       /\ IRMeasurementHelper.ready h = true
       /\ IRMeasurementHelper.irTrimmed h = Some irTrimmed
       /\ RIRStrategy.farEndDelayPos s = 0
       /\ f32_length (RIRStrategy.farEndDelayLine s)
          = f32_length (IRMeasurementHelper.ir h)
       /\ windowFits irTrimmed (IRMeasurementHelper.irDelayOffset h)
            (f32_length (RIRStrategy.farEndDelayLine s)))
  /\ forall (s : RIRStrategy.t) (h : IRMeasurementHelper.t) (irTrimmed : f32)
            (nSamples : Z) (nearEndFrame farEndFrame outFrame : f32)
            (tsf : option f32),
       RIRStrategy.rir s = IRMeasurementHelperReal h ->
       IRMeasurementHelper.ready h = true ->
       IRMeasurementHelper.irTrimmed h = Some irTrimmed ->
       let line := RIRStrategy.farEndDelayLine s in
       let pos := RIRStrategy.farEndDelayPos s in
       let offset := IRMeasurementHelper.irDelayOffset h in
       0 <= pos < f32_length line ->
       windowFits irTrimmed offset (f32_length line) ->
       0 <= nSamples ->
       exists s' out,
         RIRStrategy.onFrame sampleRate fx s nSamples nearEndFrame farEndFrame outFrame tsf
           = (Returned s', out, tsf)
         /\ f32_length out = f32_length outFrame
         /\ (forall i, 0 <= i < nSamples -> i < f32_length outFrame ->
               f32_get out i
               = nsub (f32_get nearEndFrame i)
                      (nmul (firEcho irTrimmed offset line pos farEndFrame i)
                            (Some (RIRCfg.echoAttenuation (RIRStrategy.config s)))))
         /\ RIRStrategy.rir s' = RIRStrategy.rir s
         /\ RIRStrategy.config s' = RIRStrategy.config s
         /\ f32_length (RIRStrategy.farEndDelayLine s') = f32_length line
         /\ 0 <= RIRStrategy.farEndDelayPos s' < f32_length line
         /\ forall (nextFrame : f32) (m : Z),
              - f32_length line <= m < 0 ->
              farHistory (RIRStrategy.farEndDelayLine s') (RIRStrategy.farEndDelayPos s')
                nextFrame m
              = farHistory line pos farEndFrame (nSamples + m).
Proof.
  split.
  - intros s0 s nSamples nearEndFrame farEndFrame outFrame out tsf tsf' Hnot Hrun Hready.
    unfold RIRStrategy.onFrame in Hrun.
    destruct (RIRStrategy.rir s0) as [|h0] eqn:Hrir.
    { injection Hrun as <- _ _. rewrite Hrir in Hready. discriminate. }
    cbn [RIRStrategy.rirReady] in Hnot. rewrite Hnot in Hrun. cbn [negb] in Hrun.
    destruct (IRMeasurementHelper.onFrame sampleRate h0 nSamples nearEndFrame tsf)
      as [[h1|h1] tsf1] eqn:Hmeasure; [|discriminate].
    destruct (IRMeasurementHelper.ready h1) eqn:Hr1.
    + injection Hrun as <- _ _.
      destruct (measurer_onFrame_ready sampleRate h0 h1 nSamples nearEndFrame tsf tsf1
                  Hnot Hmeasure Hr1) as (t & Ht & Hfit).
      exists h1, t. cbn [RIRStrategy.rir RIRStrategy.farEndDelayPos
                         RIRStrategy.farEndDelayLine].
      assert (Hlen : f32_length (f32_new (f32_length (IRMeasurementHelper.ir h1)))
                     = f32_length (IRMeasurementHelper.ir h1))
        by (apply f32_new_length; unfold f32_length; lia).
      rewrite Hlen. repeat split; assumption.
    + injection Hrun as <- _ _. cbn in Hready. congruence.
  - intros s h irTrimmed nSamples nearEndFrame farEndFrame outFrame tsf Hrir Hready Htrim.
    cbv zeta. intros Hpos Hfit Hn.
    unfold RIRStrategy.onFrame. rewrite Hrir, Hready, Htrim. cbn [negb].
    pose proof (cancel_loop_inv fx (RIRCfg.echoAttenuation (RIRStrategy.config s))
                  irTrimmed (IRMeasurementHelper.irDelayOffset h) nearEndFrame
                  farEndFrame (RIRStrategy.farEndDelayLine s)
                  (RIRStrategy.farEndDelayPos s) outFrame
                  (RIRStrategy.debugEchoEstimate s) (RIRStrategy.debugWritePos s) nSamples
                  Hpos Hfit Hn) as Hinv.
    unfold cancelInv in Hinv. cbv zeta in Hinv.
    set (L := f32_length (RIRStrategy.farEndDelayLine s)) in *.
    assert (HL : 0 < L) by lia.
    destruct Hinv as (Hp & Hll & Hline & Hol & Hout).
    eexists _, _. split; [reflexivity|].
    cbn [RIRStrategy.rir RIRStrategy.config RIRStrategy.farEndDelayLine
         RIRStrategy.farEndDelayPos].
    split; [exact Hol|]. split; [exact Hout|]. split; [reflexivity|].
    split; [reflexivity|]. split; [exact Hll|].
    split; [rewrite Hp; apply Z.mod_pos_bound; lia|].
    intros nextFrame m Hm. unfold farHistory at 1.
    destruct (0 <=? m) eqn:E; [lia|]. rewrite Hll, Hp.
    replace (((RIRStrategy.farEndDelayPos s + nSamples) mod L + 1 + m) mod L)
      with ((RIRStrategy.farEndDelayPos s + 1 + (nSamples + m)) mod L).
    + apply Hline. lia.
    + replace ((RIRStrategy.farEndDelayPos s + nSamples) mod L + 1 + m)
        with ((RIRStrategy.farEndDelayPos s + nSamples) mod L + (1 + m)) by lia.
      rewrite Zplus_mod_idemp_l. f_equal. lia.
Qed.

(** A measurement that completes with a frame arms the cancellation; and
    with two taps reaching one and two samples back over a delay line of
    four slots, the first output sample takes both far-end samples from the
    delay line, the second takes one from the frame and one from the delay
    line. *)
Lemma rir_output_is_fir_cancellation_witness :
  (exists s out tsf',
     RIRStrategy.onFrame 48000 noDebug completingStrategy 1 [Some 5%R] [Some 7%R]
       (f32_new 1) None = (Returned s, out, tsf')
     /\ RIRStrategy.farEndDelayPos s = 0
     /\ exists h irTrimmed,
          RIRStrategy.rir s = IRMeasurementHelperReal h
          /\ IRMeasurementHelper.ready h = true
          /\ IRMeasurementHelper.irTrimmed h = Some irTrimmed
          /\ windowFits irTrimmed (IRMeasurementHelper.irDelayOffset h)
               (f32_length (RIRStrategy.farEndDelayLine s)))
  /\ exists s' out,
       RIRStrategy.onFrame 48000 noDebug twoTapStrategy 2 [Some 10%R; Some 20%R]
         [Some 6%R; Some 8%R] (f32_new 2) None = (Returned s', out, None)
       /\ f32_get out 0 = Some (10 - (0 + 1 / 2 * 2 + 1 / 4 * 1) * (25 / 10))%R
       /\ f32_get out 1 = Some (20 - (0 + 1 / 2 * 6 + 1 / 4 * 2) * (25 / 10))%R.
Proof.
  split.
  - destruct unitRecording_computeIR as (h1 & Hret & _).
    destruct (computeIR_window 48000 unitRecording h1 Hret) as (t1 & _ & Hready & _).
    assert (Hrun :
      RIRStrategy.onFrame 48000 noDebug completingStrategy 1 [Some 5%R] [Some 7%R]
        (f32_new 1) None
      = (Returned
           (RIRStrategy.mk RIRCfg.getDefaultCfg (IRMeasurementHelperReal h1)
              (f32_new (f32_length (IRMeasurementHelper.ir h1))) 0 None 0),
         fillZero 1 (f32_new 1), None)).
    { unfold RIRStrategy.onFrame.
      change (RIRStrategy.rir completingStrategy)
        with (IRMeasurementHelperReal unitRecording). cbv iota beta.
      change (IRMeasurementHelper.ready unitRecording) with false. cbn [negb].
      change (IRMeasurementHelper.onFrame 48000 unitRecording 1 [Some 5%R] None)
        with (IRMeasurementHelper._computeIR 48000 unitRecording, @None f32).
      rewrite Hret. cbv iota beta zeta. rewrite Hready. reflexivity. }
    destruct (proj1 (rir_output_is_fir_cancellation 48000 noDebug) completingStrategy
                _ 1 [Some 5%R] [Some 7%R] (f32_new 1) _ None _ eq_refl Hrun)
      as (h & t & Hrir & Hr & Ht & Hpos & _ & Hfit).
    + cbn [RIRStrategy.rir RIRStrategy.rirReady]. exact Hready.
    + eexists _, _, _. split; [exact Hrun|]. split; [exact Hpos|].
      exists h, t. repeat split; assumption.
  - destruct (proj2 (rir_output_is_fir_cancellation 48000 noDebug) twoTapStrategy
                twoTapMeasured [Some (1 / 2)%R; Some (1 / 4)%R] 2
                [Some 10%R; Some 20%R] [Some 6%R; Some 8%R] (f32_new 2) None)
      as (s' & out & Hrun & _ & Hout & _).
    + reflexivity.
    + reflexivity.
    + reflexivity.
    + cbn. lia.
    + right. cbn. lia.
    + lia.
    + assert (Hlen : f32_length (f32_new 2) = 2) by reflexivity.
      exists s', out. split; [exact Hrun|]. split.
      * rewrite (Hout 0) by lia. unfold firEcho, farHistory. real_cbn. reflexivity.
      * rewrite (Hout 1) by lia. unfold firEcho, farHistory. real_cbn. reflexivity.
Defined.

(** ** NLMSStrategy: what a frame changes *)

Lemma adapt_length (h xBuf : f32) (pos m len : Z) (leakage : R) (nf e : num) :
  f32_length (NLMSStrategy.adapt h xBuf pos m len leakage nf e) = f32_length h.
Proof.
  unfold NLMSStrategy.adapt.
  apply (fold_left_invariant (fun a => f32_length a = f32_length h)).
  - intros a j _ Ha. now rewrite f32_set_length.
  - reflexivity.
Qed.

Lemma adapt_outside (h xBuf : f32) (pos m len : Z) (leakage : R) (nf e : num) (j : Z) :
  j < m \/ len <= j ->
  f32_get (NLMSStrategy.adapt h xBuf pos m len leakage nf e) j = f32_get h j.
Proof.
  intros Hj. unfold NLMSStrategy.adapt.
  apply (fold_left_invariant (fun a => f32_get a j = f32_get h j)).
  - intros a i Hi Ha. apply in_rangeFrom in Hi.
    rewrite f32_get_set_other by lia. exact Ha.
  - reflexivity.
Qed.

Lemma sampleStep_adaptInv (s : NLMSStrategy.t) (nearEndFrame farEndFrame outFrame : f32)
    (k : Z) (st : NLMSStrategy.loopState) :
  adaptInv s outFrame k st ->
  adaptInv s outFrame (k + 1)
    (NLMSStrategy.sampleStep (NLMSStrategy.config s) (NLMSStrategy.minDelaySamples s)
       nearEndFrame farEndFrame st k).
Proof.
  intros (Hlen & Hout & Hcount & Hmono & Hol). unfold NLMSStrategy.sampleStep.
  destruct (nlt _ _); unfold adaptInv;
    cbn [NLMSStrategy.l_h NLMSStrategy.l_filterUpdates NLMSStrategy.l_log
         NLMSStrategy.l_out].
  - rewrite length_app, f32_set_length. cbn [length].
    split; [assumption|]. split; [assumption|]. split; [lia|]. split; [lia | assumption].
  - rewrite adapt_length, f32_set_length. split; [assumption|]. split.
    + intros j Hj. rewrite adapt_outside by assumption. now apply Hout.
    + split; [lia|]. split; [lia | assumption].
Qed.

Lemma loopAfter_adaptInv (s : NLMSStrategy.t) (nSamples : Z)
    (nearEndFrame farEndFrame outFrame : f32) :
  0 <= nSamples ->
  adaptInv s outFrame nSamples
    (NLMSStrategy.loopAfter s nSamples nearEndFrame farEndFrame outFrame).
Proof.
  intros Hn. unfold NLMSStrategy.loopAfter.
  rewrite <- (Z2Nat.id nSamples) by lia. induction (Z.to_nat nSamples) as [|k IH].
  - simpl. unfold adaptInv, NLMSStrategy.loopInit. simpl.
    split; [reflexivity|]. split; [reflexivity|]. split; [lia|]. split; [lia | reflexivity].
  - replace (Z.of_nat (S k)) with (Z.of_nat k + 1) by lia.
    rewrite range_succ by lia. rewrite fold_left_app. cbn [fold_left].
    now apply sampleStep_adaptInv.
Qed.

(** X18.  A frame changes no filter coefficient outside the taps from
    [minDelaySamples] up to the filter length, and keeps the configuration;
    every sample either adapts the filter or logs the far-end power, never
    both, so the update counter and the log together grow by the frame
    length. *)
Theorem nlms_adapts_only_the_window (s : NLMSStrategy.t) (nSamples : Z)
    (nearEndFrame farEndFrame outFrame : f32) :
  0 <= nSamples ->
  let r := NLMSStrategy.onFrame s nSamples nearEndFrame farEndFrame outFrame in
  let s' := fst (fst r) in
  let log := snd r in
  f32_length (NLMSStrategy.h s') = f32_length (NLMSStrategy.h s)
  /\ (forall j,
        j < NLMSStrategy.minDelaySamples s
        \/ NLMSCfg.filterLength (NLMSStrategy.config s) <= j ->
        f32_get (NLMSStrategy.h s') j = f32_get (NLMSStrategy.h s) j)
  /\ NLMSStrategy.filterUpdates s' + Z.of_nat (length log)
     = NLMSStrategy.filterUpdates s + nSamples
  /\ NLMSStrategy.filterUpdates s <= NLMSStrategy.filterUpdates s'
  /\ f32_length (snd (fst r)) = f32_length outFrame
  /\ NLMSStrategy.config s' = NLMSStrategy.config s
  /\ NLMSStrategy.minDelaySamples s' = NLMSStrategy.minDelaySamples s.
Proof.
  intros Hn. cbv zeta.
  pose proof (loopAfter_adaptInv s nSamples nearEndFrame farEndFrame outFrame Hn)
    as (Hlen & Hout & Hcount & Hmono & Hol).
  unfold NLMSStrategy.onFrame.
  destruct (if _ <? nSamples then _ else _) as [mc pt]. cbn [fst snd
    NLMSStrategy.h NLMSStrategy.filterUpdates NLMSStrategy.config
    NLMSStrategy.minDelaySamples].
  repeat (split; [assumption|]). split; reflexivity.
Qed.

Lemma nlms_adapts_only_the_window_witness :
  f32_get
    (NLMSStrategy.h
       (fst (fst (NLMSStrategy.onFrame (twoTapFilter 1) 1 [Some 1%R] [Some 1%R]
                    (f32_new 1))))) 0
  = f32_get (NLMSStrategy.h (twoTapFilter 1)) 0.
Proof.
  apply (proj1 (proj2 (nlms_adapts_only_the_window (twoTapFilter 1) 1 [Some 1%R]
                         [Some 1%R] (f32_new 1) ltac:(lia)))).
  left. cbn. lia.
Defined.

Lemma nsub_0 (a : num) : nsub a (Some 0%R) = a.
Proof. destruct a as [r|]; simpl; [f_equal; ring | reflexivity]. Qed.

Lemma sampleStep_empty_window (cfg : NLMSCfg.t) (m : Z) (nearEndFrame farEndFrame : f32)
    (st : NLMSStrategy.loopState) (i : Z) :
  NLMSCfg.filterLength cfg <= m ->
  let st' := NLMSStrategy.sampleStep cfg m nearEndFrame farEndFrame st i in
  NLMSStrategy.l_h st' = NLMSStrategy.l_h st
  /\ NLMSStrategy.l_out st' = f32_set (NLMSStrategy.l_out st) i (f32_get nearEndFrame i).
Proof.
  intros Hm. cbv zeta. unfold NLMSStrategy.sampleStep, NLMSStrategy.estimate,
    NLMSStrategy.adapt.
  rewrite rangeFrom_empty by assumption. cbn [fold_left]. rewrite nsub_0.
  destruct (nlt _ _); cbn; auto.
Qed.

Lemma empty_window_loop (cfg : NLMSCfg.t) (m : Z) (nearEndFrame farEndFrame : f32)
    (l : list Z) (st0 : NLMSStrategy.loopState) :
  NLMSCfg.filterLength cfg <= m ->
  let st := fold_left (NLMSStrategy.sampleStep cfg m nearEndFrame farEndFrame) l st0 in
  NLMSStrategy.l_h st = NLMSStrategy.l_h st0
  /\ NLMSStrategy.l_out st
     = fold_left (fun out i => f32_set out i (f32_get nearEndFrame i)) l
         (NLMSStrategy.l_out st0).
Proof.
  intros Hm. cbv zeta. revert st0.
  induction l as [|i l IH]; intros st0; cbn [fold_left]; [auto|].
  destruct (sampleStep_empty_window cfg m nearEndFrame farEndFrame st0 i Hm) as (Hh & Ho).
  destruct (IH (NLMSStrategy.sampleStep cfg m nearEndFrame farEndFrame st0 i)) as (IH1 & IH2).
  rewrite IH1, IH2, Hh, Ho. auto.
Qed.

(** X19.  When the minimum delay is not below the filter length no tap is active:
    every frame passes the near end through unchanged and leaves the filter
    coefficients as they were, whatever the far end carries. *)
Theorem nlms_inert_without_active_taps (s : NLMSStrategy.t) (nSamples : Z)
    (nearEndFrame farEndFrame outFrame : f32) :
  NLMSCfg.filterLength (NLMSStrategy.config s) <= NLMSStrategy.minDelaySamples s ->
  let r := NLMSStrategy.onFrame s nSamples nearEndFrame farEndFrame outFrame in
  NLMSStrategy.h (fst (fst r)) = NLMSStrategy.h s
  /\ forall i, 0 <= i < nSamples -> i < f32_length outFrame ->
       f32_get (snd (fst r)) i = f32_get nearEndFrame i.
Proof.
  intros Hm. cbv zeta.
  pose proof (empty_window_loop (NLMSStrategy.config s) (NLMSStrategy.minDelaySamples s)
                nearEndFrame farEndFrame (range nSamples)
                (NLMSStrategy.loopInit s outFrame) Hm) as Hloop.
  cbv zeta in Hloop. destruct Hloop as (Hh & Ho).
  unfold NLMSStrategy.onFrame, NLMSStrategy.loopAfter.
  destruct (if _ <? nSamples then _ else _) as [mc pt].
  cbn [fst snd NLMSStrategy.h]. split; [exact Hh|].
  intros i Hi Hl. rewrite Ho. cbn [NLMSStrategy.loopInit NLMSStrategy.l_out].
  change (fold_left (fun out i => f32_set out i (f32_get nearEndFrame i))
            (range nSamples) outFrame)
    with (fill (f32_get nearEndFrame) nSamples outFrame).
  rewrite fill_get by lia. destruct (i <? nSamples) eqn:E; [reflexivity | lia].
Qed.

Lemma nlms_inert_without_active_taps_witness :
  NLMSStrategy.h
    (fst (fst (NLMSStrategy.onFrame (twoTapFilter 2) 1 [Some 1%R] [Some 1%R] (f32_new 1))))
  = NLMSStrategy.h (twoTapFilter 2).
Proof.
  apply (nlms_inert_without_active_taps (twoTapFilter 2) 1 [Some 1%R] [Some 1%R]
           (f32_new 1)).
  cbn. lia.
Defined.

Lemma sampleStep_skip (cfg : NLMSCfg.t) (m : Z) (nearEndFrame farEndFrame : f32)
    (st : NLMSStrategy.loopState) (i : Z) :
  let st' := NLMSStrategy.sampleStep cfg m nearEndFrame farEndFrame st i in
  nlt (NLMSStrategy.l_xPower st') (Some (NLMSCfg.epsilon cfg)) = true ->
  NLMSStrategy.l_h st' = NLMSStrategy.l_h st
  /\ NLMSStrategy.l_filterUpdates st' = NLMSStrategy.l_filterUpdates st
  /\ NLMSStrategy.l_out st'
     = f32_set (NLMSStrategy.l_out st) i
         (nsub (f32_get nearEndFrame i)
            (NLMSStrategy.estimate (NLMSStrategy.l_h st) (NLMSStrategy.l_xBuf st')
               (NLMSStrategy.l_xBufPos st') m (NLMSCfg.filterLength cfg))).
Proof.
  cbv zeta. unfold NLMSStrategy.sampleStep.
  match goal with
  | |- context [if nlt ?x ?e then _ else _] => destruct (nlt x e) eqn:E
  end;
    cbn [NLMSStrategy.l_h NLMSStrategy.l_filterUpdates NLMSStrategy.l_out
         NLMSStrategy.l_xPower NLMSStrategy.l_xBuf NLMSStrategy.l_xBufPos].
  - auto.
  - intros H. rewrite E in H. discriminate.
Qed.

Lemma dot_fold_real (f g : Z -> num) (F G : Z -> R) (l : list Z) (a0 : R) :
  (forall j, In j l -> f j = Some (F j) /\ g j = Some (G j)) ->
  fold_left (fun acc j => nadd acc (nmul (f j) (g j))) l (Some a0)
  = Some (a0 + rsum (fun j => F j * G j) l)%R.
Proof.
  revert a0. induction l as [|j l IH]; intros a0 H; simpl.
  - f_equal. lra.
  - destruct (H j (or_introl eq_refl)) as (-> & ->). simpl.
    rewrite IH by (intros k Hk; apply H; now right). f_equal. lra.
Qed.

Lemma rsum_zero (F : Z -> R) (l : list Z) :
  (forall j, In j l -> F j = 0%R) -> rsum F l = 0%R.
Proof.
  intros H. rewrite (rsum_const 0%R) by assumption. lra.
Qed.

Lemma window_index (p j L : Z) :
  0 <= p < L -> 0 <= j < L -> 0 <= Z.rem (p - j + L) L < L.
Proof.
  intros Hp Hj. rewrite rem_two_periods by lia. destruct (_ <? L) eqn:E; lia.
Qed.

Lemma sampleStep_idle (s : NLMSStrategy.t) (nearEndFrame farEndFrame : f32)
    (st : NLMSStrategy.loopState) (i : Z) :
  let len := NLMSCfg.filterLength (NLMSStrategy.config s) in
  let m := NLMSStrategy.minDelaySamples s in
  0 <= m < len ->
  f32_length (NLMSStrategy.h s) = len ->
  allReal (NLMSStrategy.h s) ->
  (0 < NLMSCfg.epsilon (NLMSStrategy.config s))%R ->
  f32_get farEndFrame i = Some 0%R ->
  idleInv s st ->
  let st' := NLMSStrategy.sampleStep (NLMSStrategy.config s) m nearEndFrame farEndFrame
               st i in
  idleInv s st'
  /\ NLMSStrategy.l_out st' = f32_set (NLMSStrategy.l_out st) i (f32_get nearEndFrame i).
Proof.
  intros len m Hm Hhl Hhr Heps Hfar (Hen & Hzero & Hh & Hfu) st'.
  assert (Hen' : energyInv m len st') by (now apply energyInv_step with 0%R).
  destruct (sampleStep_fields (NLMSStrategy.config s) m nearEndFrame farEndFrame st i)
    as (Hp' & Hx' & _). cbv zeta in Hp', Hx'. fold st' in Hp', Hx'. fold len in Hp', Hx'.
  assert (Hzero' : forall j, 0 <= j < len -> f32_get (NLMSStrategy.l_xBuf st') j = Some 0%R).
  { intros j Hj. rewrite Hx', Hfar.
    destruct (Z.eq_dec (Z.rem (NLMSStrategy.l_xBufPos st + 1) len) j) as [<-|Hne].
    - apply f32_get_set_same. destruct Hen as (Hl & _). rewrite Hl. exact Hj.
    - rewrite f32_get_set_other by assumption. now apply Hzero. }
  pose proof Hen' as Hen2. destruct Hen' as (Hl' & Hpos' & Hreal' & Hpow').
  assert (Hskip : nlt (NLMSStrategy.l_xPower st')
                      (Some (NLMSCfg.epsilon (NLMSStrategy.config s))) = true).
  { rewrite Hpow', (windowEnergy_real _ _ m len) by (assumption || lia).
    rewrite rsum_zero.
    - cbn [nlt]. now apply Rltb_true.
    - intros j Hj. apply in_rangeFrom in Hj. unfold val.
      rewrite Hzero' by (apply window_index; lia). lra. }
  destruct (sampleStep_skip (NLMSStrategy.config s) m nearEndFrame farEndFrame st i Hskip)
    as (Sh & Sf & So). fold st' in Sh, Sf, So. fold len in So.
  split.
  - split; [exact Hen2|]. split; [exact Hzero'|].
    split; [now rewrite Sh | now rewrite Sf].
  - rewrite So. f_equal. unfold NLMSStrategy.estimate.
    rewrite (dot_fold_real
               (f32_get (NLMSStrategy.l_h st))
               (fun j => f32_get (NLMSStrategy.l_xBuf st')
                           (Z.rem (NLMSStrategy.l_xBufPos st' - j + len) len))
               (val (NLMSStrategy.h s)) (fun _ => 0%R)).
    + rewrite rsum_zero by (intros; lra).
      replace (0 + 0)%R with 0%R by lra. apply nsub_0.
    + intros j Hj. apply in_rangeFrom in Hj. split.
      * rewrite Hh. apply allReal_val; [assumption | lia].
      * apply Hzero'. apply window_index; lia.
Qed.

Lemma idle_loop (s : NLMSStrategy.t) (nearEndFrame farEndFrame : f32)
    (l : list Z) (st0 : NLMSStrategy.loopState) :
  let len := NLMSCfg.filterLength (NLMSStrategy.config s) in
  let m := NLMSStrategy.minDelaySamples s in
  0 <= m < len ->
  f32_length (NLMSStrategy.h s) = len ->
  allReal (NLMSStrategy.h s) ->
  (0 < NLMSCfg.epsilon (NLMSStrategy.config s))%R ->
  (forall i, In i l -> f32_get farEndFrame i = Some 0%R) ->
  idleInv s st0 ->
  let st := fold_left (NLMSStrategy.sampleStep (NLMSStrategy.config s) m nearEndFrame
                         farEndFrame) l st0 in
  idleInv s st
  /\ NLMSStrategy.l_out st
     = fold_left (fun out i => f32_set out i (f32_get nearEndFrame i)) l
         (NLMSStrategy.l_out st0).
Proof.
  cbv zeta. intros Hm Hhl Hhr Heps. revert st0.
  induction l as [|i l IH]; intros st0 Hfar Hinv; cbn [fold_left]; [auto|].
  pose proof (sampleStep_idle s nearEndFrame farEndFrame st0 i Hm Hhl Hhr Heps
                (Hfar i (or_introl eq_refl)) Hinv) as Hstep.
  cbv zeta in Hstep. destruct Hstep as (Hinv' & Ho).
  destruct (IH _ (fun k Hk => Hfar k (or_intror Hk)) Hinv') as (IH1 & IH2).
  split; [exact IH1|]. rewrite IH2. now rewrite Ho.
Qed.

(** X20.  While the far end is silent (the delay line holds zeros and the frame's
    far-end samples are zero) and the regularization constant is positive,
    the strategy passes the near end through, adapts no coefficient and
    counts no update. *)
Theorem nlms_idle_on_silent_far_end (s : NLMSStrategy.t) (nSamples : Z)
    (nearEndFrame farEndFrame outFrame : f32) :
  let len := NLMSCfg.filterLength (NLMSStrategy.config s) in
  let m := NLMSStrategy.minDelaySamples s in
  0 <= m < len ->
  f32_length (NLMSStrategy.h s) = len ->
  allReal (NLMSStrategy.h s) ->
  f32_length (NLMSStrategy.xBuf s) = len ->
  0 <= NLMSStrategy.xBufPos s < len ->
  (forall j, 0 <= j < len -> f32_get (NLMSStrategy.xBuf s) j = Some 0%R) ->
  (0 < NLMSCfg.epsilon (NLMSStrategy.config s))%R ->
  (forall i, 0 <= i < nSamples -> f32_get farEndFrame i = Some 0%R) ->
  let r := NLMSStrategy.onFrame s nSamples nearEndFrame farEndFrame outFrame in
  NLMSStrategy.h (fst (fst r)) = NLMSStrategy.h s
  /\ NLMSStrategy.filterUpdates (fst (fst r)) = NLMSStrategy.filterUpdates s
  /\ forall i, 0 <= i < nSamples -> i < f32_length outFrame ->
       f32_get (snd (fst r)) i = f32_get nearEndFrame i.
Proof.
  intros len m Hm Hhl Hhr Hxl Hpos Hzero Heps Hfar. cbv zeta.
  assert (Hinit : idleInv s (NLMSStrategy.loopInit s outFrame)).
  { unfold idleInv, energyInv, NLMSStrategy.loopInit.
    cbn [NLMSStrategy.l_xBuf NLMSStrategy.l_xBufPos NLMSStrategy.l_xPower
         NLMSStrategy.l_h NLMSStrategy.l_filterUpdates].
    split; [|auto]. split; [assumption|]. split; [assumption|]. split; [|reflexivity].
    intros j Hj. exists 0%R. apply Hzero. fold len in Hxl. lia. }
  destruct (idle_loop s nearEndFrame farEndFrame (range nSamples)
              (NLMSStrategy.loopInit s outFrame) Hm Hhl Hhr Heps
              (fun i Hi => Hfar i (proj1 (in_range nSamples i) Hi)) Hinit)
    as ((_ & _ & Hh & Hfu) & Ho).
  unfold NLMSStrategy.onFrame, NLMSStrategy.loopAfter.
  destruct (if _ <? nSamples then _ else _) as [mc pt].
  cbn [fst snd NLMSStrategy.h NLMSStrategy.filterUpdates].
  split; [exact Hh|]. split; [exact Hfu|].
  intros i Hi Hl. rewrite Ho. cbn [NLMSStrategy.loopInit NLMSStrategy.l_out].
  change (fold_left (fun out i => f32_set out i (f32_get nearEndFrame i))
            (range nSamples) outFrame)
    with (fill (f32_get nearEndFrame) nSamples outFrame).
  rewrite fill_get by lia. destruct (i <? nSamples) eqn:E; [reflexivity | lia].
Qed.

Lemma nlms_idle_on_silent_far_end_witness :
  f32_get
    (snd (fst (NLMSStrategy.onFrame (twoTapFilter 1) 1 [Some 5%R] [Some 0%R] (f32_new 1))))
    0
  = Some 5%R.
Proof.
  apply (nlms_idle_on_silent_far_end (twoTapFilter 1) 1 [Some 5%R] [Some 0%R] (f32_new 1)).
  - cbn. lia.
  - reflexivity.
  - apply (allReal_new 2).
  - reflexivity.
  - cbn. lia.
  - intros j Hj. change (f32_get (f32_new 2) j = Some 0%R). apply f32_get_new.
    cbn in Hj. lia.
  - cbn. lra.
  - intros i Hi. assert (i = 0) as -> by lia. reflexivity.
  - lia.
  - rewrite f32_new_length; lia.
Defined.

(** ** NLMSStrategy: the buffers follow the configuration *)

Lemma initFilter_nlmsInv (sampleRate : Z) (s s' : NLMSStrategy.t) :
  NLMSStrategy.initFilter sampleRate s = Returned s' ->
  nlmsInv sampleRate s' /\ NLMSStrategy.config s' = NLMSStrategy.config s.
Proof.
  unfold NLMSStrategy.initFilter.
  destruct (_ <? 0) eqn:E; [discriminate|]. intros H. injection H as <-.
  unfold nlmsInv. cbn [NLMSStrategy.config NLMSStrategy.h NLMSStrategy.xBuf
    NLMSStrategy.xBufPos NLMSStrategy.minDelaySamples].
  rewrite !f32_new_length by lia. repeat split; lia.
Qed.

Lemma loopAfter_lengths (s : NLMSStrategy.t) (nSamples : Z)
    (nearEndFrame farEndFrame outFrame : f32) :
  let len := NLMSCfg.filterLength (NLMSStrategy.config s) in
  let st := NLMSStrategy.loopAfter s nSamples nearEndFrame farEndFrame outFrame in
  f32_length (NLMSStrategy.l_xBuf st) = f32_length (NLMSStrategy.xBuf s)
  /\ (0 < len -> 0 <= NLMSStrategy.xBufPos s < len ->
      0 <= NLMSStrategy.l_xBufPos st < len).
Proof.
  cbv zeta. unfold NLMSStrategy.loopAfter.
  apply (fold_left_invariant
           (fun st =>
              f32_length (NLMSStrategy.l_xBuf st) = f32_length (NLMSStrategy.xBuf s)
              /\ (0 < NLMSCfg.filterLength (NLMSStrategy.config s) ->
                  0 <= NLMSStrategy.xBufPos s < NLMSCfg.filterLength (NLMSStrategy.config s) ->
                  0 <= NLMSStrategy.l_xBufPos st
                  < NLMSCfg.filterLength (NLMSStrategy.config s)))).
  - intros st i _ (Hl & Hp).
    destruct (sampleStep_fields (NLMSStrategy.config s) (NLMSStrategy.minDelaySamples s)
                nearEndFrame farEndFrame st i) as (Hp' & Hx' & _).
    cbv zeta in Hp', Hx'. rewrite Hp', Hx', f32_set_length. split; [exact Hl|].
    intros Hlen Hpos. specialize (Hp Hlen Hpos).
    rewrite Z.rem_mod_nonneg by lia. apply Z.mod_pos_bound. lia.
  - cbn. auto.
Qed.

(** X21.  As long as no configuration or reset message has thrown, the
    coefficient array and the delay line both have [filterLength] entries,
    the cursor stays inside the delay line, and [minDelaySamples] is the
    configured [minDelayMs] converted at the sample rate. *)
Theorem nlms_buffers_follow_config (sampleRate : Z) (s : NLMSStrategy.t) :
  nlmsReachable sampleRate s -> nlmsInv sampleRate s.
Proof.
  intros Hr. induction Hr as [|s value s' _ IH Hcfg|s s' _ IH Hreset
                              |s n near far out _ IH].
  - unfold nlmsInv, NLMSStrategy.create. cbn [NLMSStrategy.config NLMSStrategy.h
      NLMSStrategy.xBuf NLMSStrategy.xBufPos NLMSStrategy.minDelaySamples].
    change (NLMSCfg.filterLength NLMSCfg.getDefaultCfg) with 4096.
    rewrite !f32_new_length by lia. repeat split; lia.
  - unfold NLMSStrategy.onConfig in Hcfg.
    set (s1 := NLMSStrategy.set_config s (NLMSCfg.assign (NLMSStrategy.config s) value))
      in *.
    assert (Hafter : forall s2,
              match NLMSCfg.d_filterLength value with
              | Some len =>
                  if len =? NLMSCfg.filterLength (NLMSStrategy.config s)
                  then Returned s1 else NLMSStrategy.initFilter sampleRate s1
              | None => Returned s1
              end = Returned s2 ->
              NLMSStrategy.config s2 = NLMSCfg.assign (NLMSStrategy.config s) value
              /\ (let len := NLMSCfg.filterLength (NLMSStrategy.config s2) in
                  0 <= len
                  /\ f32_length (NLMSStrategy.h s2) = len
                  /\ f32_length (NLMSStrategy.xBuf s2) = len
                  /\ (0 < len -> 0 <= NLMSStrategy.xBufPos s2 < len))
              /\ (NLMSCfg.d_minDelayMs value = None ->
                  NLMSStrategy.minDelaySamples s2
                  = msToSamples sampleRate (NLMSCfg.minDelayMs (NLMSStrategy.config s2)))).
    { destruct IH as (I0 & I1 & I2 & I3 & I4).
      assert (Hkeep : NLMSCfg.filterLength (NLMSCfg.assign (NLMSStrategy.config s) value)
                      = NLMSCfg.filterLength (NLMSStrategy.config s) ->
                      forall s2, Returned s1 = Returned s2 ->
                      NLMSStrategy.config s2 = NLMSCfg.assign (NLMSStrategy.config s) value
                      /\ (let len := NLMSCfg.filterLength (NLMSStrategy.config s2) in
                          0 <= len
                          /\ f32_length (NLMSStrategy.h s2) = len
                          /\ f32_length (NLMSStrategy.xBuf s2) = len
                          /\ (0 < len -> 0 <= NLMSStrategy.xBufPos s2 < len))
                      /\ (NLMSCfg.d_minDelayMs value = None ->
                          NLMSStrategy.minDelaySamples s2
                          = msToSamples sampleRate
                              (NLMSCfg.minDelayMs (NLMSStrategy.config s2)))).
      { intros Hsame s2 H. injection H as <-. unfold s1.
        cbn [NLMSStrategy.set_config NLMSStrategy.config NLMSStrategy.h NLMSStrategy.xBuf
             NLMSStrategy.xBufPos NLMSStrategy.minDelaySamples].
        split; [reflexivity|]. cbv zeta. rewrite Hsame.
        split; [auto|]. intros Hnone. rewrite I4.
        cbn [NLMSCfg.assign NLMSCfg.minDelayMs]. rewrite Hnone. reflexivity. }
      intros s2. destruct (NLMSCfg.d_filterLength value) as [len|] eqn:Hfl.
      - destruct (len =? NLMSCfg.filterLength (NLMSStrategy.config s)) eqn:E.
        + apply Hkeep. cbn [NLMSCfg.assign NLMSCfg.filterLength]. rewrite Hfl. cbn. lia.
        + intros Hinit. apply initFilter_nlmsInv in Hinit.
          destruct Hinit as ((J0 & J1 & J2 & J3 & J4) & Jc).
          split; [exact Jc|]. split; [auto|]. intros _. exact J4.
      - apply Hkeep. cbn [NLMSCfg.assign NLMSCfg.filterLength]. rewrite Hfl. reflexivity. }
    destruct (match NLMSCfg.d_filterLength value with
              | Some len => _
              | None => _
              end) as [s2|s2]; [|discriminate].
    destruct (Hafter s2 eq_refl) as (Hc & Hbuf & Hmd).
    destruct (NLMSCfg.d_minDelayMs value) eqn:Hm; injection Hcfg as <-.
    + unfold nlmsInv. cbn [NLMSStrategy.config NLMSStrategy.h NLMSStrategy.xBuf
        NLMSStrategy.xBufPos NLMSStrategy.minDelaySamples].
      cbv zeta in Hbuf. destruct Hbuf as (B0 & B1 & B2 & B3). auto.
    + unfold nlmsInv. cbv zeta in Hbuf. destruct Hbuf as (B0 & B1 & B2 & B3).
      split; [assumption|]. split; [assumption|]. split; [assumption|].
      split; [assumption|]. now apply Hmd.
  - unfold NLMSStrategy.onReset in Hreset. now apply initFilter_nlmsInv in Hreset.
  - destruct IH as (I0 & I1 & I2 & I3 & I4).
    pose proof (loopAfter_adaptInv s (Z.max 0 n) near far out ltac:(lia)) as Hadapt.
    pose proof (loopAfter_lengths s n near far out) as Hlens. cbv zeta in Hlens.
    assert (Hh : f32_length
                   (NLMSStrategy.l_h (NLMSStrategy.loopAfter s n near far out))
                 = f32_length (NLMSStrategy.h s)).
    { unfold NLMSStrategy.loopAfter. apply fold_left_invariant.
      - intros st i _ Hst. unfold NLMSStrategy.sampleStep.
        destruct (nlt _ _); cbn [NLMSStrategy.l_h]; [exact Hst|].
        now rewrite adapt_length.
      - reflexivity. }
    clear Hadapt. destruct Hlens as (Hxl & Hxp).
    unfold NLMSStrategy.onFrame.
    destruct (if _ <? n then _ else _) as [mc pt].
    unfold nlmsInv. cbn [fst NLMSStrategy.config NLMSStrategy.h NLMSStrategy.xBuf
      NLMSStrategy.xBufPos NLMSStrategy.minDelaySamples].
    split; [assumption|]. split; [now rewrite Hh|]. split; [now rewrite Hxl|].
    split; [|assumption]. intros Hlen. apply Hxp; auto.
Qed.

Lemma nlms_buffers_follow_config_witness : nlmsInv 1000 (twoTapFilter 1).
Proof.
  apply nlms_buffers_follow_config.
  apply (nlms_configured 1000 (NLMSStrategy.create 1000) (twoTaps 1)).
  - apply nlms_created.
  - reflexivity.
Defined.

(** ** NoisyFauxECProcessor: [process] *)

Lemma shifted_fill_length (w : Z) (g : Z -> num) (l : list Z) (a : f32) :
  f32_length (fold_left (fun b i => f32_set b (w + i) (g i)) l a) = f32_length a.
Proof.
  apply (fold_left_invariant (fun b => f32_length b = f32_length a)).
  - intros b i _ Hb. now rewrite f32_set_length.
  - reflexivity.
Qed.

Lemma shifted_fill_other (w n : Z) (g : Z -> num) (a : f32) (j : Z) :
  j < w \/ w + n <= j ->
  f32_get (fold_left (fun b i => f32_set b (w + i) (g i)) (range n) a) j = f32_get a j.
Proof.
  intros Hj. apply (fold_left_invariant (fun b => f32_get b j = f32_get a j)).
  - intros b i Hi Hb. apply in_range in Hi. rewrite f32_get_set_other by lia. exact Hb.
  - reflexivity.
Qed.

Lemma shifted_fill_get (w n : Z) (g : Z -> num) (a : f32) (i : Z) :
  0 <= w -> 0 <= i < n -> w + i < f32_length a ->
  f32_get (fold_left (fun b i => f32_set b (w + i) (g i)) (range n) a) (w + i) = g i.
Proof.
  intros Hw Hi Hl. rewrite (range_split (i + 1) n) by lia.
  rewrite fold_left_app.
  assert (Hrest : forall l b,
            (forall k, In k l -> k <> i) ->
            f32_get (fold_left (fun b i => f32_set b (w + i) (g i)) l b) (w + i)
            = f32_get b (w + i)).
  { induction l as [|k l IH]; intros b Hl'; cbn [fold_left]; [reflexivity|].
    rewrite IH by (intros k' Hk'; apply Hl'; now right).
    apply f32_get_set_other. specialize (Hl' k (or_introl eq_refl)). lia. }
  rewrite Hrest by (intros k Hk; apply in_rangeFrom in Hk; lia).
  rewrite range_succ by lia. rewrite fold_left_app. cbn [fold_left].
  apply f32_get_set_same. rewrite shifted_fill_length. lia.
Qed.

Lemma accumulate_fst (s : AudioProcess.t) (n : Z) (near far : f32) :
  fst (AudioProcess.accumulate s n near far)
  = fold_left (fun b i => f32_set b (AudioProcess.bufferWritePos s + i) (f32_get near i))
      (range n) (AudioProcess.nearEndBuffer s).
Proof.
  unfold AudioProcess.accumulate.
  generalize (AudioProcess.nearEndBuffer s) (AudioProcess.farEndBuffer s).
  induction (range n) as [|i l IH]; intros a b; cbn [fold_left fst snd]; [reflexivity|].
  apply IH.
Qed.

Lemma accumulate_snd (s : AudioProcess.t) (n : Z) (near far : f32) :
  snd (AudioProcess.accumulate s n near far)
  = fold_left (fun b i => f32_set b (AudioProcess.bufferWritePos s + i) (f32_get far i))
      (range n) (AudioProcess.farEndBuffer s).
Proof.
  unfold AudioProcess.accumulate.
  generalize (AudioProcess.nearEndBuffer s) (AudioProcess.farEndBuffer s).
  induction (range n) as [|i l IH]; intros a b; cbn [fold_left fst snd]; [reflexivity|].
  apply IH.
Qed.

Lemma batchStage_direct (sampleRate : Z) (s : AudioProcess.t) (n : Z) (near far : f32) :
  directInv s ->
  exists s2,
    AudioProcess.batchStage sampleRate s n near far = Some (Returned s2)
    /\ AudioProcess.proc s2 = AudioProcess.proc s
    /\ AudioProcess.bufferFrameCount s2 = 1
    /\ AudioProcess.bufferedFrames s2 = 0
    /\ AudioProcess.bufferWritePos s2 = 0
    /\ AudioProcess.bufferReadPos s2 = 0
    /\ AudioProcess.bufferSize s2 = AudioProcess.bufferSize s
    /\ AudioProcess.nearEndBuffer s2 = fst (AudioProcess.accumulate s n near far)
    /\ AudioProcess.outputBuffer s2
       = PassthroughStrategy.onFrame (AudioProcess.bufferSize s)
           (fst (AudioProcess.accumulate s n near far)) (AudioProcess.outputBuffer s).
Proof.
  intros (Hmode & Hcount & Hbuffered & _).
  unfold AudioProcess.batchStage.
  destruct (AudioProcess.accumulate s n near far) as [nearBuf farBuf].
  cbn [AudioProcess.bufferedFrames AudioProcess.bufferFrameCount AudioProcess.bufferSize
       AudioProcess.testSignalBuffer fst].
  rewrite Hcount, Hbuffered. change (0 + 1 >=? 1) with true. cbv iota.
  unfold AudioProcess.runStrategy.
  cbn [AudioProcess.proc AudioProcess.nearEndBuffer AudioProcess.farEndBuffer
       AudioProcess.outputBuffer].
  rewrite Hmode.
  change (NoisyFauxECProcessor.getStrategy "passthrough") with (OwnStrategy Passthrough).
  cbv iota beta.
  cbn [AudioProcess.debugTracks AudioProcess.fx AudioProcess.debugWritePos
       AudioProcess.nearEndBuffer AudioProcess.farEndBuffer].
  destruct (AudioProcess.debugTracks s) as [tr|].
  - destruct (FauxecState.debugRecording (AudioProcess.fx s)).
    + destruct (AudioProcess.recordDebug _ _ _ _ _ _ _) as [tr' wp'].
      eexists. split; [reflexivity|]. cbn. repeat split.
    + eexists. split; [reflexivity|]. cbn. repeat split.
  - eexists. split; [reflexivity|]. cbn. repeat split.
Qed.

Lemma process_direct_step (sampleRate : Z) (s : AudioProcess.t)
    (near : f32) (farEnd : option f32) (out0 : f32) (others : list f32)
    (testSignalOutput : option (list f32)) (processingMs : Z) :
  directInv s ->
  f32_length out0 <= AudioProcess.bufferSize s ->
  testSignalOutput <> Some [] ->
  exists s' out0' others' test',
    AudioProcess.process sampleRate s (Some near) farEnd (out0 :: others)
      testSignalOutput processingMs
    = Some (Returned s', out0' :: others', test')
    /\ directInv s'
    /\ AudioProcess.bufferSize s' = AudioProcess.bufferSize s
    /\ f32_length out0' = f32_length out0
    /\ forall i, 0 <= i < f32_length out0 -> f32_get out0' i = f32_get near i.
Proof.
  intros Hinv Hfit Htest.
  destruct (batchStage_direct sampleRate s (f32_length out0) near
              (match farEnd with Some f => f | None => f32_new (f32_length out0) end) Hinv)
    as (s2 & Hstage & Hproc & Hcount & Hbuffered & Hwp & Hrp & Hsize & Hnear & Hout).
  destruct Hinv as (Hmode & _ & _ & Hwp0 & Hnl & Hol).
  unfold AudioProcess.process. cbv zeta. rewrite Hstage. cbv iota beta.
  set (out0' := fold_left
                  (fun out i =>
                     f32_set out i
                       (f32_get (AudioProcess.outputBuffer s2)
                                (AudioProcess.bufferReadPos s2 + i)))
                  (range (f32_length out0)) out0).
  assert (Hlen' : f32_length out0' = f32_length out0).
  { unfold out0'. apply (fold_left_invariant (fun o => f32_length o = f32_length out0)).
    - intros o i _ Ho. now rewrite f32_set_length.
    - reflexivity. }
  assert (Hget : forall i, 0 <= i < f32_length out0 -> f32_get out0' i = f32_get near i).
  { intros i Hi. unfold out0'.
    change (fold_left
              (fun out i =>
                 f32_set out i
                   (f32_get (AudioProcess.outputBuffer s2)
                            (AudioProcess.bufferReadPos s2 + i)))
              (range (f32_length out0)) out0)
      with (fill (fun i => f32_get (AudioProcess.outputBuffer s2)
                             (AudioProcess.bufferReadPos s2 + i))
                 (f32_length out0) out0).
    rewrite fill_get by lia. destruct (i <? f32_length out0) eqn:E; [|lia].
    rewrite Hrp, Hout. cbn [Z.add].
    change (PassthroughStrategy.onFrame (AudioProcess.bufferSize s)
              (fst (AudioProcess.accumulate s (f32_length out0) near
                      match farEnd with
                      | Some f => f
                      | None => f32_new (f32_length out0)
                      end))
              (AudioProcess.outputBuffer s))
      with (fill (f32_get (fst (AudioProcess.accumulate s (f32_length out0) near
                                  match farEnd with
                                  | Some f => f
                                  | None => f32_new (f32_length out0)
                                  end)))
                 (AudioProcess.bufferSize s) (AudioProcess.outputBuffer s)).
    rewrite fill_get by lia. destruct (i <? AudioProcess.bufferSize s) eqn:E2; [|lia].
    rewrite accumulate_fst, Hwp0.
    replace i with (0 + i) at 1 by lia.
    apply shifted_fill_get; lia. }
  assert (Hinv' : forall history x,
            directInv
              (AudioProcess.mk (AudioProcess.proc s2) (AudioProcess.testTone s2)
                 (AudioProcess.fx s2) (AudioProcess.frames s2) x
                 (AudioProcess.bufferFrameCount s2) (AudioProcess.renderQuantum s2)
                 (AudioProcess.bufferSize s2) (AudioProcess.nearEndBuffer s2)
                 (AudioProcess.farEndBuffer s2) (AudioProcess.outputBuffer s2)
                 (AudioProcess.testSignalBuffer s2) (AudioProcess.bufferWritePos s2)
                 (AudioProcess.bufferReadPos s2 + f32_length out0)
                 (AudioProcess.bufferedFrames s2) (AudioProcess.debugTracks s2)
                 (AudioProcess.debugWritePos s2) history)).
  { intros history x. unfold directInv.
    cbn [AudioProcess.proc AudioProcess.bufferFrameCount AudioProcess.bufferedFrames
         AudioProcess.bufferWritePos AudioProcess.nearEndBuffer AudioProcess.outputBuffer
         AudioProcess.bufferSize].
    rewrite Hproc, Hsize, Hnear, Hout, accumulate_fst, shifted_fill_length.
    split; [assumption|]. split; [assumption|]. split; [assumption|].
    split; [assumption|]. split; [assumption|].
    change (PassthroughStrategy.onFrame (AudioProcess.bufferSize s)
              (fold_left
                 (fun b i => f32_set b (AudioProcess.bufferWritePos s + i) (f32_get near i))
                 (range (f32_length out0)) (AudioProcess.nearEndBuffer s))
              (AudioProcess.outputBuffer s))
      with (fill (f32_get (fold_left
                             (fun b i => f32_set b (AudioProcess.bufferWritePos s + i)
                                           (f32_get near i))
                             (range (f32_length out0)) (AudioProcess.nearEndBuffer s)))
                 (AudioProcess.bufferSize s) (AudioProcess.outputBuffer s)).
    now rewrite fill_length. }
  destruct testSignalOutput as [[|test0 testOthers]|]; [congruence| |];
    eexists _, _, _, _; (split; [reflexivity|]);
    (split; [apply Hinv'|]); (split; [exact Hsize|]); (split; [exact Hlen' | exact Hget]).
Qed.

Lemma create_directInv (sampleRate : Z) (s0 : AudioProcess.t) :
  AudioProcess.create sampleRate = Some s0 -> directInv s0.
Proof.
  unfold AudioProcess.create, NoisyFauxECProcessor.create.
  destruct (TimeAlignedSubtractStrategy.create sampleRate) as [ta|]; [|discriminate].
  intros H. injection H as <-. unfold directInv. cbn. repeat split.
Qed.

(** X22.  The constructor builds a processor in passthrough mode without batching.
    In that state a call of [process] whose block fits the buffer returns
    normally with the near-end input of the same call on channel 0 of the
    output, and leaves the processor in that state, so the same holds for
    every later call. *)
Theorem process_passes_near_end_by_default (sampleRate : Z) :
  (forall s0, AudioProcess.create sampleRate = Some s0 -> directInv s0)
  /\ forall (s : AudioProcess.t) (near : f32) (farEnd : option f32) (out0 : f32)
       (others : list f32) (testSignalOutput : option (list f32)) (processingMs : Z),
       directInv s ->
       f32_length out0 <= AudioProcess.bufferSize s ->
       testSignalOutput <> Some [] ->
       exists s' out0' others' test',
         AudioProcess.process sampleRate s (Some near) farEnd (out0 :: others)
           testSignalOutput processingMs
         = Some (Returned s', out0' :: others', test')
         /\ directInv s'
         /\ AudioProcess.bufferSize s' = AudioProcess.bufferSize s
         /\ f32_length out0' = f32_length out0
         /\ forall i, 0 <= i < f32_length out0 -> f32_get out0' i = f32_get near i.
Proof.
  split; [apply create_directInv | apply process_direct_step].
Qed.

Lemma audio0_created : AudioProcess.create 1000 = Some audio0.
Proof. unfold AudioProcess.create. now rewrite proc0_created. Qed.

Lemma process_passes_near_end_by_default_witness :
  exists s' out0' others' test',
    AudioProcess.process 1000 audio0 (Some [Some 5%R]) None [[Some 9%R]] None 0
    = Some (Returned s', out0' :: others', test')
    /\ f32_get out0' 0 = Some 5%R.
Proof.
  destruct (proj2 (process_passes_near_end_by_default 1000) audio0 [Some 5%R] None
              [Some 9%R] [] None 0)
    as (s' & out0' & others' & test' & Hrun & _ & _ & _ & Hget).
  - apply (proj1 (process_passes_near_end_by_default 1000)). exact audio0_created.
  - cbn. lia.
  - discriminate.
  - exists s', out0', others', test'. split; [exact Hrun|].
    apply (Hget 0). cbn. lia.
Defined.

(** X23.  When the mode names a property that the strategy table only inherits,
    every call of [process] that completes a batch throws: the outputs are
    left as they were, the output buffer is not written, and the batch is not
    reset, so the next call completes a batch and throws again. *)
Theorem inherited_mode_breaks_process (sampleRate : Z) (s : AudioProcess.t)
    (nearEnd farEnd : option f32) (out0 : f32) (others : list f32)
    (testSignalOutput : option (list f32)) (processingMs : Z) :
  NoisyFauxECProcessor.getStrategy (NoisyFauxECProcessor.mode (AudioProcess.proc s))
    = InheritedFromObject ->
  AudioProcess.bufferFrameCount s <= AudioProcess.bufferedFrames s + 1 ->
  exists s',
    AudioProcess.process sampleRate s nearEnd farEnd (out0 :: others) testSignalOutput
      processingMs
    = Some (Threw s', out0 :: others, testSignalOutput)
    /\ AudioProcess.proc s' = AudioProcess.proc s
    /\ AudioProcess.outputBuffer s' = AudioProcess.outputBuffer s
    /\ AudioProcess.frames s' = AudioProcess.frames s + 1
    /\ AudioProcess.bufferFrameCount s' <= AudioProcess.bufferedFrames s' + 1.
Proof.
  intros Hmode Hfull. unfold AudioProcess.process, AudioProcess.batchStage. cbv zeta.
  destruct (AudioProcess.accumulate s _ _ _) as [nearBuf farBuf].
  cbn [AudioProcess.bufferedFrames AudioProcess.bufferFrameCount AudioProcess.bufferSize
       AudioProcess.testSignalBuffer].
  destruct (AudioProcess.bufferedFrames s + 1 >=? AudioProcess.bufferFrameCount s) eqn:E;
    [|lia].
  unfold AudioProcess.runStrategy. cbn [AudioProcess.proc AudioProcess.outputBuffer].
  rewrite Hmode. cbv iota beta. eexists. split; [reflexivity|].
  cbn. repeat split. lia.
Qed.

Lemma inherited_mode_breaks_process_witness :
  exists s',
    AudioProcess.process 1000 audioStuck (Some [Some 5%R]) None [[Some 9%R]] None 0
    = Some (Threw s', [[Some 9%R]], None).
Proof.
  destruct (inherited_mode_breaks_process 1000 audioStuck (Some [Some 5%R]) None
              [Some 9%R] [] None 0) as (s' & Hrun & _).
  - reflexivity.
  - cbn. lia.
  - exists s'. exact Hrun.
Defined.

Lemma output_copy_get (buffer : f32) (readStart n : Z) (out : f32) (i : Z) :
  f32_length out = n -> 0 <= i < n ->
  f32_get
    (fold_left (fun o i => f32_set o i (f32_get buffer (readStart + i))) (range n) out) i
  = f32_get buffer (readStart + i).
Proof.
  intros Hlen Hi.
  change (fold_left (fun o i => f32_set o i (f32_get buffer (readStart + i))) (range n) out)
    with (fill (fun i => f32_get buffer (readStart + i)) n out).
  rewrite fill_get by lia. destruct (i <? n) eqn:E; [reflexivity | lia].
Qed.

(** A call that does not complete the batch. *)
Lemma process_wait_step (sampleRate : Z) (N q b : Z) (s : AudioProcess.t) (c : Call) :
  batchInv N q b s -> b + 1 < N -> f32_length (c_output c) = q ->
  exists s' o,
    AudioProcess.process sampleRate s (Some (c_nearEnd c)) (Some (c_farEnd c))
      [c_output c] None (c_processingMs c)
    = Some (Returned s', [o], None)
    /\ batchInv N q (b + 1) s'
    /\ AudioProcess.proc s' = AudioProcess.proc s
    /\ AudioProcess.outputBuffer s' = AudioProcess.outputBuffer s
    /\ AudioProcess.bufferReadPos s' = AudioProcess.bufferReadPos s + q
    /\ (forall i, 0 <= i < q ->
          f32_get o i
          = f32_get (AudioProcess.outputBuffer s) (AudioProcess.bufferReadPos s + i))
    /\ (forall i, 0 <= i < q ->
          f32_get (AudioProcess.nearEndBuffer s') (b * q + i) = f32_get (c_nearEnd c) i
          /\ f32_get (AudioProcess.farEndBuffer s') (b * q + i) = f32_get (c_farEnd c) i)
    /\ (forall j, 0 <= j < b * q ->
          f32_get (AudioProcess.nearEndBuffer s') j
          = f32_get (AudioProcess.nearEndBuffer s) j
          /\ f32_get (AudioProcess.farEndBuffer s') j
             = f32_get (AudioProcess.farEndBuffer s) j).
Proof.
  intros (Hq & Hb & Hcount & Hsize & Hnl & Hfl & Hol & Hbuffered & Hwp) Hwait Hlen.
  unfold AudioProcess.process, AudioProcess.batchStage. cbv zeta. rewrite Hlen.
  pose proof (accumulate_fst s q (c_nearEnd c) (c_farEnd c)) as Hfst.
  pose proof (accumulate_snd s q (c_nearEnd c) (c_farEnd c)) as Hsnd.
  destruct (AudioProcess.accumulate s q (c_nearEnd c) (c_farEnd c)) as [nearBuf farBuf].
  cbn [fst snd] in Hfst, Hsnd.
  cbn [AudioProcess.bufferedFrames AudioProcess.bufferFrameCount].
  destruct (AudioProcess.bufferedFrames s + 1 >=? AudioProcess.bufferFrameCount s) eqn:E;
    [lia|].
  eexists _, _. split; [reflexivity|].
  cbn [AudioProcess.proc AudioProcess.outputBuffer AudioProcess.bufferReadPos
       AudioProcess.nearEndBuffer AudioProcess.farEndBuffer].
  assert (Hbq : 0 <= b * q) by nia.
  assert (Hfit : (b + 1) * q <= N * q) by nia.
  split.
  { unfold batchInv.
    cbn [AudioProcess.bufferFrameCount AudioProcess.bufferSize AudioProcess.nearEndBuffer
         AudioProcess.farEndBuffer AudioProcess.outputBuffer AudioProcess.bufferedFrames
         AudioProcess.bufferWritePos].
    rewrite Hfst, Hsnd, !shifted_fill_length.
    repeat (split; [assumption || lia|]). lia. }
  split; [reflexivity|]. split; [reflexivity|]. split; [reflexivity|].
  split; [intros i Hi; now apply output_copy_get|].
  rewrite Hfst, Hsnd, Hwp. split.
  - intros i Hi. split; apply shifted_fill_get; lia.
  - intros j Hj. split; apply shifted_fill_other; lia.
Qed.

Lemma runCalls_app (sampleRate : Z) (s : AudioProcess.t) (l1 l2 : list Call) :
  runCalls sampleRate s (l1 ++ l2)
  = match runCalls sampleRate s l1 with
    | Some (s1, o1) =>
        match runCalls sampleRate s1 l2 with
        | Some (s2, o2) => Some (s2, o1 ++ o2)
        | None => None
        end
    | None => None
    end.
Proof.
  revert s. induction l1 as [|c l1 IH]; intros s; cbn [runCalls app].
  - destruct (runCalls sampleRate s l2) as [[s2 o2]|]; reflexivity.
  - destruct (AudioProcess.process _ _ _ _ _ _ _) as [[[[s'|s'] outs] test]|];
      try reflexivity.
    destruct outs as [|o [|o' outs]]; try reflexivity.
    rewrite IH. destruct (runCalls sampleRate s' l1) as [[s1 o1]|]; [|reflexivity].
    destruct (runCalls sampleRate s1 l2) as [[s2 o2]|]; reflexivity.
Qed.

(** Calls that do not complete the batch queue their inputs, chunk after
    chunk, leave the strategies and the output buffer alone, and emit the
    output buffer chunk after chunk. *)
Lemma calls_are_queued (sampleRate : Z) (N q : Z) (calls : list Call) :
  forall (b : Z) (s : AudioProcess.t),
    batchInv N q b s ->
    b + Z.of_nat (length calls) < N ->
    Forall (fun c => f32_length (c_output c) = q) calls ->
    exists s' outs,
      runCalls sampleRate s calls = Some (s', outs)
      /\ batchInv N q (b + Z.of_nat (length calls)) s'
      /\ AudioProcess.proc s' = AudioProcess.proc s
      /\ AudioProcess.outputBuffer s' = AudioProcess.outputBuffer s
      /\ AudioProcess.bufferReadPos s'
         = AudioProcess.bufferReadPos s + Z.of_nat (length calls) * q
      /\ (forall j, 0 <= j < b * q ->
            f32_get (AudioProcess.nearEndBuffer s') j
            = f32_get (AudioProcess.nearEndBuffer s) j
            /\ f32_get (AudioProcess.farEndBuffer s') j
               = f32_get (AudioProcess.farEndBuffer s) j)
      /\ forall (k : nat) (c : Call),
           nth_error calls k = Some c ->
           exists o,
             nth_error outs k = Some o
             /\ forall i, 0 <= i < q ->
                  f32_get (AudioProcess.nearEndBuffer s') ((b + Z.of_nat k) * q + i)
                  = f32_get (c_nearEnd c) i
                  /\ f32_get (AudioProcess.farEndBuffer s') ((b + Z.of_nat k) * q + i)
                     = f32_get (c_farEnd c) i
                  /\ f32_get o i
                     = f32_get (AudioProcess.outputBuffer s)
                         (AudioProcess.bufferReadPos s + Z.of_nat k * q + i).
Proof.
  induction calls as [|c rest IH]; intros b s Hinv Hroom Hall.
  - exists s, []. cbn [runCalls length Z.of_nat]. rewrite Z.add_0_r.
    split; [reflexivity|]. split; [assumption|]. split; [reflexivity|].
    split; [reflexivity|]. split; [lia|]. split; [auto|].
    intros k c Hk. destruct k; discriminate.
  - inversion Hall as [|c' rest' Hc Hrest]; subst.
    cbn [length] in Hroom. rewrite Nat2Z.inj_succ in Hroom.
    destruct (process_wait_step sampleRate N (f32_length (c_output c)) b s c Hinv
                ltac:(lia) eq_refl)
      as (s1 & o & Hrun & Hinv1 & Hproc1 & Hout1 & Hrp1 & Ho & Hchunk & Hkeep1).
    set (q := f32_length (c_output c)) in *.
    destruct (IH (b + 1) s1 Hinv1 ltac:(lia) Hrest)
      as (s' & outs & Hrun' & Hinv' & Hproc' & Hout' & Hrp' & Hkeep' & Hnth).
    assert (Hq : 0 < q) by (destruct Hinv as (Hq & _); exact Hq).
    assert (Hb : 0 <= b) by (destruct Hinv as (_ & Hb & _); lia).
    exists s', (o :: outs). cbn [runCalls]. rewrite Hrun, Hrun'.
    split; [reflexivity|].
    cbn [length]. rewrite Nat2Z.inj_succ.
    split; [replace (b + Z.succ (Z.of_nat (length rest)))
              with (b + 1 + Z.of_nat (length rest)) by lia; exact Hinv'|].
    split; [congruence|]. split; [congruence|]. split; [lia|].
    split.
    { intros j Hj. destruct (Hkeep' j ltac:(nia)) as (K1 & K2).
      destruct (Hkeep1 j Hj) as (K3 & K4). split; congruence. }
    intros k c0 Hk. destruct k as [|k].
    + cbn [nth_error] in Hk. injection Hk as <-. exists o. split; [reflexivity|].
      intros i Hi. cbn [Z.of_nat]. rewrite Z.add_0_r, Z.mul_0_l, Z.add_0_r.
      destruct (Hkeep' (b * q + i) ltac:(nia)) as (K1 & K2).
      destruct (Hchunk i Hi) as (K3 & K4).
      split; [congruence|]. split; [congruence|]. now apply Ho.
    + cbn [nth_error] in Hk. destruct (Hnth k c0 Hk) as (o' & Ho' & Hget).
      exists o'. split; [exact Ho'|].
      intros i Hi. destruct (Hget i Hi) as (G1 & G2 & G3).
      rewrite Nat2Z.inj_succ.
      replace ((b + Z.succ (Z.of_nat k)) * q) with ((b + 1 + Z.of_nat k) * q) by lia.
      split; [exact G1|]. split; [exact G2|].
      rewrite G3, Hout1, Hrp1. f_equal. lia.
Qed.

Lemma runCalls_length (sampleRate : Z) (calls : list Call) :
  forall s s' outs,
    runCalls sampleRate s calls = Some (s', outs) -> length outs = length calls.
Proof.
  induction calls as [|c rest IH]; intros s s' outs H; cbn [runCalls] in H.
  - injection H as _ <-. reflexivity.
  - destruct (AudioProcess.process _ _ _ _ _ _ _) as [[[[s1|s1] os] test]|];
      try discriminate.
    destruct os as [|o [|o' os]]; try discriminate.
    destruct (runCalls sampleRate s1 rest) as [[s2 o2]|] eqn:E; [|discriminate].
    injection H as _ <-. cbn [length]. f_equal. now apply (IH s1 s2).
Qed.

(** The call that completes a batch, in passthrough mode. *)
Lemma process_full_step_passthrough (sampleRate : Z) (N q b : Z) (s : AudioProcess.t)
    (c : Call) :
  batchInv N q b s -> b + 1 = N ->
  NoisyFauxECProcessor.mode (AudioProcess.proc s) = "passthrough"%string ->
  f32_length (c_output c) = q ->
  exists s' o,
    AudioProcess.process sampleRate s (Some (c_nearEnd c)) (Some (c_farEnd c))
      [c_output c] None (c_processingMs c)
    = Some (Returned s', [o], None)
    /\ batchInv N q 0 s'
    /\ AudioProcess.proc s' = AudioProcess.proc s
    /\ AudioProcess.bufferReadPos s' = q
    /\ (forall i, 0 <= i < q ->
          f32_get (AudioProcess.nearEndBuffer s') (b * q + i) = f32_get (c_nearEnd c) i)
    /\ (forall j, 0 <= j < b * q ->
          f32_get (AudioProcess.nearEndBuffer s') j
          = f32_get (AudioProcess.nearEndBuffer s) j)
    /\ (forall j, 0 <= j < N * q ->
          f32_get (AudioProcess.outputBuffer s') j
          = f32_get (AudioProcess.nearEndBuffer s') j)
    /\ forall i, 0 <= i < q -> f32_get o i = f32_get (AudioProcess.outputBuffer s') i.
Proof.
  intros (Hq & Hb & Hcount & Hsize & Hnl & Hfl & Hol & Hbuffered & Hwp) Hfull Hmode Hlen.
  unfold AudioProcess.process, AudioProcess.batchStage. cbv zeta. rewrite Hlen.
  pose proof (accumulate_fst s q (c_nearEnd c) (c_farEnd c)) as Hfst.
  pose proof (accumulate_snd s q (c_nearEnd c) (c_farEnd c)) as Hsnd.
  destruct (AudioProcess.accumulate s q (c_nearEnd c) (c_farEnd c)) as [nearBuf farBuf].
  cbn [fst snd] in Hfst, Hsnd.
  cbn [AudioProcess.bufferedFrames AudioProcess.bufferFrameCount AudioProcess.bufferSize
       AudioProcess.testSignalBuffer].
  destruct (AudioProcess.bufferedFrames s + 1 >=? AudioProcess.bufferFrameCount s) eqn:E;
    [|lia].
  unfold AudioProcess.runStrategy.
  cbn [AudioProcess.proc AudioProcess.nearEndBuffer AudioProcess.farEndBuffer
       AudioProcess.outputBuffer].
  rewrite Hmode.
  change (NoisyFauxECProcessor.getStrategy "passthrough") with (OwnStrategy Passthrough).
  cbv iota beta.
  cbn [AudioProcess.debugTracks AudioProcess.fx AudioProcess.debugWritePos
       AudioProcess.nearEndBuffer AudioProcess.farEndBuffer].
  set (outB := PassthroughStrategy.onFrame (AudioProcess.bufferSize s) nearBuf
                 (AudioProcess.outputBuffer s)).
  assert (HoutB : outB = fill (f32_get nearBuf) (AudioProcess.bufferSize s)
                           (AudioProcess.outputBuffer s)) by reflexivity.
  assert (Hbq : 0 <= b * q) by nia.
  assert (Hfit : (b + 1) * q <= N * q) by nia.
  assert (HNq : 0 < N * q) by nia.
  assert (Hfacts :
    forall tracks dpos,
      let s2 :=
        AudioProcess.mk (AudioProcess.proc s) (AudioProcess.testTone s) (AudioProcess.fx s)
          (AudioProcess.frames s + 1) (AudioProcess.xruns s)
          (AudioProcess.bufferFrameCount s) (AudioProcess.renderQuantum s)
          (AudioProcess.bufferSize s) nearBuf farBuf outB
          (fillZero (AudioProcess.bufferSize s) (AudioProcess.testSignalBuffer s))
          0 0 0 tracks dpos (AudioProcess.processingTimeHistory s) in
      exists s' o,
        (let readStart := AudioProcess.bufferReadPos s2 in
         let out0' :=
           fold_left
             (fun out i =>
                f32_set out i (f32_get (AudioProcess.outputBuffer s2) (readStart + i)))
             (range q) (c_output c) in
         Some
           (Returned
              (AudioProcess.mk (AudioProcess.proc s2) (AudioProcess.testTone s2)
                 (AudioProcess.fx s2) (AudioProcess.frames s2)
                 (if AudioProcess.isXrun sampleRate q (c_processingMs c)
                  then AudioProcess.xruns s2 + 1 else AudioProcess.xruns s2)
                 (AudioProcess.bufferFrameCount s2) (AudioProcess.renderQuantum s2)
                 (AudioProcess.bufferSize s2) (AudioProcess.nearEndBuffer s2)
                 (AudioProcess.farEndBuffer s2) (AudioProcess.outputBuffer s2)
                 (AudioProcess.testSignalBuffer s2) (AudioProcess.bufferWritePos s2)
                 (readStart + q) (AudioProcess.bufferedFrames s2)
                 (AudioProcess.debugTracks s2) (AudioProcess.debugWritePos s2)
                 (AudioProcess.pushHistory (AudioProcess.processingTimeHistory s2)
                    (c_processingMs c))),
            out0' :: map (AudioProcess.copyChannel out0') [], @None (list f32)))
        = Some (Returned s', [o], None)
        /\ batchInv N q 0 s'
        /\ AudioProcess.proc s' = AudioProcess.proc s
        /\ AudioProcess.bufferReadPos s' = q
        /\ (forall i, 0 <= i < q ->
              f32_get (AudioProcess.nearEndBuffer s') (b * q + i) = f32_get (c_nearEnd c) i)
        /\ (forall j, 0 <= j < b * q ->
              f32_get (AudioProcess.nearEndBuffer s') j
              = f32_get (AudioProcess.nearEndBuffer s) j)
        /\ (forall j, 0 <= j < N * q ->
              f32_get (AudioProcess.outputBuffer s') j
              = f32_get (AudioProcess.nearEndBuffer s') j)
        /\ forall i, 0 <= i < q -> f32_get o i = f32_get (AudioProcess.outputBuffer s') i).
  { intros tracks dpos. cbv zeta.
    cbn [AudioProcess.proc AudioProcess.testTone AudioProcess.fx AudioProcess.frames
         AudioProcess.xruns AudioProcess.bufferFrameCount AudioProcess.renderQuantum
         AudioProcess.bufferSize AudioProcess.nearEndBuffer AudioProcess.farEndBuffer
         AudioProcess.outputBuffer AudioProcess.testSignalBuffer
         AudioProcess.bufferWritePos AudioProcess.bufferReadPos
         AudioProcess.bufferedFrames AudioProcess.debugTracks AudioProcess.debugWritePos
         AudioProcess.processingTimeHistory map].
    eexists _, _. split; [reflexivity|].
    cbn [AudioProcess.proc AudioProcess.bufferReadPos AudioProcess.nearEndBuffer
         AudioProcess.outputBuffer].
    split.
    { unfold batchInv.
      cbn [AudioProcess.bufferFrameCount AudioProcess.bufferSize
           AudioProcess.nearEndBuffer AudioProcess.farEndBuffer AudioProcess.outputBuffer
           AudioProcess.bufferedFrames AudioProcess.bufferWritePos].
      rewrite HoutB, fill_length, Hfst, Hsnd, !shifted_fill_length.
      repeat (split; [assumption || lia|]). lia. }
    split; [reflexivity|]. split; [lia|].
    split; [intros i Hi; rewrite Hfst, Hwp; apply shifted_fill_get; lia|].
    split; [intros j Hj; rewrite Hfst, Hwp; apply shifted_fill_other; lia|].
    split.
    - intros j Hj. rewrite HoutB, fill_get by lia. rewrite Hsize.
      destruct (j <? N * q) eqn:E2; [reflexivity | lia].
    - intros i Hi. rewrite output_copy_get by assumption. f_equal. }
  destruct (AudioProcess.debugTracks s) as [tr|].
  - destruct (FauxecState.debugRecording (AudioProcess.fx s)).
    + destruct (AudioProcess.recordDebug _ _ _ _ _ _ _) as [tr' wp'].
      apply (Hfacts (Some tr') wp').
    + apply (Hfacts (Some tr) (AudioProcess.debugWritePos s)).
  - apply (Hfacts None (AudioProcess.debugWritePos s)).
Qed.

Lemma batch_cycle_passthrough (sampleRate : Z) (N q : Z)
    (s : AudioProcess.t) (pre : list Call) (c : Call) (post : list Call) :
  batchInv N q 0 s ->
  NoisyFauxECProcessor.mode (AudioProcess.proc s) = "passthrough"%string ->
  Z.of_nat (length pre) = N - 1 ->
  Z.of_nat (length post) < N ->
  Forall (fun c => f32_length (c_output c) = q) (pre ++ c :: post) ->
  exists s' outs,
    runCalls sampleRate s (pre ++ c :: post) = Some (s', outs)
    /\ forall (k : nat) (ck : Call),
         (k <= length post)%nat ->
         nth_error (pre ++ [c]) k = Some ck ->
         exists o,
           nth_error outs (length pre + k) = Some o
           /\ forall i, 0 <= i < q -> f32_get o i = f32_get (c_nearEnd ck) i.
Proof.
  intros Hinv Hmode Hpre Hpost Hall.
  apply Forall_app in Hall. destruct Hall as (Hallpre & Hallrest).
  inversion Hallrest as [|c' post' Hc Hallpost]; subst c' post'.
  assert (Hq : 0 < q) by (destruct Hinv as (Hq & _); exact Hq).
  destruct (calls_are_queued sampleRate N q pre 0 s Hinv ltac:(lia) Hallpre)
    as (s1 & outs1 & Hrun1 & Hinv1 & Hproc1 & _ & _ & _ & Hnth1).
  rewrite Z.add_0_l, Hpre in Hinv1.
  destruct (process_full_step_passthrough sampleRate N q (N - 1) s1 c Hinv1 ltac:(lia)
              ltac:(congruence) Hc)
    as (s2 & o2 & Hrun2 & Hinv2 & Hproc2 & Hrp2 & Hchunk2 & Hkeep2 & Hcopy2 & Ho2).
  destruct (calls_are_queued sampleRate N q post 0 s2 Hinv2 ltac:(lia) Hallpost)
    as (s3 & outs3 & Hrun3 & _ & _ & _ & _ & _ & Hnth3).
  pose proof (runCalls_length sampleRate pre s s1 outs1 Hrun1) as Hlen1.
  exists s3, (outs1 ++ o2 :: outs3). split.
  { rewrite runCalls_app, Hrun1. cbn [runCalls]. rewrite Hrun2, Hrun3. reflexivity. }
  assert (Hbatch : forall (k : nat) (ck : Call),
            nth_error (pre ++ [c]) k = Some ck ->
            forall i, 0 <= i < q ->
              f32_get (AudioProcess.nearEndBuffer s2) (Z.of_nat k * q + i)
              = f32_get (c_nearEnd ck) i).
  { intros k ck Hk i Hi. destruct (Nat.lt_ge_cases k (length pre)) as [Hlt|Hge].
    - rewrite nth_error_app1 in Hk by assumption.
      destruct (Hnth1 k ck Hk) as (o1 & _ & Hget). destruct (Hget i Hi) as (G1 & _).
      rewrite Z.add_0_l in G1. rewrite Hkeep2 by nia. exact G1.
    - rewrite nth_error_app2 in Hk by assumption.
      destruct (k - length pre)%nat as [|m] eqn:Hm.
      + cbn [nth_error] in Hk. injection Hk as <-.
        replace (Z.of_nat k) with (N - 1) by lia. now apply Hchunk2.
      + cbn [nth_error] in Hk. destruct m; discriminate. }
  intros k ck Hk Hck.
  assert (Hkb : Z.of_nat k <= N - 1).
  { assert (Hsome : nth_error (pre ++ [c]) k <> None) by congruence.
    apply nth_error_Some in Hsome. rewrite length_app in Hsome. cbn [length] in Hsome.
    lia. }
  rewrite nth_error_app2 by lia.
  replace (length pre + k - length outs1)%nat with k by lia.
  destruct k as [|k].
  - exists o2. split; [reflexivity|]. intros i Hi.
    rewrite Ho2 by assumption. rewrite Hcopy2 by nia.
    replace i with (Z.of_nat 0 * q + i) at 1 by lia. now apply (Hbatch 0%nat).
  - cbn [nth_error].
    destruct (nth_error post k) as [cp|] eqn:Hcp.
    + destruct (Hnth3 k cp Hcp) as (o & Ho & Hget). exists o. split; [exact Ho|].
      intros i Hi. destruct (Hget i Hi) as (_ & _ & G3).
      rewrite G3, Hrp2. rewrite Hcopy2 by nia.
      replace (q + Z.of_nat k * q + i) with (Z.of_nat (S k) * q + i) by lia.
      now apply Hbatch.
    + apply nth_error_None in Hcp. lia.
Qed.

Lemma setBufferFrameCount_boundary (s : AudioProcess.t) (value : Z) :
  0 < AudioProcess.renderQuantum s ->
  batchInv (Z.max 1 value) (AudioProcess.renderQuantum s) 0
    (AudioProcess.setBufferFrameCount s value)
  /\ AudioProcess.proc (AudioProcess.setBufferFrameCount s value) = AudioProcess.proc s.
Proof.
  intros Hq. unfold batchInv, AudioProcess.setBufferFrameCount. cbn.
  assert (0 <= Z.max 1 value * AudioProcess.renderQuantum s) by nia.
  rewrite !f32_new_length by assumption. repeat split; lia.
Qed.

(** X24.  A [setBufferFrameCount] message puts the processor at a batch boundary
    with batches of [max(1, value)] frames.  In passthrough mode with batches
    of [N] frames the output is the near end delayed by [N - 1] calls:
    starting at a batch boundary, the call that completes the batch outputs
    the near-end input of the first call of the batch, and each of the
    following calls, up to the next batch, outputs the near-end input of the
    next call of the batch.  None of these calls throws. *)
Theorem passthrough_batching_delays_output (sampleRate : Z) :
  (forall (s : AudioProcess.t) (value : Z),
     0 < AudioProcess.renderQuantum s ->
     batchInv (Z.max 1 value) (AudioProcess.renderQuantum s) 0
       (AudioProcess.setBufferFrameCount s value)
     /\ AudioProcess.proc (AudioProcess.setBufferFrameCount s value)
        = AudioProcess.proc s)
  /\ forall (N q : Z) (s : AudioProcess.t) (pre : list Call) (c : Call)
       (post : list Call),
       batchInv N q 0 s ->
       NoisyFauxECProcessor.mode (AudioProcess.proc s) = "passthrough"%string ->
       Z.of_nat (length pre) = N - 1 ->
       Z.of_nat (length post) < N ->
       Forall (fun c => f32_length (c_output c) = q) (pre ++ c :: post) ->
       exists s' outs,
         runCalls sampleRate s (pre ++ c :: post) = Some (s', outs)
         /\ forall (k : nat) (ck : Call),
              (k <= length post)%nat ->
              nth_error (pre ++ [c]) k = Some ck ->
              exists o,
                nth_error outs (length pre + k) = Some o
                /\ forall i, 0 <= i < q -> f32_get o i = f32_get (c_nearEnd ck) i.
Proof.
  split; [apply setBufferFrameCount_boundary | apply batch_cycle_passthrough].
Qed.

Lemma passthrough_batching_delays_output_witness :
  exists s' outs o,
    runCalls 1000 audioBatched
      [ mkCall (f32_new 128) (f32_new 128) (f32_new 128) 0;
        mkCall (f32_new 128) (f32_new 128) (f32_new 128) 0 ] = Some (s', outs)
    /\ nth_error outs 1 = Some o
    /\ forall i, 0 <= i < 128 -> f32_get o i = f32_get (f32_new 128) i.
Proof.
  destruct (proj2 (passthrough_batching_delays_output 1000) 2 128 audioBatched
              [mkCall (f32_new 128) (f32_new 128) (f32_new 128) 0]
              (mkCall (f32_new 128) (f32_new 128) (f32_new 128) 0) [])
    as (s' & outs & Hrun & Hout).
  - apply (proj1 (passthrough_batching_delays_output 1000) audio0 2). cbn. lia.
  - reflexivity.
  - reflexivity.
  - cbn. lia.
  - repeat constructor.
  - destruct (Hout 0%nat (mkCall (f32_new 128) (f32_new 128) (f32_new 128) 0))
      as (o & Ho & Hget).
    + cbn. lia.
    + reflexivity.
    + exists s', outs, o. split; [exact Hrun|]. split; [exact Ho | exact Hget].
Defined.
